(** * mysql_mcp_server: the safety and lifecycle layer of [server.py]

    A shallow embedding of [src/mysql_mcp_server/server.py]: the SQL safety
    validator, the tunnel context manager, the connection factory, the
    tool dispatcher and its handlers, the port probe and the start-up,
    followed by the properties the specification states about them (C1
    to C10) and by further properties read off the code (X1 to X29).

    Text.  A Python [str] is modelled as the list of its code points.
    What [str.strip], [str.upper], the [\w] and [\b] of the [re] module,
    [repr] and [int] do with a code point is read from the tables of
    module [Unicode], which hold the answers of CPython 3.11 (Unicode
    character database 14.0.0) for every code point from 0 to 0x10FFFF.
    A number above 0x10FFFF stands for no character of Python; the
    tables do not list it, so the model leaves it unchanged and counts
    it neither as whitespace nor as a word character. *)

From Stdlib Require Import List Ascii String ZArith NArith Bool Arith Lia.
From Stdlib Require Import DecimalString.
Import ListNotations.

Set Implicit Arguments.

(* ================================================================== *)
(** * The character tables of Python *)
(* ================================================================== *)

(** A table of ranges gives each range by its first and its last code
    point.
    - [whitespace]: the code points on which [str.isspace] holds, which
      are the ones [str.strip] removes;
    - [alphanumeric]: the code points on which [str.isalnum] holds; with
      the underscore they are what [\w] matches in a [str] pattern;
    - [printable]: the code points on which [str.isprintable] holds,
      which [repr] writes as they are;
    - [decimal_zeros]: the digit zero of every script [int] reads, the
      digits one to nine following it;
    - [uppercase]: the code points [str.upper] changes, each with what it
      becomes (one to three code points). *)
Module Unicode.

Local Open Scope N_scope.

Definition whitespace : list (N * N) :=
  [(9,13); (28,32); (133,133); (160,160); (5760,5760); (8192,8202); (8232,8233); (8239,8239);
   (8287,8287); (12288,12288)].

Definition alphanumeric : list (N * N) :=
  [(48,57); (65,90); (97,122); (170,170); (178,179); (181,181); (185,186); (188,190); (192,214);
   (216,246); (248,705); (710,721); (736,740); (748,748); (750,750); (880,884); (886,887);
   (890,893); (895,895); (902,902); (904,906); (908,908); (910,929); (931,1013); (1015,1153);
   (1162,1327); (1329,1366); (1369,1369); (1376,1416); (1488,1514); (1519,1522); (1568,1610);
   (1632,1641); (1646,1647); (1649,1747); (1749,1749); (1765,1766); (1774,1788); (1791,1791);
   (1808,1808); (1810,1839); (1869,1957); (1969,1969); (1984,2026); (2036,2037); (2042,2042);
   (2048,2069); (2074,2074); (2084,2084); (2088,2088); (2112,2136); (2144,2154); (2160,2183);
   (2185,2190); (2208,2249); (2308,2361); (2365,2365); (2384,2384); (2392,2401); (2406,2415);
   (2417,2432); (2437,2444); (2447,2448); (2451,2472); (2474,2480); (2482,2482); (2486,2489);
   (2493,2493); (2510,2510); (2524,2525); (2527,2529); (2534,2545); (2548,2553); (2556,2556);
   (2565,2570); (2575,2576); (2579,2600); (2602,2608); (2610,2611); (2613,2614); (2616,2617);
   (2649,2652); (2654,2654); (2662,2671); (2674,2676); (2693,2701); (2703,2705); (2707,2728);
   (2730,2736); (2738,2739); (2741,2745); (2749,2749); (2768,2768); (2784,2785); (2790,2799);
   (2809,2809); (2821,2828); (2831,2832); (2835,2856); (2858,2864); (2866,2867); (2869,2873);
   (2877,2877); (2908,2909); (2911,2913); (2918,2927); (2929,2935); (2947,2947); (2949,2954);
   (2958,2960); (2962,2965); (2969,2970); (2972,2972); (2974,2975); (2979,2980); (2984,2986);
   (2990,3001); (3024,3024); (3046,3058); (3077,3084); (3086,3088); (3090,3112); (3114,3129);
   (3133,3133); (3160,3162); (3165,3165); (3168,3169); (3174,3183); (3192,3198); (3200,3200);
   (3205,3212); (3214,3216); (3218,3240); (3242,3251); (3253,3257); (3261,3261); (3293,3294);
   (3296,3297); (3302,3311); (3313,3314); (3332,3340); (3342,3344); (3346,3386); (3389,3389);
   (3406,3406); (3412,3414); (3416,3425); (3430,3448); (3450,3455); (3461,3478); (3482,3505);
   (3507,3515); (3517,3517); (3520,3526); (3558,3567); (3585,3632); (3634,3635); (3648,3654);
   (3664,3673); (3713,3714); (3716,3716); (3718,3722); (3724,3747); (3749,3749); (3751,3760);
   (3762,3763); (3773,3773); (3776,3780); (3782,3782); (3792,3801); (3804,3807); (3840,3840);
   (3872,3891); (3904,3911); (3913,3948); (3976,3980); (4096,4138); (4159,4169); (4176,4181);
   (4186,4189); (4193,4193); (4197,4198); (4206,4208); (4213,4225); (4238,4238); (4240,4249);
   (4256,4293); (4295,4295); (4301,4301); (4304,4346); (4348,4680); (4682,4685); (4688,4694);
   (4696,4696); (4698,4701); (4704,4744); (4746,4749); (4752,4784); (4786,4789); (4792,4798);
   (4800,4800); (4802,4805); (4808,4822); (4824,4880); (4882,4885); (4888,4954); (4969,4988);
   (4992,5007); (5024,5109); (5112,5117); (5121,5740); (5743,5759); (5761,5786); (5792,5866);
   (5870,5880); (5888,5905); (5919,5937); (5952,5969); (5984,5996); (5998,6000); (6016,6067);
   (6103,6103); (6108,6108); (6112,6121); (6128,6137); (6160,6169); (6176,6264); (6272,6276);
   (6279,6312); (6314,6314); (6320,6389); (6400,6430); (6470,6509); (6512,6516); (6528,6571);
   (6576,6601); (6608,6618); (6656,6678); (6688,6740); (6784,6793); (6800,6809); (6823,6823);
   (6917,6963); (6981,6988); (6992,7001); (7043,7072); (7086,7141); (7168,7203); (7232,7241);
   (7245,7293); (7296,7304); (7312,7354); (7357,7359); (7401,7404); (7406,7411); (7413,7414);
   (7418,7418); (7424,7615); (7680,7957); (7960,7965); (7968,8005); (8008,8013); (8016,8023);
   (8025,8025); (8027,8027); (8029,8029); (8031,8061); (8064,8116); (8118,8124); (8126,8126);
   (8130,8132); (8134,8140); (8144,8147); (8150,8155); (8160,8172); (8178,8180); (8182,8188);
   (8304,8305); (8308,8313); (8319,8329); (8336,8348); (8450,8450); (8455,8455); (8458,8467);
   (8469,8469); (8473,8477); (8484,8484); (8486,8486); (8488,8488); (8490,8493); (8495,8505);
   (8508,8511); (8517,8521); (8526,8526); (8528,8585); (9312,9371); (9450,9471); (10102,10131);
   (11264,11492); (11499,11502); (11506,11507); (11517,11517); (11520,11557); (11559,11559);
   (11565,11565); (11568,11623); (11631,11631); (11648,11670); (11680,11686); (11688,11694);
   (11696,11702); (11704,11710); (11712,11718); (11720,11726); (11728,11734); (11736,11742);
   (11823,11823); (12293,12295); (12321,12329); (12337,12341); (12344,12348); (12353,12438);
   (12445,12447); (12449,12538); (12540,12543); (12549,12591); (12593,12686); (12690,12693);
   (12704,12735); (12784,12799); (12832,12841); (12872,12879); (12881,12895); (12928,12937);
   (12977,12991); (13312,19903); (19968,42124); (42192,42237); (42240,42508); (42512,42539);
   (42560,42606); (42623,42653); (42656,42735); (42775,42783); (42786,42888); (42891,42954);
   (42960,42961); (42963,42963); (42965,42969); (42994,43009); (43011,43013); (43015,43018);
   (43020,43042); (43056,43061); (43072,43123); (43138,43187); (43216,43225); (43250,43255);
   (43259,43259); (43261,43262); (43264,43301); (43312,43334); (43360,43388); (43396,43442);
   (43471,43481); (43488,43492); (43494,43518); (43520,43560); (43584,43586); (43588,43595);
   (43600,43609); (43616,43638); (43642,43642); (43646,43695); (43697,43697); (43701,43702);
   (43705,43709); (43712,43712); (43714,43714); (43739,43741); (43744,43754); (43762,43764);
   (43777,43782); (43785,43790); (43793,43798); (43808,43814); (43816,43822); (43824,43866);
   (43868,43881); (43888,44002); (44016,44025); (44032,55203); (55216,55238); (55243,55291);
   (63744,64109); (64112,64217); (64256,64262); (64275,64279); (64285,64285); (64287,64296);
   (64298,64310); (64312,64316); (64318,64318); (64320,64321); (64323,64324); (64326,64433);
   (64467,64829); (64848,64911); (64914,64967); (65008,65019); (65136,65140); (65142,65276);
   (65296,65305); (65313,65338); (65345,65370); (65382,65470); (65474,65479); (65482,65487);
   (65490,65495); (65498,65500); (65536,65547); (65549,65574); (65576,65594); (65596,65597);
   (65599,65613); (65616,65629); (65664,65786); (65799,65843); (65856,65912); (65930,65931);
   (66176,66204); (66208,66256); (66273,66299); (66304,66339); (66349,66378); (66384,66421);
   (66432,66461); (66464,66499); (66504,66511); (66513,66517); (66560,66717); (66720,66729);
   (66736,66771); (66776,66811); (66816,66855); (66864,66915); (66928,66938); (66940,66954);
   (66956,66962); (66964,66965); (66967,66977); (66979,66993); (66995,67001); (67003,67004);
   (67072,67382); (67392,67413); (67424,67431); (67456,67461); (67463,67504); (67506,67514);
   (67584,67589); (67592,67592); (67594,67637); (67639,67640); (67644,67644); (67647,67669);
   (67672,67702); (67705,67742); (67751,67759); (67808,67826); (67828,67829); (67835,67867);
   (67872,67897); (67968,68023); (68028,68047); (68050,68096); (68112,68115); (68117,68119);
   (68121,68149); (68160,68168); (68192,68222); (68224,68255); (68288,68295); (68297,68324);
   (68331,68335); (68352,68405); (68416,68437); (68440,68466); (68472,68497); (68521,68527);
   (68608,68680); (68736,68786); (68800,68850); (68858,68899); (68912,68921); (69216,69246);
   (69248,69289); (69296,69297); (69376,69415); (69424,69445); (69457,69460); (69488,69505);
   (69552,69579); (69600,69622); (69635,69687); (69714,69743); (69745,69746); (69749,69749);
   (69763,69807); (69840,69864); (69872,69881); (69891,69926); (69942,69951); (69956,69956);
   (69959,69959); (69968,70002); (70006,70006); (70019,70066); (70081,70084); (70096,70106);
   (70108,70108); (70113,70132); (70144,70161); (70163,70187); (70272,70278); (70280,70280);
   (70282,70285); (70287,70301); (70303,70312); (70320,70366); (70384,70393); (70405,70412);
   (70415,70416); (70419,70440); (70442,70448); (70450,70451); (70453,70457); (70461,70461);
   (70480,70480); (70493,70497); (70656,70708); (70727,70730); (70736,70745); (70751,70753);
   (70784,70831); (70852,70853); (70855,70855); (70864,70873); (71040,71086); (71128,71131);
   (71168,71215); (71236,71236); (71248,71257); (71296,71338); (71352,71352); (71360,71369);
   (71424,71450); (71472,71483); (71488,71494); (71680,71723); (71840,71922); (71935,71942);
   (71945,71945); (71948,71955); (71957,71958); (71960,71983); (71999,71999); (72001,72001);
   (72016,72025); (72096,72103); (72106,72144); (72161,72161); (72163,72163); (72192,72192);
   (72203,72242); (72250,72250); (72272,72272); (72284,72329); (72349,72349); (72368,72440);
   (72704,72712); (72714,72750); (72768,72768); (72784,72812); (72818,72847); (72960,72966);
   (72968,72969); (72971,73008); (73030,73030); (73040,73049); (73056,73061); (73063,73064);
   (73066,73097); (73112,73112); (73120,73129); (73440,73458); (73648,73648); (73664,73684);
   (73728,74649); (74752,74862); (74880,75075); (77712,77808); (77824,78894); (82944,83526);
   (92160,92728); (92736,92766); (92768,92777); (92784,92862); (92864,92873); (92880,92909);
   (92928,92975); (92992,92995); (93008,93017); (93019,93025); (93027,93047); (93053,93071);
   (93760,93846); (93952,94026); (94032,94032); (94099,94111); (94176,94177); (94179,94179);
   (94208,100343); (100352,101589); (101632,101640); (110576,110579); (110581,110587);
   (110589,110590); (110592,110882); (110928,110930); (110948,110951); (110960,111355);
   (113664,113770); (113776,113788); (113792,113800); (113808,113817); (119520,119539);
   (119648,119672); (119808,119892); (119894,119964); (119966,119967); (119970,119970);
   (119973,119974); (119977,119980); (119982,119993); (119995,119995); (119997,120003);
   (120005,120069); (120071,120074); (120077,120084); (120086,120092); (120094,120121);
   (120123,120126); (120128,120132); (120134,120134); (120138,120144); (120146,120485);
   (120488,120512); (120514,120538); (120540,120570); (120572,120596); (120598,120628);
   (120630,120654); (120656,120686); (120688,120712); (120714,120744); (120746,120770);
   (120772,120779); (120782,120831); (122624,122654); (123136,123180); (123191,123197);
   (123200,123209); (123214,123214); (123536,123565); (123584,123627); (123632,123641);
   (124896,124902); (124904,124907); (124909,124910); (124912,124926); (124928,125124);
   (125127,125135); (125184,125251); (125259,125259); (125264,125273); (126065,126123);
   (126125,126127); (126129,126132); (126209,126253); (126255,126269); (126464,126467);
   (126469,126495); (126497,126498); (126500,126500); (126503,126503); (126505,126514);
   (126516,126519); (126521,126521); (126523,126523); (126530,126530); (126535,126535);
   (126537,126537); (126539,126539); (126541,126543); (126545,126546); (126548,126548);
   (126551,126551); (126553,126553); (126555,126555); (126557,126557); (126559,126559);
   (126561,126562); (126564,126564); (126567,126570); (126572,126578); (126580,126583);
   (126585,126588); (126590,126590); (126592,126601); (126603,126619); (126625,126627);
   (126629,126633); (126635,126651); (127232,127244); (130032,130041); (131072,173791);
   (173824,177976); (177984,178205); (178208,183969); (183984,191456); (194560,195101);
   (196608,201546)].

Definition printable : list (N * N) :=
  [(32,126); (161,172); (174,887); (890,895); (900,906); (908,908); (910,929); (931,1327);
   (1329,1366); (1369,1418); (1421,1423); (1425,1479); (1488,1514); (1519,1524); (1542,1563);
   (1565,1756); (1758,1805); (1808,1866); (1869,1969); (1984,2042); (2045,2093); (2096,2110);
   (2112,2139); (2142,2142); (2144,2154); (2160,2190); (2200,2273); (2275,2435); (2437,2444);
   (2447,2448); (2451,2472); (2474,2480); (2482,2482); (2486,2489); (2492,2500); (2503,2504);
   (2507,2510); (2519,2519); (2524,2525); (2527,2531); (2534,2558); (2561,2563); (2565,2570);
   (2575,2576); (2579,2600); (2602,2608); (2610,2611); (2613,2614); (2616,2617); (2620,2620);
   (2622,2626); (2631,2632); (2635,2637); (2641,2641); (2649,2652); (2654,2654); (2662,2678);
   (2689,2691); (2693,2701); (2703,2705); (2707,2728); (2730,2736); (2738,2739); (2741,2745);
   (2748,2757); (2759,2761); (2763,2765); (2768,2768); (2784,2787); (2790,2801); (2809,2815);
   (2817,2819); (2821,2828); (2831,2832); (2835,2856); (2858,2864); (2866,2867); (2869,2873);
   (2876,2884); (2887,2888); (2891,2893); (2901,2903); (2908,2909); (2911,2915); (2918,2935);
   (2946,2947); (2949,2954); (2958,2960); (2962,2965); (2969,2970); (2972,2972); (2974,2975);
   (2979,2980); (2984,2986); (2990,3001); (3006,3010); (3014,3016); (3018,3021); (3024,3024);
   (3031,3031); (3046,3066); (3072,3084); (3086,3088); (3090,3112); (3114,3129); (3132,3140);
   (3142,3144); (3146,3149); (3157,3158); (3160,3162); (3165,3165); (3168,3171); (3174,3183);
   (3191,3212); (3214,3216); (3218,3240); (3242,3251); (3253,3257); (3260,3268); (3270,3272);
   (3274,3277); (3285,3286); (3293,3294); (3296,3299); (3302,3311); (3313,3314); (3328,3340);
   (3342,3344); (3346,3396); (3398,3400); (3402,3407); (3412,3427); (3430,3455); (3457,3459);
   (3461,3478); (3482,3505); (3507,3515); (3517,3517); (3520,3526); (3530,3530); (3535,3540);
   (3542,3542); (3544,3551); (3558,3567); (3570,3572); (3585,3642); (3647,3675); (3713,3714);
   (3716,3716); (3718,3722); (3724,3747); (3749,3749); (3751,3773); (3776,3780); (3782,3782);
   (3784,3789); (3792,3801); (3804,3807); (3840,3911); (3913,3948); (3953,3991); (3993,4028);
   (4030,4044); (4046,4058); (4096,4293); (4295,4295); (4301,4301); (4304,4680); (4682,4685);
   (4688,4694); (4696,4696); (4698,4701); (4704,4744); (4746,4749); (4752,4784); (4786,4789);
   (4792,4798); (4800,4800); (4802,4805); (4808,4822); (4824,4880); (4882,4885); (4888,4954);
   (4957,4988); (4992,5017); (5024,5109); (5112,5117); (5120,5759); (5761,5788); (5792,5880);
   (5888,5909); (5919,5942); (5952,5971); (5984,5996); (5998,6000); (6002,6003); (6016,6109);
   (6112,6121); (6128,6137); (6144,6157); (6159,6169); (6176,6264); (6272,6314); (6320,6389);
   (6400,6430); (6432,6443); (6448,6459); (6464,6464); (6468,6509); (6512,6516); (6528,6571);
   (6576,6601); (6608,6618); (6622,6683); (6686,6750); (6752,6780); (6783,6793); (6800,6809);
   (6816,6829); (6832,6862); (6912,6988); (6992,7038); (7040,7155); (7164,7223); (7227,7241);
   (7245,7304); (7312,7354); (7357,7367); (7376,7418); (7424,7957); (7960,7965); (7968,8005);
   (8008,8013); (8016,8023); (8025,8025); (8027,8027); (8029,8029); (8031,8061); (8064,8116);
   (8118,8132); (8134,8147); (8150,8155); (8157,8175); (8178,8180); (8182,8190); (8208,8231);
   (8240,8286); (8304,8305); (8308,8334); (8336,8348); (8352,8384); (8400,8432); (8448,8587);
   (8592,9254); (9280,9290); (9312,11123); (11126,11157); (11159,11507); (11513,11557);
   (11559,11559); (11565,11565); (11568,11623); (11631,11632); (11647,11670); (11680,11686);
   (11688,11694); (11696,11702); (11704,11710); (11712,11718); (11720,11726); (11728,11734);
   (11736,11742); (11744,11869); (11904,11929); (11931,12019); (12032,12245); (12272,12283);
   (12289,12351); (12353,12438); (12441,12543); (12549,12591); (12593,12686); (12688,12771);
   (12784,12830); (12832,42124); (42128,42182); (42192,42539); (42560,42743); (42752,42954);
   (42960,42961); (42963,42963); (42965,42969); (42994,43052); (43056,43065); (43072,43127);
   (43136,43205); (43214,43225); (43232,43347); (43359,43388); (43392,43469); (43471,43481);
   (43486,43518); (43520,43574); (43584,43597); (43600,43609); (43612,43714); (43739,43766);
   (43777,43782); (43785,43790); (43793,43798); (43808,43814); (43816,43822); (43824,43883);
   (43888,44013); (44016,44025); (44032,55203); (55216,55238); (55243,55291); (63744,64109);
   (64112,64217); (64256,64262); (64275,64279); (64285,64310); (64312,64316); (64318,64318);
   (64320,64321); (64323,64324); (64326,64450); (64467,64911); (64914,64967); (64975,64975);
   (65008,65049); (65056,65106); (65108,65126); (65128,65131); (65136,65140); (65142,65276);
   (65281,65470); (65474,65479); (65482,65487); (65490,65495); (65498,65500); (65504,65510);
   (65512,65518); (65532,65533); (65536,65547); (65549,65574); (65576,65594); (65596,65597);
   (65599,65613); (65616,65629); (65664,65786); (65792,65794); (65799,65843); (65847,65934);
   (65936,65948); (65952,65952); (66000,66045); (66176,66204); (66208,66256); (66272,66299);
   (66304,66339); (66349,66378); (66384,66426); (66432,66461); (66463,66499); (66504,66517);
   (66560,66717); (66720,66729); (66736,66771); (66776,66811); (66816,66855); (66864,66915);
   (66927,66938); (66940,66954); (66956,66962); (66964,66965); (66967,66977); (66979,66993);
   (66995,67001); (67003,67004); (67072,67382); (67392,67413); (67424,67431); (67456,67461);
   (67463,67504); (67506,67514); (67584,67589); (67592,67592); (67594,67637); (67639,67640);
   (67644,67644); (67647,67669); (67671,67742); (67751,67759); (67808,67826); (67828,67829);
   (67835,67867); (67871,67897); (67903,67903); (67968,68023); (68028,68047); (68050,68099);
   (68101,68102); (68108,68115); (68117,68119); (68121,68149); (68152,68154); (68159,68168);
   (68176,68184); (68192,68255); (68288,68326); (68331,68342); (68352,68405); (68409,68437);
   (68440,68466); (68472,68497); (68505,68508); (68521,68527); (68608,68680); (68736,68786);
   (68800,68850); (68858,68903); (68912,68921); (69216,69246); (69248,69289); (69291,69293);
   (69296,69297); (69376,69415); (69424,69465); (69488,69513); (69552,69579); (69600,69622);
   (69632,69709); (69714,69749); (69759,69820); (69822,69826); (69840,69864); (69872,69881);
   (69888,69940); (69942,69959); (69968,70006); (70016,70111); (70113,70132); (70144,70161);
   (70163,70206); (70272,70278); (70280,70280); (70282,70285); (70287,70301); (70303,70313);
   (70320,70378); (70384,70393); (70400,70403); (70405,70412); (70415,70416); (70419,70440);
   (70442,70448); (70450,70451); (70453,70457); (70459,70468); (70471,70472); (70475,70477);
   (70480,70480); (70487,70487); (70493,70499); (70502,70508); (70512,70516); (70656,70747);
   (70749,70753); (70784,70855); (70864,70873); (71040,71093); (71096,71133); (71168,71236);
   (71248,71257); (71264,71276); (71296,71353); (71360,71369); (71424,71450); (71453,71467);
   (71472,71494); (71680,71739); (71840,71922); (71935,71942); (71945,71945); (71948,71955);
   (71957,71958); (71960,71989); (71991,71992); (71995,72006); (72016,72025); (72096,72103);
   (72106,72151); (72154,72164); (72192,72263); (72272,72354); (72368,72440); (72704,72712);
   (72714,72758); (72760,72773); (72784,72812); (72816,72847); (72850,72871); (72873,72886);
   (72960,72966); (72968,72969); (72971,73014); (73018,73018); (73020,73021); (73023,73031);
   (73040,73049); (73056,73061); (73063,73064); (73066,73102); (73104,73105); (73107,73112);
   (73120,73129); (73440,73464); (73648,73648); (73664,73713); (73727,74649); (74752,74862);
   (74864,74868); (74880,75075); (77712,77810); (77824,78894); (82944,83526); (92160,92728);
   (92736,92766); (92768,92777); (92782,92862); (92864,92873); (92880,92909); (92912,92917);
   (92928,92997); (93008,93017); (93019,93025); (93027,93047); (93053,93071); (93760,93850);
   (93952,94026); (94031,94087); (94095,94111); (94176,94180); (94192,94193); (94208,100343);
   (100352,101589); (101632,101640); (110576,110579); (110581,110587); (110589,110590);
   (110592,110882); (110928,110930); (110948,110951); (110960,111355); (113664,113770);
   (113776,113788); (113792,113800); (113808,113817); (113820,113823); (118528,118573);
   (118576,118598); (118608,118723); (118784,119029); (119040,119078); (119081,119154);
   (119163,119274); (119296,119365); (119520,119539); (119552,119638); (119648,119672);
   (119808,119892); (119894,119964); (119966,119967); (119970,119970); (119973,119974);
   (119977,119980); (119982,119993); (119995,119995); (119997,120003); (120005,120069);
   (120071,120074); (120077,120084); (120086,120092); (120094,120121); (120123,120126);
   (120128,120132); (120134,120134); (120138,120144); (120146,120485); (120488,120779);
   (120782,121483); (121499,121503); (121505,121519); (122624,122654); (122880,122886);
   (122888,122904); (122907,122913); (122915,122916); (122918,122922); (123136,123180);
   (123184,123197); (123200,123209); (123214,123215); (123536,123566); (123584,123641);
   (123647,123647); (124896,124902); (124904,124907); (124909,124910); (124912,124926);
   (124928,125124); (125127,125142); (125184,125259); (125264,125273); (125278,125279);
   (126065,126132); (126209,126269); (126464,126467); (126469,126495); (126497,126498);
   (126500,126500); (126503,126503); (126505,126514); (126516,126519); (126521,126521);
   (126523,126523); (126530,126530); (126535,126535); (126537,126537); (126539,126539);
   (126541,126543); (126545,126546); (126548,126548); (126551,126551); (126553,126553);
   (126555,126555); (126557,126557); (126559,126559); (126561,126562); (126564,126564);
   (126567,126570); (126572,126578); (126580,126583); (126585,126588); (126590,126590);
   (126592,126601); (126603,126619); (126625,126627); (126629,126633); (126635,126651);
   (126704,126705); (126976,127019); (127024,127123); (127136,127150); (127153,127167);
   (127169,127183); (127185,127221); (127232,127405); (127462,127490); (127504,127547);
   (127552,127560); (127568,127569); (127584,127589); (127744,128727); (128733,128748);
   (128752,128764); (128768,128883); (128896,128984); (128992,129003); (129008,129008);
   (129024,129035); (129040,129095); (129104,129113); (129120,129159); (129168,129197);
   (129200,129201); (129280,129619); (129632,129645); (129648,129652); (129656,129660);
   (129664,129670); (129680,129708); (129712,129722); (129728,129733); (129744,129753);
   (129760,129767); (129776,129782); (129792,129938); (129940,129994); (130032,130041);
   (131072,173791); (173824,177976); (177984,178205); (178208,183969); (183984,191456);
   (194560,195101); (196608,201546); (917760,917999)].

Definition decimal_zeros : list N :=
  [48; 1632; 1776; 1984; 2406; 2534; 2662; 2790; 2918; 3046; 3174; 3302; 3430; 3558; 3664; 3792;
   3872; 4160; 4240; 6112; 6160; 6470; 6608; 6784; 6800; 6992; 7088; 7232; 7248; 42528; 43216;
   43264; 43472; 43504; 43600; 44016; 65296; 66720; 68912; 69734; 69872; 69942; 70096; 70384;
   70736; 70864; 71248; 71360; 71472; 71904; 72016; 72784; 73040; 73120; 92768; 92864; 93008;
   120782; 120792; 120802; 120812; 120822; 123200; 123632; 125264; 130032].

Definition uppercase : list (N * list N) :=
  [(97,[65]); (98,[66]); (99,[67]); (100,[68]); (101,[69]); (102,[70]); (103,[71]); (104,[72]);
   (105,[73]); (106,[74]); (107,[75]); (108,[76]); (109,[77]); (110,[78]); (111,[79]);
   (112,[80]); (113,[81]); (114,[82]); (115,[83]); (116,[84]); (117,[85]); (118,[86]);
   (119,[87]); (120,[88]); (121,[89]); (122,[90]); (181,[924]); (223,[83;83]); (224,[192]);
   (225,[193]); (226,[194]); (227,[195]); (228,[196]); (229,[197]); (230,[198]); (231,[199]);
   (232,[200]); (233,[201]); (234,[202]); (235,[203]); (236,[204]); (237,[205]); (238,[206]);
   (239,[207]); (240,[208]); (241,[209]); (242,[210]); (243,[211]); (244,[212]); (245,[213]);
   (246,[214]); (248,[216]); (249,[217]); (250,[218]); (251,[219]); (252,[220]); (253,[221]);
   (254,[222]); (255,[376]); (257,[256]); (259,[258]); (261,[260]); (263,[262]); (265,[264]);
   (267,[266]); (269,[268]); (271,[270]); (273,[272]); (275,[274]); (277,[276]); (279,[278]);
   (281,[280]); (283,[282]); (285,[284]); (287,[286]); (289,[288]); (291,[290]); (293,[292]);
   (295,[294]); (297,[296]); (299,[298]); (301,[300]); (303,[302]); (305,[73]); (307,[306]);
   (309,[308]); (311,[310]); (314,[313]); (316,[315]); (318,[317]); (320,[319]); (322,[321]);
   (324,[323]); (326,[325]); (328,[327]); (329,[700;78]); (331,[330]); (333,[332]); (335,[334]);
   (337,[336]); (339,[338]); (341,[340]); (343,[342]); (345,[344]); (347,[346]); (349,[348]);
   (351,[350]); (353,[352]); (355,[354]); (357,[356]); (359,[358]); (361,[360]); (363,[362]);
   (365,[364]); (367,[366]); (369,[368]); (371,[370]); (373,[372]); (375,[374]); (378,[377]);
   (380,[379]); (382,[381]); (383,[83]); (384,[579]); (387,[386]); (389,[388]); (392,[391]);
   (396,[395]); (402,[401]); (405,[502]); (409,[408]); (410,[573]); (414,[544]); (417,[416]);
   (419,[418]); (421,[420]); (424,[423]); (429,[428]); (432,[431]); (436,[435]); (438,[437]);
   (441,[440]); (445,[444]); (447,[503]); (453,[452]); (454,[452]); (456,[455]); (457,[455]);
   (459,[458]); (460,[458]); (462,[461]); (464,[463]); (466,[465]); (468,[467]); (470,[469]);
   (472,[471]); (474,[473]); (476,[475]); (477,[398]); (479,[478]); (481,[480]); (483,[482]);
   (485,[484]); (487,[486]); (489,[488]); (491,[490]); (493,[492]); (495,[494]); (496,[74;780]);
   (498,[497]); (499,[497]); (501,[500]); (505,[504]); (507,[506]); (509,[508]); (511,[510]);
   (513,[512]); (515,[514]); (517,[516]); (519,[518]); (521,[520]); (523,[522]); (525,[524]);
   (527,[526]); (529,[528]); (531,[530]); (533,[532]); (535,[534]); (537,[536]); (539,[538]);
   (541,[540]); (543,[542]); (547,[546]); (549,[548]); (551,[550]); (553,[552]); (555,[554]);
   (557,[556]); (559,[558]); (561,[560]); (563,[562]); (572,[571]); (575,[11390]);
   (576,[11391]); (578,[577]); (583,[582]); (585,[584]); (587,[586]); (589,[588]); (591,[590]);
   (592,[11375]); (593,[11373]); (594,[11376]); (595,[385]); (596,[390]); (598,[393]);
   (599,[394]); (601,[399]); (603,[400]); (604,[42923]); (608,[403]); (609,[42924]);
   (611,[404]); (613,[42893]); (614,[42922]); (616,[407]); (617,[406]); (618,[42926]);
   (619,[11362]); (620,[42925]); (623,[412]); (625,[11374]); (626,[413]); (629,[415]);
   (637,[11364]); (640,[422]); (642,[42949]); (643,[425]); (647,[42929]); (648,[430]);
   (649,[580]); (650,[433]); (651,[434]); (652,[581]); (658,[439]); (669,[42930]);
   (670,[42928]); (837,[921]); (881,[880]); (883,[882]); (887,[886]); (891,[1021]);
   (892,[1022]); (893,[1023]); (912,[921;776;769]); (940,[902]); (941,[904]); (942,[905]);
   (943,[906]); (944,[933;776;769]); (945,[913]); (946,[914]); (947,[915]); (948,[916]);
   (949,[917]); (950,[918]); (951,[919]); (952,[920]); (953,[921]); (954,[922]); (955,[923]);
   (956,[924]); (957,[925]); (958,[926]); (959,[927]); (960,[928]); (961,[929]); (962,[931]);
   (963,[931]); (964,[932]); (965,[933]); (966,[934]); (967,[935]); (968,[936]); (969,[937]);
   (970,[938]); (971,[939]); (972,[908]); (973,[910]); (974,[911]); (976,[914]); (977,[920]);
   (981,[934]); (982,[928]); (983,[975]); (985,[984]); (987,[986]); (989,[988]); (991,[990]);
   (993,[992]); (995,[994]); (997,[996]); (999,[998]); (1001,[1000]); (1003,[1002]);
   (1005,[1004]); (1007,[1006]); (1008,[922]); (1009,[929]); (1010,[1017]); (1011,[895]);
   (1013,[917]); (1016,[1015]); (1019,[1018]); (1072,[1040]); (1073,[1041]); (1074,[1042]);
   (1075,[1043]); (1076,[1044]); (1077,[1045]); (1078,[1046]); (1079,[1047]); (1080,[1048]);
   (1081,[1049]); (1082,[1050]); (1083,[1051]); (1084,[1052]); (1085,[1053]); (1086,[1054]);
   (1087,[1055]); (1088,[1056]); (1089,[1057]); (1090,[1058]); (1091,[1059]); (1092,[1060]);
   (1093,[1061]); (1094,[1062]); (1095,[1063]); (1096,[1064]); (1097,[1065]); (1098,[1066]);
   (1099,[1067]); (1100,[1068]); (1101,[1069]); (1102,[1070]); (1103,[1071]); (1104,[1024]);
   (1105,[1025]); (1106,[1026]); (1107,[1027]); (1108,[1028]); (1109,[1029]); (1110,[1030]);
   (1111,[1031]); (1112,[1032]); (1113,[1033]); (1114,[1034]); (1115,[1035]); (1116,[1036]);
   (1117,[1037]); (1118,[1038]); (1119,[1039]); (1121,[1120]); (1123,[1122]); (1125,[1124]);
   (1127,[1126]); (1129,[1128]); (1131,[1130]); (1133,[1132]); (1135,[1134]); (1137,[1136]);
   (1139,[1138]); (1141,[1140]); (1143,[1142]); (1145,[1144]); (1147,[1146]); (1149,[1148]);
   (1151,[1150]); (1153,[1152]); (1163,[1162]); (1165,[1164]); (1167,[1166]); (1169,[1168]);
   (1171,[1170]); (1173,[1172]); (1175,[1174]); (1177,[1176]); (1179,[1178]); (1181,[1180]);
   (1183,[1182]); (1185,[1184]); (1187,[1186]); (1189,[1188]); (1191,[1190]); (1193,[1192]);
   (1195,[1194]); (1197,[1196]); (1199,[1198]); (1201,[1200]); (1203,[1202]); (1205,[1204]);
   (1207,[1206]); (1209,[1208]); (1211,[1210]); (1213,[1212]); (1215,[1214]); (1218,[1217]);
   (1220,[1219]); (1222,[1221]); (1224,[1223]); (1226,[1225]); (1228,[1227]); (1230,[1229]);
   (1231,[1216]); (1233,[1232]); (1235,[1234]); (1237,[1236]); (1239,[1238]); (1241,[1240]);
   (1243,[1242]); (1245,[1244]); (1247,[1246]); (1249,[1248]); (1251,[1250]); (1253,[1252]);
   (1255,[1254]); (1257,[1256]); (1259,[1258]); (1261,[1260]); (1263,[1262]); (1265,[1264]);
   (1267,[1266]); (1269,[1268]); (1271,[1270]); (1273,[1272]); (1275,[1274]); (1277,[1276]);
   (1279,[1278]); (1281,[1280]); (1283,[1282]); (1285,[1284]); (1287,[1286]); (1289,[1288]);
   (1291,[1290]); (1293,[1292]); (1295,[1294]); (1297,[1296]); (1299,[1298]); (1301,[1300]);
   (1303,[1302]); (1305,[1304]); (1307,[1306]); (1309,[1308]); (1311,[1310]); (1313,[1312]);
   (1315,[1314]); (1317,[1316]); (1319,[1318]); (1321,[1320]); (1323,[1322]); (1325,[1324]);
   (1327,[1326]); (1377,[1329]); (1378,[1330]); (1379,[1331]); (1380,[1332]); (1381,[1333]);
   (1382,[1334]); (1383,[1335]); (1384,[1336]); (1385,[1337]); (1386,[1338]); (1387,[1339]);
   (1388,[1340]); (1389,[1341]); (1390,[1342]); (1391,[1343]); (1392,[1344]); (1393,[1345]);
   (1394,[1346]); (1395,[1347]); (1396,[1348]); (1397,[1349]); (1398,[1350]); (1399,[1351]);
   (1400,[1352]); (1401,[1353]); (1402,[1354]); (1403,[1355]); (1404,[1356]); (1405,[1357]);
   (1406,[1358]); (1407,[1359]); (1408,[1360]); (1409,[1361]); (1410,[1362]); (1411,[1363]);
   (1412,[1364]); (1413,[1365]); (1414,[1366]); (1415,[1333;1362]); (4304,[7312]);
   (4305,[7313]); (4306,[7314]); (4307,[7315]); (4308,[7316]); (4309,[7317]); (4310,[7318]);
   (4311,[7319]); (4312,[7320]); (4313,[7321]); (4314,[7322]); (4315,[7323]); (4316,[7324]);
   (4317,[7325]); (4318,[7326]); (4319,[7327]); (4320,[7328]); (4321,[7329]); (4322,[7330]);
   (4323,[7331]); (4324,[7332]); (4325,[7333]); (4326,[7334]); (4327,[7335]); (4328,[7336]);
   (4329,[7337]); (4330,[7338]); (4331,[7339]); (4332,[7340]); (4333,[7341]); (4334,[7342]);
   (4335,[7343]); (4336,[7344]); (4337,[7345]); (4338,[7346]); (4339,[7347]); (4340,[7348]);
   (4341,[7349]); (4342,[7350]); (4343,[7351]); (4344,[7352]); (4345,[7353]); (4346,[7354]);
   (4349,[7357]); (4350,[7358]); (4351,[7359]); (5112,[5104]); (5113,[5105]); (5114,[5106]);
   (5115,[5107]); (5116,[5108]); (5117,[5109]); (7296,[1042]); (7297,[1044]); (7298,[1054]);
   (7299,[1057]); (7300,[1058]); (7301,[1058]); (7302,[1066]); (7303,[1122]); (7304,[42570]);
   (7545,[42877]); (7549,[11363]); (7566,[42950]); (7681,[7680]); (7683,[7682]); (7685,[7684]);
   (7687,[7686]); (7689,[7688]); (7691,[7690]); (7693,[7692]); (7695,[7694]); (7697,[7696]);
   (7699,[7698]); (7701,[7700]); (7703,[7702]); (7705,[7704]); (7707,[7706]); (7709,[7708]);
   (7711,[7710]); (7713,[7712]); (7715,[7714]); (7717,[7716]); (7719,[7718]); (7721,[7720]);
   (7723,[7722]); (7725,[7724]); (7727,[7726]); (7729,[7728]); (7731,[7730]); (7733,[7732]);
   (7735,[7734]); (7737,[7736]); (7739,[7738]); (7741,[7740]); (7743,[7742]); (7745,[7744]);
   (7747,[7746]); (7749,[7748]); (7751,[7750]); (7753,[7752]); (7755,[7754]); (7757,[7756]);
   (7759,[7758]); (7761,[7760]); (7763,[7762]); (7765,[7764]); (7767,[7766]); (7769,[7768]);
   (7771,[7770]); (7773,[7772]); (7775,[7774]); (7777,[7776]); (7779,[7778]); (7781,[7780]);
   (7783,[7782]); (7785,[7784]); (7787,[7786]); (7789,[7788]); (7791,[7790]); (7793,[7792]);
   (7795,[7794]); (7797,[7796]); (7799,[7798]); (7801,[7800]); (7803,[7802]); (7805,[7804]);
   (7807,[7806]); (7809,[7808]); (7811,[7810]); (7813,[7812]); (7815,[7814]); (7817,[7816]);
   (7819,[7818]); (7821,[7820]); (7823,[7822]); (7825,[7824]); (7827,[7826]); (7829,[7828]);
   (7830,[72;817]); (7831,[84;776]); (7832,[87;778]); (7833,[89;778]); (7834,[65;702]);
   (7835,[7776]); (7841,[7840]); (7843,[7842]); (7845,[7844]); (7847,[7846]); (7849,[7848]);
   (7851,[7850]); (7853,[7852]); (7855,[7854]); (7857,[7856]); (7859,[7858]); (7861,[7860]);
   (7863,[7862]); (7865,[7864]); (7867,[7866]); (7869,[7868]); (7871,[7870]); (7873,[7872]);
   (7875,[7874]); (7877,[7876]); (7879,[7878]); (7881,[7880]); (7883,[7882]); (7885,[7884]);
   (7887,[7886]); (7889,[7888]); (7891,[7890]); (7893,[7892]); (7895,[7894]); (7897,[7896]);
   (7899,[7898]); (7901,[7900]); (7903,[7902]); (7905,[7904]); (7907,[7906]); (7909,[7908]);
   (7911,[7910]); (7913,[7912]); (7915,[7914]); (7917,[7916]); (7919,[7918]); (7921,[7920]);
   (7923,[7922]); (7925,[7924]); (7927,[7926]); (7929,[7928]); (7931,[7930]); (7933,[7932]);
   (7935,[7934]); (7936,[7944]); (7937,[7945]); (7938,[7946]); (7939,[7947]); (7940,[7948]);
   (7941,[7949]); (7942,[7950]); (7943,[7951]); (7952,[7960]); (7953,[7961]); (7954,[7962]);
   (7955,[7963]); (7956,[7964]); (7957,[7965]); (7968,[7976]); (7969,[7977]); (7970,[7978]);
   (7971,[7979]); (7972,[7980]); (7973,[7981]); (7974,[7982]); (7975,[7983]); (7984,[7992]);
   (7985,[7993]); (7986,[7994]); (7987,[7995]); (7988,[7996]); (7989,[7997]); (7990,[7998]);
   (7991,[7999]); (8000,[8008]); (8001,[8009]); (8002,[8010]); (8003,[8011]); (8004,[8012]);
   (8005,[8013]); (8016,[933;787]); (8017,[8025]); (8018,[933;787;768]); (8019,[8027]);
   (8020,[933;787;769]); (8021,[8029]); (8022,[933;787;834]); (8023,[8031]); (8032,[8040]);
   (8033,[8041]); (8034,[8042]); (8035,[8043]); (8036,[8044]); (8037,[8045]); (8038,[8046]);
   (8039,[8047]); (8048,[8122]); (8049,[8123]); (8050,[8136]); (8051,[8137]); (8052,[8138]);
   (8053,[8139]); (8054,[8154]); (8055,[8155]); (8056,[8184]); (8057,[8185]); (8058,[8170]);
   (8059,[8171]); (8060,[8186]); (8061,[8187]); (8064,[7944;921]); (8065,[7945;921]);
   (8066,[7946;921]); (8067,[7947;921]); (8068,[7948;921]); (8069,[7949;921]);
   (8070,[7950;921]); (8071,[7951;921]); (8072,[7944;921]); (8073,[7945;921]);
   (8074,[7946;921]); (8075,[7947;921]); (8076,[7948;921]); (8077,[7949;921]);
   (8078,[7950;921]); (8079,[7951;921]); (8080,[7976;921]); (8081,[7977;921]);
   (8082,[7978;921]); (8083,[7979;921]); (8084,[7980;921]); (8085,[7981;921]);
   (8086,[7982;921]); (8087,[7983;921]); (8088,[7976;921]); (8089,[7977;921]);
   (8090,[7978;921]); (8091,[7979;921]); (8092,[7980;921]); (8093,[7981;921]);
   (8094,[7982;921]); (8095,[7983;921]); (8096,[8040;921]); (8097,[8041;921]);
   (8098,[8042;921]); (8099,[8043;921]); (8100,[8044;921]); (8101,[8045;921]);
   (8102,[8046;921]); (8103,[8047;921]); (8104,[8040;921]); (8105,[8041;921]);
   (8106,[8042;921]); (8107,[8043;921]); (8108,[8044;921]); (8109,[8045;921]);
   (8110,[8046;921]); (8111,[8047;921]); (8112,[8120]); (8113,[8121]); (8114,[8122;921]);
   (8115,[913;921]); (8116,[902;921]); (8118,[913;834]); (8119,[913;834;921]); (8124,[913;921]);
   (8126,[921]); (8130,[8138;921]); (8131,[919;921]); (8132,[905;921]); (8134,[919;834]);
   (8135,[919;834;921]); (8140,[919;921]); (8144,[8152]); (8145,[8153]); (8146,[921;776;768]);
   (8147,[921;776;769]); (8150,[921;834]); (8151,[921;776;834]); (8160,[8168]); (8161,[8169]);
   (8162,[933;776;768]); (8163,[933;776;769]); (8164,[929;787]); (8165,[8172]);
   (8166,[933;834]); (8167,[933;776;834]); (8178,[8186;921]); (8179,[937;921]);
   (8180,[911;921]); (8182,[937;834]); (8183,[937;834;921]); (8188,[937;921]); (8526,[8498]);
   (8560,[8544]); (8561,[8545]); (8562,[8546]); (8563,[8547]); (8564,[8548]); (8565,[8549]);
   (8566,[8550]); (8567,[8551]); (8568,[8552]); (8569,[8553]); (8570,[8554]); (8571,[8555]);
   (8572,[8556]); (8573,[8557]); (8574,[8558]); (8575,[8559]); (8580,[8579]); (9424,[9398]);
   (9425,[9399]); (9426,[9400]); (9427,[9401]); (9428,[9402]); (9429,[9403]); (9430,[9404]);
   (9431,[9405]); (9432,[9406]); (9433,[9407]); (9434,[9408]); (9435,[9409]); (9436,[9410]);
   (9437,[9411]); (9438,[9412]); (9439,[9413]); (9440,[9414]); (9441,[9415]); (9442,[9416]);
   (9443,[9417]); (9444,[9418]); (9445,[9419]); (9446,[9420]); (9447,[9421]); (9448,[9422]);
   (9449,[9423]); (11312,[11264]); (11313,[11265]); (11314,[11266]); (11315,[11267]);
   (11316,[11268]); (11317,[11269]); (11318,[11270]); (11319,[11271]); (11320,[11272]);
   (11321,[11273]); (11322,[11274]); (11323,[11275]); (11324,[11276]); (11325,[11277]);
   (11326,[11278]); (11327,[11279]); (11328,[11280]); (11329,[11281]); (11330,[11282]);
   (11331,[11283]); (11332,[11284]); (11333,[11285]); (11334,[11286]); (11335,[11287]);
   (11336,[11288]); (11337,[11289]); (11338,[11290]); (11339,[11291]); (11340,[11292]);
   (11341,[11293]); (11342,[11294]); (11343,[11295]); (11344,[11296]); (11345,[11297]);
   (11346,[11298]); (11347,[11299]); (11348,[11300]); (11349,[11301]); (11350,[11302]);
   (11351,[11303]); (11352,[11304]); (11353,[11305]); (11354,[11306]); (11355,[11307]);
   (11356,[11308]); (11357,[11309]); (11358,[11310]); (11359,[11311]); (11361,[11360]);
   (11365,[570]); (11366,[574]); (11368,[11367]); (11370,[11369]); (11372,[11371]);
   (11379,[11378]); (11382,[11381]); (11393,[11392]); (11395,[11394]); (11397,[11396]);
   (11399,[11398]); (11401,[11400]); (11403,[11402]); (11405,[11404]); (11407,[11406]);
   (11409,[11408]); (11411,[11410]); (11413,[11412]); (11415,[11414]); (11417,[11416]);
   (11419,[11418]); (11421,[11420]); (11423,[11422]); (11425,[11424]); (11427,[11426]);
   (11429,[11428]); (11431,[11430]); (11433,[11432]); (11435,[11434]); (11437,[11436]);
   (11439,[11438]); (11441,[11440]); (11443,[11442]); (11445,[11444]); (11447,[11446]);
   (11449,[11448]); (11451,[11450]); (11453,[11452]); (11455,[11454]); (11457,[11456]);
   (11459,[11458]); (11461,[11460]); (11463,[11462]); (11465,[11464]); (11467,[11466]);
   (11469,[11468]); (11471,[11470]); (11473,[11472]); (11475,[11474]); (11477,[11476]);
   (11479,[11478]); (11481,[11480]); (11483,[11482]); (11485,[11484]); (11487,[11486]);
   (11489,[11488]); (11491,[11490]); (11500,[11499]); (11502,[11501]); (11507,[11506]);
   (11520,[4256]); (11521,[4257]); (11522,[4258]); (11523,[4259]); (11524,[4260]);
   (11525,[4261]); (11526,[4262]); (11527,[4263]); (11528,[4264]); (11529,[4265]);
   (11530,[4266]); (11531,[4267]); (11532,[4268]); (11533,[4269]); (11534,[4270]);
   (11535,[4271]); (11536,[4272]); (11537,[4273]); (11538,[4274]); (11539,[4275]);
   (11540,[4276]); (11541,[4277]); (11542,[4278]); (11543,[4279]); (11544,[4280]);
   (11545,[4281]); (11546,[4282]); (11547,[4283]); (11548,[4284]); (11549,[4285]);
   (11550,[4286]); (11551,[4287]); (11552,[4288]); (11553,[4289]); (11554,[4290]);
   (11555,[4291]); (11556,[4292]); (11557,[4293]); (11559,[4295]); (11565,[4301]);
   (42561,[42560]); (42563,[42562]); (42565,[42564]); (42567,[42566]); (42569,[42568]);
   (42571,[42570]); (42573,[42572]); (42575,[42574]); (42577,[42576]); (42579,[42578]);
   (42581,[42580]); (42583,[42582]); (42585,[42584]); (42587,[42586]); (42589,[42588]);
   (42591,[42590]); (42593,[42592]); (42595,[42594]); (42597,[42596]); (42599,[42598]);
   (42601,[42600]); (42603,[42602]); (42605,[42604]); (42625,[42624]); (42627,[42626]);
   (42629,[42628]); (42631,[42630]); (42633,[42632]); (42635,[42634]); (42637,[42636]);
   (42639,[42638]); (42641,[42640]); (42643,[42642]); (42645,[42644]); (42647,[42646]);
   (42649,[42648]); (42651,[42650]); (42787,[42786]); (42789,[42788]); (42791,[42790]);
   (42793,[42792]); (42795,[42794]); (42797,[42796]); (42799,[42798]); (42803,[42802]);
   (42805,[42804]); (42807,[42806]); (42809,[42808]); (42811,[42810]); (42813,[42812]);
   (42815,[42814]); (42817,[42816]); (42819,[42818]); (42821,[42820]); (42823,[42822]);
   (42825,[42824]); (42827,[42826]); (42829,[42828]); (42831,[42830]); (42833,[42832]);
   (42835,[42834]); (42837,[42836]); (42839,[42838]); (42841,[42840]); (42843,[42842]);
   (42845,[42844]); (42847,[42846]); (42849,[42848]); (42851,[42850]); (42853,[42852]);
   (42855,[42854]); (42857,[42856]); (42859,[42858]); (42861,[42860]); (42863,[42862]);
   (42874,[42873]); (42876,[42875]); (42879,[42878]); (42881,[42880]); (42883,[42882]);
   (42885,[42884]); (42887,[42886]); (42892,[42891]); (42897,[42896]); (42899,[42898]);
   (42900,[42948]); (42903,[42902]); (42905,[42904]); (42907,[42906]); (42909,[42908]);
   (42911,[42910]); (42913,[42912]); (42915,[42914]); (42917,[42916]); (42919,[42918]);
   (42921,[42920]); (42933,[42932]); (42935,[42934]); (42937,[42936]); (42939,[42938]);
   (42941,[42940]); (42943,[42942]); (42945,[42944]); (42947,[42946]); (42952,[42951]);
   (42954,[42953]); (42961,[42960]); (42967,[42966]); (42969,[42968]); (42998,[42997]);
   (43859,[42931]); (43888,[5024]); (43889,[5025]); (43890,[5026]); (43891,[5027]);
   (43892,[5028]); (43893,[5029]); (43894,[5030]); (43895,[5031]); (43896,[5032]);
   (43897,[5033]); (43898,[5034]); (43899,[5035]); (43900,[5036]); (43901,[5037]);
   (43902,[5038]); (43903,[5039]); (43904,[5040]); (43905,[5041]); (43906,[5042]);
   (43907,[5043]); (43908,[5044]); (43909,[5045]); (43910,[5046]); (43911,[5047]);
   (43912,[5048]); (43913,[5049]); (43914,[5050]); (43915,[5051]); (43916,[5052]);
   (43917,[5053]); (43918,[5054]); (43919,[5055]); (43920,[5056]); (43921,[5057]);
   (43922,[5058]); (43923,[5059]); (43924,[5060]); (43925,[5061]); (43926,[5062]);
   (43927,[5063]); (43928,[5064]); (43929,[5065]); (43930,[5066]); (43931,[5067]);
   (43932,[5068]); (43933,[5069]); (43934,[5070]); (43935,[5071]); (43936,[5072]);
   (43937,[5073]); (43938,[5074]); (43939,[5075]); (43940,[5076]); (43941,[5077]);
   (43942,[5078]); (43943,[5079]); (43944,[5080]); (43945,[5081]); (43946,[5082]);
   (43947,[5083]); (43948,[5084]); (43949,[5085]); (43950,[5086]); (43951,[5087]);
   (43952,[5088]); (43953,[5089]); (43954,[5090]); (43955,[5091]); (43956,[5092]);
   (43957,[5093]); (43958,[5094]); (43959,[5095]); (43960,[5096]); (43961,[5097]);
   (43962,[5098]); (43963,[5099]); (43964,[5100]); (43965,[5101]); (43966,[5102]);
   (43967,[5103]); (64256,[70;70]); (64257,[70;73]); (64258,[70;76]); (64259,[70;70;73]);
   (64260,[70;70;76]); (64261,[83;84]); (64262,[83;84]); (64275,[1348;1350]);
   (64276,[1348;1333]); (64277,[1348;1339]); (64278,[1358;1350]); (64279,[1348;1341]);
   (65345,[65313]); (65346,[65314]); (65347,[65315]); (65348,[65316]); (65349,[65317]);
   (65350,[65318]); (65351,[65319]); (65352,[65320]); (65353,[65321]); (65354,[65322]);
   (65355,[65323]); (65356,[65324]); (65357,[65325]); (65358,[65326]); (65359,[65327]);
   (65360,[65328]); (65361,[65329]); (65362,[65330]); (65363,[65331]); (65364,[65332]);
   (65365,[65333]); (65366,[65334]); (65367,[65335]); (65368,[65336]); (65369,[65337]);
   (65370,[65338]); (66600,[66560]); (66601,[66561]); (66602,[66562]); (66603,[66563]);
   (66604,[66564]); (66605,[66565]); (66606,[66566]); (66607,[66567]); (66608,[66568]);
   (66609,[66569]); (66610,[66570]); (66611,[66571]); (66612,[66572]); (66613,[66573]);
   (66614,[66574]); (66615,[66575]); (66616,[66576]); (66617,[66577]); (66618,[66578]);
   (66619,[66579]); (66620,[66580]); (66621,[66581]); (66622,[66582]); (66623,[66583]);
   (66624,[66584]); (66625,[66585]); (66626,[66586]); (66627,[66587]); (66628,[66588]);
   (66629,[66589]); (66630,[66590]); (66631,[66591]); (66632,[66592]); (66633,[66593]);
   (66634,[66594]); (66635,[66595]); (66636,[66596]); (66637,[66597]); (66638,[66598]);
   (66639,[66599]); (66776,[66736]); (66777,[66737]); (66778,[66738]); (66779,[66739]);
   (66780,[66740]); (66781,[66741]); (66782,[66742]); (66783,[66743]); (66784,[66744]);
   (66785,[66745]); (66786,[66746]); (66787,[66747]); (66788,[66748]); (66789,[66749]);
   (66790,[66750]); (66791,[66751]); (66792,[66752]); (66793,[66753]); (66794,[66754]);
   (66795,[66755]); (66796,[66756]); (66797,[66757]); (66798,[66758]); (66799,[66759]);
   (66800,[66760]); (66801,[66761]); (66802,[66762]); (66803,[66763]); (66804,[66764]);
   (66805,[66765]); (66806,[66766]); (66807,[66767]); (66808,[66768]); (66809,[66769]);
   (66810,[66770]); (66811,[66771]); (66967,[66928]); (66968,[66929]); (66969,[66930]);
   (66970,[66931]); (66971,[66932]); (66972,[66933]); (66973,[66934]); (66974,[66935]);
   (66975,[66936]); (66976,[66937]); (66977,[66938]); (66979,[66940]); (66980,[66941]);
   (66981,[66942]); (66982,[66943]); (66983,[66944]); (66984,[66945]); (66985,[66946]);
   (66986,[66947]); (66987,[66948]); (66988,[66949]); (66989,[66950]); (66990,[66951]);
   (66991,[66952]); (66992,[66953]); (66993,[66954]); (66995,[66956]); (66996,[66957]);
   (66997,[66958]); (66998,[66959]); (66999,[66960]); (67000,[66961]); (67001,[66962]);
   (67003,[66964]); (67004,[66965]); (68800,[68736]); (68801,[68737]); (68802,[68738]);
   (68803,[68739]); (68804,[68740]); (68805,[68741]); (68806,[68742]); (68807,[68743]);
   (68808,[68744]); (68809,[68745]); (68810,[68746]); (68811,[68747]); (68812,[68748]);
   (68813,[68749]); (68814,[68750]); (68815,[68751]); (68816,[68752]); (68817,[68753]);
   (68818,[68754]); (68819,[68755]); (68820,[68756]); (68821,[68757]); (68822,[68758]);
   (68823,[68759]); (68824,[68760]); (68825,[68761]); (68826,[68762]); (68827,[68763]);
   (68828,[68764]); (68829,[68765]); (68830,[68766]); (68831,[68767]); (68832,[68768]);
   (68833,[68769]); (68834,[68770]); (68835,[68771]); (68836,[68772]); (68837,[68773]);
   (68838,[68774]); (68839,[68775]); (68840,[68776]); (68841,[68777]); (68842,[68778]);
   (68843,[68779]); (68844,[68780]); (68845,[68781]); (68846,[68782]); (68847,[68783]);
   (68848,[68784]); (68849,[68785]); (68850,[68786]); (71872,[71840]); (71873,[71841]);
   (71874,[71842]); (71875,[71843]); (71876,[71844]); (71877,[71845]); (71878,[71846]);
   (71879,[71847]); (71880,[71848]); (71881,[71849]); (71882,[71850]); (71883,[71851]);
   (71884,[71852]); (71885,[71853]); (71886,[71854]); (71887,[71855]); (71888,[71856]);
   (71889,[71857]); (71890,[71858]); (71891,[71859]); (71892,[71860]); (71893,[71861]);
   (71894,[71862]); (71895,[71863]); (71896,[71864]); (71897,[71865]); (71898,[71866]);
   (71899,[71867]); (71900,[71868]); (71901,[71869]); (71902,[71870]); (71903,[71871]);
   (93792,[93760]); (93793,[93761]); (93794,[93762]); (93795,[93763]); (93796,[93764]);
   (93797,[93765]); (93798,[93766]); (93799,[93767]); (93800,[93768]); (93801,[93769]);
   (93802,[93770]); (93803,[93771]); (93804,[93772]); (93805,[93773]); (93806,[93774]);
   (93807,[93775]); (93808,[93776]); (93809,[93777]); (93810,[93778]); (93811,[93779]);
   (93812,[93780]); (93813,[93781]); (93814,[93782]); (93815,[93783]); (93816,[93784]);
   (93817,[93785]); (93818,[93786]); (93819,[93787]); (93820,[93788]); (93821,[93789]);
   (93822,[93790]); (93823,[93791]); (125218,[125184]); (125219,[125185]); (125220,[125186]);
   (125221,[125187]); (125222,[125188]); (125223,[125189]); (125224,[125190]);
   (125225,[125191]); (125226,[125192]); (125227,[125193]); (125228,[125194]);
   (125229,[125195]); (125230,[125196]); (125231,[125197]); (125232,[125198]);
   (125233,[125199]); (125234,[125200]); (125235,[125201]); (125236,[125202]);
   (125237,[125203]); (125238,[125204]); (125239,[125205]); (125240,[125206]);
   (125241,[125207]); (125242,[125208]); (125243,[125209]); (125244,[125210]);
   (125245,[125211]); (125246,[125212]); (125247,[125213]); (125248,[125214]);
   (125249,[125215]); (125250,[125216]); (125251,[125217])].

(** Membership in a table of ranges. *)
Fixpoint in_ranges (c : N) (ranges : list (N * N)) : bool :=
  match ranges with
  | [] => false
  | (lo, hi) :: rest =>
      if (lo <=? c) && (c <=? hi) then true else in_ranges c rest
  end.

(** The entry of a code point in a table. *)
Fixpoint assoc (A : Type) (c : N) (table : list (N * A)) : option A :=
  match table with
  | [] => None
  | (k, v) :: rest => if k =? c then Some v else assoc c rest
  end.

(** The code points of a table of ranges, one by one. *)
Definition code_points (ranges : list (N * N)) : list N :=
  flat_map (fun r => map (fun i => fst r + N.of_nat i)
                         (seq 0 (S (N.to_nat (snd r - fst r))))) ranges.

End Unicode.

(* ================================================================== *)
(** * Python strings *)
(* ================================================================== *)

Module PyStr.

(** A character is its code point, [ord(c)]. *)
Definition char := N.
Definition str := list char.

(** A literal of the source; the literals of [server.py] are ASCII. *)
Definition py (s : string) : str := map N_of_ascii (list_ascii_of_string s).

Definition code (c : char) : N := c.

Definition in_range (lo hi : N) (c : char) : bool :=
  ((lo <=? code c) && (code c <=? hi))%N.

(** The letters A to Z. *)
Definition is_upper (c : char) : bool := in_range 65 90 c.

(** [c.isspace()]: the characters [str.strip] removes. *)
Definition is_space (c : char) : bool :=
  Unicode.in_ranges c Unicode.whitespace.

(** The characters [\w] matches, hence the ones [\b] separates from the
    others: [c.isalnum()] or the underscore. *)
Definition is_word_char (c : char) : bool :=
  (code c =? 95)%N || Unicode.in_ranges c Unicode.alphanumeric.

(** [c.upper()]: the character itself unless the table changes it. *)
Definition upper_char (c : char) : str :=
  match Unicode.assoc c Unicode.uppercase with
  | Some u => u
  | None => [c]
  end.

(** [c.lower()] for the letters A to Z.  [str.lower] changes other
    characters as well, none of them into a letter of [true], the one
    text the server compares a lower-cased value with; the comparison
    comes out the same. *)
Definition lower_char (c : char) : char :=
  if is_upper c then (code c + 32)%N else c.

(** [s.upper()], [s.lower()] *)
Definition upper (s : str) : str := flat_map upper_char s.
Definition lower (s : str) : str := map lower_char s.

(** [s.lstrip()], [s.rstrip()], [s.strip()] *)
Fixpoint lstrip (s : str) : str :=
  match s with
  | c :: s' => if is_space c then lstrip s' else s
  | [] => []
  end.

Definition rstrip (s : str) : str := rev (lstrip (rev s)).

Definition strip (s : str) : str := rstrip (lstrip s).

Fixpoint str_eqb (a b : str) : bool :=
  match a, b with
  | [], [] => true
  | x :: a', y :: b' => N.eqb x y && str_eqb a' b'
  | _, _ => false
  end.

(** [s.startswith(p)] *)
Fixpoint startswith (p s : str) : bool :=
  match p, s with
  | [], _ => true
  | a :: p', b :: s' => N.eqb a b && startswith p' s'
  | _ :: _, [] => false
  end.

(** [needle in hay] *)
Fixpoint contains (needle hay : str) : bool :=
  startswith needle hay ||
  match hay with
  | [] => false
  | _ :: hay' => contains needle hay'
  end.

(** [s.count(c)] for a one-character argument: the number of
    occurrences of that character. *)
Definition count_char (c : char) (s : str) : nat :=
  count_occ N.eq_dec s c.

(** [sep.join(parts)] *)
Fixpoint join (sep : str) (parts : list str) : str :=
  match parts with
  | [] => []
  | [p] => p
  | p :: ps => p ++ sep ++ join sep ps
  end.

(** [str(n)] for an integer. *)
Definition str_of_Z (n : Z) : str :=
  py (NilZero.string_of_int (Z.to_int n)).

Definition str_of_nat (n : nat) : str := str_of_Z (Z.of_nat n).

End PyStr.
Import PyStr.

Arguments is_space c : simpl never.
Arguments is_word_char c : simpl never.
Arguments upper_char c : simpl never.

(* ================================================================== *)
(** * The regular expressions of the validator *)
(* ================================================================== *)

(** [validate_sql_query] builds one shape of pattern only,
    [r'\b' + re.escape(command) + r'\b'], and hands it to [re.search].
    [re.escape] leaves a command made of letters as it is, so the pattern
    is a word boundary, the literal text, a word boundary. *)
Module Re.

Definition is_word (c : option char) : bool :=
  match c with
  | Some c => is_word_char c
  | None => false
  end.

(** [\b] between the character before the position and the one after
    it; the ends of the text count as non-word characters. *)
Definition at_boundary (before after : option char) : bool :=
  xorb (is_word before) (is_word after).

(** The literal matched at the head of the text: what follows it, and
    the last character consumed. *)
Fixpoint match_literal (lit : str) (before : option char) (s : str)
  : option (option char * str) :=
  match lit with
  | [] => Some (before, s)
  | a :: lit' =>
      match s with
      | b :: s' => if N.eqb a b then match_literal lit' (Some b) s' else None
      | [] => None
      end
  end.

(** [\b lit \b] matched at the current position. *)
Definition match_here (lit : str) (before : option char) (s : str) : bool :=
  at_boundary before (hd_error s) &&
  match match_literal lit before s with
  | Some (last, rest) => at_boundary last (hd_error rest)
  | None => false
  end.

(** [re.search]: the leftmost position at which the pattern matches. *)
Fixpoint search_from (lit : str) (before : option char) (s : str) : bool :=
  match_here lit before s ||
  match s with
  | [] => false
  | c :: s' => search_from lit (Some c) s'
  end.

Definition search_word (lit : str) (s : str) : bool :=
  search_from lit None s.

End Re.

(* ================================================================== *)
(** * validate_sql_query *)
(* ================================================================== *)

Open Scope string_scope.
Open Scope list_scope.

Definition restricted_commands : list str :=
  map py ["DROP"; "DELETE"; "UPDATE"; "INSERT"; "CREATE"; "ALTER"; "TRUNCATE";
          "GRANT"; "REVOKE"; "FLUSH"; "RESET"; "KILL"; "SHUTDOWN"; "RESTART"].

(** The [for command in restricted_commands] loop: the first command of
    the list whose pattern is found in the normalised query. *)
Definition first_restricted (query_upper : str) : option str :=
  find (fun command => Re.search_word command query_upper) restricted_commands.

Definition command_reason (command : str) : str :=
  py "Command '" ++ command ++ py "' is not allowed for security reasons".

Definition validate_sql_query (query : str) : bool * str :=
  let query_upper := upper (strip query) in
  match first_restricted query_upper with
  | Some command => (false, command_reason command)
  | None =>
      if contains (py ";") query && (1 <? count_char 59%N query)%nat then
        (false, py "Multiple SQL statements are not allowed")
      else if contains (py "--") query || contains (py "/*") query then
        (false, py "SQL comments are not allowed")
      else
        (true, py "Query is allowed")
  end.


(* ================================================================== *)
(** * Python values, dictionaries and exceptions *)
(* ================================================================== *)

(** The values that travel through the server: tool arguments (the
    input schemas admit strings and integers), configuration entries
    (strings, integers, booleans) and database cells, restricted here to
    the same universe. *)
Inductive value :=
| VNone
| VBool (b : bool)
| VInt (n : Z)
| VStr (s : str).

(** A [dict] keeps its keys in insertion order. *)
Definition dict := list (str * value).

(** [d.get(key)] *)
Fixpoint dict_get (d : dict) (key : str) : option value :=
  match d with
  | [] => None
  | (k, v) :: d' => if str_eqb k key then Some v else dict_get d' key
  end.

(** [d.get(key, default)] *)
Definition dict_get_default (d : dict) (key : str) (default : value) : value :=
  match dict_get d key with
  | Some v => v
  | None => default
  end.

(** [d[key] = v]: an existing key keeps its place. *)
Fixpoint dict_set (d : dict) (key : str) (v : value) : dict :=
  match d with
  | [] => [(key, v)]
  | (k, v0) :: d' =>
      if str_eqb k key then (k, v) :: d' else (k, v0) :: dict_set d' key v
  end.

(** [dict(pairs)] *)
Definition dict_of_pairs (pairs : list (str * value)) : dict :=
  fold_left (fun d kv => dict_set d (fst kv) (snd kv)) pairs [].

(** Truth value of an object in a condition. *)
Definition truthy (v : value) : bool :=
  match v with
  | VNone => false
  | VBool b => b
  | VInt n => negb (n =? 0)%Z
  | VStr s => match s with [] => false | _ => true end
  end.

Definition type_name (v : value) : str :=
  match v with
  | VNone => py "NoneType"
  | VBool _ => py "bool"
  | VInt _ => py "int"
  | VStr _ => py "str"
  end.

Definition value_eqb (a b : value) : bool :=
  match a, b with
  | VNone, VNone => true
  | VBool x, VBool y => Bool.eqb x y
  | VInt x, VInt y => (x =? y)%Z
  | VBool x, VInt y | VInt y, VBool x => ((if x then 1 else 0) =? y)%Z
  | VStr x, VStr y => str_eqb x y
  | _, _ => false
  end.

Module Repr.

Definition hex_digit (n : N) : char :=
  nth (N.to_nat n) (py "0123456789abcdef") 48%N.

(** The last [width] hexadecimal digits of [n]. *)
Fixpoint hex (width : nat) (n : N) : str :=
  match width with
  | O => []
  | S width' => hex width' (n / 16) ++ [hex_digit (n mod 16)]
  end.

(** [c.isprintable()] *)
Definition is_printable (c : char) : bool :=
  Unicode.in_ranges c Unicode.printable.

Definition backslash : char := 92%N.
Definition dquote : char := 34%N.
Definition squote : char := 39%N.

(** One character inside the quotes of [repr(s)]: a printable character
    as it is, another one by its escape. *)
Definition repr_char (quote c : char) : str :=
  if N.eqb c backslash then py "\\"
  else if N.eqb c quote then [backslash; quote]
  else if (code c =? 10)%N then py "\n"
  else if (code c =? 13)%N then py "\r"
  else if (code c =? 9)%N then py "\t"
  else if is_printable c then [c]
  else if (code c <? 256)%N then py "\x" ++ hex 2 (code c)
  else if (code c <? 65536)%N then py "\u" ++ hex 4 (code c)
  else py "\U" ++ hex 8 (code c).

Definition has_char (c : char) (s : str) : bool :=
  existsb (N.eqb c) s.

(** [repr(s)]: single quotes, unless the text has a single quote and no
    double quote. *)
Definition repr_str (s : str) : str :=
  let quote :=
    if has_char squote s && negb (has_char dquote s)
    then dquote else squote in
  quote :: flat_map (repr_char quote) s ++ [quote].

Definition repr_value (v : value) : str :=
  match v with
  | VNone => py "None"
  | VBool true => py "True"
  | VBool false => py "False"
  | VInt n => str_of_Z n
  | VStr s => repr_str s
  end.

(** [str(v)], what an f-string prints for [{v}]. *)
Definition str_value (v : value) : str :=
  match v with
  | VStr s => s
  | _ => repr_value v
  end.

Definition repr_dict (d : dict) : str :=
  py "{" ++
  join (py ", ")
       (map (fun kv => repr_str (fst kv) ++ py ": " ++ repr_value (snd kv)) d)
  ++ py "}".

Definition repr_dict_list (ds : list dict) : str :=
  py "[" ++ join (py ", ") (map repr_dict ds) ++ py "]".

(** [f"{x}"] for an optional string: [None] prints as its name. *)
Definition str_opt (o : option str) : str :=
  match o with
  | Some s => s
  | None => py "None"
  end.

End Repr.
Import Repr.

(** Exceptions, all of them subclasses of [Exception]. [MySQLError]
    stands for [mysql.connector.Error] and its subclasses. *)
Inductive exn_class :=
| MySQLError | ValueError | TypeError | AttributeError | KeyError
| UnboundLocalError | RuntimeError | OSError | TimeoutExpired.

Record exn := Exn { class_of : exn_class; exn_str : str }.

Definition is_mysql_error (e : exn) : bool :=
  match class_of e with
  | MySQLError => true
  | _ => false
  end.

Definition unbound_local (name : string) : exn :=
  Exn UnboundLocalError
      (py "cannot access local variable '" ++ py name ++
       py "' where it is not associated with a value").

Inductive result (A : Type) :=
| Ret (a : A)
| Raise (e : exn).
Arguments Ret {A} a.
Arguments Raise {A} e.

(** [int(s)] on a string: optional surrounding whitespace, an optional
    sign, decimal digits of any script with single underscores between
    them. *)
Module PyInt.

(** The whitespace [int] skips: that of [str.strip] without the four
    separators 28 to 31. *)
Definition is_int_space (c : char) : bool :=
  is_space c && negb (in_range 28 31 c).

(** The value of a decimal digit. *)
Fixpoint digit_in (c : char) (zeros : list N) : option N :=
  match zeros with
  | [] => None
  | zero :: rest =>
      if ((zero <=? code c) && (code c <=? zero + 9))%N
      then Some (code c - zero)%N
      else digit_in c rest
  end.

Definition digit_value (c : char) : option N :=
  digit_in c Unicode.decimal_zeros.

Fixpoint lstrip_int (s : str) : str :=
  match s with
  | c :: s' => if is_int_space c then lstrip_int s' else s
  | [] => []
  end.

Definition strip_int (s : str) : str :=
  rev (lstrip_int (rev (lstrip_int s))).

Fixpoint digits (acc : Z) (after_digit : bool) (s : str) : option Z :=
  match s with
  | [] => if after_digit then Some acc else None
  | c :: s' =>
      match digit_value c with
      | Some d => digits (acc * 10 + Z.of_N d) true s'
      | None =>
          if N.eqb c 95 && after_digit then digits acc false s'
          else None
      end
  end.

Definition parse (s : str) : option Z :=
  match strip_int s with
  | c :: d =>
      if N.eqb c 43 then digits 0 false d                          (* + *)
      else if N.eqb c 45 then option_map Z.opp (digits 0 false d)  (* - *)
      else digits 0 false (c :: d)
  | [] => None
  end.

(** The message shows the first 200 characters of [repr(s)]. *)
Definition int (s : str) : result Z :=
  match parse s with
  | Some n => Ret n
  | None =>
      Raise (Exn ValueError
                 (py "invalid literal for int() with base 10: " ++
                  firstn 200 (repr_str s)))
  end.

End PyInt.

(** [os.path.basename]: what follows the last slash. *)
Fixpoint basename_from (cur : str) (s : str) : str :=
  match s with
  | [] => cur
  | c :: s' =>
      if N.eqb c 47 then basename_from [] s'
      else basename_from (cur ++ [c]) s'
  end.

Definition basename (p : str) : str := basename_from [] p.

(* ================================================================== *)
(** * Effects: events, the outside world, and the monad of a frame *)
(* ================================================================== *)

Inductive Level := INFO | WARNING | ERROR.

(** What a call does to the outside, in the order it does it.  An event
    is recorded when the operation is invoked, whether it then succeeds
    or raises. *)
Inductive Event :=
| Log (level : Level) (msg : str)             (* logger.info / warning / error:
                                                 the message, without the traceback
                                                 that exc_info adds *)
| Sleep (seconds : Z)                         (* time.sleep *)
| Popen (cmd : list str)                      (* subprocess.Popen *)
| Communicate                                 (* ssh_proc.communicate *)
| Terminate                                   (* ssh_proc.terminate *)
| Wait                                        (* ssh_proc.wait *)
| Connect (config : dict)                     (* mysql.connector.connect *)
| CursorOpen                                  (* connection.cursor *)
| Execute (operation : str) (params : list value)   (* cursor.execute *)
| FetchAll                                    (* cursor.fetchall *)
| CursorClose                                 (* cursor.close *)
| ConnectionClose                             (* connection.close *)
| OpenFile (path : str).                      (* open(path).read() *)

(** A row as the driver hands it over: a mapping, or a plain tuple. *)
Inductive row :=
| RowDict (d : dict)
| RowTuple (cells : list value).

(** How the environment, the forwarding process, the driver and the file
    system answer during one call.  [None] in an [option exn] means the
    operation went through. *)
Record World := {
  w_getenv : str -> option str;
  w_popen : list str -> option exn;
  w_communicate : result (str * str);
  w_terminate : option exn;
  w_wait : option exn;
  w_connect : nat -> dict -> option exn;      (* by attempt number *)
  w_cursor : option exn;
  w_execute : str -> list value -> option exn;
  w_description : str -> option (list str);   (* after the given operation *)
  w_rowcount : str -> Z;
  w_fetchall : str -> result (list row);
  w_cursor_close : option exn;
  w_connection_close : option exn;
  w_read_file : str -> result str
}.

Record outcome (L A : Type) := Outcome {
  res : result A;
  locals : L;
  events : list Event
}.
Arguments Outcome {L A} res locals events.
Arguments res {L A} o.
Arguments locals {L A} o.
Arguments events {L A} o.

(** A piece of a function body: it runs on the local variables [L] of
    its frame, leaves a result or an exception, and a trace. *)
Definition M (L A : Type) := L -> outcome L A.

Module Monad.

Section Combinators.
Context {L : Type}.

Definition ret {A} (a : A) : M L A := fun l => Outcome (Ret a) l [].

Definition raise {A} (e : exn) : M L A := fun l => Outcome (Raise e) l [].

Definition bind {A B} (m : M L A) (f : A -> M L B) : M L B :=
  fun l =>
    match m l with
    | Outcome (Ret a) l1 t1 =>
        match f a l1 with
        | Outcome r l2 t2 => Outcome r l2 (t1 ++ t2)
        end
    | Outcome (Raise e) l1 t1 => Outcome (Raise e) l1 t1
    end.

Definition emit (ev : Event) : M L unit := fun l => Outcome (Ret tt) l [ev].

Definition get_locals : M L L := fun l => Outcome (Ret l) l [].

Definition set_locals (l' : L) : M L unit := fun _ => Outcome (Ret tt) l' [].

(** An operation of the outside world: recorded, then it goes through
    or raises. *)
Definition perform (ev : Event) (answer : option exn) : M L unit :=
  fun l =>
    match answer with
    | None => Outcome (Ret tt) l [ev]
    | Some e => Outcome (Raise e) l [ev]
    end.

Definition perform_result {A} (ev : Event) (answer : result A) : M L A :=
  fun l => Outcome answer l [ev].

Definition lift_result {A} (r : result A) : M L A := fun l => Outcome r l [].

(** [try: m  except <caught> as e: h e]; an exception of the handler is
    not caught again. *)
Definition try_except {A} (caught : exn -> bool) (m : M L A)
           (h : exn -> M L A) : M L A :=
  fun l =>
    match m l with
    | Outcome (Ret a) l1 t1 => Outcome (Ret a) l1 t1
    | Outcome (Raise e) l1 t1 =>
        if caught e then
          match h e l1 with
          | Outcome r l2 t2 => Outcome r l2 (t1 ++ t2)
          end
        else Outcome (Raise e) l1 t1
    end.

(** [try: m  finally: c]; an exception of [c] replaces what [m] left. *)
Definition try_finally {A} (m : M L A) (c : M L unit) : M L A :=
  fun l =>
    match m l with
    | Outcome r l1 t1 =>
        match c l1 with
        | Outcome (Ret _) l2 t2 => Outcome r l2 (t1 ++ t2)
        | Outcome (Raise e) l2 t2 => Outcome (Raise e) l2 (t1 ++ t2)
        end
    end.

(** A piece of code that runs on the locals [L'] of another frame: a
    function called (its frame starts at [init] and is dropped at the
    end), or the body of a [with] block run while the generator behind
    the context manager is suspended. *)
Definition in_frame {L' A} (init : L') (m : M L' A) : M L A :=
  fun l =>
    match m init with
    | Outcome r _ t => Outcome r l t
    end.

End Combinators.

Definition any_exception (e : exn) : bool := true.

End Monad.
Import Monad.

Declare Scope py_scope.
Delimit Scope py_scope with py.
Notation "x <- m ;; k" := (bind m (fun x => k))
  (at level 61, m at next level, right associativity) : py_scope.
Notation "m ;; k" := (bind m (fun _ => k))
  (at level 61, right associativity) : py_scope.
Open Scope py_scope.

Definition logger_info {L} (msg : str) : M L unit := emit (Log INFO msg).
Definition logger_warning {L} (msg : str) : M L unit := emit (Log WARNING msg).
Definition logger_error {L} (msg : str) : M L unit := emit (Log ERROR msg).

(** The line feed inside a message. *)
Definition nl : str := [10%N].

Record TextContent := { type : str; text : str }.

Record Tool := {
  tool_name : str;
  tool_description : str;
  tool_required : list str
}.

Definition text_block (t : str) : list TextContent :=
  [{| type := py "text"; text := t |}].

(* ================================================================== *)
(** * The server *)
(* ================================================================== *)

Inductive Process := SshProcess.
Inductive Connection := MySQLConnection.
Inductive Cursor := MySQLCursor.

(** Local variables that a [finally] block reads and that may still be
    unbound when it runs. *)
Record TunnelLocals := { ssh_proc : option Process }.
Record HandlerLocals := {
  connection : option Connection;
  cursor : option Cursor
}.

Definition new_tunnel_frame : TunnelLocals := {| ssh_proc := None |}.
Definition new_handler_frame : HandlerLocals :=
  {| connection := None; cursor := None |}.

Definition max_retries : nat := 3.

Definition lines (ls : list string) : str := join nl (map py ls).

Definition schema_query_one : str :=
  lines [""; 
         "                SELECT TABLE_NAME, COLUMN_NAME, DATA_TYPE, IS_NULLABLE, COLUMN_DEFAULT, COLUMN_COMMENT";
         "                FROM information_schema.COLUMNS";
         "                WHERE TABLE_SCHEMA = DATABASE() AND TABLE_NAME = %s";
         "                ORDER BY ORDINAL_POSITION";
         "                "].

Definition schema_query_all : str :=
  lines [""; 
         "                SELECT TABLE_NAME, COLUMN_NAME, DATA_TYPE, IS_NULLABLE, COLUMN_DEFAULT, COLUMN_COMMENT";
         "                FROM information_schema.COLUMNS";
         "                WHERE TABLE_SCHEMA = DATABASE()";
         "                ORDER BY TABLE_NAME, ORDINAL_POSITION";
         "                "].

Definition describe_query (table_name : value) : str :=
  py "DESCRIBE `" ++ str_value table_name ++ py "`".

Definition sample_query (table_name limit : value) : str :=
  py "SELECT * FROM `" ++ str_value table_name ++ py "` LIMIT " ++ str_value limit.

(** [min(v, 20)]: the first argument unless 20 is smaller. *)
Definition min_20 (v : value) : result value :=
  match v with
  | VInt n => Ret (VInt (if (20 <? n)%Z then 20 else n))
  | VBool b => Ret (VBool b)
  | VStr _ | VNone =>
      Raise (Exn TypeError
                 (py "'<' not supported between instances of 'int' and '" ++
                  type_name v ++ py "'"))
  end.

(** [' '.join(parts)] where a part may be [None]. *)
Fixpoint all_str (i : nat) (parts : list (option str)) : result (list str) :=
  match parts with
  | [] => Ret []
  | Some p :: rest =>
      match all_str (S i) rest with
      | Ret ps => Ret (p :: ps)
      | Raise e => Raise e
      end
  | None :: _ =>
      Raise (Exn TypeError
                 (py "sequence item " ++ str_of_nat i ++
                  py ": expected str instance, NoneType found"))
  end.

(** [row[key]] *)
Definition subscript (r : row) (key : string) : result value :=
  match r with
  | RowDict d =>
      match dict_get d (py key) with
      | Some v => Ret v
      | None => Raise (Exn KeyError (repr_str (py key)))
      end
  | RowTuple _ =>
      Raise (Exn TypeError (py "tuple indices must be integers or slices, not str"))
  end.

(** The part of a schema line after the table header. *)
Definition column_line (field type_name null_val default_val comment : value) : str :=
  py "  - " ++ str_value field ++ py ": " ++ str_value type_name ++ py " " ++
  (if value_eqb null_val (VStr (py "NO")) then py "NOT NULL" else py "NULL") ++
  (match default_val with VNone => [] | _ => py " DEFAULT " ++ str_value default_val end) ++
  (if truthy comment then py "  # " ++ str_value comment else []) ++
  nl.

(** The column list of [get_table_sample_tool]. *)
Definition sample_column_line (col : row) : str :=
  let '(field, type_name) :=
    match col with
    | RowDict d =>
        (dict_get_default d (py "Field") (dict_get_default d (py "field") (VStr [])),
         dict_get_default d (py "Type") (dict_get_default d (py "type") (VStr [])))
    | RowTuple cells => (nth 0 cells (VStr []), nth 1 cells (VStr []))
    end in
  py "  - " ++ str_value field ++ py ": " ++ str_value type_name ++ nl.

Fixpoint sample_tuple_cells (column_names : list str) (j : nat) (cells : list value) : str :=
  match cells with
  | [] => []
  | v :: rest =>
      let col_name := nth j column_names (py "col_" ++ str_of_nat j) in
      py "  " ++ col_name ++ py ": " ++ str_value v ++ nl ++
      sample_tuple_cells column_names (S j) rest
  end.

Definition sample_row (description : option (list str)) (i : nat) (r : row) : str :=
  py "Row " ++ str_of_nat i ++ py ":" ++ nl ++
  match r with
  | RowDict d =>
      flat_map (fun kv => py "  " ++ fst kv ++ py ": " ++ str_value (snd kv) ++ nl) d
  | RowTuple cells =>
      let column_names := match description with Some names => names | None => [] end in
      sample_tuple_cells column_names 0 cells
  end.

Fixpoint sample_rows (description : option (list str)) (i : nat) (rows : list row) : str :=
  match rows with
  | [] => []
  | r :: rest => nl ++ sample_row description i r ++ sample_rows description (S i) rest
  end.

Definition sample_text (table_name : value) (description : option (list str))
           (columns rows : list row) : str :=
  py "Table: " ++ str_value table_name ++ nl ++ nl ++
  py "Columns:" ++ nl ++
  flat_map sample_column_line columns ++
  nl ++ py "Sample Data (" ++ str_of_nat (List.length rows) ++ py " rows):" ++ nl ++
  sample_rows description 1 rows.

Section Server.

Variable w : World.

(** [os.getenv(name)], [os.getenv(name, default)] *)
Definition getenv (name : string) : option str := w_getenv w (py name).

Definition getenv_default (name default : string) : str :=
  match getenv name with
  | Some v => v
  | None => py default
  end.

Definition getenv_value (name : string) : value :=
  match getenv name with
  | Some v => VStr v
  | None => VNone
  end.

Definition use_ssh : bool :=
  str_eqb (lower (getenv_default "MYSQL_SSH_ENABLE" "false")) (py "true").

(** [ssh_proc] read in the frame of the context manager. *)
Definition read_ssh_proc : M TunnelLocals Process :=
  l <- get_locals;;
  match ssh_proc l with
  | Some p => ret p
  | None => raise (unbound_local "ssh_proc")
  end.

(** The inner [try] of [maybe_ssh_tunnel]: log subprocess output
    (non-blocking). *)
Definition log_tunnel_output : M TunnelLocals unit :=
  try_except any_exception
    (_ <- read_ssh_proc;;
     out_err <- perform_result Communicate (w_communicate w);;
     (match fst out_err with
      | [] => ret tt
      | out => logger_info (py "maybe_ssh_tunnel: SSH tunnel stdout: " ++ out)
      end);;
     (match snd out_err with
      | [] => ret tt
      | err => logger_info (py "maybe_ssh_tunnel: SSH tunnel stderr: " ++ err)
      end))
    (fun _ => ret tt).

(** The [finally] block of [maybe_ssh_tunnel]. *)
Definition tunnel_release : M TunnelLocals unit :=
  logger_info (py "maybe_ssh_tunnel: Terminating SSH tunnel process.");;
  try_except any_exception
    (_ <- read_ssh_proc;;
     perform Terminate (w_terminate w);;
     _ <- read_ssh_proc;;
     perform Wait (w_wait w);;
     logger_info (py "maybe_ssh_tunnel: SSH tunnel process terminated."))
    (fun e =>
       logger_error (py "maybe_ssh_tunnel: Error terminating SSH tunnel: " ++ exn_str e)).

(** The context manager [maybe_ssh_tunnel], given the body of the [with]
    block that receives what it yields.  An exception of the body is
    thrown into the generator at its [yield]. *)
Definition maybe_ssh_tunnel {A} (body : str -> Z -> M unit A) : M TunnelLocals A :=
  logger_info (py "maybe_ssh_tunnel: use_ssh=" ++ repr_value (VBool use_ssh));;
  if negb use_ssh then
    logger_info (py "maybe_ssh_tunnel: Not using SSH tunnel, connecting directly.");;
    logger_info (py "maybe_ssh_tunnel: host=" ++ getenv_default "MYSQL_HOST" "localhost"
                 ++ py ", port=" ++ getenv_default "MYSQL_PORT" "3306");;
    port <- lift_result (PyInt.int (getenv_default "MYSQL_PORT" "3306"));;
    in_frame tt (body (getenv_default "MYSQL_HOST" "localhost") port)
  else
    let ssh_host := getenv "MYSQL_SSH_HOST" in
    ssh_port <- lift_result (PyInt.int (getenv_default "MYSQL_SSH_PORT" "22"));;
    let ssh_user := getenv "MYSQL_SSH_USER" in
    let ssh_key := getenv "MYSQL_SSH_KEY_PATH" in
    let remote_host := getenv "MYSQL_SSH_REMOTE_HOST" in
    remote_port <- lift_result (PyInt.int (getenv_default "MYSQL_SSH_REMOTE_PORT" "3306"));;
    local_port <- lift_result (PyInt.int (getenv_default "MYSQL_LOCAL_PORT" "3330"));;
    (* Mask SSH key path in logs *)
    let safe_ssh_key :=
      match ssh_key with
      | Some ((_ :: _) as k) => Some (basename k)
      | _ => None
      end in
    logger_info (py "maybe_ssh_tunnel: SSH config: host=" ++ str_opt ssh_host
                 ++ py ", port=" ++ str_of_Z ssh_port
                 ++ py ", user=" ++ str_opt ssh_user
                 ++ py ", key=" ++ str_opt safe_ssh_key
                 ++ py ", remote_host=" ++ str_opt remote_host
                 ++ py ", remote_port=" ++ str_of_Z remote_port
                 ++ py ", local_port=" ++ str_of_Z local_port);;
    (* Build the SSH command *)
    let ssh_cmd :=
      [Some (py "ssh");
       Some (py "-i"); ssh_key;
       Some (py "-N");
       Some (py "-L");
       Some (str_of_Z local_port ++ py ":" ++ str_opt remote_host ++ py ":" ++ str_of_Z remote_port);
       Some (str_opt ssh_user ++ py "@" ++ str_opt ssh_host);
       Some (py "-p"); Some (str_of_Z ssh_port)] in
    cmd <- lift_result (all_str 0 ssh_cmd);;
    logger_info (py "maybe_ssh_tunnel: Starting SSH tunnel with command: " ++ join (py " ") cmd);;
    try_finally
      (try_except any_exception
         (perform (Popen cmd) (w_popen w cmd);;
          set_locals {| ssh_proc := Some SshProcess |};;
          emit (Sleep 1);;  (* Wait for tunnel to be ready *)
          logger_info (py "maybe_ssh_tunnel: SSH tunnel established: 127.0.0.1:"
                       ++ str_of_Z local_port ++ py " -> " ++ str_opt remote_host ++ py ":"
                       ++ str_of_Z remote_port ++ py " via " ++ str_opt ssh_host);;
          log_tunnel_output;;
          in_frame tt (body (py "127.0.0.1") local_port))
         (fun e =>
            logger_error (py "maybe_ssh_tunnel: Error starting SSH tunnel: " ++ exn_str e);;
            raise e))
      tunnel_release.

(** The dictionary [get_db_config] builds before it drops the entries
    that are [None]. *)
Definition env_config : dict :=
  [(py "user", getenv_value "MYSQL_USER");
   (py "password", getenv_value "MYSQL_PASSWORD");
   (py "database", getenv_value "MYSQL_DATABASE");
   (py "charset", VStr (getenv_default "MYSQL_CHARSET" "utf8mb4"));
   (py "collation", VStr (getenv_default "MYSQL_COLLATION" "utf8mb4_unicode_ci"));
   (py "autocommit", VBool true);
   (py "sql_mode", VStr (getenv_default "MYSQL_SQL_MODE" "TRADITIONAL"));
   (py "connect_timeout", VInt 10);
   (py "pool_size", VInt 5);
   (py "pool_reset_session", VBool true)].

Definition is_not_none (v : value) : bool :=
  match v with VNone => false | _ => true end.

Definition get_db_config : M unit dict :=
  let config := env_config in
  (* Remove None values *)
  let config := filter (fun kv => is_not_none (snd kv)) config in
  (* Mask password for logging *)
  let safe_config := config in
  let safe_config :=
    match dict_get safe_config (py "password") with
    | Some _ => dict_set safe_config (py "password") (VStr (py "***"))
    | None => safe_config
    end in
  logger_info (py "get_db_config: config=" ++ repr_dict safe_config);;
  if negb (forallb truthy
             [dict_get_default config (py "user") VNone;
              dict_get_default config (py "password") VNone;
              dict_get_default config (py "database") VNone])
  then
    logger_error (py "Missing required database configuration. Please check environment variables:");;
    logger_error (py "MYSQL_USER, MYSQL_PASSWORD, and MYSQL_DATABASE are required");;
    raise (Exn ValueError (py "Missing required database configuration"))
  else
    ret config.

(** The [for attempt in range(max_retries)] loop of
    [get_database_connection], over the attempts still to make. *)
Fixpoint connect_attempts (pool_config : dict) (attempts : list nat)
  : M unit Connection :=
  match attempts with
  | [] =>
      raise (Exn RuntimeError
                 (py "Failed to establish database connection after all retries"))
  | attempt :: rest =>
      returned <-
        try_except is_mysql_error
          (logger_info (py "get_database_connection: Attempt " ++ str_of_nat (attempt + 1)
                        ++ py " to connect to MySQL");;
           perform (Connect pool_config) (w_connect w attempt pool_config);;
           logger_info (py "get_database_connection: Database connection established successfully");;
           ret (Some MySQLConnection))
          (fun e =>
             logger_warning (py "get_database_connection: Database connection attempt "
                             ++ str_of_nat (attempt + 1) ++ py " failed: " ++ exn_str e);;
             if (attempt <? max_retries - 1)%nat then
               emit (Sleep 1);;
               ret None
             else
               logger_error (py "get_database_connection: All connection attempts failed.");;
               raise e);;
      match returned with
      | Some connection => ret connection
      | None => connect_attempts pool_config rest
      end
  end.

Definition is_pool_key (k : str) : bool :=
  str_eqb k (py "pool_size") || str_eqb k (py "pool_reset_session").

Definition connection_config (config : dict) (host : str) (port : Z) : dict :=
  let config := dict_set config (py "host") (VStr host) in
  let config := dict_set config (py "port") (VInt port) in
  dict_set config (py "auth_plugin") (VStr (py "mysql_native_password")).

Definition get_database_connection (host : str) (port : Z) : M unit Connection :=
  logger_info (py "get_database_connection: Connecting to " ++ host ++ py ":" ++ str_of_Z port);;
  config <- in_frame tt get_db_config;;
  let config := connection_config config host port in
  logger_info (py "get_database_connection: config=" ++ repr_dict config);;
  (* Remove pool-specific settings for single connection *)
  let pool_config := filter (fun kv => negb (is_pool_key (fst kv))) config in
  connect_attempts pool_config (seq 0 max_retries).

(** [cursor.close()] and [connection.close()] in a handler's frame. *)
Definition close_cursor : M HandlerLocals unit :=
  l <- get_locals;;
  match cursor l with
  | Some _ => perform CursorClose (w_cursor_close w)
  | None => raise (unbound_local "cursor")
  end.

Definition close_connection : M HandlerLocals unit :=
  l <- get_locals;;
  match connection l with
  | Some _ => perform ConnectionClose (w_connection_close w)
  | None => raise (unbound_local "connection")
  end.

(** [connection = get_database_connection(host, port)] followed by
    [cursor = connection.cursor(dictionary=True)]. *)
Definition open_connection_and_cursor (host : str) (port : Z) : M HandlerLocals unit :=
  c <- in_frame tt (get_database_connection host port);;
  set_locals {| connection := Some c; cursor := None |};;
  perform CursorOpen (w_cursor w);;
  set_locals {| connection := Some c; cursor := Some MySQLCursor |}.

(** [dict(zip(columns, row))] for a row that is not a mapping. *)
Definition row_as_dict (description : list str) (r : row) : dict :=
  match r with
  | RowDict d => d
  | RowTuple cells => dict_of_pairs (combine description cells)
  end.

(** The [finally] block of [execute_sql_tool]. *)
Definition execute_sql_cleanup : M HandlerLocals unit :=
  try_except any_exception
    (close_cursor;;
     close_connection)
    (fun e =>
       logger_error (py "execute_sql_tool: Error closing cursor/connection: " ++ exn_str e)).

Definition execute_sql_tool (host : str) (port : Z) (arguments : dict)
  : M HandlerLocals (list TextContent) :=
  logger_info (py "execute_sql_tool: host=" ++ host ++ py ", port=" ++ str_of_Z port
               ++ py ", arguments=" ++ repr_dict arguments);;
  query <- match dict_get_default arguments (py "query") (VStr []) with
           | VStr s => ret (strip s)
           | v => raise (Exn AttributeError
                             (py "'" ++ type_name v ++ py "' object has no attribute 'strip'"))
           end;;
  match query with
  | [] => ret (text_block (py "No SQL query provided"))
  | _ =>
  (* Validate query *)
  let '(is_allowed, reason) := validate_sql_query query in
  if negb is_allowed then
    ret (text_block (py "Query not allowed: " ++ reason))
  else
    try_finally
      (try_except any_exception
         (open_connection_and_cursor host port;;
          logger_info (py "execute_sql_tool: About to execute query: " ++ query);;
          perform (Execute query []) (w_execute w query []);;
          logger_info (py "execute_sql_tool: Query executed successfully, about to fetch results.");;
          match w_description w query with
          | Some ((_ :: _) as description) =>
              results <- perform_result FetchAll (w_fetchall w query);;
              logger_info (py "execute_sql_tool: Results fetched, "
                           ++ str_of_nat (List.length results) ++ py " rows.");;
              match results with
              | _ :: _ =>
                  (* Format results nicely *)
                  let formatted_results := map (row_as_dict description) results in
                  logger_info (py "execute_sql_tool: Returning formatted results.");;
                  ret (text_block (py "Query executed successfully. Results:" ++ nl
                                   ++ repr_dict_list formatted_results))
              | [] =>
                  logger_info (py "execute_sql_tool: Query executed, no results returned.");;
                  ret (text_block (py "Query executed successfully. No results returned."))
              end
          | _ =>
              logger_info (py "execute_sql_tool: Query executed, no result set. Rows affected: "
                           ++ str_of_Z (w_rowcount w query));;
              ret (text_block (py "Query executed successfully. Rows affected: "
                               ++ str_of_Z (w_rowcount w query)))
          end)
         (fun e =>
            if is_mysql_error e then
              logger_error (py "execute_sql_tool: SQL execution error: " ++ exn_str e);;
              ret (text_block (py "SQL error: " ++ exn_str e))
            else
              logger_error (py "execute_sql_tool: Unexpected error: " ++ exn_str e);;
              ret (text_block (py "Unexpected error: " ++ exn_str e))))
      execute_sql_cleanup
  end.

(** The loop over the columns of one table. *)
Fixpoint schema_lines_one (columns : list row) (result : str) : M HandlerLocals str :=
  match columns with
  | [] => ret result
  | col :: rest =>
      field <- lift_result (subscript col "COLUMN_NAME");;
      type_name <- lift_result (subscript col "DATA_TYPE");;
      null_val <- lift_result (subscript col "IS_NULLABLE");;
      default_val <- lift_result (subscript col "COLUMN_DEFAULT");;
      comment <- lift_result (subscript col "COLUMN_COMMENT");;
      schema_lines_one rest
        (result ++ column_line field type_name null_val default_val comment)
  end.

(** The loop over the columns of all tables; a header is written when
    the table name changes. *)
Fixpoint schema_lines_all (columns : list row) (last_table : value) (result : str)
  : M HandlerLocals str :=
  match columns with
  | [] => ret result
  | col :: rest =>
      tname <- lift_result (subscript col "TABLE_NAME");;
      field <- lift_result (subscript col "COLUMN_NAME");;
      type_name <- lift_result (subscript col "DATA_TYPE");;
      null_val <- lift_result (subscript col "IS_NULLABLE");;
      default_val <- lift_result (subscript col "COLUMN_DEFAULT");;
      comment <- lift_result (subscript col "COLUMN_COMMENT");;
      let changed := negb (value_eqb tname last_table) in
      let result :=
        if changed
        then result ++ nl ++ py "Table: " ++ str_value tname ++ nl ++ py "Columns:" ++ nl
        else result in
      schema_lines_all rest (if changed then tname else last_table)
        (result ++ column_line field type_name null_val default_val comment)
  end.

(** The cleanup of [get_schema_info_tool] and [get_table_sample_tool]:
    a bare [except: pass]. *)
Definition close_quietly : M HandlerLocals unit :=
  try_except any_exception
    (close_cursor;;
     close_connection)
    (fun _ => ret tt).

Definition get_schema_info_tool (host : str) (port : Z) (arguments : dict)
  : M HandlerLocals (list TextContent) :=
  logger_info (py "get_schema_info_tool: host=" ++ host ++ py ", port=" ++ str_of_Z port
               ++ py ", arguments=" ++ repr_dict arguments);;
  let table_name := dict_get_default arguments (py "table_name") VNone in
  try_finally
    (try_except is_mysql_error
       (open_connection_and_cursor host port;;
        if truthy table_name then
          (* Get schema for a specific table *)
          perform (Execute schema_query_one [table_name])
                  (w_execute w schema_query_one [table_name]);;
          columns <- perform_result FetchAll (w_fetchall w schema_query_one);;
          result <- schema_lines_one columns
                      (py "Table: " ++ str_value table_name ++ nl ++ py "Columns:" ++ nl);;
          ret (text_block result)
        else
          (* Get schema for all tables *)
          perform (Execute schema_query_all []) (w_execute w schema_query_all []);;
          columns <- perform_result FetchAll (w_fetchall w schema_query_all);;
          result <- schema_lines_all columns VNone (py "Database Schema (all tables):" ++ nl);;
          ret (text_block result))
       (fun e =>
          logger_error (py "Schema info error: " ++ exn_str e);;
          ret (text_block (py "Schema error: " ++ exn_str e))))
    close_quietly.

Definition get_table_sample_tool (host : str) (port : Z) (arguments : dict)
  : M HandlerLocals (list TextContent) :=
  logger_info (py "get_table_sample_tool: host=" ++ host ++ py ", port=" ++ str_of_Z port
               ++ py ", arguments=" ++ repr_dict arguments);;
  let table_name := dict_get_default arguments (py "table_name") VNone in
  limit <- lift_result (min_20 (dict_get_default arguments (py "limit") (VInt 5)));;  (* Max 20 rows *)
  if negb (truthy table_name) then
    ret (text_block (py "Table name is required"))
  else
    try_finally
      (try_except is_mysql_error
         (open_connection_and_cursor host port;;
          (* Get table structure *)
          perform (Execute (describe_query table_name) [])
                  (w_execute w (describe_query table_name) []);;
          columns <- perform_result FetchAll (w_fetchall w (describe_query table_name));;
          (* Get sample data *)
          perform (Execute (sample_query table_name limit) [])
                  (w_execute w (sample_query table_name limit) []);;
          rows <- perform_result FetchAll (w_fetchall w (sample_query table_name limit));;
          ret (text_block
                 (sample_text table_name
                    (w_description w (sample_query table_name limit)) columns rows)))
         (fun e =>
            logger_error (py "Table sample error: " ++ exn_str e);;
            ret (text_block (py "Table sample error: " ++ exn_str e))))
      close_quietly.

Definition generic_error : list TextContent :=
  text_block (py "An error occurred while opening tunnels.").

(** [list_tools]: the four tools, with the arguments each schema
    requires. *)
Definition list_tools : M unit (list Tool) :=
  logger_info (py "Listing tools...");;
  ret [ {| tool_name := py "execute_sql";
           tool_description := py "Execute an SQL query on the MySQL server";
           tool_required := [py "query"] |};
        {| tool_name := py "get_schema_info";
           tool_description :=
             py "Get comprehensive schema information including table descriptions and relationships";
           tool_required := [] |};
        {| tool_name := py "get_table_sample";
           tool_description :=
             py "Get a sample of data from a specific table with column descriptions";
           tool_required := [py "table_name"] |};
        {| tool_name := py "get_reference_doc";
           tool_description := py "Get the MCP use case and query reference documentation.";
           tool_required := [] |} ].

(** The body of the [with maybe_ssh_tunnel() as (host, port)] block of
    [call_tool]. *)
Definition call_tool_body (name : str) (arguments : dict) (host : str) (port : Z)
  : M unit (list TextContent) :=
  logger_info (py "call_tool: Tunnel established, host=" ++ host
               ++ py ", port=" ++ str_of_Z port);;
  if str_eqb name (py "execute_sql") then
    logger_info (py "call_tool: Executing execute_sql_tool");;
    in_frame new_handler_frame (execute_sql_tool host port arguments)
  else if str_eqb name (py "get_schema_info") then
    logger_info (py "call_tool: Executing get_schema_info_tool");;
    in_frame new_handler_frame (get_schema_info_tool host port arguments)
  else if str_eqb name (py "get_table_sample") then
    logger_info (py "call_tool: Executing get_table_sample_tool");;
    in_frame new_handler_frame (get_table_sample_tool host port arguments)
  else if str_eqb name (py "get_reference_doc") then
    logger_info (py "call_tool: Reading MCP_USECASES.md");;
    try_except any_exception
      (doc <- perform_result (OpenFile (py "MCP_USECASES.md"))
                             (w_read_file w (py "MCP_USECASES.md"));;
       ret (text_block doc))
      (fun e =>
         logger_error (py "Failed to read MCP_USECASES.md: " ++ exn_str e);;
         ret (text_block (py "Reference documentation not available.")))
  else
    logger_error (py "call_tool: Unknown tool: " ++ name);;
    ret (text_block (py "Unknown tool: " ++ name)).

(** The [with] block of [call_tool] as a whole: the context manager
    entered in its own frame, around the body. *)
Definition call_tool_with (name : str) (arguments : dict)
  : M unit (list TextContent) :=
  in_frame new_tunnel_frame (maybe_ssh_tunnel (call_tool_body name arguments)).

Definition call_tool (name : str) (arguments : dict) : M unit (list TextContent) :=
  logger_info (py "call_tool: name=" ++ name ++ py ", arguments=" ++ repr_dict arguments);;
  try_except any_exception
    (call_tool_with name arguments)
    (fun e =>
       logger_error (py "Tool execution failed: " ++ exn_str e);;
       ret generic_error).

End Server.

(** One call, from the empty frame of [call_tool]. *)
Definition run_call (w : World) (name : str) (arguments : dict)
  : outcome unit (list TextContent) :=
  call_tool w name arguments tt.

(* ================================================================== *)
(** * The rest of the module: port probing and start-up *)
(* ================================================================== *)

(** [range(start, stop)] *)
Definition py_range (start stop : Z) : list Z :=
  map (fun i => (start + Z.of_nat i)%Z) (seq 0 (Z.to_nat (stop - start))).

Definition is_os_error (e : exn) : bool :=
  match class_of e with
  | OSError => true
  | _ => false
  end.

(** The loop of [find_free_port] over the ports still to probe.  [bind]
    tells how creating a socket and binding it to 127.0.0.1 and the port
    answers; the ports probed are returned with the result, in order. *)
Fixpoint probe_ports (bind : Z -> option exn) (max_attempts : Z) (ports : list Z)
  : result Z * list Z :=
  match ports with
  | [] =>
      (Raise (Exn RuntimeError
                  (py "Could not find a free port after " ++ str_of_Z max_attempts
                   ++ py " attempts")),
       [])
  | port :: rest =>
      match bind port with
      | None => (Ret port, [port])
      | Some e =>
          if is_os_error e then
            let '(r, probed) := probe_ports bind max_attempts rest in
            (r, port :: probed)
          else (Raise e, [port])
      end
  end.

Definition find_free_port (bind : Z -> option exn) (start_port max_attempts : Z)
  : result Z * list Z :=
  probe_ports bind max_attempts (py_range start_port (start_port + max_attempts)).

(** [d[key]] on a dictionary. *)
Definition dict_subscript (d : dict) (key : string) : result value :=
  match dict_get d (py key) with
  | Some v => Ret v
  | None => Raise (Exn KeyError (repr_str (py key)))
  end.

(** [main], given what serving over the standard streams does once the
    configuration is read. *)
Definition main (w : World) (serve : M unit unit) : M unit unit :=
  logger_info (py "Starting MySQL MCP server...");;
  try_except any_exception
    ((* Test configuration early *)
     config <- in_frame tt (get_db_config w);;
     let host := match dict_get config (py "host") with
                 | Some _ => dict_subscript config "host"
                 | None => Ret (VStr (py "SSH tunnel"))
                 end in
     host <- lift_result host;;
     database <- lift_result (dict_subscript config "database");;
     user <- lift_result (dict_subscript config "user");;
     logger_info (py "Database config: " ++ str_value host ++ py "/"
                  ++ str_value database ++ py " as " ++ str_value user);;
     serve)
    (fun e =>
       logger_error (py "Server startup failed: " ++ exn_str e);;
       raise e).

(* ================================================================== *)
(** * The vocabulary of the specification *)
(* ================================================================== *)

Module Spec.

(** The last character of a text, if it has one. *)
Definition last_char (s : str) : option char := last (map Some s) None.

(** [word] stands in [s] between two places that are an end of the text
    or a character that is not a word character. *)
Definition occurs_as_word (word s : str) : Prop :=
  exists pre post,
    s = pre ++ word ++ post /\
    Re.is_word (last_char pre) = false /\
    Re.is_word (hd_error post) = false.

(** [keyword] stands in [query] as a whole word, in any mix of upper
    and lower case. *)
Definition whole_word_in (keyword query : str) : Prop :=
  exists pre mid post,
    query = pre ++ mid ++ post /\
    upper mid = keyword /\
    Re.is_word (last_char pre) = false /\
    Re.is_word (hd_error post) = false.

(** A character whose upper-case form is one character, a word
    character exactly when the character is one.  The ASCII characters
    are of this kind; the German sharp s (two letters in upper case) and
    the combining iota U+0345 (upper case the letter U+0399) are not. *)
Definition plain (c : char) : bool :=
  match upper_char c with
  | [u] => Bool.eqb (is_word_char u) (is_word_char c)
  | _ => false
  end.

Definition plain_text (s : str) : Prop :=
  Forall (fun c => plain c = true) s.

Definition ascii_text (s : str) : Prop :=
  Forall (fun c => (code c < 128)%N) s.

(** The first character of the upper-case form. *)
Definition upper_one (c : char) : char := hd c (upper_char c).

(** The ways of cutting a text in two. *)
Fixpoint cuts (s : str) : list (str * str) :=
  ([], s) ::
  match s with
  | [] => []
  | c :: s' => map (fun p => (c :: fst p, snd p)) (cuts s')
  end.

(** [whole_word_in], decided by trying every part of the query. *)
Definition whole_word_inb (keyword query : str) : bool :=
  existsb
    (fun p =>
       negb (Re.is_word (last_char (fst p))) &&
       existsb
         (fun r =>
            str_eqb (upper (fst r)) keyword &&
            negb (Re.is_word (hd_error (snd r))))
         (cuts (snd p)))
    (cuts query).

(** [sub] stands somewhere in [s]. *)
Definition has_substring (sub s : str) : Prop :=
  exists pre post, s = pre ++ sub ++ post.

(** The names [list_tools] announces. *)
Definition tool_names : list str :=
  match res (list_tools tt) with
  | Ret tools => map tool_name tools
  | Raise _ => []
  end.

(** A result made of exactly one text block. *)
Definition one_text_block (r : list TextContent) : Prop :=
  exists block, r = [block].

Definition whitespace_only (s : str) : Prop :=
  Forall (fun c => is_space c = true) s.

(** The commands listed before [k] in the denylist. *)
Definition listed_before (j k : str) : Prop :=
  exists l1 l2 l3, restricted_commands = l1 ++ j :: l2 ++ k :: l3.

(** The shape of a denylisted command: capital letters, at least one. *)
Definition command_word (k : str) : Prop :=
  k <> [] /\ Forall (fun c => is_upper c = true) k.

End Spec.
Import Spec.

(* ================================================================== *)
(** * Properties of traces and of pieces of code *)
(* ================================================================== *)

Module Trace.

Definition is_connect (ev : Event) : bool :=
  match ev with Connect _ => true | _ => false end.

Definition is_sleep (ev : Event) : bool :=
  match ev with Sleep _ => true | _ => false end.

Definition is_popen (ev : Event) : bool :=
  match ev with Popen _ => true | _ => false end.

Definition is_terminate (ev : Event) : bool :=
  match ev with Terminate => true | _ => false end.

Definition is_cursor_open (ev : Event) : bool :=
  match ev with CursorOpen => true | _ => false end.

Definition is_cursor_close (ev : Event) : bool :=
  match ev with CursorClose => true | _ => false end.

Definition is_connection_close (ev : Event) : bool :=
  match ev with ConnectionClose => true | _ => false end.

Definition is_log (ev : Event) : bool :=
  match ev with Log _ _ => true | _ => false end.

Definition is_error_log (ev : Event) : bool :=
  match ev with Log ERROR _ => true | _ => false end.

(** An operation on the driver, a connection or a cursor. *)
Definition touches_database (ev : Event) : bool :=
  match ev with
  | Connect _ | CursorOpen | Execute _ _ | FetchAll | CursorClose
  | ConnectionClose => true
  | _ => false
  end.

(** A sign that [get_database_connection] ran: it logs under its own
    name before anything else, as does [get_db_config] which it calls,
    and it is the only caller of the driver's connect. *)
Definition from_connection_factory (ev : Event) : bool :=
  match ev with
  | Connect _ => true
  | Log _ msg =>
      startswith (py "get_database_connection:") msg ||
      startswith (py "get_db_config:") msg
  | _ => false
  end.

(** Neither a sign of the connection factory nor an operation on the
    database. *)
Definition outside_factory (ev : Event) : bool :=
  negb (from_connection_factory ev) && negb (touches_database ev).

(** What the logging of the forwarding process's output does. *)
Definition output_event (ev : Event) : bool :=
  match ev with
  | Log _ _ | Communicate => true
  | _ => false
  end.

(** What the context manager does itself. *)
Definition tunnel_event (ev : Event) : bool :=
  match ev with
  | Log _ _ | Sleep _ | Popen _ | Communicate | Terminate | Wait => true
  | _ => false
  end.

(** What the connection factory does. *)
Definition factory_event (ev : Event) : bool :=
  match ev with
  | Log _ _ | Sleep _ | Connect _ => true
  | _ => false
  end.

(** What a handler does to obtain its connection and its cursor. *)
Definition opening_event (ev : Event) : bool :=
  match ev with
  | Log _ _ | Sleep _ | Connect _ | CursorOpen => true
  | _ => false
  end.

(** What the cleanup of a handler does. *)
Definition closing_event (ev : Event) : bool :=
  match ev with
  | Log _ _ | CursorClose | ConnectionClose => true
  | _ => false
  end.

(** What a handler does between obtaining its cursor and its cleanup. *)
Definition query_event (ev : Event) : bool :=
  match ev with
  | Log _ _ | Execute _ _ | FetchAll => true
  | _ => false
  end.

(** What a handler may do in all. *)
Definition handler_event (ev : Event) : bool :=
  match ev with
  | Log _ _ | Sleep _ | Connect _ | CursorOpen | Execute _ _ | FetchAll
  | CursorClose | ConnectionClose | OpenFile _ => true
  | _ => false
  end.

(** Anything but an operation on the database. *)
Definition away_from_database (ev : Event) : bool := negb (touches_database ev).

(** The line [execute_sql_tool] logs on entry. *)
Definition execute_sql_entry_log (host : str) (port : Z) (arguments : dict) : Event :=
  Log INFO (py "execute_sql_tool: host=" ++ host ++ py ", port=" ++ str_of_Z port
            ++ py ", arguments=" ++ repr_dict arguments).

(** An event that, if it submits a statement, submits the DESCRIBE of
    the table or its SELECT with the given limit. *)
Definition sample_statement (table_name : value) (limit : Z) (ev : Event) : bool :=
  match ev with
  | Execute op _ =>
      str_eqb op (describe_query table_name) ||
      str_eqb op (sample_query table_name (VInt limit))
  | _ => true
  end.

Definition is_none {A} (o : option A) : bool :=
  match o with None => true | Some _ => false end.

(** One for a local variable that is bound, zero for one that is not. *)
Definition bound {A} (o : option A) : nat :=
  match o with Some _ => 1%nat | None => 0%nat end.

(** A launch of the forwarding process that went through. *)
Definition launched (w : World) (ev : Event) : bool :=
  match ev with
  | Popen cmd => is_none (w_popen w cmd)
  | _ => false
  end.

(** A request for a cursor that went through. *)
Definition cursor_obtained (w : World) (ev : Event) : bool :=
  is_cursor_open ev && is_none (w_cursor w).

(** The events that open or close the scope of a cursor. *)
Definition cursor_scope_event (ev : Event) : bool :=
  is_cursor_open ev || is_cursor_close ev || is_connection_close ev.

(** The events that open or close the scope of the tunnel. *)
Definition tunnel_scope_event (ev : Event) : bool :=
  is_popen ev || is_terminate ev.

Definition count_events (p : Event -> bool) (t : list Event) : nat :=
  List.length (filter p t).

(** The connect attempts and the pauses of a trace, in order. *)
Definition attempts_and_sleeps (t : list Event) : list Event :=
  filter (fun ev => is_connect ev || is_sleep ev) t.

(** The messages logged, in order. *)
Definition messages (t : list Event) : list str :=
  flat_map (fun ev => match ev with Log _ msg => [msg] | _ => [] end) t.

End Trace.
Import Trace.

Module Logic.

Section Predicates.
Context {L A : Type}.

(** Every event of [m] satisfies [P], from whatever locals it starts. *)
Definition emits (P : Event -> bool) (m : M L A) : Prop :=
  forall l, forallb P (events (m l)) = true.

(** [m] leaves the local variables as it found them. *)
Definition keeps_locals (m : M L A) : Prop :=
  forall l, locals (m l) = l.

(** A value [m] returns satisfies [R]. *)
Definition returns (R : A -> Prop) (m : M L A) : Prop :=
  forall l a, res (m l) = Ret a -> R a.

Definition never_raises (m : M L A) : Prop :=
  forall l, exists a, res (m l) = Ret a.

(** [m] emits as many events of [p] as of [q]. *)
Definition balanced (p q : Event -> bool) (m : M L A) : Prop :=
  forall l, count_events p (events (m l)) = count_events q (events (m l)).

(** Same result or exception and same locals; the traces may differ. *)
Definition same_result (m1 m2 : M L A) : Prop :=
  forall l, res (m1 l) = res (m2 l) /\ locals (m1 l) = locals (m2 l).

End Predicates.

End Logic.
Import Logic.

(** The world [w] with other answers to the release operations. *)
Definition with_release_outcomes (w : World)
           (terminate wait cursor_close connection_close : option exn) : World :=
  {| w_getenv := w_getenv w;
     w_popen := w_popen w;
     w_communicate := w_communicate w;
     w_terminate := terminate;
     w_wait := wait;
     w_connect := w_connect w;
     w_cursor := w_cursor w;
     w_execute := w_execute w;
     w_description := w_description w;
     w_rowcount := w_rowcount w;
     w_fetchall := w_fetchall w;
     w_cursor_close := cursor_close;
     w_connection_close := connection_close;
     w_read_file := w_read_file w |}.

(* ================================================================== *)
(** * Vocabulary for the configuration, the targets and the statements *)
(* ================================================================== *)

Module Observed.

(** The variable is set in the environment, and not to the empty text. *)
Definition env_given (w : World) (name : string) : bool :=
  match getenv w name with
  | Some (_ :: _) => true
  | _ => false
  end.

(** The three variables [get_db_config] insists on. *)
Definition credentials_given (w : World) : bool :=
  env_given w "MYSQL_USER" && env_given w "MYSQL_PASSWORD" &&
  env_given w "MYSQL_DATABASE".

(** The same object, not merely an equal one in the sense of [==]. *)
Definition same_value (a b : value) : bool :=
  match a, b with
  | VNone, VNone => true
  | VBool x, VBool y => Bool.eqb x y
  | VInt x, VInt y => (x =? y)%Z
  | VStr x, VStr y => str_eqb x y
  | _, _ => false
  end.

Fixpoint same_dict (a b : dict) : bool :=
  match a, b with
  | [], [] => true
  | (k, v) :: a', (k', v') :: b' => str_eqb k k' && same_value v v' && same_dict a' b'
  | _, _ => false
  end.

Fixpoint same_values (a b : list value) : bool :=
  match a, b with
  | [], [] => true
  | v :: a', v' :: b' => same_value v v' && same_values a' b'
  | _, _ => false
  end.

(** An event that, if it is a connect, hands [config] to the driver. *)
Definition connects_with (config : dict) (ev : Event) : bool :=
  match ev with
  | Connect c => same_dict c config
  | _ => true
  end.

(** An event that, if it submits a statement, submits [operation] with
    the parameters [params]. *)
Definition submits (operation : str) (params : list value) (ev : Event) : bool :=
  match ev with
  | Execute op ps => str_eqb op operation && same_values ps params
  | _ => true
  end.

(** An event that, if it submits a statement, submits one that the
    validator allows, without parameters. *)
Definition submits_allowed (ev : Event) : bool :=
  match ev with
  | Execute op ps => fst (validate_sql_query op) && same_values ps []
  | _ => true
  end.


Definition is_open_file (ev : Event) : bool :=
  match ev with OpenFile _ => true | _ => false end.

Definition is_warning_log (ev : Event) : bool :=
  match ev with Log WARNING _ => true | _ => false end.

(** Logging only. *)
Definition only_logs (t : list Event) : Prop := forallb is_log t = true.

(** Anything but the launch, the polling and the termination of a
    forwarding process, and the pause that follows a launch. *)
Definition no_process_event (ev : Event) : bool :=
  match ev with
  | Popen _ | Communicate | Terminate | Wait => false
  | _ => true
  end.

(** Neither an operation on the database nor one on a forwarding
    process nor a file read: logging and pauses. *)
Definition idle_event (ev : Event) : bool :=
  match ev with
  | Log _ _ | Sleep _ => true
  | _ => false
  end.

(** The line the dispatcher logs for a name it does not know. *)
Definition unknown_tool_log (name : str) : Event :=
  Log ERROR (py "call_tool: Unknown tool: " ++ name).

Definition is_unknown_tool_log (ev : Event) : bool :=
  match ev with
  | Log ERROR msg => startswith (py "call_tool: Unknown tool: ") msg
  | _ => false
  end.

(** Anything but the launch of a forwarding process. *)
Definition no_launch_event (ev : Event) : bool := negb (is_popen ev).

(** Anything but the line for an unknown tool. *)
Definition known_tool_event (ev : Event) : bool := negb (is_unknown_tool_log ev).

(** What [maybe_ssh_tunnel] hands to the body of the [with] block: the
    loopback address and MYSQL_LOCAL_PORT when tunnelling, MYSQL_HOST and
    MYSQL_PORT otherwise. *)
Definition yielded_host (w : World) : str :=
  if use_ssh w then py "127.0.0.1" else getenv_default w "MYSQL_HOST" "localhost".

Definition yielded_port (w : World) : result Z :=
  if use_ssh w then PyInt.int (getenv_default w "MYSQL_LOCAL_PORT" "3330")
  else PyInt.int (getenv_default w "MYSQL_PORT" "3306").

(** An event that, if it is a connect, targets the host and the port
    given. *)
Definition connects_to (host : str) (port : Z) (ev : Event) : bool :=
  match ev with
  | Connect c =>
      match dict_get c (py "host"), dict_get c (py "port") with
      | Some h, Some p => same_value h (VStr host) && same_value p (VInt port)
      | _, _ => false
      end
  | _ => true
  end.

(** An event that, if it is a connect, targets what the tunnel manager
    yields; no connect at all when its port is not a number. *)
Definition connects_to_yielded (w : World) (ev : Event) : bool :=
  match yielded_port w with
  | Ret port => connects_to (yielded_host w) port ev
  | Raise _ => negb (is_connect ev)
  end.

(** The exception [get_db_config] raises. *)
Definition missing_configuration : exn :=
  Exn ValueError (py "Missing required database configuration").

(** A text block whose text starts with one of the given openings. *)
Definition text_opens_with (openings : list string) (r : list TextContent) : Prop :=
  exists t,
    r = text_block t /\
    existsb (fun opening => startswith (py opening) t) openings = true.

End Observed.
Import Observed.

(* ================================================================== *)
(** * Worlds to run the server in *)
(* ================================================================== *)

Module Scenario.

Definition env_of (bindings : list (string * string)) (name : str) : option str :=
  match find (fun kv => str_eqb (py (fst kv)) name) bindings with
  | Some kv => Some (py (snd kv))
  | None => None
  end.

Definition credentials : list (string * string) :=
  [("MYSQL_USER", "app"); ("MYSQL_PASSWORD", "hunter2"); ("MYSQL_DATABASE", "shop")].

Definition tunnel_settings : list (string * string) :=
  [("MYSQL_SSH_ENABLE", "true"); ("MYSQL_SSH_HOST", "bastion");
   ("MYSQL_SSH_USER", "deploy"); ("MYSQL_SSH_KEY_PATH", "/home/deploy/.ssh/id_rsa");
   ("MYSQL_SSH_REMOTE_HOST", "db.internal")].

Definition driver_error : exn :=
  Exn MySQLError (py "2003 (HY000): Can't connect to MySQL server on '127.0.0.1:3306'").

Definition launch_error : exn :=
  Exn OSError (py "[Errno 2] No such file or directory: 'ssh'").

Definition close_error : exn :=
  Exn MySQLError (py "2055: Lost connection to MySQL server").

Definition orders_columns : list row :=
  [RowDict [(py "Field", VStr (py "id")); (py "Type", VStr (py "int"))];
   RowDict [(py "Field", VStr (py "item")); (py "Type", VStr (py "varchar(40)"))]].

Definition orders_rows : list row :=
  [RowDict [(py "id", VInt 1); (py "item", VStr (py "tea"))];
   RowDict [(py "id", VInt 2); (py "item", VStr (py "rice"))];
   RowDict [(py "id", VInt 3); (py "item", VStr (py "salt"))]].

(** A database with one table [orders] of three rows, reached with the
    given environment; every operation goes through, and the forwarding
    process, when there is one, keeps running (so [communicate] times
    out). *)
Definition healthy (env : list (string * string)) : World :=
  {| w_getenv := env_of env;
     w_popen := fun _ => None;
     w_communicate := Raise (Exn TimeoutExpired (py "Command 'ssh' timed out after 0.1 seconds"));
     w_terminate := None;
     w_wait := None;
     w_connect := fun _ _ => None;
     w_cursor := None;
     w_execute := fun _ _ => None;
     w_description := fun _ => Some [py "id"; py "item"];
     w_rowcount := fun _ => (-1)%Z;
     w_fetchall := fun op =>
       if str_eqb op (describe_query (VStr (py "orders"))) then Ret orders_columns
       else if startswith (py "SELECT * FROM `orders` LIMIT ") op then Ret orders_rows
       else Ret [];
     w_cursor_close := None;
     w_connection_close := None;
     w_read_file := fun _ => Ret (py "# Use cases") |}.

(** The same world with other answers from the driver's connect. *)
Definition with_connect (w : World) (connect : nat -> dict -> option exn) : World :=
  {| w_getenv := w_getenv w;
     w_popen := w_popen w;
     w_communicate := w_communicate w;
     w_terminate := w_terminate w;
     w_wait := w_wait w;
     w_connect := connect;
     w_cursor := w_cursor w;
     w_execute := w_execute w;
     w_description := w_description w;
     w_rowcount := w_rowcount w;
     w_fetchall := w_fetchall w;
     w_cursor_close := w_cursor_close w;
     w_connection_close := w_connection_close w;
     w_read_file := w_read_file w |}.

(** The same world where no forwarding process can be launched. *)
Definition with_failing_launch (w : World) (e : exn) : World :=
  {| w_getenv := w_getenv w;
     w_popen := fun _ => Some e;
     w_communicate := w_communicate w;
     w_terminate := w_terminate w;
     w_wait := w_wait w;
     w_connect := w_connect w;
     w_cursor := w_cursor w;
     w_execute := w_execute w;
     w_description := w_description w;
     w_rowcount := w_rowcount w;
     w_fetchall := w_fetchall w;
     w_cursor_close := w_cursor_close w;
     w_connection_close := w_connection_close w;
     w_read_file := w_read_file w |}.

Definition direct : World := healthy credentials.

Definition tunnelled : World := healthy (credentials ++ tunnel_settings).

(** The database comes up at the third attempt. *)
Definition slow_start : World :=
  with_connect direct (fun attempt _ => if (attempt <? 2)%nat then Some driver_error else None).

(** The database never answers. *)
Definition unreachable : World :=
  with_connect direct (fun _ _ => Some driver_error).

Definition no_ssh_binary : World := with_failing_launch tunnelled launch_error.

(** Closing the cursor fails. *)
Definition cursor_close_fails : World :=
  with_release_outcomes direct None None (Some close_error) None.

(** The connection is there, and hands out no cursor. *)
Definition cursor_error : exn :=
  Exn MySQLError (py "2013: Lost connection to MySQL server during query").

Definition with_cursor (w : World) (cursor : option exn) : World :=
  {| w_getenv := w_getenv w;
     w_popen := w_popen w;
     w_communicate := w_communicate w;
     w_terminate := w_terminate w;
     w_wait := w_wait w;
     w_connect := w_connect w;
     w_cursor := cursor;
     w_execute := w_execute w;
     w_description := w_description w;
     w_rowcount := w_rowcount w;
     w_fetchall := w_fetchall w;
     w_cursor_close := w_cursor_close w;
     w_connection_close := w_connection_close w;
     w_read_file := w_read_file w |}.

Definition no_cursor : World := with_cursor direct (Some cursor_error).





(** No credentials in the environment. *)
Definition no_credentials : World := healthy [].

(** MYSQL_PORT is not a number. *)
Definition bad_port : World := healthy (credentials ++ [("MYSQL_PORT", "mysql")]).

(** Tunnelling is asked for, without a key. *)
Definition tunnel_without_key : World :=
  healthy (credentials ++ [("MYSQL_SSH_ENABLE", "true"); ("MYSQL_SSH_HOST", "bastion");
                           ("MYSQL_SSH_USER", "deploy")]).

(** The driver raises something that is not one of its errors. *)
Definition driver_breaks : World :=
  with_connect direct (fun _ _ => Some (Exn RuntimeError (py "driver failure"))).

Definition address_in_use : exn := Exn OSError (py "[Errno 98] Address already in use").

(** The ports below [free] are taken. *)
Definition taken_below (free : Z) (port : Z) : option exn :=
  if (port <? free)%Z then Some address_in_use else None.

(** The world [direct] with another password. *)
Definition other_password : World :=
  healthy [("MYSQL_USER", "app"); ("MYSQL_PASSWORD", "s3cret"); ("MYSQL_DATABASE", "shop")].

(** Every probe is refused, the address being in use. *)
Definition all_taken (port : Z) : option exn := Some address_in_use.

(** The ports below [bad] are taken, and the probe of [bad] fails with
    something that is not an [OSError]. *)
Definition probe_breaks_at (bad : Z) (port : Z) : option exn :=
  if (port <? bad)%Z then Some address_in_use
  else Some (Exn RuntimeError (py "probe failure")).

Definition select_one : dict := [(py "query", VStr (py "SELECT 1"))].

(** One call of each tool that works on the database. *)
Definition handler_calls : list (str * dict) :=
  [(py "execute_sql", select_one);
   (py "get_schema_info", []);
   (py "get_table_sample", [(py "table_name", VStr (py "orders"))])].

Definition sample_orders (limit : Z) : dict :=
  [(py "table_name", VStr (py "orders")); (py "limit", VInt limit)].

End Scenario.

(* ================================================================== *)
(** * Facts about characters and text *)
(* ================================================================== *)

Lemma str_eqb_eq (a b : str) : str_eqb a b = true <-> a = b.
Proof.
  revert b. induction a as [|x a IH]; intros [|y b]; simpl;
    try (split; [discriminate | intros E; discriminate E]);
    [split; reflexivity|].
  rewrite andb_true_iff, N.eqb_eq, IH. split.
  - now intros [-> ->].
  - intros E. inversion E. auto.
Qed.

Lemma str_eqb_refl (a : str) : str_eqb a a = true.
Proof. apply str_eqb_eq. reflexivity. Qed.

(** What holds of every entry of a table holds of every code point the
    table answers for; the entries are finitely many and are checked one
    by one. *)
Section Tables.

Lemma in_ranges_code_points c ranges :
  Unicode.in_ranges c ranges = true -> In c (Unicode.code_points ranges).
Proof.
  unfold Unicode.code_points.
  induction ranges as [|[lo hi] rest IH]; [discriminate|].
  cbn [Unicode.in_ranges flat_map fst snd].
  destruct ((lo <=? c) && (c <=? hi))%N eqn:E.
  - intros _. apply in_or_app. left.
    apply andb_true_iff in E as [E1 E2]. apply N.leb_le in E1, E2.
    apply in_map_iff. exists (N.to_nat (c - lo)). split; [lia|].
    apply in_seq. lia.
  - intros H. apply in_or_app. right. apply IH, H.
Qed.

Lemma ranges_forall (P : N -> bool) ranges :
  forallb P (Unicode.code_points ranges) = true ->
  forall c, Unicode.in_ranges c ranges = true -> P c = true.
Proof.
  intros H c Hc. rewrite forallb_forall in H.
  apply H, in_ranges_code_points, Hc.
Qed.

Lemma assoc_in {A} c (table : list (N * A)) u :
  Unicode.assoc c table = Some u -> In (c, u) table.
Proof.
  induction table as [|[k v] rest IH]; [discriminate|].
  cbn [Unicode.assoc]. destruct (k =? c)%N eqn:E.
  - apply N.eqb_eq in E. intros H. inversion H; subst. now left.
  - intros H. right. apply IH, H.
Qed.

Lemma table_forall {A} (P : N * A -> bool) table :
  forallb P table = true ->
  forall c u, Unicode.assoc c table = Some u -> P (c, u) = true.
Proof.
  intros H c u Hc. rewrite forallb_forall in H. apply H, assoc_in, Hc.
Qed.

Lemma is_upper_ranges c : is_upper c = Unicode.in_ranges c [(65, 90)%N].
Proof.
  unfold is_upper, in_range, code. cbn [Unicode.in_ranges].
  now destruct ((65 <=? c) && (c <=? 90))%N.
Qed.

End Tables.

Section Characters.

(** The letters A to Z are word characters, are no whitespace and are
    their own upper-case form. *)
Lemma is_upper_facts c :
  is_upper c = true ->
  is_word_char c = true /\ is_space c = false /\ upper_char c = [c].
Proof.
  rewrite is_upper_ranges. intros H.
  pose proof (@ranges_forall
    (fun c => is_word_char c && negb (is_space c) && str_eqb (upper_char c) [c])
    [(65, 90)%N] ltac:(vm_compute; reflexivity) c H) as F.
  cbv beta in F. apply andb_true_iff in F as [F F3].
  apply andb_true_iff in F as [F1 F2].
  apply negb_true_iff in F2. apply str_eqb_eq in F3. auto.
Qed.

Lemma is_upper_fixed c : is_upper c = true -> upper_char c = [c].
Proof. intros H. apply is_upper_facts, H. Qed.

Lemma is_upper_word c : is_upper c = true -> is_word_char c = true.
Proof. intros H. apply is_upper_facts, H. Qed.

Lemma is_upper_not_space c : is_upper c = true -> is_space c = false.
Proof. intros H. apply is_upper_facts, H. Qed.

(** A whitespace character is no word character. *)
Lemma space_not_word c : is_space c = true -> is_word_char c = false.
Proof.
  intros H. apply negb_true_iff.
  exact (@ranges_forall (fun c => negb (is_word_char c)) Unicode.whitespace
           ltac:(vm_compute; reflexivity) c H).
Qed.

(** The characters [str.upper] changes are no whitespace, and what they
    become is not empty and holds no whitespace. *)
Lemma uppercase_entries c u :
  Unicode.assoc c Unicode.uppercase = Some u ->
  is_space c = false /\ u <> [] /\ Forall (fun x => is_space x = false) u.
Proof.
  intros H.
  pose proof (@table_forall (list N)
    (fun e => negb (is_space (fst e)) &&
              match snd e with [] => false | _ => true end &&
              forallb (fun x => negb (is_space x)) (snd e))
    Unicode.uppercase ltac:(vm_compute; reflexivity) c u H) as F.
  cbn [fst snd] in F. apply andb_true_iff in F as [F F3].
  apply andb_true_iff in F as [F1 F2]. apply negb_true_iff in F1.
  split; [exact F1|]. split; [now destruct u|].
  apply Forall_forall. intros x Hx. rewrite forallb_forall in F3.
  apply negb_true_iff. now apply F3.
Qed.

Lemma space_fixed c : is_space c = true -> upper_char c = [c].
Proof.
  intros H. unfold upper_char.
  destruct (Unicode.assoc c Unicode.uppercase) as [u|] eqn:E; [|reflexivity].
  apply uppercase_entries in E as [E _]. congruence.
Qed.

Lemma upper_char_not_empty c : upper_char c <> [].
Proof.
  unfold upper_char.
  destruct (Unicode.assoc c Unicode.uppercase) as [u|] eqn:E; [|discriminate].
  now apply uppercase_entries in E.
Qed.

Lemma upper_char_no_space c :
  is_space c = false -> Forall (fun x => is_space x = false) (upper_char c).
Proof.
  intros H. unfold upper_char.
  destruct (Unicode.assoc c Unicode.uppercase) as [u|] eqn:E.
  - now apply uppercase_entries in E.
  - now constructor.
Qed.

(** Upper-casing turns no character into whitespace and no whitespace
    into something else. *)
Lemma upper_one_space c : is_space (upper_one c) = is_space c.
Proof.
  unfold upper_one. destruct (is_space c) eqn:H.
  - now rewrite (space_fixed _ H).
  - pose proof (upper_char_no_space _ H) as F.
    pose proof (@upper_char_not_empty c) as Hne.
    destruct (upper_char c) as [|u rest]; [congruence|]. now inversion F.
Qed.

Lemma plain_upper c : plain c = true -> upper_char c = [upper_one c].
Proof.
  unfold plain, upper_one.
  destruct (upper_char c) as [|u [|? ?]]; try discriminate. reflexivity.
Qed.

Lemma plain_word c : plain c = true -> is_word_char (upper_one c) = is_word_char c.
Proof.
  unfold plain, upper_one.
  destruct (upper_char c) as [|u [|? ?]]; try discriminate.
  intros H. now apply eqb_prop in H.
Qed.

(** Every ASCII character is plain. *)
Lemma ascii_plain c : (code c < 128)%N -> plain c = true.
Proof.
  intros H.
  apply (@ranges_forall plain [(0, 127)%N] ltac:(vm_compute; reflexivity)).
  cbn [Unicode.in_ranges]. unfold code in H.
  destruct (N.leb_spec 0 c), (N.leb_spec c 127); try reflexivity; lia.
Qed.

Lemma ascii_text_check s : forallb (fun c => (code c <? 128)%N) s = true -> ascii_text s.
Proof.
  intros H. apply Forall_forall. intros c Hc. rewrite forallb_forall in H.
  now apply N.ltb_lt, H.
Qed.

Lemma ascii_plain_text s : ascii_text s -> plain_text s.
Proof.
  unfold ascii_text, plain_text. intros H.
  eapply Forall_impl; [|exact H]. intros c. apply ascii_plain.
Qed.

Lemma plain_text_upper s : plain_text s -> upper s = map upper_one s.
Proof.
  induction 1 as [|c s Hc _ IH]; [reflexivity|].
  unfold upper in *. cbn [flat_map map]. rewrite (plain_upper _ Hc), IH. reflexivity.
Qed.

Lemma plain_text_app a b : plain_text (a ++ b) <-> plain_text a /\ plain_text b.
Proof. apply Forall_app. Qed.

End Characters.

Section LastChar.

Lemma last_char_snoc s c : last_char (s ++ [c]) = Some c.
Proof.
  unfold last_char. rewrite map_app. simpl. apply last_last.
Qed.

Lemma last_char_cons c s :
  last_char (c :: s) = match s with [] => Some c | _ => last_char s end.
Proof. destruct s; reflexivity. Qed.

Lemma last_char_app a b :
  last_char (a ++ b) = match b with [] => last_char a | _ => last_char b end.
Proof.
  destruct b as [|c b]; [now rewrite app_nil_r|].
  induction a as [|x a IH]; [reflexivity|].
  change ((x :: a) ++ c :: b) with (x :: (a ++ c :: b)).
  rewrite last_char_cons, IH. destruct a; reflexivity.
Qed.

Lemma last_char_rev s : last_char (rev s) = hd_error s.
Proof.
  destruct s as [|c s]; [reflexivity|]. simpl. apply last_char_snoc.
Qed.

Lemma hd_error_rev s : hd_error (rev s) = last_char s.
Proof. rewrite <- last_char_rev, rev_involutive. reflexivity. Qed.

Lemma last_char_map_upper s :
  plain_text s ->
  Re.is_word (last_char (map upper_one s)) = Re.is_word (last_char s).
Proof.
  induction 1 as [|c s Hc Hs IH]; [reflexivity|].
  cbn [map]. rewrite !last_char_cons.
  destruct s; cbn [map]; [apply plain_word, Hc | exact IH].
Qed.

Lemma hd_map_upper s :
  plain_text s ->
  Re.is_word (hd_error (map upper_one s)) = Re.is_word (hd_error s).
Proof.
  destruct 1 as [|c s Hc Hs]; [reflexivity|]. cbn [map hd_error Re.is_word].
  apply plain_word, Hc.
Qed.

End LastChar.

Section RegexFacts.

Lemma last_default {A} (y : A) l d d' : last (y :: l) d = last (y :: l) d'.
Proof.
  revert y. induction l as [|z l IH]; intros y; [reflexivity|].
  change (last (z :: l) d = last (z :: l) d'). apply IH.
Qed.

Lemma last_cons {A} (x : A) l d : last (x :: l) d = last l x.
Proof.
  destruct l as [|y l]; [reflexivity|].
  change (last (y :: l) d = last (y :: l) x). apply last_default.
Qed.

Lemma match_literal_app lit before rest :
  Re.match_literal lit before (lit ++ rest) =
  Some (last (map Some lit) before, rest).
Proof.
  revert before. induction lit as [|a lit IH]; intros before; [reflexivity|].
  cbn [Re.match_literal app]. rewrite N.eqb_refl, IH.
  cbn [map]. now rewrite last_cons.
Qed.

Lemma match_literal_inv lit before s l rest :
  Re.match_literal lit before s = Some (l, rest) -> s = lit ++ rest.
Proof.
  revert before s. induction lit as [|a lit IH]; intros before s H.
  - simpl in H. now inversion H.
  - destruct s as [|b s]; [discriminate H|]. cbn [Re.match_literal] in H.
    destruct (N.eqb a b) eqn:E; [|discriminate H].
    apply N.eqb_eq in E. subst b. simpl. f_equal. eapply IH, H.
Qed.

Lemma match_here_true lit before s :
  Re.match_here lit before s = true <->
  exists post,
    s = lit ++ post /\
    Re.at_boundary before (hd_error (lit ++ post)) = true /\
    Re.at_boundary (last (map Some lit) before) (hd_error post) = true.
Proof.
  unfold Re.match_here. split.
  - intros H. apply andb_true_iff in H as [H1 H2].
    destruct (Re.match_literal lit before s) as [[l rest]|] eqn:E; [|discriminate].
    pose proof (@match_literal_inv _ _ _ _ _ E) as ->.
    rewrite match_literal_app in E. inversion E; subst.
    exists rest. auto.
  - intros (post & -> & H1 & H2).
    rewrite match_literal_app, H1, H2. reflexivity.
Qed.

Lemma search_from_true lit before s :
  Re.search_from lit before s = true <->
  exists pre post,
    s = pre ++ lit ++ post /\
    Re.at_boundary (last (map Some pre) before) (hd_error (lit ++ post)) = true /\
    Re.at_boundary (last (map Some lit) (last (map Some pre) before))
                   (hd_error post) = true.
Proof.
  revert before. induction s as [|c s IH]; intros before.
  - cbn [Re.search_from]. rewrite orb_false_r, match_here_true. split.
    + intros (post & E & H1 & H2). exists [], post. auto.
    + intros (pre & post & E & H1 & H2).
      destruct pre; [|discriminate E]. exists post. auto.
  - cbn [Re.search_from]. rewrite orb_true_iff, match_here_true, IH. split.
    + intros [(post & E & H1 & H2) | (pre & post & E & H1 & H2)].
      * exists [], post. auto.
      * exists (c :: pre), post. cbn [map]. rewrite last_cons.
        split; [now rewrite E|auto].
    + intros (pre & post & E & H1 & H2). destruct pre as [|x pre].
      * left. exists post. auto.
      * right. simpl in E. inversion E; subst.
        exists pre, post. cbn [map] in H1, H2. rewrite last_cons in H1, H2. auto.
Qed.

Lemma command_word_ends k :
  command_word k ->
  (forall post, Re.is_word (hd_error (k ++ post)) = true) /\
  (forall d, Re.is_word (last (map Some k) d) = true).
Proof.
  intros [Hne Hall]. split.
  - intros post. destruct k as [|c k]; [congruence|].
    simpl. apply is_upper_word. now inversion Hall.
  - intros d. revert d. induction k as [|c k IH]; [congruence|].
    intros d. cbn [map]. rewrite last_cons. inversion Hall; subst.
    destruct k as [|c' k].
    + simpl. now apply is_upper_word.
    + apply IH; [discriminate | assumption].
Qed.

(** For a command word the pattern finds exactly the whole-word
    occurrences. *)
Lemma search_word_occurs k s :
  command_word k ->
  Re.search_word k s = true <-> occurs_as_word k s.
Proof.
  intros Hk. destruct (command_word_ends Hk) as [Hhd Hlast].
  unfold Re.search_word, occurs_as_word. rewrite search_from_true.
  split; intros (pre & post & E & H1 & H2); exists pre, post; (split; [exact E|]).
  - unfold Re.at_boundary in *. rewrite Hhd in H1. rewrite Hlast in H2.
    fold (last_char pre) in H1.
    destruct (Re.is_word (last_char pre)), (Re.is_word (hd_error post));
      simpl in *; auto; discriminate.
  - unfold Re.at_boundary. rewrite Hhd, Hlast. fold (last_char pre).
    rewrite H1, H2. auto.
Qed.

End RegexFacts.

Section StripFacts.

Lemma command_word_rev k : command_word k -> command_word (rev k).
Proof.
  intros [Hne Hall]. split.
  - intros E. apply Hne. rewrite <- (rev_involutive k), E. reflexivity.
  - apply Forall_rev, Hall.
Qed.

Lemma occurs_skip_space k c s :
  command_word k -> is_space c = true ->
  occurs_as_word k (c :: s) <-> occurs_as_word k s.
Proof.
  intros Hk Hc. split; intros (pre & post & E & H1 & H2).
  - destruct pre as [|x pre].
    + exfalso. destruct Hk as [Hne Hall]. destruct k as [|y k]; [congruence|].
      simpl in E. inversion E; subst. inversion Hall; subst.
      rewrite (is_upper_not_space _ H3) in Hc. discriminate.
    + simpl in E. inversion E; subst. exists pre, post.
      split; [reflexivity|]. split; [|exact H2].
      rewrite last_char_cons in H1. destruct pre; [reflexivity | exact H1].
  - exists (c :: pre), post. split; [now rewrite E|]. split; [|exact H2].
    rewrite last_char_cons. destruct pre; [|exact H1].
    simpl. now apply space_not_word.
Qed.

Lemma occurs_lstrip k s :
  command_word k -> occurs_as_word k (lstrip s) <-> occurs_as_word k s.
Proof.
  intros Hk. induction s as [|c s IH]; [reflexivity|].
  simpl. destruct (is_space c) eqn:Hc; [|reflexivity].
  rewrite IH. symmetry. now apply occurs_skip_space.
Qed.

Lemma occurs_rev_1 k s : occurs_as_word k s -> occurs_as_word (rev k) (rev s).
Proof.
  intros (pre & post & E & H1 & H2). exists (rev post), (rev pre). split.
  - rewrite E, !rev_app_distr, app_assoc. reflexivity.
  - now rewrite last_char_rev, hd_error_rev.
Qed.

Lemma occurs_rev k s : occurs_as_word k s <-> occurs_as_word (rev k) (rev s).
Proof.
  split; [apply occurs_rev_1|]. intros H. apply occurs_rev_1 in H.
  now rewrite !rev_involutive in H.
Qed.

Lemma occurs_strip k s :
  command_word k -> occurs_as_word k (strip s) <-> occurs_as_word k s.
Proof.
  intros Hk. unfold strip, rstrip.
  rewrite occurs_rev, rev_involutive, (occurs_lstrip _ (command_word_rev Hk)).
  rewrite <- occurs_rev. now apply occurs_lstrip.
Qed.

Lemma plain_text_lstrip s : plain_text s -> plain_text (lstrip s).
Proof.
  induction 1 as [|c s Hc Hs IH]; [constructor|].
  simpl. destruct (is_space c); [exact IH | now constructor].
Qed.

Lemma plain_text_strip s : plain_text s -> plain_text (strip s).
Proof.
  intros H. unfold strip, rstrip.
  apply Forall_rev, plain_text_lstrip, Forall_rev, plain_text_lstrip, H.
Qed.

Lemma upper_one_lstrip s : map upper_one (lstrip s) = lstrip (map upper_one s).
Proof.
  induction s as [|c s IH]; [reflexivity|].
  cbn [lstrip map]. rewrite upper_one_space.
  destruct (is_space c); [exact IH | reflexivity].
Qed.

Lemma upper_one_strip s : map upper_one (strip s) = strip (map upper_one s).
Proof.
  unfold strip, rstrip.
  now rewrite map_rev, upper_one_lstrip, map_rev, upper_one_lstrip.
Qed.

(** On plain text, trimming and upper-casing can be done in either
    order. *)
Lemma upper_strip s : plain_text s -> upper (strip s) = strip (upper s).
Proof.
  intros H.
  rewrite (plain_text_upper (plain_text_strip H)), (plain_text_upper H).
  apply upper_one_strip.
Qed.

Lemma occurs_upper k q :
  plain_text q -> occurs_as_word k (upper q) <-> whole_word_in k q.
Proof.
  intros Hq. rewrite (plain_text_upper Hq). split.
  - intros (pre & post & E & H1 & H2).
    apply map_eq_app in E as (pre' & rest & -> & Epre & Erest).
    apply map_eq_app in Erest as (mid & post' & -> & Emid & Epost).
    apply plain_text_app in Hq as [Hpre Hrest].
    apply plain_text_app in Hrest as [Hmid Hpost].
    exists pre', mid, post'. split; [reflexivity|].
    split; [now rewrite (plain_text_upper Hmid)|].
    subst pre post.
    now rewrite (last_char_map_upper Hpre) in H1; rewrite (hd_map_upper Hpost) in H2.
  - intros (pre & mid & post & -> & Emid & H1 & H2).
    apply plain_text_app in Hq as [Hpre Hrest].
    apply plain_text_app in Hrest as [Hmid Hpost].
    exists (map upper_one pre), (map upper_one post). rewrite !map_app.
    rewrite <- (plain_text_upper Hmid), Emid.
    split; [reflexivity|].
    now rewrite (last_char_map_upper Hpre), (hd_map_upper Hpost).
Qed.

Lemma restricted_command_word k : In k restricted_commands -> command_word k.
Proof.
  intros H.
  assert (F : forallb (fun k => match k with [] => false | _ => true end &&
                                forallb is_upper k) restricted_commands = true)
    by (vm_compute; reflexivity).
  rewrite forallb_forall in F. specialize (F k H).
  apply andb_true_iff in F as [F1 F2]. split; [now destruct k|].
  apply Forall_forall. now apply forallb_forall.
Qed.

(** What the loop tests for one command, on plain text, is what the
    specification calls a whole-word occurrence in any case. *)
Lemma whole_word_normalised k q :
  command_word k -> plain_text q ->
  whole_word_in k q <-> occurs_as_word k (upper (strip q)).
Proof.
  intros Hk Hq.
  rewrite (upper_strip Hq), (occurs_strip _ Hk). symmetry. now apply occurs_upper.
Qed.

End StripFacts.

Section SubstringFacts.

Lemma startswith_true p s : startswith p s = true <-> exists rest, s = p ++ rest.
Proof.
  revert s. induction p as [|a p IH]; intros s.
  - simpl. split; [intros _; now exists s | reflexivity].
  - destruct s as [|b s]; simpl.
    + split; [discriminate | intros [rest E]; discriminate E].
    + rewrite andb_true_iff, N.eqb_eq, IH. split.
      * intros [-> [rest ->]]. now exists rest.
      * intros [rest E]. inversion E; subst. split; [reflexivity | now exists rest].
Qed.

Lemma contains_true needle hay :
  contains needle hay = true <-> has_substring needle hay.
Proof.
  unfold has_substring. induction hay as [|c hay IH].
  - simpl. rewrite orb_false_r, startswith_true. split.
    + intros [rest E]. now exists [], rest.
    + intros (pre & post & E). destruct pre; [now exists post | discriminate E].
  - cbn [contains]. rewrite orb_true_iff, startswith_true, IH. split.
    + intros [[rest E] | (pre & post & E)].
      * now exists [], rest.
      * exists (c :: pre), post. now rewrite E.
    + intros (pre & post & E). destruct pre as [|x pre].
      * left. now exists post.
      * right. inversion E; subst. now exists pre, post.
Qed.

Lemma contains_false needle hay :
  contains needle hay = false <-> ~ has_substring needle hay.
Proof.
  rewrite <- contains_true. destruct (contains needle hay); split; intros; congruence.
Qed.

Lemma has_char_substring c s : In c s <-> has_substring [c] s.
Proof.
  split.
  - intros H. apply in_split in H as (l1 & l2 & ->). now exists l1, l2.
  - intros (pre & post & ->). apply in_or_app. right. now left.
Qed.

Lemma count_char_pos c s : (1 <= count_char c s)%nat -> contains [c] s = true.
Proof.
  intros H. apply contains_true, has_char_substring.
  apply (count_occ_In N.eq_dec). unfold count_char in H. lia.
Qed.

Lemma lstrip_whitespace s : whitespace_only s -> lstrip s = [].
Proof.
  induction 1 as [|c s Hc _ IH]; [reflexivity|]. simpl. now rewrite Hc.
Qed.

Lemma strip_whitespace s : whitespace_only s -> strip s = [].
Proof.
  intros H. unfold strip, rstrip. now rewrite (lstrip_whitespace H).
Qed.

Lemma whitespace_no_substring c rest s :
  is_space c = false -> whitespace_only s -> contains (c :: rest) s = false.
Proof.
  intros Hc Hs. apply contains_false. intros (pre & post & ->).
  unfold whitespace_only in Hs. rewrite Forall_forall in Hs.
  assert (is_space c = true) by (apply Hs, in_or_app; right; now left).
  congruence.
Qed.

Lemma cuts_spec s a b : In (a, b) (cuts s) <-> s = a ++ b.
Proof.
  revert a. induction s as [|c s IH]; intros a.
  - cbn [cuts In]. split.
    + intros [E | []]. now inversion E.
    + intros E. left. symmetry in E. apply app_eq_nil in E as [-> ->]. reflexivity.
  - cbn [cuts In]. rewrite in_map_iff. split.
    + intros [E | ([a' b'] & E & H)].
      * now inversion E.
      * cbn [fst snd] in E. inversion E; subst. apply IH in H. now subst.
    + intros E. destruct a as [|x a].
      * left. now rewrite E.
      * right. simpl in E. inversion E; subst.
        exists (a, b). split; [reflexivity|]. now apply IH.
Qed.

(** [whole_word_inb] decides [whole_word_in]. *)
Lemma whole_word_inb_true k q : whole_word_inb k q = true <-> whole_word_in k q.
Proof.
  unfold whole_word_inb, whole_word_in. rewrite existsb_exists. split.
  - intros ([pre rest] & Hin & H). cbn [fst snd] in H.
    apply andb_true_iff in H as [H1 H]. apply existsb_exists in H as ([mid post] & Hin' & H).
    cbn [fst snd] in H. apply andb_true_iff in H as [H2 H3].
    apply cuts_spec in Hin, Hin'. apply str_eqb_eq in H2.
    apply negb_true_iff in H1, H3. exists pre, mid, post. subst. auto.
  - intros (pre & mid & post & E & Hmid & H1 & H2).
    exists (pre, mid ++ post). split; [now apply cuts_spec|]. cbn [fst snd].
    rewrite H1. cbn [negb andb]. apply existsb_exists.
    exists (mid, post). split; [now apply cuts_spec|]. cbn [fst snd].
    rewrite H2. apply andb_true_iff. split; [now apply str_eqb_eq | reflexivity].
Qed.

Lemma whole_word_inb_false k q : whole_word_inb k q = false <-> ~ whole_word_in k q.
Proof.
  rewrite <- whole_word_inb_true. destruct (whole_word_inb k q); split; intros; congruence.
Qed.

End SubstringFacts.

Section FindFacts.
Context {A : Type} (f : A -> bool).

Lemma find_first l x :
  find f l = Some x ->
  exists l1 l2, l = l1 ++ x :: l2 /\ f x = true /\ forall y, In y l1 -> f y = false.
Proof.
  induction l as [|a l IH]; [discriminate|]. simpl.
  destruct (f a) eqn:Fa.
  - intros E. inversion E; subst. exists [], l. repeat split; auto.
    intros y [].
  - intros E. destruct (IH E) as (l1 & l2 & -> & Fx & Hl1).
    exists (a :: l1), l2. repeat split; auto.
    intros y [<- | Hy]; auto.
Qed.

Lemma find_all_false l : (forall x, In x l -> f x = false) -> find f l = None.
Proof.
  induction l as [|a l IH]; [reflexivity|]. intros H. simpl.
  rewrite (H a (or_introl eq_refl)). apply IH. intros x Hx. apply H. now right.
Qed.

Lemma find_is_some l x : In x l -> f x = true -> exists y, find f l = Some y.
Proof.
  intros Hin Fx. destruct (find f l) eqn:E; [eauto|].
  rewrite (find_none _ _ E _ Hin) in Fx. discriminate.
Qed.

Lemma nodup_split_unique (l1 l1' l2 l2' : list A) x :
  NoDup (l1 ++ x :: l2) -> l1 ++ x :: l2 = l1' ++ x :: l2' -> l1 = l1'.
Proof.
  revert l1'. induction l1 as [|a l1 IH]; intros l1' Hnd E.
  - destruct l1' as [|b l1']; [reflexivity|]. simpl in E. inversion E; subst.
    inversion Hnd; subst. exfalso. apply H1. apply in_or_app. right. now left.
  - destruct l1' as [|b l1'].
    + simpl in E. inversion E; subst. inversion Hnd; subst.
      exfalso. apply H1. apply in_or_app. right. now left.
    + simpl in E. inversion E; subst. f_equal. apply IH; [|assumption].
      now inversion Hnd.
Qed.

End FindFacts.

Lemma restricted_commands_nodup : NoDup restricted_commands.
Proof.
  unfold restricted_commands. simpl.
  repeat (constructor; [simpl; intros H;
    repeat (destruct H as [H | H]; [discriminate H|]); exact H|]).
  constructor.
Qed.

(* ================================================================== *)
(** * The SQL safety validator *)
(* ================================================================== *)

Section ValidatorFacts.

(** The text the validator searches: the query trimmed, then in upper
    case. *)
Lemma first_restricted_found s k' :
  first_restricted s = Some k' ->
  In k' restricted_commands /\ occurs_as_word k' s /\
  (forall j, listed_before j k' -> ~ occurs_as_word j s) /\
  (forall k, In k restricted_commands -> occurs_as_word k s ->
             k' = k \/ listed_before k' k).
Proof.
  unfold first_restricted. intros E.
  destruct (find_first _ _ E) as (l1 & l2 & Hl & Fk & Hl1).
  assert (Hin : In k' restricted_commands).
  { rewrite Hl. apply in_or_app. right. now left. }
  split; [exact Hin|]. split.
  { apply search_word_occurs; [now apply restricted_command_word | exact Fk]. }
  split.
  - intros j (a & b & c & Hj) Hw.
    assert (l1 = a ++ j :: b) as ->.
    { eapply nodup_split_unique with (x := k').
      - rewrite <- Hl. apply restricted_commands_nodup.
      - rewrite <- Hl, Hj, <- app_assoc. reflexivity. }
    assert (Hjl : In j restricted_commands).
    { rewrite Hj. apply in_or_app. right. now left. }
    apply (search_word_occurs s (restricted_command_word Hjl)) in Hw.
    rewrite Hl1 in Hw; [discriminate|]. apply in_or_app. right. now left.
  - intros k Hk Hw.
    apply (search_word_occurs s (restricted_command_word Hk)) in Hw.
    rewrite Hl in Hk. apply in_app_or in Hk as [Hk | [Hk | Hk]].
    + rewrite (Hl1 _ Hk) in Hw. discriminate.
    + now left.
    + right. apply in_split in Hk as (m & n & ->). now exists l1, m, n.
Qed.

Lemma first_restricted_none s :
  first_restricted s = None <->
  forall k, In k restricted_commands -> ~ occurs_as_word k s.
Proof.
  unfold first_restricted. split.
  - intros E k Hk Hw.
    apply (search_word_occurs s (restricted_command_word Hk)) in Hw.
    rewrite (find_none _ _ E _ Hk) in Hw. discriminate.
  - intros H. apply find_all_false. intros k Hk.
    destruct (Re.search_word k s) eqn:E; [|reflexivity].
    exfalso. apply (H k Hk).
    now apply (search_word_occurs s (restricted_command_word Hk)).
Qed.

Lemma first_restricted_some s k :
  In k restricted_commands -> occurs_as_word k s ->
  exists k', first_restricted s = Some k'.
Proof.
  intros Hk Hw. destruct (first_restricted s) eqn:E; [eauto|].
  exfalso. exact (proj1 (first_restricted_none s) E k Hk Hw).
Qed.

End ValidatorFacts.

(** C1 (as the code has it).  The validator searches the query trimmed
    and put in upper case.  When a denylisted keyword stands there as a
    whole word the query is rejected, and the reason names the first
    command of the denylist, in the order of the list, that stands there
    as a whole word; it names the given keyword whenever no command
    listed before it stands there too.  When none does, the keyword
    check passes.  For a query of plain characters, any ASCII text among
    them, a keyword stands as a whole word in the searched text exactly
    when it stands as a whole word in the query, in any mix of upper and
    lower case; a keyword that is only part of a longer identifier does
    not. *)
Theorem validate_sql_query_keywords (q : str) :
  (forall k, In k restricted_commands -> occurs_as_word k (upper (strip q)) ->
     fst (validate_sql_query q) = false /\
     ((forall j, listed_before j k -> ~ occurs_as_word j (upper (strip q))) ->
      validate_sql_query q = (false, command_reason k)) /\
     exists k',
       validate_sql_query q = (false, command_reason k') /\
       In k' restricted_commands /\ occurs_as_word k' (upper (strip q)) /\
       (forall j, listed_before j k' -> ~ occurs_as_word j (upper (strip q)))) /\
  ((forall k, In k restricted_commands -> ~ occurs_as_word k (upper (strip q))) ->
     first_restricted (upper (strip q)) = None) /\
  (plain_text q ->
     forall k, In k restricted_commands ->
       (whole_word_in k q <-> occurs_as_word k (upper (strip q)))) /\
  (ascii_text q -> plain_text q).
Proof.
  split; [|split; [|split]].
  - intros k Hk Hw.
    destruct (first_restricted_some Hk Hw) as [k' E].
    destruct (@first_restricted_found _ _ E) as (Hin & Hw' & Hfirst & Hrel).
    assert (V : validate_sql_query q = (false, command_reason k')).
    { unfold validate_sql_query. now rewrite E. }
    split; [now rewrite V|]. split.
    + intros Hnone. destruct (Hrel k Hk Hw) as [-> | Hb]; [exact V|].
      exfalso. exact (Hnone k' Hb Hw').
    + exists k'. auto.
  - apply first_restricted_none.
  - intros Hq k Hk. apply whole_word_normalised; [now apply restricted_command_word | exact Hq].
  - apply ascii_plain_text.
Qed.

(** C1, as stated, fails: the query below holds DELETE as a whole word,
    yet the reason names DROP, which comes first in the denylist. *)
Lemma validate_names_first_command_only :
  let q := py "DELETE FROM logs WHERE action = 'DROP'" in
  In (py "DELETE") restricted_commands /\
  whole_word_in (py "DELETE") q /\
  validate_sql_query q = (false, command_reason (py "DROP")) /\
  validate_sql_query q <> (false, command_reason (py "DELETE")).
Proof.
  cbv zeta. split; [right; left; reflexivity|]. split.
  - apply whole_word_inb_true. vm_compute. reflexivity.
  - split; [vm_compute; reflexivity | vm_compute; discriminate].
Qed.

(** Outside plain text the searched text and the query part ways.  The
    small letter h with a line below (U+1E96) becomes, in upper case, H
    followed by a combining mark: the word [flus] + U+1E96 holds no
    keyword, in any case, and is rejected for FLUSH.  The combining iota
    (U+0345), no word character, becomes the letter U+0399: [drop]
    followed by it holds DROP as a whole word and passes. *)
Lemma upper_casing_moves_word_ends :
  (forall k, In k restricted_commands ->
     ~ whole_word_in k (py "flus" ++ [7830%N])) /\
  validate_sql_query (py "flus" ++ [7830%N]) = (false, command_reason (py "FLUSH")) /\
  whole_word_in (py "DROP") (py "drop" ++ [837%N]) /\
  validate_sql_query (py "drop" ++ [837%N]) = (true, py "Query is allowed").
Proof.
  split; [|split; [|split]].
  - intros k Hk. apply whole_word_inb_false.
    assert (F : forallb (fun k => negb (whole_word_inb k (py "flus" ++ [7830%N])))
                  restricted_commands = true) by (vm_compute; reflexivity).
    rewrite forallb_forall in F. apply negb_true_iff. now apply F.
  - vm_compute. reflexivity.
  - apply whole_word_inb_true. vm_compute. reflexivity.
  - vm_compute. reflexivity.
Qed.

(** C4 (as the code has it).  Two or more semicolons, or a comment
    marker anywhere, make the validator reject; with at most one
    semicolon, no comment marker and no denylisted keyword as a whole
    word of the query trimmed and put in upper case, it allows the
    query.  For a query of plain characters, any ASCII text among them,
    the last condition is that no denylisted keyword stands in the query
    as a whole word, in any mix of upper and lower case. *)
Theorem validate_sql_query_structure (q : str) :
  ((2 <= count_char 59%N q)%nat -> fst (validate_sql_query q) = false) /\
  (has_substring (py "--") q \/ has_substring (py "/*") q ->
     fst (validate_sql_query q) = false) /\
  ((count_char 59%N q <= 1)%nat ->
   ~ has_substring (py "--") q -> ~ has_substring (py "/*") q ->
   (forall k, In k restricted_commands -> ~ occurs_as_word k (upper (strip q))) ->
   validate_sql_query q = (true, py "Query is allowed")) /\
  (plain_text q ->
   (count_char 59%N q <= 1)%nat ->
   ~ has_substring (py "--") q -> ~ has_substring (py "/*") q ->
   (forall k, In k restricted_commands -> ~ whole_word_in k q) ->
   validate_sql_query q = (true, py "Query is allowed")) /\
  (ascii_text q -> plain_text q).
Proof.
  assert (Allow :
    (count_char 59%N q <= 1)%nat ->
    ~ has_substring (py "--") q -> ~ has_substring (py "/*") q ->
    (forall k, In k restricted_commands -> ~ occurs_as_word k (upper (strip q))) ->
    validate_sql_query q = (true, py "Query is allowed")).
  { intros Hsemi Hdash Hstar Hkw. unfold validate_sql_query.
    rewrite (proj2 (first_restricted_none (upper (strip q))) Hkw).
    destruct (Nat.ltb_spec 1 (count_char 59%N q)); [lia|].
    rewrite andb_false_r.
    apply contains_false in Hdash, Hstar. now rewrite Hdash, Hstar. }
  split; [|split; [|split; [|split]]].
  - unfold validate_sql_query.
    intros H. destruct (first_restricted _); [reflexivity|].
    assert (C : contains (py ";") q = true) by (apply (@count_char_pos 59%N q); lia).
    rewrite C.
    destruct (Nat.ltb_spec 1 (count_char 59%N q)); [reflexivity | lia].
  - unfold validate_sql_query.
    intros H. destruct (first_restricted _); [reflexivity|].
    destruct (_ && _); [reflexivity|].
    assert (contains (py "--") q || contains (py "/*") q = true) as ->;
      [|reflexivity].
    apply orb_true_iff. destruct H as [H | H]; [left | right];
      now apply contains_true.
  - exact Allow.
  - intros Hq Hsemi Hdash Hstar Hkw. apply Allow; auto.
    intros k Hk Hw. apply (Hkw k Hk).
    now apply (whole_word_normalised (restricted_command_word Hk) Hq).
  - apply ascii_plain_text.
Qed.

(** C4, as stated, fails outside plain text: the query below has no
    semicolon, no comment marker and no denylisted keyword as a whole
    word, in any case, yet it is rejected, for FLUSH.  Its last letter
    (U+1E96) is H and a combining mark once in upper case. *)
Lemma validate_rejects_without_keyword :
  let q := py "SELECT flus" ++ [7830%N] in
  (count_char 59%N q <= 1)%nat /\
  ~ has_substring (py "--") q /\ ~ has_substring (py "/*") q /\
  (forall k, In k restricted_commands -> ~ whole_word_in k q) /\
  validate_sql_query q = (false, command_reason (py "FLUSH")).
Proof.
  cbv zeta. split; [vm_compute; lia|].
  split; [apply contains_false; vm_compute; reflexivity|].
  split; [apply contains_false; vm_compute; reflexivity|].
  split.
  - intros k Hk. apply whole_word_inb_false.
    assert (F : forallb (fun k => negb (whole_word_inb k (py "SELECT flus" ++ [7830%N])))
                  restricted_commands = true) by (vm_compute; reflexivity).
    rewrite forallb_forall in F. apply negb_true_iff. now apply F.
  - vm_compute. reflexivity.
Qed.

Lemma validate_sql_query_whitespace q :
  whitespace_only q -> validate_sql_query q = (true, py "Query is allowed").
Proof.
  intros H. unfold validate_sql_query.
  rewrite (strip_whitespace H). change (first_restricted (upper [])) with (@None str).
  assert (S : forall c rest, is_space c = false -> contains (c :: rest) q = false)
    by (intros c rest Hc; now apply whitespace_no_substring).
  change (py ";") with [59%N]. change (py "--") with [45%N; 45%N].
  change (py "/*") with [47%N; 42%N].
  rewrite !S by reflexivity. reflexivity.
Qed.

Unset Implicit Arguments.

(* ================================================================== *)
(** * Reasoning about pieces of code *)
(* ================================================================== *)

Section EmitsRules.
Context {L : Type} (P : Event -> bool).

Lemma emits_ret {A} (a : A) : emits P (@ret L A a).
Proof. intros l. reflexivity. Qed.

Lemma emits_raise {A} e : emits P (@raise L A e).
Proof. intros l. reflexivity. Qed.

Lemma emits_emit ev : P ev = true -> emits P (@emit L ev).
Proof. intros H l. simpl. now rewrite H. Qed.

Lemma emits_get_locals : emits P (@get_locals L).
Proof. intros l. reflexivity. Qed.

Lemma emits_set_locals l' : emits P (@set_locals L l').
Proof. intros l. reflexivity. Qed.

Lemma emits_perform ev answer : P ev = true -> emits P (@perform L ev answer).
Proof. intros H l. unfold perform. destruct answer; simpl; now rewrite H. Qed.

Lemma emits_perform_result {A} ev (answer : result A) :
  P ev = true -> emits P (@perform_result L A ev answer).
Proof. intros H l. simpl. now rewrite H. Qed.

Lemma emits_lift_result {A} (r : result A) : emits P (@lift_result L A r).
Proof. intros l. reflexivity. Qed.

Lemma emits_bind {A B} (m : M L A) (f : A -> M L B) :
  emits P m -> (forall a, emits P (f a)) -> emits P (bind m f).
Proof.
  intros Hm Hf l. unfold bind. specialize (Hm l).
  destruct (m l) as [[a|e] l1 t1]; simpl in *; [|exact Hm].
  specialize (Hf a l1). destruct (f a l1) as [r l2 t2]. simpl in *.
  now rewrite forallb_app, Hm.
Qed.

Lemma emits_try_except {A} caught (m : M L A) h :
  emits P m -> (forall e, emits P (h e)) -> emits P (try_except caught m h).
Proof.
  intros Hm Hh l. unfold try_except. specialize (Hm l).
  destruct (m l) as [[a|e] l1 t1]; simpl in *; [exact Hm|].
  destruct (caught e); [|exact Hm].
  specialize (Hh e l1). destruct (h e l1) as [r l2 t2]. simpl in *.
  now rewrite forallb_app, Hm.
Qed.

Lemma emits_try_finally {A} (m : M L A) c :
  emits P m -> emits P c -> emits P (try_finally m c).
Proof.
  intros Hm Hc l. unfold try_finally. specialize (Hm l).
  destruct (m l) as [r l1 t1]. specialize (Hc l1).
  destruct (c l1) as [[u|e] l2 t2]; simpl in *; now rewrite forallb_app, Hm.
Qed.

Lemma emits_in_frame {L' A} (init : L') (m : M L' A) :
  emits P m -> emits P (@in_frame L L' A init m).
Proof.
  intros Hm l. unfold in_frame. specialize (Hm init).
  now destruct (m init) as [r l1 t1].
Qed.

End EmitsRules.

Lemma emits_weaken {L A} (P Q : Event -> bool) (m : M L A) :
  (forall ev, P ev = true -> Q ev = true) -> emits P m -> emits Q m.
Proof.
  intros H Hm l. specialize (Hm l). rewrite forallb_forall in *. auto.
Qed.

Section KeepsRules.
Context {L : Type}.

Lemma keeps_ret {A} (a : A) : keeps_locals (@ret L A a).
Proof. intros l. reflexivity. Qed.

Lemma keeps_raise {A} e : keeps_locals (@raise L A e).
Proof. intros l. reflexivity. Qed.

Lemma keeps_emit ev : keeps_locals (@emit L ev).
Proof. intros l. reflexivity. Qed.

Lemma keeps_get_locals : keeps_locals (@get_locals L).
Proof. intros l. reflexivity. Qed.

Lemma keeps_perform ev answer : keeps_locals (@perform L ev answer).
Proof. intros l. unfold perform. now destruct answer. Qed.

Lemma keeps_perform_result {A} ev (answer : result A) :
  keeps_locals (@perform_result L A ev answer).
Proof. intros l. reflexivity. Qed.

Lemma keeps_lift_result {A} (r : result A) : keeps_locals (@lift_result L A r).
Proof. intros l. reflexivity. Qed.

Lemma keeps_bind {A B} (m : M L A) (f : A -> M L B) :
  keeps_locals m -> (forall a, keeps_locals (f a)) -> keeps_locals (bind m f).
Proof.
  intros Hm Hf l. unfold bind. specialize (Hm l).
  destruct (m l) as [[a|e] l1 t1]; simpl in *; [|exact Hm].
  specialize (Hf a l1). destruct (f a l1) as [r l2 t2]. simpl in *. congruence.
Qed.

Lemma keeps_try_except {A} caught (m : M L A) h :
  keeps_locals m -> (forall e, keeps_locals (h e)) ->
  keeps_locals (try_except caught m h).
Proof.
  intros Hm Hh l. unfold try_except. specialize (Hm l).
  destruct (m l) as [[a|e] l1 t1]; simpl in *; [exact Hm|].
  destruct (caught e); [|exact Hm].
  specialize (Hh e l1). destruct (h e l1) as [r l2 t2]. simpl in *. congruence.
Qed.

Lemma keeps_try_finally {A} (m : M L A) c :
  keeps_locals m -> keeps_locals c -> keeps_locals (try_finally m c).
Proof.
  intros Hm Hc l. unfold try_finally. specialize (Hm l).
  destruct (m l) as [r l1 t1]. specialize (Hc l1).
  destruct (c l1) as [[u|e] l2 t2]; simpl in *; congruence.
Qed.

Lemma keeps_in_frame {L' A} (init : L') (m : M L' A) :
  keeps_locals (@in_frame L L' A init m).
Proof. intros l. unfold in_frame. now destruct (m init). Qed.

End KeepsRules.

Section ReturnsRules.
Context {L : Type}.

Lemma returns_ret {A} (R : A -> Prop) a : R a -> returns R (@ret L A a).
Proof. intros H l x E. inversion E; subst. exact H. Qed.

Lemma returns_raise {A} (R : A -> Prop) e : returns R (@raise L A e).
Proof. intros l x E. discriminate E. Qed.

Lemma returns_bind {A B} (R : B -> Prop) (m : M L A) (f : A -> M L B) :
  (forall a, returns R (f a)) -> returns R (bind m f).
Proof.
  intros Hf l b. unfold bind.
  destruct (m l) as [[a|e] l1 t1]; simpl; [|discriminate].
  specialize (Hf a l1 b). destruct (f a l1) as [r l2 t2]. exact Hf.
Qed.

Lemma returns_try_except {A} (R : A -> Prop) caught (m : M L A) h :
  returns R m -> (forall e, returns R (h e)) -> returns R (try_except caught m h).
Proof.
  intros Hm Hh l a. unfold try_except. specialize (Hm l a).
  destruct (m l) as [[x|e] l1 t1]; simpl in *; [exact Hm|].
  destruct (caught e); [|exact Hm].
  specialize (Hh e l1 a). destruct (h e l1) as [r l2 t2]. exact Hh.
Qed.

Lemma returns_try_finally {A} (R : A -> Prop) (m : M L A) c :
  returns R m -> returns R (try_finally m c).
Proof.
  intros Hm l a. unfold try_finally. specialize (Hm l a).
  destruct (m l) as [r l1 t1]. destruct (c l1) as [[u|e] l2 t2]; simpl in *;
    [exact Hm | discriminate].
Qed.

Lemma returns_in_frame {L' A} (R : A -> Prop) (init : L') (m : M L' A) :
  returns R m -> returns R (@in_frame L L' A init m).
Proof.
  intros Hm l a. unfold in_frame. specialize (Hm init a).
  now destruct (m init) as [r l1 t1].
Qed.

End ReturnsRules.

Section NeverRaisesRules.
Context {L : Type}.

Lemma never_raises_ret {A} (a : A) : never_raises (@ret L A a).
Proof. intros l. now exists a. Qed.

Lemma never_raises_emit ev : never_raises (@emit L ev).
Proof. intros l. now exists tt. Qed.

Lemma never_raises_bind {A B} (m : M L A) (f : A -> M L B) :
  never_raises m -> (forall a, never_raises (f a)) -> never_raises (bind m f).
Proof.
  intros Hm Hf l. unfold bind. destruct (Hm l) as [a E].
  destruct (m l) as [r l1 t1]. simpl in E. subst r.
  destruct (Hf a l1) as [b E]. destruct (f a l1) as [r l2 t2]. simpl in *.
  now exists b.
Qed.

Lemma never_raises_catch_all {A} (m : M L A) h :
  (forall e, never_raises (h e)) -> never_raises (try_except any_exception m h).
Proof.
  intros Hh l. unfold try_except. destruct (m l) as [[a|e] l1 t1].
  - now exists a.
  - simpl. destruct (Hh e l1) as [b E]. destruct (h e l1) as [r l2 t2].
    simpl in *. now exists b.
Qed.

(** A cleanup that cannot raise leaves the result of the block alone. *)
Lemma try_finally_result {A} (m : M L A) c l :
  never_raises c -> res (try_finally m c l) = res (m l).
Proof.
  intros Hc. unfold try_finally. destruct (m l) as [r l1 t1].
  destruct (Hc l1) as [u E]. destruct (c l1) as [r' l2 t2]. simpl in *.
  now subst r'.
Qed.

End NeverRaisesRules.

Section SameResultRules.
Context {L : Type}.

Lemma same_result_refl {A} (m : M L A) : same_result m m.
Proof. intros l. auto. Qed.

Lemma same_result_bind {A B} (m1 m2 : M L A) (f1 f2 : A -> M L B) :
  same_result m1 m2 -> (forall a, same_result (f1 a) (f2 a)) ->
  same_result (bind m1 f1) (bind m2 f2).
Proof.
  intros Hm Hf l. unfold bind. destruct (Hm l) as [Er El].
  destruct (m1 l) as [r1 l1 t1], (m2 l) as [r2 l2 t2]. simpl in *. subst r2 l2.
  destruct r1 as [a|e]; [|auto].
  destruct (Hf a l1) as [Fr Fl].
  destruct (f1 a l1), (f2 a l1). simpl in *. auto.
Qed.

Lemma same_result_try_except {A} caught (m1 m2 : M L A) h1 h2 :
  same_result m1 m2 -> (forall e, same_result (h1 e) (h2 e)) ->
  same_result (try_except caught m1 h1) (try_except caught m2 h2).
Proof.
  intros Hm Hh l. unfold try_except. destruct (Hm l) as [Er El].
  destruct (m1 l) as [r1 l1 t1], (m2 l) as [r2 l2 t2]. simpl in *. subst r2 l2.
  destruct r1 as [a|e]; [auto|].
  destruct (caught e); [|auto].
  destruct (Hh e l1) as [Fr Fl].
  destruct (h1 e l1), (h2 e l1). simpl in *. auto.
Qed.

Lemma same_result_try_finally {A} (m1 m2 : M L A) c1 c2 :
  same_result m1 m2 -> same_result c1 c2 ->
  same_result (try_finally m1 c1) (try_finally m2 c2).
Proof.
  intros Hm Hc l. unfold try_finally. destruct (Hm l) as [Er El].
  destruct (m1 l) as [r1 l1 t1], (m2 l) as [r2 l2 t2]. simpl in *. subst r2 l2.
  destruct (Hc l1) as [Cr Cl].
  destruct (c1 l1) as [x1 k1 u1], (c2 l1) as [x2 k2 u2]. simpl in *. subst x2 k2.
  destruct x1; auto.
Qed.

Lemma same_result_in_frame {L' A} (init : L') (m1 m2 : M L' A) :
  same_result m1 m2 ->
  same_result (@in_frame L L' A init m1) (@in_frame L L' A init m2).
Proof.
  intros Hm l. unfold in_frame. destruct (Hm init) as [Er El].
  destruct (m1 init), (m2 init). simpl in *. auto.
Qed.

End SameResultRules.

Section RunRules.
Context {L : Type}.

Lemma run_bind_emit {B} ev (f : unit -> M L B) l :
  bind (emit ev) f l =
  Outcome (res (f tt l)) (locals (f tt l)) (ev :: events (f tt l)).
Proof. unfold bind, emit. now destruct (f tt l). Qed.

Lemma run_bind_log {B} msg (f : unit -> M L B) l :
  bind (logger_info msg) f l =
  Outcome (res (f tt l)) (locals (f tt l)) (Log INFO msg :: events (f tt l)).
Proof. apply run_bind_emit. Qed.

Lemma run_bind_ret {A B} (a : A) (f : A -> M L B) l :
  bind (ret a) f l = f a l.
Proof. unfold bind, ret. now destruct (f a l). Qed.

Lemma run_bind_lift_ret {A B} (a : A) (f : A -> M L B) l :
  bind (lift_result (Ret a)) f l = f a l.
Proof. unfold bind, lift_result. now destruct (f a l). Qed.

Lemma run_bind_raise {A B} e (f : A -> M L B) l :
  bind (raise e) f l = Outcome (Raise e) l [].
Proof. reflexivity. Qed.

Lemma run_bind_lift_raise {A B} e (f : A -> M L B) l :
  bind (lift_result (Raise e)) f l = Outcome (Raise e) l [].
Proof. reflexivity. Qed.

Lemma run_bind_perform_ok {B} ev (f : unit -> M L B) l :
  bind (perform ev None) f l =
  Outcome (res (f tt l)) (locals (f tt l)) (ev :: events (f tt l)).
Proof. unfold bind, perform. now destruct (f tt l). Qed.

Lemma run_bind_perform_fail {B} ev e (f : unit -> M L B) l :
  bind (perform ev (Some e)) f l = Outcome (Raise e) l [ev].
Proof. reflexivity. Qed.

Lemma run_bind_perform_result_ok {A B} ev (a : A) (f : A -> M L B) l :
  bind (perform_result ev (Ret a)) f l =
  Outcome (res (f a l)) (locals (f a l)) (ev :: events (f a l)).
Proof. unfold bind, perform_result. now destruct (f a l). Qed.

Lemma run_bind {A B} (m : M L A) (f : A -> M L B) l :
  bind m f l =
  match m l with
  | Outcome (Ret a) l1 t1 =>
      Outcome (res (f a l1)) (locals (f a l1)) (t1 ++ events (f a l1))
  | Outcome (Raise e) l1 t1 => Outcome (Raise e) l1 t1
  end.
Proof.
  unfold bind. destruct (m l) as [[a|e] l1 t1]; [|reflexivity].
  now destruct (f a l1).
Qed.

Lemma outcome_eta {A} (o : outcome L A) :
  Outcome (res o) (locals o) (events o) = o.
Proof. now destruct o. Qed.

End RunRules.

(** Walks through a piece of code with the rules of one judgement. *)
Ltac code_cases :=
  match goal with
  | |- context [match ?x with _ => _ end] => destruct x eqn:?
  end.

Ltac emits_step :=
  first
    [ apply emits_ret | apply emits_raise | apply emits_get_locals
    | apply emits_set_locals | apply emits_lift_result
    | apply emits_emit; reflexivity
    | apply emits_perform; reflexivity
    | apply emits_perform_result; reflexivity
    | apply emits_bind; [|intros ?]
    | apply emits_try_except; [|intros ?]
    | apply emits_try_finally
    | apply emits_in_frame ].

Ltac keeps_step :=
  first
    [ apply keeps_ret | apply keeps_raise | apply keeps_get_locals
    | apply keeps_lift_result | apply keeps_emit | apply keeps_perform
    | apply keeps_perform_result | apply keeps_in_frame
    | apply keeps_bind; [|intros ?]
    | apply keeps_try_except; [|intros ?]
    | apply keeps_try_finally ].

Ltac returns_step :=
  first
    [ apply returns_raise
    | apply returns_ret
    | apply returns_bind; intros ?
    | apply returns_try_except; [|intros ?]
    | apply returns_try_finally
    | apply returns_in_frame ].

Ltac same_step :=
  first
    [ apply same_result_refl
    | apply same_result_bind; [|intros ?]
    | apply same_result_try_except; [|intros ?]
    | apply same_result_try_finally
    | apply same_result_in_frame ].

(* ================================================================== *)
(** * What each function of the server emits *)
(* ================================================================== *)

Ltac unfold_logging := unfold logger_info, logger_warning, logger_error in *.

Ltac emits_walk :=
  unfold_logging; cbv zeta;
  repeat first [ emits_step | code_cases ].

Section ServerEmits.
Variable w : World.

Lemma get_db_config_emits : emits is_log (get_db_config w).
Proof. unfold get_db_config. emits_walk. Qed.

Lemma connect_attempts_emits cfg attempts :
  emits factory_event (connect_attempts w cfg attempts).
Proof.
  induction attempts as [|attempt rest IH]; cbn [connect_attempts].
  - apply emits_raise.
  - unfold_logging.
    apply emits_bind; [|intros [c|]; [apply emits_ret | exact IH]].
    emits_walk.
Qed.

Lemma get_database_connection_emits host port :
  emits factory_event (get_database_connection w host port).
Proof.
  unfold get_database_connection. unfold_logging. cbv zeta.
  apply emits_bind; [emits_step|intros _].
  apply emits_bind; [|intros cfg].
  - apply emits_in_frame. eapply emits_weaken; [|apply get_db_config_emits].
    now intros [].
  - apply emits_bind; [emits_step|intros _]. apply connect_attempts_emits.
Qed.

Lemma open_connection_and_cursor_opening host port :
  emits opening_event (open_connection_and_cursor w host port).
Proof.
  unfold open_connection_and_cursor.
  apply emits_bind; [|intros c].
  - apply emits_in_frame. eapply emits_weaken; [|apply get_database_connection_emits].
    now intros [].
  - apply emits_bind; [apply emits_set_locals | intros _].
    apply emits_bind; [apply emits_perform; reflexivity | intros _].
    apply emits_set_locals.
Qed.

Lemma open_connection_and_cursor_emits host port :
  emits handler_event (open_connection_and_cursor w host port).
Proof.
  eapply emits_weaken; [|apply open_connection_and_cursor_opening]. now intros [].
Qed.

Lemma close_cursor_closing : emits closing_event (close_cursor w).
Proof.
  unfold close_cursor. apply emits_bind; [apply emits_get_locals | intros l].
  destruct (cursor l); [apply emits_perform; reflexivity | apply emits_raise].
Qed.

Lemma close_connection_closing : emits closing_event (close_connection w).
Proof.
  unfold close_connection. apply emits_bind; [apply emits_get_locals | intros l].
  destruct (connection l); [apply emits_perform; reflexivity | apply emits_raise].
Qed.

Lemma close_quietly_closing : emits closing_event (close_quietly w).
Proof.
  unfold close_quietly.
  apply emits_try_except; [|intros; apply emits_ret].
  apply emits_bind; [apply close_cursor_closing | intros; apply close_connection_closing].
Qed.

Lemma execute_sql_cleanup_closing : emits closing_event (execute_sql_cleanup w).
Proof.
  unfold execute_sql_cleanup. unfold_logging.
  apply emits_try_except; [|intros e; apply emits_emit; reflexivity].
  apply emits_bind; [apply close_cursor_closing | intros; apply close_connection_closing].
Qed.

Lemma close_quietly_emits : emits handler_event (close_quietly w).
Proof.
  eapply emits_weaken; [|apply close_quietly_closing]. now intros [].
Qed.

Lemma execute_sql_cleanup_emits : emits handler_event (execute_sql_cleanup w).
Proof.
  eapply emits_weaken; [|apply execute_sql_cleanup_closing]. now intros [].
Qed.

Lemma schema_lines_one_emits columns result :
  emits handler_event (schema_lines_one columns result).
Proof.
  revert result. induction columns as [|col rest IH]; intros result;
    cbn [schema_lines_one]; [apply emits_ret|].
  repeat (apply emits_bind; [apply emits_lift_result | intros ?]). apply IH.
Qed.

Lemma schema_lines_all_emits columns last_table result :
  emits handler_event (schema_lines_all columns last_table result).
Proof.
  revert last_table result. induction columns as [|col rest IH];
    intros last_table result; cbn [schema_lines_all]; [apply emits_ret|].
  repeat (apply emits_bind; [apply emits_lift_result | intros ?]). apply IH.
Qed.

Lemma execute_sql_tool_emits host port arguments :
  emits handler_event (execute_sql_tool w host port arguments).
Proof.
  unfold execute_sql_tool. unfold_logging.
  apply emits_bind; [emits_step|intros _].
  apply emits_bind; [emits_walk|intros query].
  destruct query as [|c query]; [apply emits_ret|].
  destruct (validate_sql_query (c :: query)) as [[] reason]; cbn [negb];
    [|apply emits_ret].
  apply emits_try_finally.
  - apply emits_try_except; [|intros e; emits_walk].
    apply emits_bind; [apply open_connection_and_cursor_emits | intros _].
    emits_walk.
  - apply execute_sql_cleanup_emits.
Qed.

Lemma get_schema_info_tool_emits host port arguments :
  emits handler_event (get_schema_info_tool w host port arguments).
Proof.
  unfold get_schema_info_tool. unfold_logging. cbv zeta.
  apply emits_bind; [emits_step|intros _].
  apply emits_try_finally; [|apply close_quietly_emits].
  apply emits_try_except; [|intros e; emits_walk].
  apply emits_bind; [apply open_connection_and_cursor_emits | intros _].
  destruct (truthy _).
  - repeat (apply emits_bind; [emits_step | intros ?]).
    apply emits_bind; [apply schema_lines_one_emits | intros; apply emits_ret].
  - repeat (apply emits_bind; [emits_step | intros ?]).
    apply emits_bind; [apply schema_lines_all_emits | intros; apply emits_ret].
Qed.

Lemma get_table_sample_tool_emits host port arguments :
  emits handler_event (get_table_sample_tool w host port arguments).
Proof.
  unfold get_table_sample_tool. unfold_logging. cbv zeta.
  apply emits_bind; [emits_step|intros _].
  apply emits_bind; [emits_step|intros limit].
  destruct (negb _); [apply emits_ret|].
  apply emits_try_finally; [|apply close_quietly_emits].
  apply emits_try_except; [|intros e; emits_walk].
  apply emits_bind; [apply open_connection_and_cursor_emits | intros _].
  emits_walk.
Qed.

Lemma call_tool_body_emits name arguments host port :
  emits handler_event (call_tool_body w name arguments host port).
Proof.
  unfold call_tool_body. unfold_logging.
  apply emits_bind; [emits_step|intros _].
  repeat match goal with
         | |- emits _ (if ?b then _ else _) => destruct b
         end;
    try (apply emits_bind; [emits_step|intros _]).
  - apply emits_in_frame, execute_sql_tool_emits.
  - apply emits_in_frame, get_schema_info_tool_emits.
  - apply emits_in_frame, get_table_sample_tool_emits.
  - emits_walk.
  - apply emits_ret.
Qed.

Lemma log_tunnel_output_output : emits output_event (log_tunnel_output w).
Proof.
  unfold log_tunnel_output, read_ssh_proc. unfold_logging.
  apply emits_try_except; [|intros e; apply emits_ret].
  apply emits_bind; [|intros _].
  { apply emits_bind; [apply emits_get_locals | intros l].
    destruct (ssh_proc l); [apply emits_ret | apply emits_raise]. }
  apply emits_bind; [apply emits_perform_result; reflexivity | intros [out err]].
  apply emits_bind; [|intros _].
  - cbn [fst]. destruct out; [apply emits_ret | apply emits_emit; reflexivity].
  - cbn [snd]. destruct err; [apply emits_ret | apply emits_emit; reflexivity].
Qed.

Lemma log_tunnel_output_emits : emits tunnel_event (log_tunnel_output w).
Proof.
  eapply emits_weaken; [|apply log_tunnel_output_output]. now intros [].
Qed.

Lemma log_tunnel_output_keeps : keeps_locals (log_tunnel_output w).
Proof.
  unfold log_tunnel_output, read_ssh_proc. unfold_logging.
  apply keeps_try_except; [|intros e; apply keeps_ret].
  apply keeps_bind; [|intros _].
  { apply keeps_bind; [apply keeps_get_locals | intros l].
    destruct (ssh_proc l); [apply keeps_ret | apply keeps_raise]. }
  apply keeps_bind; [apply keeps_perform_result | intros [out err]].
  apply keeps_bind; [|intros _].
  - cbn [fst]. destruct out; [apply keeps_ret | apply keeps_emit].
  - cbn [snd]. destruct err; [apply keeps_ret | apply keeps_emit].
Qed.

Lemma maybe_ssh_tunnel_release_emits : emits tunnel_event (tunnel_release w).
Proof.
  unfold tunnel_release, read_ssh_proc. unfold_logging.
  apply emits_bind; [apply emits_emit; reflexivity | intros _].
  apply emits_try_except; [|intros e; apply emits_emit; reflexivity].
  apply emits_bind; [|intros _].
  { apply emits_bind; [apply emits_get_locals | intros l].
    destruct (ssh_proc l); [apply emits_ret | apply emits_raise]. }
  apply emits_bind; [apply emits_perform; reflexivity | intros _].
  apply emits_bind; [|intros _].
  { apply emits_bind; [apply emits_get_locals | intros l].
    destruct (ssh_proc l); [apply emits_ret | apply emits_raise]. }
  apply emits_bind; [apply emits_perform; reflexivity | intros _].
  apply emits_emit; reflexivity.
Qed.

(** The context manager adds only its own events to those of the body. *)
Lemma maybe_ssh_tunnel_emits {A} (P : Event -> bool) (body : str -> Z -> M unit A) :
  (forall ev, tunnel_event ev = true -> P ev = true) ->
  (forall host port, emits P (body host port)) ->
  emits P (maybe_ssh_tunnel w body).
Proof.
  intros HP Hbody.
  assert (Lg : forall lvl msg, emits P (@emit TunnelLocals (Log lvl msg))).
  { intros. apply emits_emit. now apply HP. }
  assert (Rel : emits P (tunnel_release w)).
  { unfold tunnel_release, read_ssh_proc. unfold_logging.
    apply emits_bind; [apply Lg | intros _].
    apply emits_try_except; [|intros e; apply Lg].
    apply emits_bind; [|intros _].
    { apply emits_bind; [apply emits_get_locals | intros l].
      destruct (ssh_proc l); [apply emits_ret | apply emits_raise]. }
    apply emits_bind; [apply emits_perform; now apply HP | intros _].
    apply emits_bind; [|intros _].
    { apply emits_bind; [apply emits_get_locals | intros l].
      destruct (ssh_proc l); [apply emits_ret | apply emits_raise]. }
    apply emits_bind; [apply emits_perform; now apply HP | intros _].
    apply Lg. }
  unfold maybe_ssh_tunnel. unfold_logging.
  apply emits_bind; [apply Lg | intros _].
  destruct (negb (use_ssh w)).
  - apply emits_bind; [apply Lg | intros _].
    apply emits_bind; [apply Lg | intros _].
    apply emits_bind; [apply emits_lift_result | intros port].
    apply emits_in_frame, Hbody.
  - apply emits_bind; [apply emits_lift_result | intros ssh_port].
    apply emits_bind; [apply emits_lift_result | intros remote_port].
    apply emits_bind; [apply emits_lift_result | intros local_port].
    apply emits_bind; [apply Lg | intros _].
    apply emits_bind; [apply emits_lift_result | intros cmd].
    apply emits_bind; [apply Lg | intros _].
    apply emits_try_finally; [|exact Rel].
    apply emits_try_except; [|intros e; apply emits_bind; [apply Lg | intros _; apply emits_raise]].
    apply emits_bind; [apply emits_perform; now apply HP | intros _].
    apply emits_bind; [apply emits_set_locals | intros _].
    apply emits_bind; [apply emits_emit; now apply HP | intros _].
    apply emits_bind; [apply Lg | intros _].
    apply emits_bind; [|intros _; apply emits_in_frame, Hbody].
    eapply emits_weaken; [exact HP | apply log_tunnel_output_emits].
Qed.
End ServerEmits.

(* ================================================================== *)
(** * The dispatcher *)
(* ================================================================== *)

Ltac returns_walk :=
  unfold_logging; cbv zeta;
  repeat first [ returns_step | code_cases ].

Section DispatcherFacts.
Variable w : World.

Lemma text_block_one t : one_text_block (text_block t).
Proof. unfold text_block. now eexists. Qed.

Hint Resolve text_block_one : core.

Lemma execute_sql_tool_returns host port arguments :
  returns one_text_block (execute_sql_tool w host port arguments).
Proof.
  unfold execute_sql_tool. unfold_logging.
  apply returns_bind; intros _.
  apply returns_bind; intros query.
  destruct query as [|c query]; [apply returns_ret; auto|].
  destruct (validate_sql_query (c :: query)) as [[] reason]; cbn [negb];
    [|apply returns_ret; auto].
  apply returns_try_finally, returns_try_except.
  - repeat (apply returns_bind; intros _).
    destruct (w_description w (c :: query)) as [[|d ds]|].
    + apply returns_bind; intros _. apply returns_ret; auto.
    + apply returns_bind; intros results. apply returns_bind; intros _.
      destruct results; apply returns_bind; intros _; apply returns_ret; auto.
    + apply returns_bind; intros _. apply returns_ret; auto.
  - intros e. destruct (is_mysql_error e);
      apply returns_bind; intros _; apply returns_ret; auto.
Qed.

Lemma get_schema_info_tool_returns host port arguments :
  returns one_text_block (get_schema_info_tool w host port arguments).
Proof.
  unfold get_schema_info_tool. unfold_logging.
  apply returns_bind; intros _.
  apply returns_try_finally, returns_try_except.
  - apply returns_bind; intros _.
    destruct (truthy _).
    + repeat (apply returns_bind; intros ?). apply returns_ret; auto.
    + repeat (apply returns_bind; intros ?). apply returns_ret; auto.
  - intros e. apply returns_bind; intros _. apply returns_ret; auto.
Qed.

Lemma get_table_sample_tool_returns host port arguments :
  returns one_text_block (get_table_sample_tool w host port arguments).
Proof.
  unfold get_table_sample_tool. unfold_logging.
  apply returns_bind; intros _.
  apply returns_bind; intros limit.
  destruct (negb _); [apply returns_ret; auto|].
  apply returns_try_finally, returns_try_except.
  - repeat (apply returns_bind; intros ?). apply returns_ret; auto.
  - intros e. apply returns_bind; intros _. apply returns_ret; auto.
Qed.

Lemma call_tool_body_returns name arguments host port :
  returns one_text_block (call_tool_body w name arguments host port).
Proof.
  unfold call_tool_body. unfold_logging.
  apply returns_bind; intros _.
  repeat match goal with
         | |- returns _ (if ?b then _ else _) => destruct b
         end;
    apply returns_bind; intros _.
  - apply returns_in_frame, execute_sql_tool_returns.
  - apply returns_in_frame, get_schema_info_tool_returns.
  - apply returns_in_frame, get_table_sample_tool_returns.
  - returns_walk; auto.
  - apply returns_ret; auto.
Qed.

(** What the [with] block returns is what its body returned. *)
Lemma maybe_ssh_tunnel_returns {A} (R : A -> Prop) (body : str -> Z -> M unit A) :
  (forall host port, returns R (body host port)) ->
  returns R (maybe_ssh_tunnel w body).
Proof.
  intros Hbody. unfold maybe_ssh_tunnel. unfold_logging. cbv zeta.
  apply returns_bind; intros _.
  destruct (negb (use_ssh w)).
  - repeat (apply returns_bind; intros ?). apply returns_in_frame, Hbody.
  - repeat (apply returns_bind; intros ?).
    apply returns_try_finally. apply returns_try_except; [|intros e; returns_walk].
    repeat (apply returns_bind; intros ?). apply returns_in_frame, Hbody.
Qed.

Lemma unknown_tool_body name arguments host port l :
  ~ In name tool_names ->
  res (call_tool_body w name arguments host port l) =
  Ret (text_block (py "Unknown tool: " ++ name)).
Proof.
  intros H. unfold call_tool_body.
  assert (N : forall t, In t tool_names -> str_eqb name t = false).
  { intros t Ht. destruct (str_eqb name t) eqn:E; [|reflexivity].
    apply str_eqb_eq in E. subst. contradiction. }
  rewrite !N by (vm_compute; tauto). reflexivity.
Qed.

Lemma call_tool_never_raises name arguments :
  never_raises (call_tool w name arguments).
Proof.
  unfold call_tool. unfold_logging.
  apply never_raises_bind; [apply never_raises_emit | intros _].
  apply never_raises_catch_all. intros e.
  apply never_raises_bind; [apply never_raises_emit | intros _].
  apply never_raises_ret.
Qed.

Lemma call_tool_result name arguments :
  res (run_call w name arguments) =
  match res (call_tool_with w name arguments tt) with
  | Ret r => Ret r
  | Raise _ => Ret generic_error
  end.
Proof.
  unfold run_call, call_tool, logger_info, logger_error.
  rewrite run_bind_emit. cbn [res]. unfold try_except.
  destruct (call_tool_with w name arguments tt) as [[r|e] l1 t1]; reflexivity.
Qed.

End DispatcherFacts.

(** C5.  Whatever the tool name, the arguments and the answers of the
    outside world, [call_tool] returns exactly one text block and never
    raises.  An exception that leaves the [with] block, from a handler
    or from the tunnel manager, becomes the generic error text.  For a
    name that is not a tool, the switch produces the unknown-tool text,
    and that is the result of the call whenever the [with] block
    returned. *)
Theorem call_tool_one_text_block (w : World) (name : str) (arguments : dict) :
  (exists block, res (run_call w name arguments) = Ret [block]) /\
  (forall e, res (call_tool_with w name arguments tt) = Raise e ->
             res (run_call w name arguments) = Ret generic_error) /\
  (~ In name tool_names ->
   (forall host port,
      res (call_tool_body w name arguments host port tt) =
      Ret (text_block (py "Unknown tool: " ++ name))) /\
   (forall r, res (call_tool_with w name arguments tt) = Ret r ->
              res (run_call w name arguments) =
              Ret (text_block (py "Unknown tool: " ++ name)))).
Proof.
  split; [|split].
  - rewrite call_tool_result.
    destruct (res (call_tool_with w name arguments tt)) eqn:E.
    + assert (Hr : returns one_text_block (call_tool_with w name arguments)).
      { apply returns_in_frame, maybe_ssh_tunnel_returns.
        intros host port. apply call_tool_body_returns. }
      destruct (Hr tt a E) as [b ->]. now exists b.
    + eexists. reflexivity.
  - intros e E. now rewrite call_tool_result, E.
  - intros Hunknown. split.
    + intros host port. now apply unknown_tool_body.
    + intros r E. rewrite call_tool_result, E. f_equal.
      assert (Hr : returns (fun r => r = text_block (py "Unknown tool: " ++ name))
                           (call_tool_with w name arguments)).
      { apply returns_in_frame, maybe_ssh_tunnel_returns.
        intros host port l a Ha. rewrite unknown_tool_body in Ha by assumption.
        now inversion Ha. }
      exact (Hr tt r E).
Qed.

(* ================================================================== *)
(** * The guards of execute_sql *)
(* ================================================================== *)

Section GuardFacts.
Variable w : World.

Lemma execute_sql_tool_no_query host port arguments query l :
  dict_get_default arguments (py "query") (VStr []) = VStr query ->
  strip query = [] ->
  execute_sql_tool w host port arguments l =
  Outcome (Ret (text_block (py "No SQL query provided"))) l
          [execute_sql_entry_log host port arguments].
Proof.
  intros Hq Hs. unfold execute_sql_tool, logger_info. rewrite Hq.
  rewrite run_bind_emit, run_bind_ret, Hs. reflexivity.
Qed.

Lemma execute_sql_tool_rejected host port arguments query reason l :
  dict_get_default arguments (py "query") (VStr []) = VStr query ->
  strip query <> [] ->
  validate_sql_query (strip query) = (false, reason) ->
  execute_sql_tool w host port arguments l =
  Outcome (Ret (text_block (py "Query not allowed: " ++ reason))) l
          [execute_sql_entry_log host port arguments].
Proof.
  intros Hq Hs Hv. unfold execute_sql_tool, logger_info. rewrite Hq.
  rewrite run_bind_emit, run_bind_ret.
  destruct (strip query) as [|c s] eqn:E; [congruence|].
  rewrite Hv. reflexivity.
Qed.

End GuardFacts.

Section CallLevelGuards.
Variable w : World.

(** A call emits only events of [P] when the body of its [with] block
    does and [P] admits logging and the tunnel's own operations. *)
Lemma call_tool_emits (P : Event -> bool) name arguments :
  (forall ev, tunnel_event ev = true -> P ev = true) ->
  (forall host port, emits P (call_tool_body w name arguments host port)) ->
  emits P (call_tool w name arguments).
Proof.
  intros HP Hbody. unfold call_tool, call_tool_with. unfold_logging.
  apply emits_bind; [apply emits_emit; now apply HP | intros _].
  apply emits_try_except.
  - apply emits_in_frame, maybe_ssh_tunnel_emits; assumption.
  - intros e. apply emits_bind; [apply emits_emit; now apply HP | intros _].
    apply emits_ret.
Qed.

Lemma execute_sql_call_guarded arguments query :
  dict_get_default arguments (py "query") (VStr []) = VStr query ->
  strip query = [] \/ fst (validate_sql_query (strip query)) = false ->
  emits away_from_database (call_tool w (py "execute_sql") arguments).
Proof.
  intros Hq Hguard. apply call_tool_emits; [now intros []|].
  intros host port. unfold call_tool_body. unfold_logging.
  rewrite str_eqb_refl.
  apply emits_bind; [apply emits_emit; reflexivity | intros _].
  apply emits_bind; [apply emits_emit; reflexivity | intros _].
  apply emits_in_frame. intros l.
  destruct (strip query) as [|c s] eqn:Hs.
  - now rewrite (execute_sql_tool_no_query w host port arguments query _ Hq Hs).
  - destruct Hguard as [Hg | Hg]; [discriminate|].
    destruct (validate_sql_query (c :: s)) as [allowed reason] eqn:Hv.
    simpl in Hg. subst allowed.
    rewrite (execute_sql_tool_rejected w host port arguments query reason);
      auto; rewrite Hs; [discriminate | exact Hv].
Qed.

End CallLevelGuards.

(** C2.  [execute_sql] reaches the database only past its two guards.
    A query that is empty once trimmed gives the no-query text; a query
    the validator rejects gives the rejection text with the validator's
    reason.  In both cases the handler does nothing but log its entry,
    and the whole call, tunnel included, performs no operation on the
    driver, a connection or a cursor. *)
Theorem execute_sql_guards (w : World) (host : str) (port : Z)
        (arguments : dict) (query : str) :
  dict_get_default arguments (py "query") (VStr []) = VStr query ->
  (strip query = [] ->
   execute_sql_tool w host port arguments new_handler_frame =
     Outcome (Ret (text_block (py "No SQL query provided"))) new_handler_frame
             [execute_sql_entry_log host port arguments] /\
   count_events touches_database
     (events (run_call w (py "execute_sql") arguments)) = 0%nat) /\
  (forall reason,
     strip query <> [] ->
     validate_sql_query (strip query) = (false, reason) ->
     execute_sql_tool w host port arguments new_handler_frame =
       Outcome (Ret (text_block (py "Query not allowed: " ++ reason)))
               new_handler_frame [execute_sql_entry_log host port arguments] /\
     count_events touches_database
       (events (run_call w (py "execute_sql") arguments)) = 0%nat).
Proof.
  intros Hq.
  assert (Z0 : forall t, forallb away_from_database t = true ->
                         count_events touches_database t = 0%nat).
  { unfold count_events, away_from_database. induction t as [|ev t IH]; [reflexivity|].
    simpl. intros H. apply andb_true_iff in H as [H1 H2].
    destruct (touches_database ev); [discriminate | auto]. }
  split.
  - intros Hs. split; [now apply execute_sql_tool_no_query with (query := query)|].
    apply Z0. apply (execute_sql_call_guarded w arguments query Hq). now left.
  - intros reason Hs Hv. split; [now apply execute_sql_tool_rejected with (query := query)|].
    apply Z0. apply (execute_sql_call_guarded w arguments query Hq). right. now rewrite Hv.
Qed.

(** C10.  The validator allows the empty text and any text made of
    whitespace only; it is the handler of [execute_sql] that turns such
    a query away, before it consults the validator. *)
Theorem validate_sql_query_allows_blank (q : str) :
  whitespace_only q ->
  validate_sql_query q = (true, py "Query is allowed") /\
  forall w host port arguments,
    dict_get_default arguments (py "query") (VStr []) = VStr q ->
    res (execute_sql_tool w host port arguments new_handler_frame) =
    Ret (text_block (py "No SQL query provided")).
Proof.
  intros H. split; [now apply validate_sql_query_whitespace|].
  intros w host port arguments Hq.
  rewrite (execute_sql_tool_no_query w host port arguments q _ Hq (strip_whitespace H)).
  reflexivity.
Qed.

(* ================================================================== *)
(** * The connection factory *)
(* ================================================================== *)

Section FactoryFacts.
Variable w : World.

Lemma attempts_and_sleeps_app t1 t2 :
  attempts_and_sleeps (t1 ++ t2) = attempts_and_sleeps t1 ++ attempts_and_sleeps t2.
Proof. apply filter_app. Qed.

Lemma attempts_and_sleeps_logs t :
  forallb is_log t = true -> attempts_and_sleeps t = [].
Proof.
  induction t as [|ev t IH]; [reflexivity|]. simpl. intros H.
  apply andb_true_iff in H as [H1 H2]. destruct ev; try discriminate.
  simpl. auto.
Qed.

Ltac run_attempt :=
  cbn [connect_attempts];
  unfold bind, try_except, perform, logger_info, logger_warning, logger_error,
    emit, ret, raise;
  cbn [res locals events].

Lemma connect_attempt_ok pc attempt rest l :
  w_connect w attempt pc = None ->
  res (connect_attempts w pc (attempt :: rest) l) = Ret MySQLConnection /\
  attempts_and_sleeps (events (connect_attempts w pc (attempt :: rest) l)) =
  [Connect pc].
Proof. intros H. run_attempt. rewrite H. cbn. auto. Qed.

Lemma connect_attempt_retry pc attempt rest l e :
  w_connect w attempt pc = Some e -> is_mysql_error e = true ->
  (attempt <? max_retries - 1)%nat = true ->
  res (connect_attempts w pc (attempt :: rest) l) =
    res (connect_attempts w pc rest l) /\
  attempts_and_sleeps (events (connect_attempts w pc (attempt :: rest) l)) =
    Connect pc :: Sleep 1 ::
    attempts_and_sleeps (events (connect_attempts w pc rest l)).
Proof.
  intros H He Hlt. run_attempt. rewrite H. cbn [res locals events]. rewrite He, Hlt.
  destruct (connect_attempts w pc rest l) as [r l2 t2]. cbn [res events].
  rewrite attempts_and_sleeps_app. auto.
Qed.

Lemma connect_attempt_last pc attempt rest l e :
  w_connect w attempt pc = Some e -> is_mysql_error e = true ->
  (attempt <? max_retries - 1)%nat = false ->
  res (connect_attempts w pc (attempt :: rest) l) = Raise e /\
  attempts_and_sleeps (events (connect_attempts w pc (attempt :: rest) l)) =
    [Connect pc].
Proof.
  intros H He Hlt. run_attempt. rewrite H. cbn [res locals events]. rewrite He, Hlt.
  cbn. auto.
Qed.

Lemma connect_attempt_other pc attempt rest l e :
  w_connect w attempt pc = Some e -> is_mysql_error e = false ->
  res (connect_attempts w pc (attempt :: rest) l) = Raise e /\
  attempts_and_sleeps (events (connect_attempts w pc (attempt :: rest) l)) =
    [Connect pc].
Proof.
  intros H He. run_attempt. rewrite H. cbn [res locals events]. rewrite He.
  cbn. auto.
Qed.

Lemma count_connect_attempts t :
  count_events is_connect t = count_events is_connect (attempts_and_sleeps t).
Proof.
  unfold count_events, attempts_and_sleeps.
  induction t as [|ev t IH]; [reflexivity|]. destruct ev; simpl; auto.
Qed.

Lemma connect_attempts_bounded pc attempts l :
  (count_events is_connect (events (connect_attempts w pc attempts l))
   <= List.length attempts)%nat.
Proof.
  induction attempts as [|attempt rest IH]; [cbn; lia|].
  rewrite count_connect_attempts.
  destruct (w_connect w attempt pc) as [e|] eqn:H.
  - destruct (is_mysql_error e) eqn:He.
    + destruct (attempt <? max_retries - 1)%nat eqn:Hlt.
      * rewrite (proj2 (connect_attempt_retry pc attempt rest l e H He Hlt)).
        rewrite count_connect_attempts in IH.
        unfold count_events in *. cbn in *. lia.
      * rewrite (proj2 (connect_attempt_last pc attempt rest l e H He Hlt)). cbn. lia.
    + rewrite (proj2 (connect_attempt_other pc attempt rest l e H He)). cbn. lia.
  - rewrite (proj2 (connect_attempt_ok pc attempt rest l H)). cbn. lia.
Qed.

(** The factory once [get_db_config] is done: what it hands to the loop,
    or the configuration error. *)
Lemma get_database_connection_steps host port l :
  match res (get_db_config w tt) with
  | Ret config =>
      let pc := filter (fun kv => negb (is_pool_key (fst kv)))
                       (connection_config config host port) in
      res (get_database_connection w host port l) =
        res (connect_attempts w pc (seq 0 max_retries) l) /\
      attempts_and_sleeps (events (get_database_connection w host port l)) =
        attempts_and_sleeps (events (connect_attempts w pc (seq 0 max_retries) l))
  | Raise e =>
      res (get_database_connection w host port l) = Raise e /\
      attempts_and_sleeps (events (get_database_connection w host port l)) = []
  end.
Proof.
  pose proof (get_db_config_emits w tt) as Hlog.
  apply attempts_and_sleeps_logs in Hlog.
  assert (Skip : forall lvl msg t,
             attempts_and_sleeps (Log lvl msg :: t) = attempts_and_sleeps t)
    by reflexivity.
  unfold get_database_connection, logger_info.
  rewrite run_bind_emit, run_bind. unfold in_frame.
  destruct (get_db_config w tt) as [[config|e] l1 t1]; cbn [res locals events] in *.
  - rewrite run_bind_emit. cbn [res locals events]. cbv zeta.
    split; [reflexivity|].
    now rewrite Skip, attempts_and_sleeps_app, Hlog, Skip.
  - split; [reflexivity|]. now rewrite Skip.
Qed.

End FactoryFacts.

(** C7.  [get_database_connection] calls the driver's connect at most
    three times.  Once the configuration is read, it returns the
    connection of the first attempt that goes through; after a failed
    attempt that raised a driver error it sleeps one second and tries
    again, except after the third, where it raises that third error. *)
Theorem get_database_connection_retries (w : World) (host : str) (port : Z) :
  (count_events is_connect (events (get_database_connection w host port tt)) <= 3)%nat /\
  forall config,
    res (get_db_config w tt) = Ret config ->
    let pc := filter (fun kv => negb (is_pool_key (fst kv)))
                     (connection_config config host port) in
    let o := get_database_connection w host port tt in
    (w_connect w 0 pc = None ->
     res o = Ret MySQLConnection /\
     attempts_and_sleeps (events o) = [Connect pc]) /\
    (forall e0,
       w_connect w 0 pc = Some e0 -> is_mysql_error e0 = true ->
       (w_connect w 1 pc = None ->
        res o = Ret MySQLConnection /\
        attempts_and_sleeps (events o) = [Connect pc; Sleep 1; Connect pc]) /\
       (forall e1,
          w_connect w 1 pc = Some e1 -> is_mysql_error e1 = true ->
          (w_connect w 2 pc = None ->
           res o = Ret MySQLConnection /\
           attempts_and_sleeps (events o) =
             [Connect pc; Sleep 1; Connect pc; Sleep 1; Connect pc]) /\
          (forall e2,
             w_connect w 2 pc = Some e2 -> is_mysql_error e2 = true ->
             res o = Raise e2 /\
             attempts_and_sleeps (events o) =
               [Connect pc; Sleep 1; Connect pc; Sleep 1; Connect pc]))).
Proof.
  pose proof (get_database_connection_steps w host port tt) as Hsteps.
  split.
  - rewrite count_connect_attempts.
    destruct (res (get_db_config w tt)) as [config|e].
    + cbv zeta in Hsteps. destruct Hsteps as [_ ->].
      rewrite <- count_connect_attempts.
      apply (connect_attempts_bounded w _ (seq 0 max_retries) tt).
    + destruct Hsteps as [_ ->]. cbn. lia.
  - intros config Hcfg. rewrite Hcfg in Hsteps. cbv zeta in *.
    destruct Hsteps as [-> ->]. cbn [seq max_retries].
    set (pc := filter _ (connection_config config host port)).
    split.
    + intros H0. exact (connect_attempt_ok w pc 0%nat [1; 2]%nat tt H0).
    + intros e0 H0 M0.
      destruct (connect_attempt_retry w pc 0%nat [1; 2]%nat tt e0 H0 M0 eq_refl) as [-> ->].
      split.
      * intros H1. destruct (connect_attempt_ok w pc 1%nat [2]%nat tt H1) as [-> ->]. auto.
      * intros e1 H1 M1.
        destruct (connect_attempt_retry w pc 1%nat [2]%nat tt e1 H1 M1 eq_refl) as [-> ->].
        split.
        -- intros H2. destruct (connect_attempt_ok w pc 2%nat [] tt H2) as [-> ->]. auto.
        -- intros e2 H2 M2.
           destruct (connect_attempt_last w pc 2%nat [] tt e2 H2 M2 eq_refl) as [-> ->]. auto.
Qed.

(* ================================================================== *)
(** * The tunnel that fails to start *)
(* ================================================================== *)

Section LaunchFailure.
Variable w : World.
Hypothesis tunnelling : use_ssh w = true.
Hypothesis launch_fails : forall cmd, w_popen w cmd <> None.

Lemma emits_perform_fails {L B} (P : Event -> bool) ev answer (f : unit -> M L B) :
  answer <> None -> P ev = true -> emits P (bind (perform ev answer) f).
Proof.
  intros Hans HP l. unfold bind, perform.
  destruct answer; [|congruence]. simpl. now rewrite HP.
Qed.

Lemma returns_perform_fails {L B} (R : B -> Prop) ev answer (f : unit -> M L B) :
  answer <> None -> returns R (bind (perform ev answer) f).
Proof.
  intros Hans l b. unfold bind, perform.
  destruct answer; [|congruence]. discriminate.
Qed.

Lemma failed_launch_emits {A} (body : str -> Z -> M unit A) :
  emits outside_factory (maybe_ssh_tunnel w body).
Proof.
  unfold maybe_ssh_tunnel, tunnel_release, read_ssh_proc. rewrite tunnelling. cbn [negb].
  unfold_logging. cbv zeta.
  apply emits_bind; [apply emits_emit; reflexivity | intros _].
  repeat (apply emits_bind; [apply emits_lift_result | intros ?]).
  apply emits_bind; [apply emits_emit; reflexivity | intros _].
  apply emits_bind; [apply emits_lift_result | intros cmd].
  apply emits_bind; [apply emits_emit; reflexivity | intros _].
  apply emits_try_finally.
  - apply emits_try_except.
    + apply emits_perform_fails; [apply launch_fails | reflexivity].
    + intros e. apply emits_bind; [apply emits_emit; reflexivity | intros _].
      apply emits_raise.
  - apply emits_bind; [apply emits_emit; reflexivity | intros _].
    apply emits_try_except.
    + repeat first
        [ apply emits_get_locals | apply emits_ret | apply emits_raise
        | apply emits_emit; reflexivity | apply emits_perform; reflexivity
        | apply emits_bind; [|intros ?] | code_cases ].
    + intros e. apply emits_emit; reflexivity.
Qed.

Lemma failed_launch_never_returns {A} (body : str -> Z -> M unit A) :
  returns (fun _ => False) (maybe_ssh_tunnel w body).
Proof.
  unfold maybe_ssh_tunnel. rewrite tunnelling. cbn [negb].
  unfold_logging. cbv zeta.
  repeat (apply returns_bind; intros ?).
  apply returns_try_finally, returns_try_except.
  - apply returns_perform_fails, launch_fails.
  - intros e. apply returns_bind. intros _. apply returns_raise.
Qed.

Lemma failed_launch_call name arguments :
  res (run_call w name arguments) = Ret generic_error /\
  forallb outside_factory (events (run_call w name arguments)) = true.
Proof.
  split.
  - rewrite call_tool_result.
    destruct (res (call_tool_with w name arguments tt)) eqn:E; [|reflexivity].
    exfalso. revert E.
    exact (returns_in_frame (fun _ => False) new_tunnel_frame _
             (failed_launch_never_returns (call_tool_body w name arguments)) tt a).
  - unfold run_call, call_tool, call_tool_with. unfold_logging.
    apply emits_bind; [apply emits_emit; reflexivity | intros _].
    apply emits_try_except.
    + apply emits_in_frame, failed_launch_emits.
    + intros e. apply emits_bind; [apply emits_emit; reflexivity | intros _].
      apply emits_ret.
Qed.

End LaunchFailure.

Lemma count_events_none (p q : Event -> bool) t :
  (forall ev, q ev = true -> p ev = false) ->
  forallb q t = true -> count_events p t = 0%nat.
Proof.
  intros Hpq. unfold count_events. induction t as [|ev t IH]; [reflexivity|].
  simpl. intros H. apply andb_true_iff in H as [H1 H2].
  rewrite (Hpq _ H1). auto.
Qed.

(** C9.  With tunnelling enabled and a forwarding process that fails to
    launch, the call returns the generic error text, and its trace
    holds no sign of the connection factory: no line logged by it, no
    connect, no operation on the database. *)
Theorem tunnel_launch_failure (w : World) (name : str) (arguments : dict) :
  use_ssh w = true ->
  (forall cmd, w_popen w cmd <> None) ->
  res (run_call w name arguments) = Ret generic_error /\
  count_events from_connection_factory (events (run_call w name arguments)) = 0%nat /\
  count_events touches_database (events (run_call w name arguments)) = 0%nat.
Proof.
  intros Hssh Hfail.
  destruct (failed_launch_call w Hssh Hfail name arguments) as [Hres Hev].
  split; [exact Hres|]. split.
  - apply count_events_none with (q := outside_factory); [|exact Hev].
    intros ev H. unfold outside_factory in H.
    apply andb_true_iff in H as [H _]. now destruct (from_connection_factory ev).
  - apply count_events_none with (q := outside_factory); [|exact Hev].
    intros ev H. unfold outside_factory in H.
    apply andb_true_iff in H as [_ H]. now destruct (touches_database ev).
Qed.

(* ================================================================== *)
(** * The row limit of get_table_sample *)
(* ================================================================== *)

Section SampleLimit.
Variable w : World.


Lemma emits_bind_lift_ret {L A B} (P : Event -> bool) (a : A) (f : A -> M L B) :
  emits P (f a) -> emits P (bind (lift_result (Ret a)) f).
Proof. intros H l. rewrite run_bind_lift_ret. apply H. Qed.

Lemma returns_bind_lift_ret {L A B} (R : B -> Prop) (a : A) (f : A -> M L B) :
  returns R (f a) -> returns R (bind (lift_result (Ret a)) f).
Proof. intros H l b. rewrite run_bind_lift_ret. apply H. Qed.

Lemma returns_bind_perform_result {L A B} (R : B -> Prop) ev (answer : result A)
      (f : A -> M L B) :
  (forall a, answer = Ret a -> returns R (f a)) ->
  returns R (bind (perform_result ev answer) f).
Proof.
  intros H l b. destruct answer as [a|e]; [|discriminate].
  rewrite run_bind_perform_result_ok. cbn [res]. now apply H.
Qed.

End SampleLimit.

(* ================================================================== *)
(** * The theorems at work on concrete calls *)
(* ================================================================== *)

Import Scenario.

Lemma drop_is_listed_first j : ~ listed_before j (py "DROP").
Proof.
  intros (l1 & l2 & l3 & E).
  assert (Hin : In (py "DROP") (tl restricted_commands)).
  { rewrite E. destruct l1 as [|x l1]; simpl; apply in_or_app; right.
    - now left.
    - right. apply in_or_app. right. now left. }
  vm_compute in Hin.
  repeat (destruct Hin as [Hin | Hin]; [discriminate Hin|]). exact Hin.
Qed.

Lemma validate_sql_query_keywords_witness :
  validate_sql_query (py "drop table users") = (false, command_reason (py "DROP")) /\
  first_restricted (upper (strip (py "SELECT dropdown FROM menus"))) = None.
Proof.
  split.
  - destruct (validate_sql_query_keywords (py "drop table users"))
      as (H & _ & Hp & Ha).
    assert (Hin : In (py "DROP") restricted_commands) by (left; reflexivity).
    assert (Hw : occurs_as_word (py "DROP") (upper (strip (py "drop table users")))).
    { apply (Hp (Ha (@ascii_text_check (py "drop table users") eq_refl)) (py "DROP") Hin).
      apply whole_word_inb_true. vm_compute. reflexivity. }
    destruct (H (py "DROP") Hin Hw) as (_ & Hk & _).
    apply Hk. intros j Hj _. exact (drop_is_listed_first j Hj).
  - destruct (validate_sql_query_keywords (py "SELECT dropdown FROM menus"))
      as (_ & H & Hp & Ha).
    apply H. intros k Hk Hw.
    apply (Hp (Ha (@ascii_text_check (py "SELECT dropdown FROM menus") eq_refl)) k Hk) in Hw.
    apply whole_word_inb_true in Hw.
    assert (F : forallb (fun k => negb (whole_word_inb k (py "SELECT dropdown FROM menus")))
                  restricted_commands = true) by (vm_compute; reflexivity).
    rewrite forallb_forall in F. specialize (F k Hk). rewrite Hw in F. discriminate F.
Defined.

Lemma validate_sql_query_structure_witness :
  fst (validate_sql_query (py "SELECT 1; SELECT 2;")) = false /\
  fst (validate_sql_query (py "SELECT 1 /* x */")) = false /\
  validate_sql_query (py "SELECT name FROM users;") = (true, py "Query is allowed") /\
  validate_sql_query (py "select dropdown from menus") = (true, py "Query is allowed").
Proof.
  split; [|split; [|split]].
  - apply (proj1 (validate_sql_query_structure (py "SELECT 1; SELECT 2;"))).
    vm_compute. lia.
  - apply (proj1 (proj2 (validate_sql_query_structure (py "SELECT 1 /* x */")))).
    right. exists (py "SELECT 1 "), (py " x */"). reflexivity.
  - apply (proj1 (proj2 (proj2 (validate_sql_query_structure (py "SELECT name FROM users;"))))).
    + vm_compute. lia.
    + apply contains_false. vm_compute. reflexivity.
    + apply contains_false. vm_compute. reflexivity.
    + apply first_restricted_none. vm_compute. reflexivity.
  - destruct (validate_sql_query_structure (py "select dropdown from menus"))
      as (_ & _ & _ & H & Ha).
    apply (H (Ha (@ascii_text_check (py "select dropdown from menus") eq_refl))).
    + vm_compute. lia.
    + apply contains_false. vm_compute. reflexivity.
    + apply contains_false. vm_compute. reflexivity.
    + intros k Hk. apply whole_word_inb_false.
      assert (F : forallb (fun k => negb (whole_word_inb k (py "select dropdown from menus")))
                    restricted_commands = true) by (vm_compute; reflexivity).
      rewrite forallb_forall in F. apply negb_true_iff. now apply F.
Defined.

Lemma validate_sql_query_allows_blank_witness :
  let blank := [32; 9; 160; 8195; 12288; 10]%N in
  validate_sql_query blank = (true, py "Query is allowed") /\
  res (execute_sql_tool direct (py "localhost") 3306 [(py "query", VStr blank)]
         new_handler_frame) =
  Ret (text_block (py "No SQL query provided")).
Proof.
  cbv zeta.
  assert (H : whitespace_only [32; 9; 160; 8195; 12288; 10]%N)
    by (repeat constructor).
  destruct (validate_sql_query_allows_blank _ H) as [Hv Hh].
  split; [exact Hv|]. apply Hh. reflexivity.
Defined.

Lemma execute_sql_guards_witness :
  count_events touches_database
    (events (run_call direct (py "execute_sql") [(py "query", VStr (py "  "))])) = 0%nat /\
  res (execute_sql_tool direct (py "localhost") 3306
         [(py "query", VStr (py "DROP TABLE x"))] new_handler_frame) =
  Ret (text_block (py "Query not allowed: Command 'DROP' is not allowed for security reasons")).
Proof.
  split.
  - apply (proj1 (execute_sql_guards direct (py "localhost") 3306
                    [(py "query", VStr (py "  "))] (py "  ") eq_refl)).
    reflexivity.
  - destruct (proj2 (execute_sql_guards direct (py "localhost") 3306
                       [(py "query", VStr (py "DROP TABLE x"))] (py "DROP TABLE x") eq_refl)
                (command_reason (py "DROP"))) as [H _].
    + discriminate.
    + reflexivity.
    + now rewrite H.
Defined.

Lemma call_tool_one_text_block_witness :
  res (run_call direct (py "drop_database") []) =
  Ret (text_block (py "Unknown tool: drop_database")) /\
  res (run_call no_ssh_binary (py "execute_sql") select_one) = Ret generic_error.
Proof.
  split.
  - destruct (call_tool_one_text_block direct (py "drop_database") []) as (_ & _ & H).
    destruct H as [_ H].
    + vm_compute. intuition discriminate.
    + eapply H. vm_compute. reflexivity.
  - destruct (call_tool_one_text_block no_ssh_binary (py "execute_sql") select_one)
      as (_ & H & _).
    eapply H. vm_compute. reflexivity.
Defined.

Lemma get_database_connection_retries_witness :
  res (get_database_connection slow_start (py "localhost") 3306 tt) = Ret MySQLConnection /\
  count_events is_sleep
    (events (get_database_connection slow_start (py "localhost") 3306 tt)) = 2%nat /\
  res (get_database_connection unreachable (py "localhost") 3306 tt) = Raise driver_error.
Proof.
  destruct (get_database_connection_retries slow_start (py "localhost") 3306) as [_ Hs].
  destruct (get_database_connection_retries unreachable (py "localhost") 3306) as [_ Hu].
  eassert (Ecfg : res (get_db_config slow_start tt) = Ret _)
    by (vm_compute; reflexivity).
  specialize (Hs _ Ecfg). specialize (Hu _ Ecfg). cbv zeta in Hs, Hu.
  destruct Hs as [_ Hs]. destruct (Hs driver_error eq_refl eq_refl) as [_ Hs1].
  destruct (Hs1 driver_error eq_refl eq_refl) as [Hs2 _].
  destruct (Hs2 eq_refl) as [Rs Ts].
  destruct Hu as [_ Hu]. destruct (Hu driver_error eq_refl eq_refl) as [_ Hu1].
  destruct (Hu1 driver_error eq_refl eq_refl) as [_ Hu2].
  destruct (Hu2 driver_error eq_refl eq_refl) as [Ru _].
  split; [exact Rs|]. split; [|exact Ru].
  unfold count_events.
  assert (F : forall t, filter is_sleep t = filter is_sleep (attempts_and_sleeps t)).
  { induction t as [|ev t IH]; [reflexivity|]. destruct ev; simpl; rewrite <- ?IH; auto. }
  rewrite F, Ts. reflexivity.
Defined.

Lemma tunnel_launch_failure_witness :
  res (run_call no_ssh_binary (py "execute_sql") select_one) = Ret generic_error /\
  count_events from_connection_factory
    (events (run_call no_ssh_binary (py "execute_sql") select_one)) = 0%nat /\
  count_events is_popen
    (events (run_call no_ssh_binary (py "execute_sql") select_one)) = 1%nat.
Proof.
  destruct (tunnel_launch_failure no_ssh_binary (py "execute_sql") select_one)
    as (Hr & Hf & _).
  - reflexivity.
  - intros cmd. discriminate.
  - split; [exact Hr|]. split; [exact Hf | reflexivity].
Defined.

(* ================================================================== *)
(** * Secrets in the log *)
(* ================================================================== *)

Lemma in_messages (msg : str) (t : list Event) :
  existsb (str_eqb msg) (messages t) = true -> In msg (messages t).
Proof.
  intros H. apply existsb_exists in H as (x & Hx & E).
  apply str_eqb_eq in E. now subst.
Qed.

(** C3 (what the code does).  On an ordinary tunnelled call the log
    receives the database password in clear, inside the configuration
    that [get_database_connection] prints after [get_db_config] had
    masked it in its own line, and the full path of the SSH key, inside
    the command line that [maybe_ssh_tunnel] prints after it had logged
    the base name only. *)
Theorem secrets_reach_the_log :
  let t := events (run_call tunnelled (py "execute_sql") select_one) in
  w_getenv tunnelled (py "MYSQL_PASSWORD") = Some (py "hunter2") /\
  w_getenv tunnelled (py "MYSQL_SSH_KEY_PATH") = Some (py "/home/deploy/.ssh/id_rsa") /\
  In (py "get_database_connection: config={'user': 'app', 'password': 'hunter2', 'database': 'shop', 'charset': 'utf8mb4', 'collation': 'utf8mb4_unicode_ci', 'autocommit': True, 'sql_mode': 'TRADITIONAL', 'connect_timeout': 10, 'pool_size': 5, 'pool_reset_session': True, 'host': '127.0.0.1', 'port': 3330, 'auth_plugin': 'mysql_native_password'}")
     (messages t) /\
  In (py "maybe_ssh_tunnel: Starting SSH tunnel with command: ssh -i /home/deploy/.ssh/id_rsa -N -L 3330:db.internal:3306 deploy@bastion -p 22")
     (messages t) /\
  existsb (contains (py "hunter2")) (messages t) = true /\
  existsb (contains (py "/home/deploy/.ssh/id_rsa")) (messages t) = true.
Proof.
  cbv zeta. split; [reflexivity|]. split; [reflexivity|].
  split; [apply in_messages; vm_compute; reflexivity|].
  split; [apply in_messages; vm_compute; reflexivity|].
  split; vm_compute; reflexivity.
Qed.

(* ================================================================== *)
(** * Release of the resources *)
(* ================================================================== *)

(** C6 (what the code does).  The cleanup of the three handlers closes
    the cursor and the connection inside one [try].  When closing the
    cursor raises, and when [connection.cursor()] had raised so that
    there is no cursor to close, the connection that had been obtained
    is not closed: the call connects once and closes no connection,
    where the call in which every release goes through connects once and
    closes the connection once.  The failed cleanup changes nothing in
    what the call returns.  [execute_sql_tool] logs it;
    [get_schema_info_tool] and [get_table_sample_tool], whose cleanup is
    a bare [except: pass], log exactly what they log when the cleanup
    goes through. *)
Theorem cleanup_leaves_connection_open :
  let closes (w : World) (call : str * dict) :=
    let t := events (run_call w (fst call) (snd call)) in
    (count_events is_connect t, count_events is_cursor_open t,
     count_events is_cursor_close t, count_events is_connection_close t) in
  let errors (w : World) (call : str * dict) :=
    messages (filter is_error_log (events (run_call w (fst call) (snd call)))) in
  let log (w : World) (call : str * dict) :=
    messages (events (run_call w (fst call) (snd call))) in
  let answer (w : World) (call : str * dict) :=
    res (run_call w (fst call) (snd call)) in
  let execute_sql := (py "execute_sql", select_one) in
  let get_schema_info := (py "get_schema_info", @nil (str * value)) in
  let get_table_sample := (py "get_table_sample", [(py "table_name", VStr (py "orders"))]) in
  handler_calls = [execute_sql; get_schema_info; get_table_sample] /\
  w_cursor_close cursor_close_fails = Some close_error /\
  w_cursor no_cursor = Some cursor_error /\
  Forall (fun call => closes direct call = (1, 1, 1, 1)%nat) handler_calls /\
  Forall (fun call => closes cursor_close_fails call = (1, 1, 1, 0)%nat /\
                      answer cursor_close_fails call = answer direct call)
         handler_calls /\
  Forall (fun call => closes no_cursor call = (1, 1, 0, 0)%nat) handler_calls /\
  errors cursor_close_fails execute_sql =
    [py "execute_sql_tool: Error closing cursor/connection: 2055: Lost connection to MySQL server"] /\
  log cursor_close_fails get_schema_info = log direct get_schema_info /\
  log cursor_close_fails get_table_sample = log direct get_table_sample /\
  errors no_cursor execute_sql =
    [py "execute_sql_tool: SQL execution error: 2013: Lost connection to MySQL server during query";
     py "execute_sql_tool: Error closing cursor/connection: cannot access local variable 'cursor' where it is not associated with a value"] /\
  errors no_cursor get_schema_info =
    [py "Schema info error: 2013: Lost connection to MySQL server during query"] /\
  errors no_cursor get_table_sample =
    [py "Table sample error: 2013: Lost connection to MySQL server during query"].
Proof.
  cbv zeta. split; [reflexivity|]. split; [reflexivity|]. split; [reflexivity|].
  split; [repeat constructor|].
  split; [repeat constructor; vm_compute; reflexivity|].
  split; [repeat constructor|].
  repeat split; vm_compute; reflexivity.
Qed.

Section RunScopes.
Context {L : Type}.

Lemma run_try_except {A} caught (m : M L A) h l :
  try_except caught m h l =
  match m l with
  | Outcome (Ret a) l1 t1 => Outcome (Ret a) l1 t1
  | Outcome (Raise e) l1 t1 =>
      if caught e then
        Outcome (res (h e l1)) (locals (h e l1)) (t1 ++ events (h e l1))
      else Outcome (Raise e) l1 t1
  end.
Proof.
  unfold try_except. destruct (m l) as [[a|e] l1 t1]; [reflexivity|].
  destruct (caught e); [|reflexivity]. now destruct (h e l1).
Qed.

Lemma run_try_finally {A} (m : M L A) c l :
  try_finally m c l =
  Outcome (match res (c (locals (m l))) with
           | Ret _ => res (m l)
           | Raise e => Raise e
           end)
          (locals (c (locals (m l))))
          (events (m l) ++ events (c (locals (m l)))).
Proof.
  unfold try_finally. destruct (m l) as [r l1 t1]. cbn [res locals events].
  now destruct (c l1) as [[u|e] l2 t2].
Qed.

Lemma run_in_frame {L' A} (init : L') (m : M L' A) l :
  @in_frame L L' A init m l = Outcome (res (m init)) l (events (m init)).
Proof. unfold in_frame. now destruct (m init). Qed.

End RunScopes.

Section CountFacts.

Lemma count_events_app p t1 t2 :
  count_events p (t1 ++ t2) = (count_events p t1 + count_events p t2)%nat.
Proof. unfold count_events. now rewrite filter_app, length_app. Qed.

Lemma count_events_cons p ev t :
  count_events p (ev :: t) = ((if p ev then 1 else 0) + count_events p t)%nat.
Proof. unfold count_events. simpl. now destruct (p ev). Qed.

Lemma count_events_silent p (S : Event -> bool) t :
  (forall ev, S ev = true -> p ev = false) ->
  forallb S t = true -> count_events p t = 0%nat.
Proof. intros H Ht. now apply count_events_none with (q := S). Qed.

End CountFacts.

Section BalancedRules.
Context {L : Type} (p q : Event -> bool).

Lemma balanced_of_emits {A} (S : Event -> bool) (m : M L A) :
  (forall ev, S ev = true -> p ev = false /\ q ev = false) ->
  emits S m -> balanced p q m.
Proof.
  intros H Hm l.
  rewrite (count_events_silent p S), (count_events_silent q S); auto;
    intros ev Hev; now apply H.
Qed.

Lemma balanced_ret {A} (a : A) : balanced p q (@ret L A a).
Proof. intros l. reflexivity. Qed.

Lemma balanced_raise {A} e : balanced p q (@raise L A e).
Proof. intros l. reflexivity. Qed.

Lemma balanced_lift_result {A} (r : result A) : balanced p q (@lift_result L A r).
Proof. intros l. reflexivity. Qed.

Lemma balanced_emit ev : p ev = q ev -> balanced p q (@emit L ev).
Proof. intros H l. unfold count_events. simpl. now rewrite H. Qed.

Lemma balanced_perform ev answer : p ev = q ev -> balanced p q (@perform L ev answer).
Proof.
  intros H l. unfold count_events, perform. destruct answer; simpl; now rewrite H.
Qed.

Lemma balanced_get_locals : balanced p q (@get_locals L).
Proof. intros l. reflexivity. Qed.

Lemma balanced_set_locals l' : balanced p q (@set_locals L l').
Proof. intros l. reflexivity. Qed.

Lemma balanced_perform_result {A} ev (answer : result A) :
  p ev = q ev -> balanced p q (@perform_result L A ev answer).
Proof. intros H l. unfold count_events. simpl. now rewrite H. Qed.

Lemma balanced_bind {A B} (m : M L A) (f : A -> M L B) :
  balanced p q m -> (forall a, balanced p q (f a)) -> balanced p q (bind m f).
Proof.
  intros Hm Hf l. rewrite run_bind. specialize (Hm l).
  destruct (m l) as [[a|e] l1 t1]; cbn [res locals events] in *; [|exact Hm].
  rewrite !count_events_app, Hm, (Hf a l1). reflexivity.
Qed.

Lemma balanced_try_except {A} caught (m : M L A) h :
  balanced p q m -> (forall e, balanced p q (h e)) ->
  balanced p q (try_except caught m h).
Proof.
  intros Hm Hh l. rewrite run_try_except. specialize (Hm l).
  destruct (m l) as [[a|e] l1 t1]; cbn [res locals events] in *; [exact Hm|].
  destruct (caught e); cbn [events]; [|exact Hm].
  rewrite !count_events_app, Hm, (Hh e l1). reflexivity.
Qed.

Lemma balanced_try_finally {A} (m : M L A) c :
  balanced p q m -> balanced p q c -> balanced p q (try_finally m c).
Proof.
  intros Hm Hc l. rewrite run_try_finally. cbn [events].
  rewrite !count_events_app, (Hm l), (Hc (locals (m l))). reflexivity.
Qed.

Lemma balanced_in_frame {L' A} (init : L') (m : M L' A) :
  count_events p (events (m init)) = count_events q (events (m init)) ->
  balanced p q (@in_frame L L' A init m).
Proof. intros H l. now rewrite run_in_frame. Qed.

(** A scoped acquisition: when the guarded block leaves as many
    acquisitions behind as the cleanup will release, the whole is
    balanced. *)
Lemma scope_balanced {A} (closes : L -> nat) caught (block : M L A) h cleanup l0 :
  count_events p (events (block l0)) = 0%nat ->
  count_events q (events (block l0)) = closes (locals (block l0)) ->
  (forall e, keeps_locals (h e)) ->
  (forall e l, count_events p (events (h e l)) = 0%nat /\
               count_events q (events (h e l)) = 0%nat) ->
  (forall l, count_events p (events (cleanup l)) = closes l) ->
  (forall l, count_events q (events (cleanup l)) = 0%nat) ->
  count_events p (events (try_finally (try_except caught block h) cleanup l0)) =
  count_events q (events (try_finally (try_except caught block h) cleanup l0)).
Proof.
  intros Hp Hq Hk Hh Hcp Hcq.
  rewrite run_try_finally, run_try_except. cbn [events].
  destruct (block l0) as [[a|e] l1 t1]; cbn [res locals events] in *.
  - rewrite !count_events_app, Hp, Hq, Hcp, Hcq. lia.
  - destruct (caught e); cbn [res locals events].
    + rewrite (Hk e l1), !count_events_app, Hp, Hq, Hcp, Hcq.
      destruct (Hh e l1) as [-> ->]. lia.
    + rewrite !count_events_app, Hp, Hq, Hcp, Hcq. lia.
Qed.

End BalancedRules.

Section QuietContinuation.
Context {L : Type}.

(** After [m], a continuation that keeps the locals and emits only
    events of [S]. *)
Lemma bind_then_quiet {A B} (S : Event -> bool) (m : M L A) (f : A -> M L B) l :
  (forall a, keeps_locals (f a)) -> (forall a, emits S (f a)) ->
  locals (bind m f l) = locals (m l) /\
  exists t2, events (bind m f l) = events (m l) ++ t2 /\ forallb S t2 = true.
Proof.
  intros Hk He. rewrite run_bind.
  destruct (m l) as [[a|e] l1 t1]; cbn [res locals events].
  - split; [apply Hk|]. exists (events (f a l1)). split; [reflexivity | apply He].
  - split; [reflexivity|]. exists []. now rewrite app_nil_r.
Qed.

Lemma bind_then_quiet_count {A B} (S p : Event -> bool) (m : M L A) (f : A -> M L B) l :
  (forall ev, S ev = true -> p ev = false) ->
  (forall a, keeps_locals (f a)) -> (forall a, emits S (f a)) ->
  count_events p (events (bind m f l)) = count_events p (events (m l)).
Proof.
  intros HS Hk He.
  destruct (bind_then_quiet S m f l Hk He) as (_ & t2 & -> & Ht2).
  rewrite count_events_app, (count_events_silent p S t2 HS Ht2). lia.
Qed.

End QuietContinuation.

Section HandlerContinuations.
Variable w : World.

Lemma execute_sql_rest_quiet query :
  let rest :=
    (logger_info (py "execute_sql_tool: About to execute query: " ++ query);;
     perform (Execute query []) (w_execute w query []);;
     logger_info (py "execute_sql_tool: Query executed successfully, about to fetch results.");;
     match w_description w query with
     | Some ((_ :: _) as description) =>
         results <- perform_result FetchAll (w_fetchall w query);;
         logger_info (py "execute_sql_tool: Results fetched, "
                      ++ str_of_nat (List.length results) ++ py " rows.");;
         match results with
         | _ :: _ =>
             let formatted_results := map (row_as_dict description) results in
             logger_info (py "execute_sql_tool: Returning formatted results.");;
             ret (text_block (py "Query executed successfully. Results:" ++ nl
                              ++ repr_dict_list formatted_results))
         | [] =>
             logger_info (py "execute_sql_tool: Query executed, no results returned.");;
             ret (text_block (py "Query executed successfully. No results returned."))
         end
     | _ =>
         logger_info (py "execute_sql_tool: Query executed, no result set. Rows affected: "
                      ++ str_of_Z (w_rowcount w query));;
         ret (text_block (py "Query executed successfully. Rows affected: "
                          ++ str_of_Z (w_rowcount w query)))
     end : M HandlerLocals (list TextContent)) in
  keeps_locals rest /\ emits query_event rest.
Proof.
  cbv zeta. unfold_logging. split.
  - repeat (apply keeps_bind; [first [apply keeps_emit | apply keeps_perform]|intros _]).
    destruct (w_description w query) as [[|d ds]|].
    + apply keeps_bind; [apply keeps_emit | intros _; apply keeps_ret].
    + apply keeps_bind; [apply keeps_perform_result | intros results].
      apply keeps_bind; [apply keeps_emit | intros _].
      destruct results; (apply keeps_bind; [apply keeps_emit | intros _; apply keeps_ret]).
    + apply keeps_bind; [apply keeps_emit | intros _; apply keeps_ret].
  - repeat (apply emits_bind;
            [first [apply emits_emit; reflexivity | apply emits_perform; reflexivity]
            |intros _]).
    destruct (w_description w query) as [[|d ds]|].
    + apply emits_bind; [apply emits_emit; reflexivity | intros _; apply emits_ret].
    + apply emits_bind; [apply emits_perform_result; reflexivity | intros results].
      apply emits_bind; [apply emits_emit; reflexivity | intros _].
      destruct results;
        (apply emits_bind; [apply emits_emit; reflexivity | intros _; apply emits_ret]).
    + apply emits_bind; [apply emits_emit; reflexivity | intros _; apply emits_ret].
Qed.

Lemma schema_lines_one_quiet columns result :
  keeps_locals (schema_lines_one columns result) /\
  emits query_event (schema_lines_one columns result).
Proof.
  revert result. induction columns as [|col rest IH]; intros result;
    cbn [schema_lines_one]; [split; [apply keeps_ret | apply emits_ret]|].
  split.
  - repeat (apply keeps_bind; [apply keeps_lift_result | intros ?]). apply IH.
  - repeat (apply emits_bind; [apply emits_lift_result | intros ?]). apply IH.
Qed.

Lemma schema_lines_all_quiet columns last_table result :
  keeps_locals (schema_lines_all columns last_table result) /\
  emits query_event (schema_lines_all columns last_table result).
Proof.
  revert last_table result. induction columns as [|col rest IH];
    intros last_table result; cbn [schema_lines_all];
    [split; [apply keeps_ret | apply emits_ret]|].
  split.
  - repeat (apply keeps_bind; [apply keeps_lift_result | intros ?]). apply IH.
  - repeat (apply emits_bind; [apply emits_lift_result | intros ?]). apply IH.
Qed.

End HandlerContinuations.

Section TunnelAround.
Variable w : World.
Variables (p q : Event -> bool).
Hypothesis tunnel_silent :
  forall ev, tunnel_event ev = true -> p ev = false /\ q ev = false.

Lemma tunnel_event_balanced {L} ev :
  tunnel_event ev = true -> balanced p q (@emit L ev).
Proof.
  intros H. apply balanced_emit. destruct (tunnel_silent ev H). congruence.
Qed.

Lemma read_ssh_proc_balanced : balanced p q read_ssh_proc.
Proof.
  unfold read_ssh_proc. apply balanced_bind; [apply balanced_get_locals | intros l].
  destruct (ssh_proc l); [apply balanced_ret | apply balanced_raise].
Qed.

Lemma tunnel_release_balanced : balanced p q (tunnel_release w).
Proof.
  apply balanced_of_emits with (S := tunnel_event); [exact tunnel_silent|].
  apply maybe_ssh_tunnel_release_emits.
Qed.

(** Around a body that is balanced for events the tunnel never emits,
    the context manager is balanced too. *)
Lemma maybe_ssh_tunnel_balanced {A} (body : str -> Z -> M unit A) :
  (forall host port, balanced p q (body host port)) ->
  balanced p q (maybe_ssh_tunnel w body).
Proof.
  intros Hbody.
  assert (Lg : forall lvl msg, balanced p q (@emit TunnelLocals (Log lvl msg)))
    by (intros; now apply tunnel_event_balanced).
  assert (Ev : forall ev, tunnel_event ev = true -> p ev = q ev).
  { intros ev H. destruct (tunnel_silent ev H). congruence. }
  unfold maybe_ssh_tunnel. unfold_logging.
  apply balanced_bind; [apply Lg | intros _].
  destruct (negb (use_ssh w)).
  - apply balanced_bind; [apply Lg | intros _].
    apply balanced_bind; [apply Lg | intros _].
    apply balanced_bind; [apply balanced_lift_result | intros port].
    apply balanced_in_frame, Hbody.
  - apply balanced_bind; [apply balanced_lift_result | intros ssh_port].
    apply balanced_bind; [apply balanced_lift_result | intros remote_port].
    apply balanced_bind; [apply balanced_lift_result | intros local_port].
    apply balanced_bind; [apply Lg | intros _].
    apply balanced_bind; [apply balanced_lift_result | intros cmd].
    apply balanced_bind; [apply Lg | intros _].
    apply balanced_try_finally; [|apply tunnel_release_balanced].
    apply balanced_try_except;
      [|intros e; apply balanced_bind; [apply Lg | intros _; apply balanced_raise]].
    apply balanced_bind; [apply balanced_perform; now apply Ev | intros _].
    apply balanced_bind; [apply balanced_set_locals | intros _].
    apply balanced_bind; [apply balanced_emit; now apply Ev | intros _].
    apply balanced_bind; [apply Lg | intros _].
    apply balanced_bind; [|intros _; apply balanced_in_frame, Hbody].
    apply balanced_of_emits with (S := tunnel_event); [exact tunnel_silent|].
    apply log_tunnel_output_emits.
Qed.

End TunnelAround.

(** The three handlers share one shape: a guarded block that obtains the
    connection and the cursor and then only queries, handlers of
    exceptions that only log, and a cleanup.  [p] counts releases, [q]
    acquisitions, [closes] what the cleanup releases from given locals. *)
Section ScopedHandlers.
Variable w : World.
Variables (p q : Event -> bool) (closes : HandlerLocals -> nat).
Hypothesis outside_scope :
  forall ev, cursor_scope_event ev = false -> p ev = false /\ q ev = false.
Hypothesis opening_releases_nothing : p CursorOpen = false.
Hypothesis opened :
  forall host port,
    count_events q (events (open_connection_and_cursor w host port new_handler_frame)) =
    closes (locals (open_connection_and_cursor w host port new_handler_frame)).
Hypothesis cleanup_releases :
  forall l, count_events p (events (execute_sql_cleanup w l)) = closes l /\
            count_events p (events (close_quietly w l)) = closes l.
Hypothesis cleanup_acquires_nothing :
  forall l, count_events q (events (execute_sql_cleanup w l)) = 0%nat /\
            count_events q (events (close_quietly w l)) = 0%nat.

Lemma log_outside_scope lvl msg : p (Log lvl msg) = false /\ q (Log lvl msg) = false.
Proof. now apply outside_scope. Qed.

Lemma query_outside_scope ev : query_event ev = true -> p ev = false /\ q ev = false.
Proof. intros H. apply outside_scope. now destruct ev. Qed.

Lemma count_after_log (r : Event -> bool) lvl msg t :
  r (Log lvl msg) = false ->
  count_events r (Log lvl msg :: t) = count_events r t.
Proof. intros H. now rewrite count_events_cons, H. Qed.

Lemma handler_scope {A} caught (rest : M HandlerLocals A) h cleanup host port :
  keeps_locals rest -> emits query_event rest ->
  (forall e, keeps_locals (h e)) -> (forall e, emits query_event (h e)) ->
  (forall l, count_events p (events (cleanup l)) = closes l) ->
  (forall l, count_events q (events (cleanup l)) = 0%nat) ->
  count_events p
    (events (try_finally
               (try_except caught (open_connection_and_cursor w host port;; rest) h)
               cleanup new_handler_frame)) =
  count_events q
    (events (try_finally
               (try_except caught (open_connection_and_cursor w host port;; rest) h)
               cleanup new_handler_frame)).
Proof.
  intros Hk He Hhk Hhe Hcp Hcq.
  apply scope_balanced with (closes := closes); auto.
  - rewrite (bind_then_quiet_count query_event p); auto.
    + apply count_events_silent with (S := opening_event).
      * intros ev Hev. destruct ev; try discriminate Hev;
          try (now apply outside_scope). exact opening_releases_nothing.
      * apply open_connection_and_cursor_opening.
    + intros ev Hev. now apply query_outside_scope.
  - rewrite (bind_then_quiet_count query_event q); auto.
    + destruct (bind_then_quiet query_event (open_connection_and_cursor w host port)
                  (fun _ => rest) new_handler_frame (fun _ => Hk) (fun _ => He))
        as [-> _].
      apply opened.
    + intros ev Hev. now apply query_outside_scope.
  - intros e l. split; apply count_events_silent with (S := query_event);
      try apply Hhe; intros ev Hev; now apply query_outside_scope.
Qed.

Lemma execute_sql_tool_balanced host port arguments :
  count_events p (events (execute_sql_tool w host port arguments new_handler_frame)) =
  count_events q (events (execute_sql_tool w host port arguments new_handler_frame)).
Proof.
  unfold execute_sql_tool.
  rewrite run_bind_log. cbn [events].
  rewrite !count_after_log by apply log_outside_scope.
  destruct (dict_get_default arguments (py "query") (VStr [])) as [| b | n | s];
    cbv beta iota; try (rewrite run_bind_raise; reflexivity).
  rewrite run_bind_ret.
  destruct (strip s) as [|c query]; [reflexivity|].
  destruct (validate_sql_query (c :: query)) as [[] reason]; cbn [negb];
    [|reflexivity].
  destruct (execute_sql_rest_quiet w (c :: query)) as [Hk He]. cbv zeta in Hk, He.
  apply handler_scope; auto.
  - intros e. unfold_logging. destruct (is_mysql_error e);
      (apply keeps_bind; [apply keeps_emit | intros _; apply keeps_ret]).
  - intros e. unfold_logging. destruct (is_mysql_error e);
      (apply emits_bind; [apply emits_emit; reflexivity | intros _; apply emits_ret]).
  - intros l. apply cleanup_releases.
  - intros l. apply cleanup_acquires_nothing.
Qed.

Lemma get_schema_info_tool_balanced host port arguments :
  count_events p (events (get_schema_info_tool w host port arguments new_handler_frame)) =
  count_events q (events (get_schema_info_tool w host port arguments new_handler_frame)).
Proof.
  unfold get_schema_info_tool.
  rewrite run_bind_log. cbn [events].
  rewrite !count_after_log by apply log_outside_scope.
  apply handler_scope.
  - destruct (truthy _).
    + repeat (apply keeps_bind;
              [first [apply keeps_perform | apply keeps_perform_result]|intros ?]).
      apply keeps_bind; [apply schema_lines_one_quiet | intros; apply keeps_ret].
    + repeat (apply keeps_bind;
              [first [apply keeps_perform | apply keeps_perform_result]|intros ?]).
      apply keeps_bind; [apply schema_lines_all_quiet | intros; apply keeps_ret].
  - destruct (truthy _).
    + repeat (apply emits_bind;
              [first [apply emits_perform; reflexivity
                     | apply emits_perform_result; reflexivity]|intros ?]).
      apply emits_bind; [apply schema_lines_one_quiet | intros; apply emits_ret].
    + repeat (apply emits_bind;
              [first [apply emits_perform; reflexivity
                     | apply emits_perform_result; reflexivity]|intros ?]).
      apply emits_bind; [apply schema_lines_all_quiet | intros; apply emits_ret].
  - intros e. unfold_logging.
    apply keeps_bind; [apply keeps_emit | intros _; apply keeps_ret].
  - intros e. unfold_logging.
    apply emits_bind; [apply emits_emit; reflexivity | intros _; apply emits_ret].
  - intros l. apply cleanup_releases.
  - intros l. apply cleanup_acquires_nothing.
Qed.

Lemma get_table_sample_tool_balanced host port arguments :
  count_events p (events (get_table_sample_tool w host port arguments new_handler_frame)) =
  count_events q (events (get_table_sample_tool w host port arguments new_handler_frame)).
Proof.
  unfold get_table_sample_tool.
  rewrite run_bind_log. cbn [events].
  rewrite !count_after_log by apply log_outside_scope.
  destruct (min_20 _) as [limit|e];
    [rewrite run_bind_lift_ret | rewrite run_bind_lift_raise; reflexivity].
  destruct (negb _); [reflexivity|].
  apply handler_scope.
  - repeat (apply keeps_bind;
            [first [apply keeps_perform | apply keeps_perform_result]|intros ?]).
    apply keeps_ret.
  - repeat (apply emits_bind;
            [first [apply emits_perform; reflexivity
                   | apply emits_perform_result; reflexivity]|intros ?]).
    apply emits_ret.
  - intros e. unfold_logging.
    apply keeps_bind; [apply keeps_emit | intros _; apply keeps_ret].
  - intros e. unfold_logging.
    apply emits_bind; [apply emits_emit; reflexivity | intros _; apply emits_ret].
  - intros l. apply cleanup_releases.
  - intros l. apply cleanup_acquires_nothing.
Qed.

Lemma emit_log_balanced {L} lvl msg : balanced p q (@emit L (Log lvl msg)).
Proof. apply balanced_emit. destruct (log_outside_scope lvl msg). congruence. Qed.

Lemma call_tool_body_balanced name arguments host port :
  balanced p q (call_tool_body w name arguments host port).
Proof.
  unfold call_tool_body. unfold_logging.
  apply balanced_bind; [apply emit_log_balanced | intros _].
  repeat match goal with
         | |- balanced _ _ (if ?b then _ else _) => destruct b
         end;
    (apply balanced_bind; [apply emit_log_balanced | intros _]).
  - apply balanced_in_frame, execute_sql_tool_balanced.
  - apply balanced_in_frame, get_schema_info_tool_balanced.
  - apply balanced_in_frame, get_table_sample_tool_balanced.
  - apply balanced_of_emits with (S := fun ev => negb (cursor_scope_event ev)).
    + intros ev Hev. apply outside_scope. now destruct (cursor_scope_event ev).
    + apply emits_try_except.
      * apply emits_bind; [apply emits_perform_result; reflexivity | intros doc].
        apply emits_ret.
      * intros e. apply emits_bind; [apply emits_emit; reflexivity | intros _].
        apply emits_ret.
  - apply balanced_ret.
Qed.

Lemma call_tool_balanced name arguments :
  balanced p q (call_tool w name arguments).
Proof.
  unfold call_tool, call_tool_with. unfold_logging.
  apply balanced_bind; [apply emit_log_balanced | intros _].
  apply balanced_try_except.
  - intros l. rewrite run_in_frame. cbn [events].
    apply maybe_ssh_tunnel_balanced.
    + intros ev Hev. apply outside_scope. now destruct ev.
    + intros host port. apply call_tool_body_balanced.
  - intros e. apply balanced_bind; [apply emit_log_balanced | intros _].
    apply balanced_ret.
Qed.

End ScopedHandlers.

Section ReleaseCounts.
Variable w : World.

Lemma cursor_close_outside ev :
  cursor_scope_event ev = false ->
  is_cursor_close ev = false /\ cursor_obtained w ev = false.
Proof. now destruct ev. Qed.

Lemma connection_close_outside ev :
  cursor_scope_event ev = false ->
  is_connection_close ev = false /\ cursor_obtained w ev = false.
Proof. now destruct ev. Qed.

(** What [open_connection_and_cursor] leaves in a fresh frame: a cursor
    is bound exactly when one was obtained, and then the connection is
    bound too. *)
Lemma open_connection_and_cursor_outcome host port :
  let o := open_connection_and_cursor w host port new_handler_frame in
  count_events (cursor_obtained w) (events o) = bound (cursor (locals o)) /\
  (bound (cursor (locals o)) <= bound (connection (locals o)))%nat.
Proof.
  cbv zeta. unfold open_connection_and_cursor.
  rewrite run_bind, run_in_frame.
  pose proof (get_database_connection_emits w host port tt) as Hf.
  assert (Z0 : count_events (cursor_obtained w)
                 (events (get_database_connection w host port tt)) = 0%nat).
  { apply count_events_silent with (S := factory_event); [|exact Hf].
    now intros []. }
  destruct (get_database_connection w host port tt) as [[c|e] l1 t1];
    cbn [res locals events] in *.
  - unfold bind, set_locals, perform. destruct (w_cursor w) eqn:E;
      cbn [res locals events cursor connection bound];
      rewrite !count_events_app, Z0; unfold count_events, cursor_obtained;
      cbn; rewrite E; cbn; auto.
  - rewrite Z0. cbn. auto.
Qed.

Lemma cleanup_counts l :
  count_events is_cursor_close (events (execute_sql_cleanup w l)) = bound (cursor l) /\
  count_events is_cursor_close (events (close_quietly w l)) = bound (cursor l) /\
  count_events (cursor_obtained w) (events (execute_sql_cleanup w l)) = 0%nat /\
  count_events (cursor_obtained w) (events (close_quietly w l)) = 0%nat /\
  (w_cursor_close w = None ->
   count_events is_connection_close (events (execute_sql_cleanup w l)) =
     (bound (cursor l) * bound (connection l))%nat /\
   count_events is_connection_close (events (close_quietly w l)) =
     (bound (cursor l) * bound (connection l))%nat).
Proof.
  destruct l as [[k|] [c|]];
    unfold execute_sql_cleanup, close_quietly, close_cursor, close_connection,
      try_except, bind, get_locals, perform, logger_error, emit, ret, raise;
    cbn [cursor connection res locals events bound];
    destruct (w_cursor_close w), (w_connection_close w);
    cbn; repeat split; auto; intros; discriminate.
Qed.

Lemma tunnel_release_counts l :
  count_events is_terminate (events (tunnel_release w l)) = bound (ssh_proc l) /\
  count_events (launched w) (events (tunnel_release w l)) = 0%nat.
Proof.
  destruct l as [[s|]];
    unfold tunnel_release, read_ssh_proc, try_except, bind, get_locals, perform,
      logger_info, logger_error, emit, ret, raise;
    cbn [ssh_proc res locals events bound];
    destruct (w_terminate w), (w_wait w); cbn; auto.
Qed.

(** Every cursor obtained is closed once. *)
Lemma cursor_closed_as_obtained name arguments :
  balanced is_cursor_close (cursor_obtained w) (call_tool w name arguments).
Proof.
  apply call_tool_balanced with (closes := fun l => bound (cursor l)).
  - apply cursor_close_outside.
  - reflexivity.
  - intros host port. apply open_connection_and_cursor_outcome.
  - intros l. destruct (cleanup_counts l) as (H1 & H2 & _). auto.
  - intros l. destruct (cleanup_counts l) as (_ & _ & H3 & H4 & _). auto.
Qed.

(** When closing the cursor goes through, the connection is closed once
    for every cursor obtained. *)
Lemma connection_closed_as_obtained name arguments :
  w_cursor_close w = None ->
  balanced is_connection_close (cursor_obtained w) (call_tool w name arguments).
Proof.
  intros Hclose.
  apply call_tool_balanced
    with (closes := fun l => (bound (cursor l) * bound (connection l))%nat).
  - apply connection_close_outside.
  - reflexivity.
  - intros host port.
    destruct (open_connection_and_cursor_outcome host port) as [H1 H2].
    cbv zeta in *. rewrite H1.
    destruct (cursor _), (connection _); cbn in *; lia.
  - intros l. destruct (cleanup_counts l) as (_ & _ & _ & _ & H). now apply H.
  - intros l. destruct (cleanup_counts l) as (_ & _ & H3 & H4 & _). auto.
Qed.

(** When closing the cursor raises, no connection is closed. *)
Lemma connection_not_closed name arguments :
  w_cursor_close w <> None ->
  count_events is_connection_close (events (call_tool w name arguments tt)) = 0%nat.
Proof.
  intros Hclose.
  rewrite (@call_tool_balanced w is_connection_close (fun _ => false) (fun _ => 0%nat)).
  - apply count_events_none with (q := fun _ => true); [now intros|].
    apply forallb_forall. reflexivity.
  - intros ev Hev. split; [|reflexivity].
    destruct ev; try reflexivity; discriminate Hev.
  - reflexivity.
  - intros host port. apply count_events_none with (q := fun _ => true); [now intros|].
    apply forallb_forall. reflexivity.
  - intros l. destruct l as [[k|] [c|]];
      unfold execute_sql_cleanup, close_quietly, close_cursor, close_connection,
        try_except, bind, get_locals, perform, logger_error, emit, ret, raise;
      cbn [cursor connection res locals events];
      destruct (w_cursor_close w); try congruence; cbn; auto.
  - intros l. split; (apply count_events_none with (q := fun _ => true); [now intros|]);
      apply forallb_forall; reflexivity.
Qed.

End ReleaseCounts.

Section TunnelScope.
Variable w : World.

Lemma handler_events_outside_tunnel ev :
  handler_event ev = true -> is_terminate ev = false /\ launched w ev = false.
Proof. now destruct ev. Qed.

Lemma body_outside_tunnel {A} (body : str -> Z -> M unit A) host port l :
  (forall host port, emits handler_event (body host port)) ->
  count_events is_terminate (events (body host port l)) = 0%nat /\
  count_events (launched w) (events (body host port l)) = 0%nat.
Proof.
  intros Hbody.
  split; apply count_events_silent with (S := handler_event);
    try apply Hbody; intros ev Hev; now apply handler_events_outside_tunnel.
Qed.

(** The part of the guarded block of [maybe_ssh_tunnel] that follows
    the launch: it keeps [ssh_proc] and neither launches nor
    terminates. *)
Lemma after_launch_quiet {A} (body : str -> Z -> M unit A) msg host port :
  (forall host port, emits handler_event (body host port)) ->
  let rest :=
    (emit (Sleep 1);;
     logger_info msg;;
     log_tunnel_output w;;
     in_frame tt (body host port) : M TunnelLocals A) in
  keeps_locals rest /\
  emits (fun ev => negb (tunnel_scope_event ev)) rest.
Proof.
  intros Hbody. cbv zeta. unfold_logging. split.
  - apply keeps_bind; [apply keeps_emit | intros _].
    apply keeps_bind; [apply keeps_emit | intros _].
    apply keeps_bind; [apply log_tunnel_output_keeps | intros _].
    apply keeps_in_frame.
  - apply emits_bind; [apply emits_emit; reflexivity | intros _].
    apply emits_bind; [apply emits_emit; reflexivity | intros _].
    apply emits_bind; [|intros _].
    + eapply emits_weaken; [|apply log_tunnel_output_output]. now intros [].
    + apply emits_in_frame. eapply emits_weaken; [|apply Hbody]. now intros [].
Qed.

Lemma int_step_balanced {A B} (r : result A) (f : A -> M TunnelLocals B) l
      (p q : Event -> bool) :
  (forall a, count_events p (events (f a l)) = count_events q (events (f a l))) ->
  count_events p (events (bind (lift_result r) f l)) =
  count_events q (events (bind (lift_result r) f l)).
Proof.
  intros H. destruct r as [a|e];
    [rewrite run_bind_lift_ret; apply H | rewrite run_bind_lift_raise; reflexivity].
Qed.

Lemma log_step_balanced {B} msg (f : unit -> M TunnelLocals B) l :
  count_events is_terminate (events (f tt l)) =
  count_events (launched w) (events (f tt l)) ->
  count_events is_terminate (events (bind (logger_info msg) f l)) =
  count_events (launched w) (events (bind (logger_info msg) f l)).
Proof. intros H. rewrite run_bind_log. cbn [events]. now rewrite !count_events_cons. Qed.

(** The forwarding process is terminated once for every launch that
    went through. *)
Lemma tunnel_terminated_as_launched {A} (body : str -> Z -> M unit A) :
  (forall host port, emits handler_event (body host port)) ->
  count_events is_terminate (events (maybe_ssh_tunnel w body new_tunnel_frame)) =
  count_events (launched w) (events (maybe_ssh_tunnel w body new_tunnel_frame)).
Proof.
  intros Hbody. unfold maybe_ssh_tunnel.
  apply log_step_balanced.
  destruct (negb (use_ssh w)).
  - apply log_step_balanced. apply log_step_balanced.
    apply int_step_balanced. intros port. rewrite run_in_frame. cbn [events].
    destruct (body_outside_tunnel body (getenv_default w "MYSQL_HOST" "localhost")
                port tt Hbody) as [-> ->].
    reflexivity.
  - apply int_step_balanced. intros ssh_port.
    apply int_step_balanced. intros remote_port.
    apply int_step_balanced. intros local_port.
    apply log_step_balanced.
    apply int_step_balanced. intros cmd.
    apply log_step_balanced.
    destruct (after_launch_quiet body
                (py "maybe_ssh_tunnel: SSH tunnel established: 127.0.0.1:"
                 ++ str_of_Z local_port ++ py " -> "
                 ++ str_opt (getenv w "MYSQL_SSH_REMOTE_HOST") ++ py ":"
                 ++ str_of_Z remote_port ++ py " via "
                 ++ str_opt (getenv w "MYSQL_SSH_HOST"))
                (py "127.0.0.1") local_port Hbody) as [Hk He].
    cbv zeta in Hk, He.
    apply scope_balanced with (closes := fun l => bound (ssh_proc l)).
    + apply count_events_silent with (S := fun ev => negb (is_terminate ev)).
      * intros ev Hev. now destruct (is_terminate ev).
      * apply emits_bind; [apply emits_perform; reflexivity | intros _].
        apply emits_bind; [apply emits_set_locals | intros _].
        eapply emits_weaken; [|apply He]. now intros [].
    + destruct (w_popen w cmd) as [e|] eqn:E.
      * rewrite run_bind_perform_fail. cbn [events locals new_tunnel_frame ssh_proc bound].
        unfold count_events. cbn. now rewrite E.
      * rewrite run_bind_perform_ok. cbn [events locals].
        rewrite count_events_cons. cbn [launched]. rewrite E. cbn [is_none].
        rewrite run_bind. unfold set_locals at 1 2. cbn [res locals events app].
        rewrite Hk. cbn [ssh_proc bound].
        rewrite (count_events_silent (launched w) (fun ev => negb (tunnel_scope_event ev))).
        -- reflexivity.
        -- intros ev Hev. destruct ev; try reflexivity; discriminate Hev.
        -- apply He.
    + intros e. unfold_logging.
      apply keeps_bind; [apply keeps_emit | intros _; apply keeps_raise].
    + intros e l. unfold logger_error. rewrite run_bind_emit. cbn [events raise].
      unfold count_events. cbn. auto.
    + intros l. apply tunnel_release_counts.
    + intros l. apply tunnel_release_counts.
Qed.

Lemma call_tool_terminated_as_launched name arguments :
  balanced is_terminate (launched w) (call_tool w name arguments).
Proof.
  unfold call_tool, call_tool_with. unfold_logging.
  apply balanced_bind; [apply balanced_emit; reflexivity | intros _].
  apply balanced_try_except.
  - apply balanced_in_frame, tunnel_terminated_as_launched.
    intros host port. apply call_tool_body_emits.
  - intros e. apply balanced_bind; [apply balanced_emit; reflexivity | intros _].
    apply balanced_ret.
Qed.

End TunnelScope.

Section CleanupNeverRaises.
Variable w : World.

Lemma close_cursor_keeps : keeps_locals (close_cursor w).
Proof.
  unfold close_cursor. apply keeps_bind; [apply keeps_get_locals | intros l].
  destruct (cursor l); [apply keeps_perform | apply keeps_raise].
Qed.

Lemma close_connection_keeps : keeps_locals (close_connection w).
Proof.
  unfold close_connection. apply keeps_bind; [apply keeps_get_locals | intros l].
  destruct (connection l); [apply keeps_perform | apply keeps_raise].
Qed.

Lemma execute_sql_cleanup_safe :
  never_raises (execute_sql_cleanup w) /\ keeps_locals (execute_sql_cleanup w).
Proof.
  unfold execute_sql_cleanup. unfold_logging. split.
  - apply never_raises_catch_all. intros e. apply never_raises_emit.
  - apply keeps_try_except; [|intros e; apply keeps_emit].
    apply keeps_bind; [apply close_cursor_keeps | intros _; apply close_connection_keeps].
Qed.

Lemma close_quietly_safe :
  never_raises (close_quietly w) /\ keeps_locals (close_quietly w).
Proof.
  unfold close_quietly. split.
  - apply never_raises_catch_all. intros e. apply never_raises_ret.
  - apply keeps_try_except; [|intros e; apply keeps_ret].
    apply keeps_bind; [apply close_cursor_keeps | intros _; apply close_connection_keeps].
Qed.

Lemma tunnel_release_safe :
  never_raises (tunnel_release w) /\ keeps_locals (tunnel_release w).
Proof.
  unfold tunnel_release, read_ssh_proc. unfold_logging. split.
  - apply never_raises_bind; [apply never_raises_emit | intros _].
    apply never_raises_catch_all. intros e. apply never_raises_emit.
  - apply keeps_bind; [apply keeps_emit | intros _].
    apply keeps_try_except; [|intros e; apply keeps_emit].
    apply keeps_bind; [|intros _].
    { apply keeps_bind; [apply keeps_get_locals | intros l].
      destruct (ssh_proc l); [apply keeps_ret | apply keeps_raise]. }
    apply keeps_bind; [apply keeps_perform | intros _].
    apply keeps_bind; [|intros _].
    { apply keeps_bind; [apply keeps_get_locals | intros l].
      destruct (ssh_proc l); [apply keeps_ret | apply keeps_raise]. }
    apply keeps_bind; [apply keeps_perform | intros _]. apply keeps_emit.
Qed.

End CleanupNeverRaises.

Lemma safe_blocks_same_result {L} (c1 c2 : M L unit) :
  never_raises c1 /\ keeps_locals c1 ->
  never_raises c2 /\ keeps_locals c2 ->
  same_result c1 c2.
Proof.
  intros [N1 K1] [N2 K2] l. rewrite K1, K2.
  destruct (N1 l) as [[] ->], (N2 l) as [[] ->]. auto.
Qed.

(** The answers of the release operations do not reach the result. *)
Section ReleaseDoesNotMatter.
Variable w : World.
Variables (terminate wait cursor_close connection_close : option exn).

Let w' := with_release_outcomes w terminate wait cursor_close connection_close.

Lemma execute_sql_tool_same host port arguments :
  same_result (execute_sql_tool w' host port arguments)
              (execute_sql_tool w host port arguments).
Proof.
  unfold execute_sql_tool.
  apply same_result_bind; [apply same_result_refl | intros _].
  apply same_result_bind; [apply same_result_refl | intros query].
  destruct query as [|c query]; [apply same_result_refl|].
  destruct (validate_sql_query (c :: query)) as [[] reason]; cbn [negb];
    [|apply same_result_refl].
  apply same_result_try_finally.
  - exact (same_result_refl _).
  - apply safe_blocks_same_result; apply execute_sql_cleanup_safe.
Qed.

Lemma get_schema_info_tool_same host port arguments :
  same_result (get_schema_info_tool w' host port arguments)
              (get_schema_info_tool w host port arguments).
Proof.
  unfold get_schema_info_tool.
  apply same_result_bind; [apply same_result_refl | intros _].
  apply same_result_try_finally.
  - exact (same_result_refl _).
  - apply safe_blocks_same_result; apply close_quietly_safe.
Qed.

Lemma get_table_sample_tool_same host port arguments :
  same_result (get_table_sample_tool w' host port arguments)
              (get_table_sample_tool w host port arguments).
Proof.
  unfold get_table_sample_tool.
  apply same_result_bind; [apply same_result_refl | intros _].
  apply same_result_bind; [apply same_result_refl | intros limit].
  destruct (negb _); [apply same_result_refl|].
  apply same_result_try_finally.
  - exact (same_result_refl _).
  - apply safe_blocks_same_result; apply close_quietly_safe.
Qed.

Lemma call_tool_body_same name arguments host port :
  same_result (call_tool_body w' name arguments host port)
              (call_tool_body w name arguments host port).
Proof.
  unfold call_tool_body.
  apply same_result_bind; [apply same_result_refl | intros _].
  repeat match goal with
         | |- same_result (if ?b then _ else _) _ => destruct b
         end;
    try (apply same_result_bind; [apply same_result_refl | intros _]).
  - apply same_result_in_frame, execute_sql_tool_same.
  - apply same_result_in_frame, get_schema_info_tool_same.
  - apply same_result_in_frame, get_table_sample_tool_same.
  - exact (same_result_refl _).
  - apply same_result_refl.
Qed.

Lemma maybe_ssh_tunnel_same {A} (body' body : str -> Z -> M unit A) :
  (forall host port, same_result (body' host port) (body host port)) ->
  same_result (maybe_ssh_tunnel w' body') (maybe_ssh_tunnel w body).
Proof.
  intros Hbody. unfold maybe_ssh_tunnel.
  apply same_result_bind; [exact (same_result_refl _) | intros _].
  change (use_ssh w') with (use_ssh w).
  destruct (negb (use_ssh w)).
  - apply same_result_bind; [apply same_result_refl | intros _].
    apply same_result_bind; [exact (same_result_refl _) | intros _].
    apply same_result_bind; [exact (same_result_refl _) | intros port].
    apply same_result_in_frame, Hbody.
  - apply same_result_bind; [exact (same_result_refl _) | intros ssh_port].
    apply same_result_bind; [exact (same_result_refl _) | intros remote_port].
    apply same_result_bind; [exact (same_result_refl _) | intros local_port].
    apply same_result_bind; [exact (same_result_refl _) | intros _].
    apply same_result_bind; [exact (same_result_refl _) | intros cmd].
    apply same_result_bind; [apply same_result_refl | intros _].
    apply same_result_try_finally.
    + apply same_result_try_except; [|intros e; apply same_result_refl].
      apply same_result_bind; [exact (same_result_refl _) | intros _].
      apply same_result_bind; [apply same_result_refl | intros _].
      apply same_result_bind; [apply same_result_refl | intros _].
      apply same_result_bind; [exact (same_result_refl _) | intros _].
      apply same_result_bind; [exact (same_result_refl _) | intros _].
      apply same_result_in_frame, Hbody.
    + apply safe_blocks_same_result; apply tunnel_release_safe.
Qed.

Lemma call_tool_same name arguments :
  same_result (call_tool w' name arguments) (call_tool w name arguments).
Proof.
  unfold call_tool, call_tool_with.
  apply same_result_bind; [apply same_result_refl | intros _].
  apply same_result_try_except; [|intros e; apply same_result_refl].
  apply same_result_in_frame, maybe_ssh_tunnel_same.
  intros host port. apply call_tool_body_same.
Qed.

End ReleaseDoesNotMatter.

Section CleanupLogging.
Variable w : World.

Lemma execute_sql_cleanup_logs_cursor_failure l e :
  cursor l <> None -> w_cursor_close w = Some e ->
  In (Log ERROR (py "execute_sql_tool: Error closing cursor/connection: " ++ exn_str e))
     (events (execute_sql_cleanup w l)).
Proof.
  intros Hc He. destruct l as [k [c|]]; [|cbn in Hc; congruence].
  unfold execute_sql_cleanup, close_cursor, close_connection,
    try_except, bind, get_locals, perform, logger_error, emit.
  cbn [cursor connection res locals events]. rewrite He.
  cbn. auto.
Qed.

Lemma execute_sql_cleanup_logs_connection_failure l e :
  cursor l <> None -> connection l <> None ->
  w_cursor_close w = None -> w_connection_close w = Some e ->
  In (Log ERROR (py "execute_sql_tool: Error closing cursor/connection: " ++ exn_str e))
     (events (execute_sql_cleanup w l)).
Proof.
  intros Hc Hk Hcc He. destruct l as [[k|] [c|]]; cbn in Hc, Hk; try congruence.
  unfold execute_sql_cleanup, close_cursor, close_connection,
    try_except, bind, get_locals, perform, logger_error, emit.
  cbn [cursor connection res locals events]. rewrite Hcc.
  cbn [cursor connection res locals events]. rewrite He.
  cbn. auto.
Qed.

Lemma tunnel_release_logs_failure l e :
  ssh_proc l <> None ->
  w_terminate w = Some e \/ (w_terminate w = None /\ w_wait w = Some e) ->
  In (Log ERROR (py "maybe_ssh_tunnel: Error terminating SSH tunnel: " ++ exn_str e))
     (events (tunnel_release w l)).
Proof.
  intros Hs He. destruct l as [[s|]]; [|cbn in Hs; congruence].
  unfold tunnel_release, read_ssh_proc, try_except, bind, get_locals, perform,
    logger_info, logger_error, emit, ret.
  cbn [ssh_proc res locals events].
  destruct He as [He | [Ht He]].
  - rewrite He. cbn. auto.
  - rewrite Ht. cbn [ssh_proc res locals events]. rewrite He. cbn. auto.
Qed.

Lemma close_quietly_never_logs l :
  count_events is_log (events (close_quietly w l)) = 0%nat.
Proof.
  apply count_events_silent with (S := fun ev => negb (is_log ev)).
  - intros ev H. now destruct (is_log ev).
  - unfold close_quietly, close_cursor, close_connection.
    apply emits_try_except; [|intros e; apply emits_ret].
    apply emits_bind; [|intros _].
    + apply emits_bind; [apply emits_get_locals | intros l'].
      destruct (cursor l'); [apply emits_perform; reflexivity | apply emits_raise].
    + apply emits_bind; [apply emits_get_locals | intros l'].
      destruct (connection l'); [apply emits_perform; reflexivity | apply emits_raise].
Qed.

End CleanupLogging.

(** X29.  In every call, whatever the outside world answers: the
    forwarding process is terminated once for every launch that went
    through, and the cursor is closed once for every cursor obtained.
    The connection is closed once for every cursor obtained when
    closing the cursor goes through, and not at all when it raises.
    The three cleanup blocks never raise, and the answers of terminate,
    wait and the two closes change neither what the [with] block of
    [call_tool] leaves (value or exception) nor what the call returns.
    A failure to close the cursor or the connection is logged by
    [execute_sql_tool], a failure to terminate or to wait by
    [maybe_ssh_tunnel]; the cleanup of [get_schema_info_tool] and
    [get_table_sample_tool] logs nothing. *)
Theorem release_matches_acquisition (w : World) (name : str) (arguments : dict) :
  let t := events (run_call w name arguments) in
  count_events is_terminate t = count_events (launched w) t /\
  count_events is_cursor_close t = count_events (cursor_obtained w) t /\
  (w_cursor_close w = None ->
   count_events is_connection_close t = count_events (cursor_obtained w) t) /\
  (w_cursor_close w <> None -> count_events is_connection_close t = 0%nat) /\
  (never_raises (tunnel_release w) /\
   never_raises (execute_sql_cleanup w) /\
   never_raises (close_quietly w)) /\
  (forall terminate wait cursor_close connection_close,
     let w' := with_release_outcomes w terminate wait cursor_close connection_close in
     res (call_tool_with w' name arguments tt) = res (call_tool_with w name arguments tt) /\
     res (run_call w' name arguments) = res (run_call w name arguments)) /\
  (forall l e,
     cursor l <> None -> w_cursor_close w = Some e ->
     In (Log ERROR (py "execute_sql_tool: Error closing cursor/connection: " ++ exn_str e))
        (events (execute_sql_cleanup w l))) /\
  (forall l e,
     cursor l <> None -> connection l <> None ->
     w_cursor_close w = None -> w_connection_close w = Some e ->
     In (Log ERROR (py "execute_sql_tool: Error closing cursor/connection: " ++ exn_str e))
        (events (execute_sql_cleanup w l))) /\
  (forall l e,
     ssh_proc l <> None ->
     w_terminate w = Some e \/ (w_terminate w = None /\ w_wait w = Some e) ->
     In (Log ERROR (py "maybe_ssh_tunnel: Error terminating SSH tunnel: " ++ exn_str e))
        (events (tunnel_release w l))) /\
  (forall l, count_events is_log (events (close_quietly w l)) = 0%nat).
Proof.
  cbv zeta. unfold run_call.
  split; [apply call_tool_terminated_as_launched|].
  split; [apply cursor_closed_as_obtained|].
  split; [intros H; now apply connection_closed_as_obtained|].
  split; [apply connection_not_closed|].
  split.
  { split; [apply tunnel_release_safe|].
    split; [apply execute_sql_cleanup_safe | apply close_quietly_safe]. }
  split.
  { intros terminate wait cursor_close connection_close. split.
    - unfold call_tool_with.
      apply (same_result_in_frame new_tunnel_frame).
      apply maybe_ssh_tunnel_same. intros host port. apply call_tool_body_same.
    - apply call_tool_same. }
  split; [intros l e; apply execute_sql_cleanup_logs_cursor_failure|].
  split; [intros l e; apply execute_sql_cleanup_logs_connection_failure|].
  split; [intros l e; apply tunnel_release_logs_failure|].
  apply close_quietly_never_logs.
Qed.

Lemma release_matches_acquisition_witness :
  let t := events (run_call tunnelled (py "execute_sql") select_one) in
  let frame := {| connection := Some MySQLConnection; cursor := Some MySQLCursor |} in
  count_events is_terminate t = 1%nat /\
  count_events is_cursor_close t = 1%nat /\
  count_events is_connection_close t = 1%nat /\
  count_events is_connection_close
    (events (run_call cursor_close_fails (py "get_schema_info") [])) = 0%nat /\
  In (Log ERROR (py "execute_sql_tool: Error closing cursor/connection: "
                 ++ exn_str close_error))
     (events (execute_sql_cleanup cursor_close_fails frame)) /\
  In (Log ERROR (py "execute_sql_tool: Error closing cursor/connection: "
                 ++ exn_str close_error))
     (events (execute_sql_cleanup
                (with_release_outcomes direct None None None (Some close_error)) frame)) /\
  In (Log ERROR (py "maybe_ssh_tunnel: Error terminating SSH tunnel: "
                 ++ exn_str close_error))
     (events (tunnel_release
                (with_release_outcomes tunnelled None (Some close_error) None None)
                {| ssh_proc := Some SshProcess |})).
Proof.
  cbv zeta.
  destruct (release_matches_acquisition tunnelled (py "execute_sql") select_one)
    as (Ht & Hc & Hk & _).
  destruct (release_matches_acquisition cursor_close_fails (py "get_schema_info") [])
    as (_ & _ & _ & Hnone & _ & _ & Hlog & _).
  destruct (release_matches_acquisition
              (with_release_outcomes direct None None None (Some close_error))
              (py "execute_sql") select_one)
    as (_ & _ & _ & _ & _ & _ & _ & Hlog2 & _).
  destruct (release_matches_acquisition
              (with_release_outcomes tunnelled None (Some close_error) None None)
              (py "execute_sql") select_one)
    as (_ & _ & _ & _ & _ & _ & _ & _ & Hlog3 & _).
  cbv zeta in *.
  split; [rewrite Ht; reflexivity|].
  split; [rewrite Hc; reflexivity|].
  split; [rewrite (Hk eq_refl); reflexivity|].
  split; [apply Hnone; discriminate|].
  split; [apply Hlog; [discriminate | reflexivity]|].
  split; [apply Hlog2; [discriminate | discriminate | reflexivity | reflexivity]|].
  apply Hlog3; [discriminate | right; split; reflexivity].
Defined.

(* ================================================================== *)
(** * The statements of get_table_sample *)
(* ================================================================== *)

Section SampleRun.
Variable w : World.



End SampleRun.



(* ================================================================== *)
(** * Port probing *)
(* ================================================================== *)

Section PortProbing.
Variable bind : Z -> option exn.

Lemma py_range_empty a b : (b <= a)%Z -> py_range a b = [].
Proof.
  intros H. unfold py_range. now replace (Z.to_nat (b - a)) with 0%nat by lia.
Qed.

Lemma py_range_cons a b : (a < b)%Z -> py_range a b = a :: py_range (a + 1) b.
Proof.
  intros H. unfold py_range.
  replace (Z.to_nat (b - a)) with (S (Z.to_nat (b - (a + 1)))) by lia.
  cbn [seq map]. f_equal; [lia|].
  rewrite <- seq_shift, map_map. apply map_ext. intros i. lia.
Qed.

Lemma py_range_length a b : List.length (py_range a b) = Z.to_nat (b - a).
Proof. unfold py_range. now rewrite length_map, length_seq. Qed.

(** The loop over a range, by the number of ports in it. *)
Lemma probe_range_ind (P : Z -> Z -> Prop) :
  (forall a b, (b <= a)%Z -> P a b) ->
  (forall a b, (a < b)%Z -> P (a + 1)%Z b -> P a b) ->
  forall a b, P a b.
Proof.
  intros Hempty Hstep a b.
  remember (Z.to_nat (b - a)) as n eqn:En. revert a En.
  induction n as [|n IH]; intros a En.
  - apply Hempty. lia.
  - apply Hstep; [lia|]. apply IH. lia.
Qed.

Lemma probe_first_free max_attempts a b port :
  (a <= port < b)%Z ->
  bind port = None ->
  (forall p, (a <= p < port)%Z -> exists e, bind p = Some e /\ is_os_error e = true) ->
  probe_ports bind max_attempts (py_range a b) = (Ret port, py_range a (port + 1)).
Proof.
  revert a b. apply (probe_range_ind
    (fun a b => (a <= port < b)%Z -> bind port = None ->
       (forall p, (a <= p < port)%Z -> exists e, bind p = Some e /\ is_os_error e = true) ->
       probe_ports bind max_attempts (py_range a b) = (Ret port, py_range a (port + 1)))).
  - intros a b Hab Hp. lia.
  - intros a b Hab IH Hp Hfree Hbusy.
    rewrite (py_range_cons a b) by lia. rewrite (py_range_cons a (port + 1)) by lia.
    cbn [probe_ports].
    destruct (Z.eq_dec a port) as [->|Hne].
    + rewrite Hfree. now rewrite py_range_empty by lia.
    + destruct (Hbusy a) as (e & -> & ->); [lia|].
      rewrite IH; [reflexivity | lia | exact Hfree |].
      intros p Hp'. apply Hbusy. lia.
Qed.

Lemma probe_other_error max_attempts a b port e :
  (a <= port < b)%Z ->
  bind port = Some e -> is_os_error e = false ->
  (forall p, (a <= p < port)%Z -> exists e', bind p = Some e' /\ is_os_error e' = true) ->
  probe_ports bind max_attempts (py_range a b) = (Raise e, py_range a (port + 1)).
Proof.
  revert a b. apply (probe_range_ind
    (fun a b => (a <= port < b)%Z -> bind port = Some e -> is_os_error e = false ->
       (forall p, (a <= p < port)%Z -> exists e', bind p = Some e' /\ is_os_error e' = true) ->
       probe_ports bind max_attempts (py_range a b) = (Raise e, py_range a (port + 1)))).
  - intros a b Hab Hp. lia.
  - intros a b Hab IH Hp Hfail Hcls Hbusy.
    rewrite (py_range_cons a b) by lia. rewrite (py_range_cons a (port + 1)) by lia.
    cbn [probe_ports].
    destruct (Z.eq_dec a port) as [->|Hne].
    + rewrite Hfail, Hcls. now rewrite py_range_empty by lia.
    + destruct (Hbusy a) as (e' & -> & ->); [lia|].
      rewrite IH; [reflexivity | lia | exact Hfail | exact Hcls |].
      intros p Hp'. apply Hbusy. lia.
Qed.

Lemma probe_exhausted max_attempts a b :
  (forall p, (a <= p < b)%Z -> exists e, bind p = Some e /\ is_os_error e = true) ->
  probe_ports bind max_attempts (py_range a b) =
  (Raise (Exn RuntimeError
              (py "Could not find a free port after " ++ str_of_Z max_attempts
               ++ py " attempts")),
   py_range a b).
Proof.
  revert a b. apply (probe_range_ind
    (fun a b =>
       (forall p, (a <= p < b)%Z -> exists e, bind p = Some e /\ is_os_error e = true) ->
       probe_ports bind max_attempts (py_range a b) =
       (Raise (Exn RuntimeError
                   (py "Could not find a free port after " ++ str_of_Z max_attempts
                    ++ py " attempts")),
        py_range a b))).
  - intros a b Hab _. now rewrite py_range_empty by lia.
  - intros a b Hab IH Hbusy. rewrite (py_range_cons a b) by lia.
    cbn [probe_ports]. destruct (Hbusy a) as (e & -> & ->); [lia|].
    rewrite IH; [reflexivity|]. intros p Hp. apply Hbusy. lia.
Qed.

Lemma probe_returned max_attempts a b port probed :
  probe_ports bind max_attempts (py_range a b) = (Ret port, probed) ->
  (a <= port < b)%Z /\ bind port = None /\
  (forall p, (a <= p < port)%Z -> exists e, bind p = Some e /\ is_os_error e = true) /\
  probed = py_range a (port + 1).
Proof.
  revert a b probed. apply (probe_range_ind
    (fun a b => forall probed,
       probe_ports bind max_attempts (py_range a b) = (Ret port, probed) ->
       (a <= port < b)%Z /\ bind port = None /\
       (forall p, (a <= p < port)%Z -> exists e, bind p = Some e /\ is_os_error e = true) /\
       probed = py_range a (port + 1))).
  - intros a b Hab probed. rewrite py_range_empty by lia. discriminate.
  - intros a b Hab IH probed. rewrite (py_range_cons a b) by lia. cbn [probe_ports].
    destruct (bind a) as [e|] eqn:Ha.
    + destruct (is_os_error e) eqn:He; [|discriminate].
      destruct (probe_ports bind max_attempts (py_range (a + 1) b)) as [r rest] eqn:E.
      intros H. inversion H; subst r probed.
      destruct (IH rest eq_refl) as (Hr & Hfree & Hbusy & ->).
      split; [lia|]. split; [exact Hfree|]. split.
      * intros p Hp. destruct (Z.eq_dec p a) as [->|Hne]; [now exists e|].
        apply Hbusy. lia.
      * now rewrite (py_range_cons a (port + 1)) by lia.
    + intros H. inversion H; subst a probed.
      split; [lia|]. split; [exact Ha|]. split; [intros p Hp; lia|].
      rewrite (py_range_cons port (port + 1)) by lia.
      now rewrite py_range_empty by lia.
Qed.

Lemma probe_in_order max_attempts a b :
  exists stop, (a <= stop)%Z /\ (stop <= Z.max a b)%Z /\
    snd (probe_ports bind max_attempts (py_range a b)) = py_range a stop.
Proof.
  revert a b. apply (probe_range_ind
    (fun a b => exists stop, (a <= stop)%Z /\ (stop <= Z.max a b)%Z /\
       snd (probe_ports bind max_attempts (py_range a b)) = py_range a stop)).
  - intros a b Hab. exists a. rewrite !py_range_empty by lia. cbn [probe_ports snd].
    repeat split; lia.
  - intros a b Hab (stop & H1 & H2 & IH). rewrite (py_range_cons a b) by lia.
    cbn [probe_ports].
    assert (One : [a] = py_range a (a + 1)).
    { rewrite (py_range_cons a (a + 1)) by lia. now rewrite py_range_empty by lia. }
    destruct (bind a) as [e|].
    + destruct (is_os_error e).
      * destruct (probe_ports bind max_attempts (py_range (a + 1) b)) as [r rest].
        cbn [snd] in *. subst rest. exists stop.
        split; [lia|]. split; [lia|].
        destruct (Z.eq_dec stop (a + 1)) as [->|Hne].
        -- now rewrite py_range_empty, One by lia.
        -- now rewrite (py_range_cons a stop) by lia.
      * exists (a + 1)%Z. cbn [snd]. split; [lia|]. split; [lia | exact One].
    + exists (a + 1)%Z. cbn [snd]. split; [lia|]. split; [lia | exact One].
Qed.

End PortProbing.

(** X1.  [find_free_port] returns the first port of the range that can
    be bound, when every port before it is refused with an [OSError];
    it has then probed the ports from [start_port] up to that one, in
    order, and no port after it. *)
Theorem find_free_port_first_free (bind : Z -> option exn)
        (start_port max_attempts port : Z) :
  (start_port <= port < start_port + max_attempts)%Z ->
  bind port = None ->
  (forall p, (start_port <= p < port)%Z ->
             exists e, bind p = Some e /\ is_os_error e = true) ->
  find_free_port bind start_port max_attempts =
  (Ret port, py_range start_port (port + 1)).
Proof. intros. now apply probe_first_free. Qed.

(** X2.  A port that [find_free_port] returns lies in the range
    [start_port, start_port + max_attempts), could be bound, and is the
    first such: every port before it was probed and refused with an
    [OSError]. *)
Theorem find_free_port_returns_free (bind : Z -> option exn)
        (start_port max_attempts port : Z) (probed : list Z) :
  find_free_port bind start_port max_attempts = (Ret port, probed) ->
  (start_port <= port < start_port + max_attempts)%Z /\
  bind port = None /\
  (forall p, (start_port <= p < port)%Z ->
             exists e, bind p = Some e /\ is_os_error e = true) /\
  probed = py_range start_port (port + 1).
Proof. apply probe_returned. Qed.

(** X3.  When every port of the range is refused with an [OSError],
    [find_free_port] raises [RuntimeError] with the number of attempts
    in its message, after it probed each port of the range once; with
    [max_attempts] zero or negative it raises at once, having probed
    nothing. *)
Theorem find_free_port_exhausted (bind : Z -> option exn)
        (start_port max_attempts : Z) :
  (forall p, (start_port <= p < start_port + max_attempts)%Z ->
             exists e, bind p = Some e /\ is_os_error e = true) ->
  find_free_port bind start_port max_attempts =
    (Raise (Exn RuntimeError
                (py "Could not find a free port after " ++ str_of_Z max_attempts
                 ++ py " attempts")),
     py_range start_port (start_port + max_attempts)) /\
  List.length (py_range start_port (start_port + max_attempts)) = Z.to_nat max_attempts /\
  ((max_attempts <= 0)%Z -> py_range start_port (start_port + max_attempts) = []).
Proof.
  intros H. split; [now apply probe_exhausted|]. split.
  - rewrite py_range_length. f_equal. lia.
  - intros Hn. apply py_range_empty. lia.
Qed.

(** X4.  An exception of the probe that is not an [OSError] is not
    caught: [find_free_port] stops at that port and raises it. *)
Theorem find_free_port_other_error (bind : Z -> option exn)
        (start_port max_attempts port : Z) (e : exn) :
  (start_port <= port < start_port + max_attempts)%Z ->
  bind port = Some e -> is_os_error e = false ->
  (forall p, (start_port <= p < port)%Z ->
             exists e', bind p = Some e' /\ is_os_error e' = true) ->
  find_free_port bind start_port max_attempts =
  (Raise e, py_range start_port (port + 1)).
Proof. intros. now apply probe_other_error. Qed.

(** X5.  Whatever the probes answer, the ports [find_free_port] probes
    are consecutive from [start_port], each probed once, and there are at
    most [max_attempts] of them. *)
Theorem find_free_port_probes_in_order (bind : Z -> option exn)
        (start_port max_attempts : Z) :
  exists stop,
    (start_port <= stop)%Z /\
    (stop <= Z.max start_port (start_port + max_attempts))%Z /\
    snd (find_free_port bind start_port max_attempts) = py_range start_port stop /\
    (List.length (snd (find_free_port bind start_port max_attempts))
     <= Z.to_nat max_attempts)%nat.
Proof.
  destruct (probe_in_order bind max_attempts start_port (start_port + max_attempts))
    as (stop & H1 & H2 & H3).
  exists stop. unfold find_free_port. rewrite H3, py_range_length.
  repeat split; auto; lia.
Qed.

Lemma find_free_port_first_free_witness :
  find_free_port (taken_below 3308) 3306 100 = (Ret 3308%Z, [3306; 3307; 3308]%Z).
Proof.
  refine (find_free_port_first_free (taken_below 3308) 3306 100 3308 _ eq_refl _).
  - lia.
  - intros p Hp. exists address_in_use. split; [|reflexivity].
    unfold taken_below. destruct (Z.ltb_spec p 3308); [reflexivity | lia].
Defined.

Lemma find_free_port_returns_free_witness :
  (3306 <= 3308 < 3306 + 100)%Z /\ taken_below 3308 3308 = None /\
  [3306; 3307; 3308]%Z = py_range 3306 (3308 + 1).
Proof.
  destruct (find_free_port_returns_free (taken_below 3308) 3306 100 3308
              [3306; 3307; 3308]%Z eq_refl) as (H1 & H2 & _ & H4).
  split; [exact H1|]. split; [exact H2 | exact H4].
Defined.

Lemma find_free_port_exhausted_witness :
  find_free_port all_taken 3306 3 =
  (Raise (Exn RuntimeError (py "Could not find a free port after 3 attempts")),
   [3306; 3307; 3308]%Z).
Proof.
  refine (proj1 (find_free_port_exhausted all_taken 3306 3 _)).
  intros p Hp. exists address_in_use. split; reflexivity.
Defined.

Lemma find_free_port_other_error_witness :
  find_free_port (probe_breaks_at 3307) 3306 100 =
  (Raise (Exn RuntimeError (py "probe failure")), [3306; 3307]%Z).
Proof.
  refine (find_free_port_other_error (probe_breaks_at 3307) 3306 100 3307 _ _ eq_refl eq_refl _).
  - lia.
  - intros p Hp. exists address_in_use. split; [|reflexivity].
    unfold probe_breaks_at. destruct (Z.ltb_spec p 3307); [reflexivity | lia].
Defined.

(* ================================================================== *)
(** * The configuration *)
(* ================================================================== *)

Section ConfigFacts.
Variable w : World.

Lemma same_value_eq a b : same_value a b = true <-> a = b.
Proof.
  destruct a, b; cbn; split; intros H; try discriminate; try reflexivity.
  - apply Bool.eqb_prop in H. now subst.
  - inversion H. apply Bool.eqb_reflx.
  - apply Z.eqb_eq in H. now subst.
  - inversion H. apply Z.eqb_refl.
  - apply str_eqb_eq in H. now subst.
  - inversion H. apply str_eqb_refl.
Qed.

Lemma same_dict_eq a b : same_dict a b = true <-> a = b.
Proof.
  revert b. induction a as [|[k v] a IH]; intros [|[k' v'] b]; cbn;
    split; intros H; try discriminate; try reflexivity.
  - apply andb_true_iff in H as [H H3]. apply andb_true_iff in H as [H1 H2].
    apply str_eqb_eq in H1. apply same_value_eq in H2. apply IH in H3. now subst.
  - inversion H; subst. rewrite str_eqb_refl.
    rewrite (proj2 (same_value_eq v' v') eq_refl).
    now rewrite (proj2 (IH b) eq_refl).
Qed.

Lemma same_values_eq a b : same_values a b = true <-> a = b.
Proof.
  revert b. induction a as [|v a IH]; intros [|v' b]; cbn;
    split; intros H; try discriminate; try reflexivity.
  - apply andb_true_iff in H as [H1 H2].
    apply same_value_eq in H1. apply IH in H2. now subst.
  - inversion H; subst. rewrite (proj2 (same_value_eq v' v') eq_refl).
    now rewrite (proj2 (IH b) eq_refl).
Qed.

(** The test [all([config.get("user"), config.get("password"),
    config.get("database")])]. *)
Lemma required_entries :
  forallb truthy
    [dict_get_default (filter (fun kv => is_not_none (snd kv)) (env_config w))
       (py "user") VNone;
     dict_get_default (filter (fun kv => is_not_none (snd kv)) (env_config w))
       (py "password") VNone;
     dict_get_default (filter (fun kv => is_not_none (snd kv)) (env_config w))
       (py "database") VNone] =
  credentials_given w.
Proof.
  unfold credentials_given, env_given, env_config, getenv_value.
  destruct (getenv w "MYSQL_USER") as [[|c1 u]|],
           (getenv w "MYSQL_PASSWORD") as [[|c2 p]|],
           (getenv w "MYSQL_DATABASE") as [[|c3 d]|]; reflexivity.
Qed.

Lemma get_db_config_given l :
  credentials_given w = true ->
  exists msg,
    get_db_config w l =
    Outcome (Ret (filter (fun kv => is_not_none (snd kv)) (env_config w))) l
            [Log INFO msg].
Proof.
  intros H. unfold get_db_config. cbv zeta. rewrite required_entries, H.
  eexists. unfold logger_info. rewrite run_bind_emit. reflexivity.
Qed.

Lemma get_db_config_missing l :
  credentials_given w = false ->
  exists msg,
    get_db_config w l =
    Outcome (Raise (Exn ValueError (py "Missing required database configuration"))) l
            [Log INFO msg;
             Log ERROR (py "Missing required database configuration. Please check environment variables:");
             Log ERROR (py "MYSQL_USER, MYSQL_PASSWORD, and MYSQL_DATABASE are required")].
Proof.
  intros H. unfold get_db_config. cbv zeta. rewrite required_entries, H.
  eexists. unfold logger_info, logger_error. rewrite !run_bind_emit. reflexivity.
Qed.

End ConfigFacts.

(** X6.  [get_db_config] returns a configuration exactly when
    MYSQL_USER, MYSQL_PASSWORD and MYSQL_DATABASE are all set to a text
    that is not empty.  Otherwise it logs two error lines after its
    configuration line and raises [ValueError] with the text "Missing
    required database configuration"; a variable set to the empty text
    counts as missing. *)
Theorem get_db_config_requires_credentials (w : World) :
  match res (get_db_config w tt) with
  | Ret config =>
      credentials_given w = true /\
      count_events is_error_log (events (get_db_config w tt)) = 0%nat
  | Raise e =>
      credentials_given w = false /\
      e = Exn ValueError (py "Missing required database configuration") /\
      count_events is_error_log (events (get_db_config w tt)) = 2%nat
  end /\
  only_logs (events (get_db_config w tt)).
Proof.
  split.
  - destruct (credentials_given w) eqn:H.
    + destruct (get_db_config_given w tt H) as [msg ->]. cbn. auto.
    + destruct (get_db_config_missing w tt H) as [msg ->]. cbn. auto.
  - apply get_db_config_emits.
Qed.

(** X7.  A configuration that [get_db_config] returns holds the three
    credentials as the environment gives them, the character set, the
    collation and the SQL mode from the environment or their defaults,
    the fixed settings (autocommit, a timeout of ten seconds, the two
    pool settings), no entry that is [None], and neither a host nor a
    port: the target of the connection is not read here. *)
Theorem get_db_config_entries (w : World) :
  returns
    (fun config =>
       dict_get config (py "user") = option_map VStr (getenv w "MYSQL_USER") /\
       dict_get config (py "password") = option_map VStr (getenv w "MYSQL_PASSWORD") /\
       dict_get config (py "database") = option_map VStr (getenv w "MYSQL_DATABASE") /\
       dict_get config (py "charset") =
         Some (VStr (getenv_default w "MYSQL_CHARSET" "utf8mb4")) /\
       dict_get config (py "collation") =
         Some (VStr (getenv_default w "MYSQL_COLLATION" "utf8mb4_unicode_ci")) /\
       dict_get config (py "sql_mode") =
         Some (VStr (getenv_default w "MYSQL_SQL_MODE" "TRADITIONAL")) /\
       dict_get config (py "autocommit") = Some (VBool true) /\
       dict_get config (py "connect_timeout") = Some (VInt 10) /\
       dict_get config (py "pool_size") = Some (VInt 5) /\
       dict_get config (py "pool_reset_session") = Some (VBool true) /\
       dict_get config (py "host") = None /\
       dict_get config (py "port") = None /\
       List.length config = 10%nat /\
       Forall (fun kv => snd kv <> VNone) config)
    (get_db_config w).
Proof.
  intros l config H.
  destruct (credentials_given w) eqn:Hc.
  - destruct (get_db_config_given w l Hc) as [msg E]. rewrite E in H.
    cbn [res] in H. inversion H; subst config. clear H E.
    revert Hc. unfold credentials_given, env_given, env_config, getenv_value.
    destruct (getenv w "MYSQL_USER") as [[|c1 u]|]; try discriminate;
      destruct (getenv w "MYSQL_PASSWORD") as [[|c2 p]|]; try discriminate;
      destruct (getenv w "MYSQL_DATABASE") as [[|c3 d]|]; try discriminate.
    intros _. repeat (split; [reflexivity|]).
    cbn [filter snd is_not_none]. repeat constructor; discriminate.
  - destruct (get_db_config_missing w l Hc) as [msg E]. rewrite E in H. discriminate.
Qed.

Lemma get_db_config_entries_witness :
  exists config,
    res (get_db_config direct tt) = Ret config /\
    dict_get config (py "password") = Some (VStr (py "hunter2")) /\
    dict_get config (py "host") = None.
Proof.
  eassert (E : res (get_db_config direct tt) = Ret _) by (vm_compute; reflexivity).
  eexists. split; [exact E|].
  destruct (get_db_config_entries direct tt _ E)
    as (_ & Hp & _ & _ & _ & _ & _ & _ & _ & _ & Hh & _).
  split; [exact Hp | exact Hh].
Defined.

(** X8.  The line [get_db_config] logs does not depend on the
    password: two environments that differ in MYSQL_PASSWORD only, set
    and not empty in both, give the same log. *)
Theorem get_db_config_log_hides_password (w1 w2 : World) :
  (forall name, name <> py "MYSQL_PASSWORD" -> w_getenv w1 name = w_getenv w2 name) ->
  env_given w1 "MYSQL_PASSWORD" = true ->
  env_given w2 "MYSQL_PASSWORD" = true ->
  events (get_db_config w1 tt) = events (get_db_config w2 tt).
Proof.
  intros Hsame H1 H2.
  assert (E : forall name : string,
             py name <> py "MYSQL_PASSWORD" -> getenv w1 name = getenv w2 name).
  { intros name Hn. unfold getenv. now apply Hsame. }
  unfold get_db_config, env_config, getenv_value, getenv_default, env_given in *.
  rewrite (E "MYSQL_USER"), (E "MYSQL_DATABASE"), (E "MYSQL_CHARSET"),
    (E "MYSQL_COLLATION"), (E "MYSQL_SQL_MODE") by (intros X; vm_compute in X; discriminate X).
  destruct (getenv w1 "MYSQL_PASSWORD") as [[|c1 p1]|]; try discriminate.
  destruct (getenv w2 "MYSQL_PASSWORD") as [[|c2 p2]|]; try discriminate.
  destruct (getenv w2 "MYSQL_USER") as [[|c3 u]|],
           (getenv w2 "MYSQL_DATABASE") as [[|c4 d]|]; reflexivity.
Qed.

Lemma get_db_config_log_hides_password_witness :
  events (get_db_config direct tt) = events (get_db_config other_password tt).
Proof.
  refine (get_db_config_log_hides_password direct other_password _ eq_refl eq_refl).
  intros name Hn. cbn. unfold env_of. cbn [find fst snd credentials].
  destruct (str_eqb (py "MYSQL_USER") name); [reflexivity|].
  destruct (str_eqb (py "MYSQL_PASSWORD") name) eqn:E.
  - apply str_eqb_eq in E. now subst.
  - reflexivity.
Defined.

(* ================================================================== *)
(** * What the connection factory hands to the driver *)
(* ================================================================== *)

Section FactoryTarget.
Variable w : World.

Lemma connect_attempts_config pc attempts :
  emits (connects_with pc) (connect_attempts w pc attempts).
Proof.
  induction attempts as [|attempt rest IH]; cbn [connect_attempts].
  - apply emits_raise.
  - unfold_logging.
    apply emits_bind; [|intros [c|]; [apply emits_ret | exact IH]].
    apply emits_try_except.
    + apply emits_bind; [apply emits_emit; reflexivity | intros _].
      apply emits_bind; [|intros _; emits_walk].
      apply emits_perform. cbn. now apply same_dict_eq.
    + intros e. emits_walk.
Qed.

(** The factory with the credentials at hand: three lines, then the
    loop on the configuration without its pool settings. *)
Lemma get_database_connection_given host port l :
  credentials_given w = true ->
  exists m1 m2 m3,
    let pc := filter (fun kv => negb (is_pool_key (fst kv)))
                (connection_config
                   (filter (fun kv => is_not_none (snd kv)) (env_config w)) host port) in
    res (get_database_connection w host port l) =
      res (connect_attempts w pc (seq 0 max_retries) l) /\
    events (get_database_connection w host port l) =
      Log INFO m1 :: Log INFO m2 :: Log INFO m3 ::
      events (connect_attempts w pc (seq 0 max_retries) l).
Proof.
  intros H. destruct (get_db_config_given w tt H) as [msg E].
  unfold get_database_connection, logger_info.
  rewrite run_bind_emit, run_bind, run_in_frame, E. cbn [res locals events].
  rewrite run_bind_emit. cbn [res locals events app]. cbv zeta.
  do 3 eexists. split; reflexivity.
Qed.

Lemma get_database_connection_missing host port l :
  credentials_given w = false ->
  res (get_database_connection w host port l) =
    Raise (Exn ValueError (py "Missing required database configuration")) /\
  forallb is_log (events (get_database_connection w host port l)) = true.
Proof.
  intros H. destruct (get_db_config_missing w tt H) as [msg E].
  unfold get_database_connection, logger_info.
  rewrite run_bind_emit, run_bind, run_in_frame, E. cbn [res locals events].
  split; reflexivity.
Qed.

Lemma count_sleeps t :
  count_events is_sleep t = count_events is_sleep (attempts_and_sleeps t).
Proof.
  unfold count_events, attempts_and_sleeps.
  induction t as [|ev t IH]; [reflexivity|]. destruct ev; simpl; auto.
Qed.

Lemma connect_attempt_other_logs pc attempt rest l e :
  w_connect w attempt pc = Some e -> is_mysql_error e = false ->
  count_events is_warning_log (events (connect_attempts w pc (attempt :: rest) l)) = 0%nat /\
  count_events is_error_log (events (connect_attempts w pc (attempt :: rest) l)) = 0%nat.
Proof.
  intros H He. cbn [connect_attempts].
  unfold bind, try_except, perform, logger_info, logger_warning, logger_error,
    emit, ret, raise.
  cbn [res locals events]. rewrite H. cbn [res locals events]. rewrite He.
  split; reflexivity.
Qed.

End FactoryTarget.

(** X9.  Every configuration [get_database_connection] hands to the
    driver's connect carries the host and the port it was called with,
    the native-password plugin, the three credentials of the
    environment, and neither of the two pool settings that
    [get_db_config] put in; and the driver is called only when the
    credentials are there. *)
Theorem get_database_connection_target (w : World) (host : str) (port : Z)
        (config : dict) :
  In (Connect config) (events (get_database_connection w host port tt)) ->
  credentials_given w = true /\
  dict_get config (py "host") = Some (VStr host) /\
  dict_get config (py "port") = Some (VInt port) /\
  dict_get config (py "auth_plugin") = Some (VStr (py "mysql_native_password")) /\
  dict_get config (py "user") = option_map VStr (getenv w "MYSQL_USER") /\
  dict_get config (py "password") = option_map VStr (getenv w "MYSQL_PASSWORD") /\
  dict_get config (py "database") = option_map VStr (getenv w "MYSQL_DATABASE") /\
  dict_get config (py "pool_size") = None /\
  dict_get config (py "pool_reset_session") = None.
Proof.
  intros Hin. destruct (credentials_given w) eqn:Hc.
  - split; [reflexivity|].
    destruct (get_database_connection_given w host port tt Hc) as (m1 & m2 & m3 & _ & E).
    cbv zeta in E. rewrite E in Hin.
    repeat (destruct Hin as [Hin | Hin]; [discriminate Hin|]).
    match type of Hin with
    | In _ (events (connect_attempts _ ?pc _ _)) =>
        pose proof (connect_attempts_config w pc (seq 0 max_retries) tt) as Hall
    end.
    rewrite forallb_forall in Hall. specialize (Hall _ Hin). cbn in Hall.
    apply same_dict_eq in Hall. subst config. clear Hin E.
    revert Hc. unfold credentials_given, env_given, env_config, getenv_value.
    destruct (getenv w "MYSQL_USER") as [[|c1 u]|]; try discriminate;
      destruct (getenv w "MYSQL_PASSWORD") as [[|c2 p]|]; try discriminate;
      destruct (getenv w "MYSQL_DATABASE") as [[|c3 d]|]; try discriminate.
    intros _. repeat split; reflexivity.
  - destruct (get_database_connection_missing w host port tt Hc) as [_ Hlogs].
    rewrite forallb_forall in Hlogs. specialize (Hlogs _ Hin). discriminate.
Qed.

Lemma get_database_connection_target_witness :
  let config :=
    [(py "user", VStr (py "app")); (py "password", VStr (py "hunter2"));
     (py "database", VStr (py "shop")); (py "charset", VStr (py "utf8mb4"));
     (py "collation", VStr (py "utf8mb4_unicode_ci")); (py "autocommit", VBool true);
     (py "sql_mode", VStr (py "TRADITIONAL")); (py "connect_timeout", VInt 10);
     (py "host", VStr (py "db.example")); (py "port", VInt 3307);
     (py "auth_plugin", VStr (py "mysql_native_password"))] in
  In (Connect config) (events (get_database_connection direct (py "db.example") 3307 tt)) /\
  dict_get config (py "pool_size") = None.
Proof.
  cbv zeta. split.
  - vm_compute. tauto.
  - eapply (get_database_connection_target direct (py "db.example") 3307).
    vm_compute. tauto.
Defined.

(** X10.  An exception of the driver's connect that is not one of the
    driver's errors is not retried: [get_database_connection] raises it
    after that one attempt, without a pause, and without the warning
    and the error line it logs for a driver error. *)
Theorem connect_other_exception_not_retried (w : World) (host : str) (port : Z)
        (e : exn) :
  credentials_given w = true ->
  (forall config, w_connect w 0 config = Some e) ->
  is_mysql_error e = false ->
  let t := events (get_database_connection w host port tt) in
  res (get_database_connection w host port tt) = Raise e /\
  count_events is_connect t = 1%nat /\
  count_events is_sleep t = 0%nat /\
  count_events is_warning_log t = 0%nat /\
  count_events is_error_log t = 0%nat.
Proof.
  intros Hc Hfail He. cbv zeta.
  destruct (get_database_connection_given w host port tt Hc) as (m1 & m2 & m3 & R & E).
  cbv zeta in R, E. rewrite R. cbn [seq max_retries] in *.
  set (pc := filter _ _) in *.
  destruct (connect_attempt_other w pc 0%nat [1; 2]%nat tt e (Hfail pc) He) as [R0 T0].
  destruct (connect_attempt_other_logs w pc 0%nat [1; 2]%nat tt e (Hfail pc) He) as [W0 E0].
  split; [exact R0|].
  assert (Skip : forall lvl msg t,
             attempts_and_sleeps (Log lvl msg :: t) = attempts_and_sleeps t)
    by reflexivity.
  split; [rewrite count_connect_attempts, E, !Skip, T0; reflexivity|].
  split; [rewrite count_sleeps, E, !Skip, T0; reflexivity|].
  rewrite E, !count_events_cons. cbn [is_warning_log is_error_log]. rewrite W0, E0.
  split; reflexivity.
Qed.

Lemma connect_other_exception_not_retried_witness :
  res (get_database_connection driver_breaks (py "localhost") 3306 tt) =
    Raise (Exn RuntimeError (py "driver failure")) /\
  count_events is_connect
    (events (get_database_connection driver_breaks (py "localhost") 3306 tt)) = 1%nat.
Proof.
  destruct (connect_other_exception_not_retried driver_breaks (py "localhost") 3306
              (Exn RuntimeError (py "driver failure")) eq_refl (fun _ => eq_refl) eq_refl)
    as (H1 & H2 & _).
  split; [exact H1 | exact H2].
Defined.

(* ================================================================== *)
(** * Calls without credentials *)
(* ================================================================== *)

Section MissingCredentials.
Variable w : World.
Hypothesis missing : credentials_given w = false.

Lemma forallb_is_log_app t1 t2 :
  forallb is_log t1 = true -> forallb is_log t2 = true ->
  forallb is_log (t1 ++ t2) = true.
Proof. intros H1 H2. now rewrite forallb_app, H1, H2. Qed.

Lemma open_connection_and_cursor_missing host port l :
  exists t,
    open_connection_and_cursor w host port l = Outcome (Raise missing_configuration) l t /\
    forallb is_log t = true.
Proof.
  destruct (get_database_connection_missing w host port tt missing) as [R Hlogs].
  unfold open_connection_and_cursor. rewrite run_bind, run_in_frame.
  destruct (get_database_connection w host port tt) as [r l1 t1].
  cbn [res locals events] in *. subst r. now exists t1.
Qed.

Lemma execute_sql_tool_missing host port arguments query :
  dict_get_default arguments (py "query") (VStr []) = VStr query ->
  strip query <> [] ->
  fst (validate_sql_query (strip query)) = true ->
  res (execute_sql_tool w host port arguments new_handler_frame) =
    Ret (text_block (py "Unexpected error: Missing required database configuration")) /\
  forallb is_log (events (execute_sql_tool w host port arguments new_handler_frame)) = true.
Proof.
  intros Hq Hs Hv. unfold execute_sql_tool, logger_info, logger_error. rewrite Hq.
  rewrite run_bind_emit, run_bind_ret.
  destruct (strip query) as [|c s] eqn:E; [congruence|].
  destruct (validate_sql_query (c :: s)) as [allowed reason]. cbn [fst] in Hv.
  subst allowed. cbn [negb].
  rewrite run_try_finally, run_try_except, run_bind.
  destruct (open_connection_and_cursor_missing host port new_handler_frame)
    as (t & -> & Ht).
  cbn [any_exception is_mysql_error missing_configuration class_of].
  rewrite run_bind_emit. cbn [res locals events].
  split; [reflexivity|].
  cbn [forallb is_log andb]. apply forallb_is_log_app; [|reflexivity].
  apply forallb_is_log_app; [exact Ht | reflexivity].
Qed.

Lemma get_schema_info_tool_missing host port arguments :
  res (get_schema_info_tool w host port arguments new_handler_frame) =
    Raise missing_configuration /\
  forallb is_log (events (get_schema_info_tool w host port arguments new_handler_frame)) = true.
Proof.
  unfold get_schema_info_tool, logger_info. cbv zeta.
  rewrite run_bind_emit, run_try_finally, run_try_except, run_bind.
  destruct (open_connection_and_cursor_missing host port new_handler_frame)
    as (t & -> & Ht).
  cbn [is_mysql_error missing_configuration class_of res locals events].
  split; [reflexivity|].
  cbn [forallb is_log andb]. apply forallb_is_log_app; [exact Ht | reflexivity].
Qed.

Lemma get_table_sample_tool_missing host port arguments limit :
  truthy (dict_get_default arguments (py "table_name") VNone) = true ->
  min_20 (dict_get_default arguments (py "limit") (VInt 5)) = Ret limit ->
  res (get_table_sample_tool w host port arguments new_handler_frame) =
    Raise missing_configuration /\
  forallb is_log (events (get_table_sample_tool w host port arguments new_handler_frame)) = true.
Proof.
  intros Ht Hl. unfold get_table_sample_tool, logger_info. cbv zeta.
  rewrite run_bind_emit, Hl, run_bind_lift_ret, Ht. cbn [negb].
  rewrite run_try_finally, run_try_except, run_bind.
  destruct (open_connection_and_cursor_missing host port new_handler_frame)
    as (t & -> & Hlog).
  cbn [is_mysql_error missing_configuration class_of res locals events].
  split; [reflexivity|].
  cbn [forallb is_log andb]. apply forallb_is_log_app; [exact Hlog | reflexivity].
Qed.

End MissingCredentials.

Section CallLevel.
Variable w : World.

(** A call whose [with] block cannot return gives the generic text. *)
Lemma call_fails_generic name arguments :
  (forall host port, returns (fun _ => False) (call_tool_body w name arguments host port)) ->
  res (run_call w name arguments) = Ret generic_error.
Proof.
  intros Hbody. rewrite call_tool_result.
  destruct (res (call_tool_with w name arguments tt)) as [r|e] eqn:E; [|reflexivity].
  assert (Hr : returns (fun _ => False) (call_tool_with w name arguments)).
  { apply returns_in_frame, maybe_ssh_tunnel_returns. exact Hbody. }
  destruct (Hr tt r E).
Qed.

(** The three branches of the dispatcher that run a handler: two lines,
    then the handler in a frame of its own. *)
Lemma call_tool_body_execute_sql arguments host port l :
  exists m1 m2,
    call_tool_body w (py "execute_sql") arguments host port l =
    Outcome (res (execute_sql_tool w host port arguments new_handler_frame)) l
            (Log INFO m1 :: Log INFO m2 ::
             events (execute_sql_tool w host port arguments new_handler_frame)).
Proof.
  unfold call_tool_body, logger_info. rewrite run_bind_emit.
  rewrite str_eqb_refl. rewrite run_bind_emit, run_in_frame.
  cbn [res locals events]. eauto.
Qed.

Lemma call_tool_body_get_schema_info arguments host port l :
  exists m1 m2,
    call_tool_body w (py "get_schema_info") arguments host port l =
    Outcome (res (get_schema_info_tool w host port arguments new_handler_frame)) l
            (Log INFO m1 :: Log INFO m2 ::
             events (get_schema_info_tool w host port arguments new_handler_frame)).
Proof.
  unfold call_tool_body, logger_info. rewrite run_bind_emit.
  change (str_eqb (py "get_schema_info") (py "execute_sql")) with false.
  rewrite str_eqb_refl. cbv iota. rewrite run_bind_emit, run_in_frame.
  cbn [res locals events]. eauto.
Qed.

Lemma call_tool_body_get_table_sample arguments host port l :
  exists m1 m2,
    call_tool_body w (py "get_table_sample") arguments host port l =
    Outcome (res (get_table_sample_tool w host port arguments new_handler_frame)) l
            (Log INFO m1 :: Log INFO m2 ::
             events (get_table_sample_tool w host port arguments new_handler_frame)).
Proof.
  unfold call_tool_body, logger_info. rewrite run_bind_emit.
  change (str_eqb (py "get_table_sample") (py "execute_sql")) with false.
  change (str_eqb (py "get_table_sample") (py "get_schema_info")) with false.
  rewrite str_eqb_refl. cbv iota. rewrite run_bind_emit, run_in_frame.
  cbn [res locals events]. eauto.
Qed.

Lemma logs_away_from_database t :
  forallb is_log t = true -> forallb away_from_database t = true.
Proof.
  intros H. rewrite forallb_forall in *. intros ev Hev. specialize (H ev Hev).
  now destruct ev.
Qed.

Lemma call_away_from_database name arguments :
  (forall host port l,
     forallb away_from_database (events (call_tool_body w name arguments host port l)) = true) ->
  count_events touches_database (events (run_call w name arguments)) = 0%nat.
Proof.
  intros Hbody. apply count_events_silent with (S := away_from_database).
  - intros ev H. unfold away_from_database in H. now destruct (touches_database ev).
  - apply call_tool_emits; [now intros []|]. intros host port l. apply Hbody.
Qed.

End CallLevel.

(** X11.  Without the credentials, [execute_sql] on a query that passes
    its guards answers "Unexpected error: Missing required database
    configuration": the configuration error is caught by the handler
    and shown to the caller.  The handler only logs, and the call
    performs no operation on the driver, a connection or a cursor. *)
Theorem execute_sql_reports_missing_credentials (w : World) (host : str) (port : Z)
        (arguments : dict) (query : str) :
  credentials_given w = false ->
  dict_get_default arguments (py "query") (VStr []) = VStr query ->
  strip query <> [] ->
  fst (validate_sql_query (strip query)) = true ->
  res (execute_sql_tool w host port arguments new_handler_frame) =
    Ret (text_block (py "Unexpected error: Missing required database configuration")) /\
  only_logs (events (execute_sql_tool w host port arguments new_handler_frame)) /\
  count_events touches_database (events (run_call w (py "execute_sql") arguments)) = 0%nat.
Proof.
  intros Hc Hq Hs Hv.
  destruct (execute_sql_tool_missing w Hc host port arguments query Hq Hs Hv) as [R T].
  split; [exact R|]. split; [exact T|].
  apply call_away_from_database. intros host' port' l.
  destruct (call_tool_body_execute_sql w arguments host' port' l) as (m1 & m2 & ->).
  cbn [events forallb]. apply logs_away_from_database.
  exact (proj2 (execute_sql_tool_missing w Hc host' port' arguments query Hq Hs Hv)).
Qed.

Lemma execute_sql_reports_missing_credentials_witness :
  res (execute_sql_tool no_credentials (py "localhost") 3306 select_one new_handler_frame) =
    Ret (text_block (py "Unexpected error: Missing required database configuration")).
Proof.
  refine (proj1 (execute_sql_reports_missing_credentials no_credentials (py "localhost")
                   3306 select_one (py "SELECT 1") eq_refl eq_refl _ eq_refl)).
  discriminate.
Defined.

(** X12.  Without the credentials, [get_schema_info] and
    [get_table_sample] do not show the configuration error: their
    handlers catch driver errors only, the [ValueError] leaves the
    handler, and the call answers with the generic text.  No operation
    on the database is performed. *)
Theorem schema_and_sample_hide_missing_credentials (w : World) (arguments : dict) :
  credentials_given w = false ->
  ((forall host port,
      res (get_schema_info_tool w host port arguments new_handler_frame) =
      Raise missing_configuration) /\
   res (run_call w (py "get_schema_info") arguments) = Ret generic_error /\
   count_events touches_database
     (events (run_call w (py "get_schema_info") arguments)) = 0%nat) /\
  (forall limit,
     truthy (dict_get_default arguments (py "table_name") VNone) = true ->
     min_20 (dict_get_default arguments (py "limit") (VInt 5)) = Ret limit ->
     (forall host port,
        res (get_table_sample_tool w host port arguments new_handler_frame) =
        Raise missing_configuration) /\
     res (run_call w (py "get_table_sample") arguments) = Ret generic_error /\
     count_events touches_database
       (events (run_call w (py "get_table_sample") arguments)) = 0%nat).
Proof.
  intros Hc. split.
  - split; [intros host port; apply (get_schema_info_tool_missing w Hc)|]. split.
    + apply call_fails_generic. intros host port l r.
      destruct (call_tool_body_get_schema_info w arguments host port l) as (m1 & m2 & ->).
      cbn [res]. rewrite (proj1 (get_schema_info_tool_missing w Hc host port arguments)).
      discriminate.
    + apply call_away_from_database. intros host port l.
      destruct (call_tool_body_get_schema_info w arguments host port l) as (m1 & m2 & ->).
      cbn [events forallb]. apply logs_away_from_database.
      apply (get_schema_info_tool_missing w Hc).
  - intros limit Ht Hl.
    split; [intros host port; apply (get_table_sample_tool_missing w Hc _ _ _ limit Ht Hl)|].
    split.
    + apply call_fails_generic. intros host port l r.
      destruct (call_tool_body_get_table_sample w arguments host port l) as (m1 & m2 & ->).
      cbn [res].
      rewrite (proj1 (get_table_sample_tool_missing w Hc host port arguments limit Ht Hl)).
      discriminate.
    + apply call_away_from_database. intros host port l.
      destruct (call_tool_body_get_table_sample w arguments host port l) as (m1 & m2 & ->).
      cbn [events forallb]. apply logs_away_from_database.
      apply (get_table_sample_tool_missing w Hc _ _ _ limit Ht Hl).
Qed.

Lemma schema_and_sample_hide_missing_credentials_witness :
  res (run_call no_credentials (py "get_schema_info") []) = Ret generic_error /\
  res (run_call no_credentials (py "get_table_sample") (sample_orders 3)) = Ret generic_error.
Proof.
  split.
  - exact (proj1 (proj2 (proj1
             (schema_and_sample_hide_missing_credentials no_credentials [] eq_refl)))).
  - exact (proj1 (proj2 (proj2
             (schema_and_sample_hide_missing_credentials no_credentials (sample_orders 3)
                eq_refl) (VInt 3) eq_refl eq_refl))).
Defined.

(* ================================================================== *)
(** * What execute_sql submits and answers *)
(* ================================================================== *)

Section ExecuteSqlFacts.
Variable w : World.

Lemma emits_bind_ret {L A B} (P : Event -> bool) (a : A) (f : A -> M L B) :
  emits P (f a) -> emits P (bind (ret a) f).
Proof. intros H l. rewrite run_bind_ret. apply H. Qed.

Lemma opening_emits (P : Event -> bool) host port :
  (forall ev, opening_event ev = true -> P ev = true) ->
  emits P (open_connection_and_cursor w host port).
Proof.
  intros H. eapply emits_weaken; [exact H | apply open_connection_and_cursor_opening].
Qed.

Lemma execute_sql_cleanup_closes (P : Event -> bool) :
  (forall ev, closing_event ev = true -> P ev = true) ->
  emits P (execute_sql_cleanup w).
Proof.
  intros H. eapply emits_weaken; [exact H | apply execute_sql_cleanup_closing].
Qed.

Lemma close_quietly_closes (P : Event -> bool) :
  (forall ev, closing_event ev = true -> P ev = true) ->
  emits P (close_quietly w).
Proof.
  intros H. eapply emits_weaken; [exact H | apply close_quietly_closing].
Qed.

Lemma execute_sql_tool_submits_allowed host port arguments :
  emits submits_allowed (execute_sql_tool w host port arguments).
Proof.
  unfold execute_sql_tool. unfold_logging.
  apply emits_bind; [emits_step|intros _].
  apply emits_bind; [emits_walk|intros query].
  destruct query as [|c query]; [apply emits_ret|].
  destruct (validate_sql_query (c :: query)) as [[] reason] eqn:Hv; cbn [negb];
    [|apply emits_ret].
  apply emits_try_finally; [|apply execute_sql_cleanup_closes; now intros []].
  apply emits_try_except; [|intros e; emits_walk].
  apply emits_bind; [apply opening_emits; now intros [] | intros _].
  apply emits_bind; [apply emits_emit; reflexivity | intros _].
  apply emits_bind; [|intros _; emits_walk].
  apply emits_perform. cbn [submits_allowed same_values]. now rewrite Hv.
Qed.

Lemma execute_sql_tool_submits_query host port arguments query :
  dict_get_default arguments (py "query") (VStr []) = VStr query ->
  emits (submits (strip query) []) (execute_sql_tool w host port arguments).
Proof.
  intros Hq. unfold execute_sql_tool. unfold_logging. rewrite Hq.
  apply emits_bind; [emits_step|intros _].
  apply emits_bind_ret.
  destruct (strip query) as [|c s]; [apply emits_ret|].
  destruct (validate_sql_query (c :: s)) as [[] reason]; cbn [negb];
    [|apply emits_ret].
  apply emits_try_finally; [|apply execute_sql_cleanup_closes; now intros []].
  apply emits_try_except; [|intros e; emits_walk].
  apply emits_bind; [apply opening_emits; now intros [] | intros _].
  apply emits_bind; [apply emits_emit; reflexivity | intros _].
  apply emits_bind; [|intros _; emits_walk].
  apply emits_perform. cbn [submits same_values]. now rewrite str_eqb_refl.
Qed.

Lemma execute_sql_tool_no_text host port arguments v l :
  dict_get arguments (py "query") = Some v ->
  (forall s, v <> VStr s) ->
  execute_sql_tool w host port arguments l =
  Outcome (Raise (Exn AttributeError
                      (py "'" ++ type_name v ++ py "' object has no attribute 'strip'")))
          l [execute_sql_entry_log host port arguments].
Proof.
  intros Hq Hv. unfold execute_sql_tool, logger_info, dict_get_default. rewrite Hq.
  rewrite run_bind_emit.
  destruct v as [| b | n | s]; try reflexivity. now destruct (Hv s).
Qed.

Lemma execute_sql_tool_never_raises host port arguments query :
  dict_get_default arguments (py "query") (VStr []) = VStr query ->
  never_raises (execute_sql_tool w host port arguments).
Proof.
  intros Hq. unfold execute_sql_tool. unfold_logging. rewrite Hq.
  apply never_raises_bind; [apply never_raises_emit | intros _].
  apply never_raises_bind; [apply never_raises_ret | intros q].
  destruct q as [|c s]; [apply never_raises_ret|].
  destruct (validate_sql_query (c :: s)) as [[] reason]; cbn [negb];
    [|apply never_raises_ret].
  intros l. rewrite try_finally_result by apply execute_sql_cleanup_safe.
  apply never_raises_catch_all. intros e.
  destruct (is_mysql_error e);
    (apply never_raises_bind; [apply never_raises_emit | intros _; apply never_raises_ret]).
Qed.

Lemma execute_sql_tool_answers host port arguments :
  returns
    (text_opens_with ["No SQL query provided"; "Query not allowed: ";
                      "Query executed successfully. "; "SQL error: ";
                      "Unexpected error: "])
    (execute_sql_tool w host port arguments).
Proof.
  assert (Opens : forall t,
             existsb (fun opening => startswith (py opening) t)
               ["No SQL query provided"; "Query not allowed: ";
                "Query executed successfully. "; "SQL error: ";
                "Unexpected error: "] = true ->
             text_opens_with ["No SQL query provided"; "Query not allowed: ";
                              "Query executed successfully. "; "SQL error: ";
                              "Unexpected error: "] (text_block t)).
  { intros t H. now exists t. }
  unfold execute_sql_tool. unfold_logging.
  apply returns_bind; intros _.
  apply returns_bind; intros query.
  destruct query as [|c query]; [apply returns_ret, Opens; reflexivity|].
  destruct (validate_sql_query (c :: query)) as [[] reason]; cbn [negb];
    [|apply returns_ret, Opens; reflexivity].
  apply returns_try_finally, returns_try_except.
  - repeat (apply returns_bind; intros _).
    destruct (w_description w (c :: query)) as [[|d ds]|].
    + apply returns_bind; intros _. apply returns_ret, Opens; reflexivity.
    + apply returns_bind; intros results. apply returns_bind; intros _.
      destruct results; apply returns_bind; intros _; apply returns_ret, Opens; reflexivity.
    + apply returns_bind; intros _. apply returns_ret, Opens; reflexivity.
  - intros e. destruct (is_mysql_error e);
      apply returns_bind; intros _; apply returns_ret, Opens; reflexivity.
Qed.

End ExecuteSqlFacts.

(** X13.  Every statement [execute_sql_tool] submits is one the
    validator allows, submitted without parameters; it is the query
    argument with its leading and trailing whitespace removed. *)
Theorem execute_sql_submits_validated (w : World) (host : str) (port : Z)
        (arguments : dict) :
  emits submits_allowed (execute_sql_tool w host port arguments) /\
  forall query,
    dict_get_default arguments (py "query") (VStr []) = VStr query ->
    emits (submits (strip query) []) (execute_sql_tool w host port arguments).
Proof.
  split; [apply execute_sql_tool_submits_allowed|].
  intros query Hq. now apply execute_sql_tool_submits_query.
Qed.

Lemma execute_sql_submits_validated_witness :
  forallb (submits (py "SELECT 1") [])
    (events (execute_sql_tool direct (py "localhost") 3306
               [(py "query", VStr (py "  SELECT 1  "))] new_handler_frame)) = true.
Proof.
  exact (proj2 (execute_sql_submits_validated direct (py "localhost") 3306
                  [(py "query", VStr (py "  SELECT 1  "))])
               (py "  SELECT 1  ") eq_refl new_handler_frame).
Defined.

(** X14.  A [query] argument that is not a text, [None] included,
    makes [execute_sql_tool] raise [AttributeError] right after its
    entry line, the argument having no [strip]; the call answers with
    the generic text and performs no operation on the database. *)
Theorem execute_sql_rejects_non_text (w : World) (arguments : dict) (v : value) :
  dict_get arguments (py "query") = Some v ->
  (forall s, v <> VStr s) ->
  (forall host port l,
     execute_sql_tool w host port arguments l =
     Outcome (Raise (Exn AttributeError
                         (py "'" ++ type_name v ++ py "' object has no attribute 'strip'")))
             l [execute_sql_entry_log host port arguments]) /\
  res (run_call w (py "execute_sql") arguments) = Ret generic_error /\
  count_events touches_database (events (run_call w (py "execute_sql") arguments)) = 0%nat.
Proof.
  intros Hq Hv.
  split; [intros host port l; now apply execute_sql_tool_no_text|]. split.
  - apply call_fails_generic. intros host port l r.
    destruct (call_tool_body_execute_sql w arguments host port l) as (m1 & m2 & ->).
    cbn [res]. rewrite (execute_sql_tool_no_text w host port arguments v _ Hq Hv).
    discriminate.
  - apply call_away_from_database. intros host port l.
    destruct (call_tool_body_execute_sql w arguments host port l) as (m1 & m2 & ->).
    rewrite (execute_sql_tool_no_text w host port arguments v _ Hq Hv). reflexivity.
Qed.

Lemma execute_sql_rejects_non_text_witness :
  res (run_call direct (py "execute_sql") [(py "query", VNone)]) = Ret generic_error /\
  res (execute_sql_tool direct (py "localhost") 3306 [(py "query", VInt 7)]
         new_handler_frame) =
  Raise (Exn AttributeError (py "'int' object has no attribute 'strip'")).
Proof.
  split.
  - refine (proj1 (proj2 (execute_sql_rejects_non_text direct [(py "query", VNone)]
                            VNone eq_refl _))).
    discriminate.
  - rewrite (proj1 (execute_sql_rejects_non_text direct [(py "query", VInt 7)]
                      (VInt 7) eq_refl ltac:(discriminate))).
    reflexivity.
Defined.

(** X15.  With a [query] argument that is a text, or none at all,
    [execute_sql_tool] never raises: whatever the driver does, it
    returns one text block, which opens with "No SQL query provided",
    "Query not allowed: ", "Query executed successfully. ", "SQL error: "
    or "Unexpected error: ". *)
Theorem execute_sql_tool_total_on_text (w : World) (host : str) (port : Z)
        (arguments : dict) (query : str) :
  dict_get_default arguments (py "query") (VStr []) = VStr query ->
  never_raises (execute_sql_tool w host port arguments) /\
  returns
    (text_opens_with ["No SQL query provided"; "Query not allowed: ";
                      "Query executed successfully. "; "SQL error: ";
                      "Unexpected error: "])
    (execute_sql_tool w host port arguments).
Proof.
  intros Hq. split.
  - now apply execute_sql_tool_never_raises with (query := query).
  - apply execute_sql_tool_answers.
Qed.

Lemma execute_sql_tool_total_on_text_witness :
  exists r,
    res (execute_sql_tool unreachable (py "localhost") 3306 select_one new_handler_frame) =
    Ret r.
Proof.
  exact (proj1 (execute_sql_tool_total_on_text unreachable (py "localhost") 3306
                  select_one (py "SELECT 1") eq_refl) new_handler_frame).
Defined.

(* ================================================================== *)
(** * The schema and sample handlers *)
(* ================================================================== *)

Section SchemaAndSample.
Variable w : World.

(** The loops that format the columns do nothing outside. *)
Lemma schema_lines_one_silent (P : Event -> bool) columns result :
  emits P (@schema_lines_one columns result).
Proof.
  revert result. induction columns as [|col rest IH]; intros result;
    cbn [schema_lines_one]; [apply emits_ret|].
  repeat (apply emits_bind; [apply emits_lift_result | intros ?]). apply IH.
Qed.

Lemma schema_lines_all_silent (P : Event -> bool) columns last_table result :
  emits P (@schema_lines_all columns last_table result).
Proof.
  revert last_table result. induction columns as [|col rest IH];
    intros last_table result; cbn [schema_lines_all]; [apply emits_ret|].
  repeat (apply emits_bind; [apply emits_lift_result | intros ?]). apply IH.
Qed.

Lemma get_schema_info_tool_submits host port arguments :
  emits (if truthy (dict_get_default arguments (py "table_name") VNone)
         then submits schema_query_one [dict_get_default arguments (py "table_name") VNone]
         else submits schema_query_all [])
        (get_schema_info_tool w host port arguments).
Proof.
  assert (Lg : forall P : Event -> bool,
             (forall lvl msg, P (Log lvl msg) = true) ->
             forall lvl msg, emits P (@emit HandlerLocals (Log lvl msg))).
  { intros P HP lvl msg. now apply emits_emit. }
  assert (Same : forall v, same_value v v = true).
  { intros v. now apply same_value_eq. }
  unfold get_schema_info_tool. unfold_logging. cbv zeta.
  set (table_name := dict_get_default arguments (py "table_name") VNone).
  destruct (truthy table_name).
  - apply emits_bind; [apply emits_emit; reflexivity | intros _].
    apply emits_try_finally; [|apply close_quietly_closes; now intros []].
    apply emits_try_except; [|intros e; emits_walk].
    apply emits_bind; [apply opening_emits; now intros [] | intros _].
    apply emits_bind; [|intros _].
    { apply emits_perform. cbn [submits same_values].
      now rewrite str_eqb_refl, Same. }
    apply emits_bind; [apply emits_perform_result; reflexivity | intros columns].
    apply emits_bind; [|intros r; apply emits_ret].
    apply schema_lines_one_silent.
  - apply emits_bind; [apply emits_emit; reflexivity | intros _].
    apply emits_try_finally; [|apply close_quietly_closes; now intros []].
    apply emits_try_except; [|intros e; emits_walk].
    apply emits_bind; [apply opening_emits; now intros [] | intros _].
    apply emits_bind; [|intros _].
    { apply emits_perform. cbn [submits same_values]. now rewrite str_eqb_refl. }
    apply emits_bind; [apply emits_perform_result; reflexivity | intros columns].
    apply emits_bind; [|intros r; apply emits_ret].
    apply schema_lines_all_silent.
Qed.

(** A handler guarded by [except <caught>] with a handler and a cleanup
    that cannot raise lets out only what it does not catch. *)
Lemma guarded_lets_out {L A} caught (m : M L A) h c l e :
  never_raises c -> (forall e', never_raises (h e')) ->
  res (try_finally (try_except caught m h) c l) = Raise e ->
  caught e = false.
Proof.
  intros Hc Hh. rewrite try_finally_result by exact Hc. rewrite run_try_except.
  destruct (m l) as [[a|e'] l1 t1]; [discriminate|].
  destruct (caught e') eqn:E; cbn [res].
  - destruct (Hh e' l1) as [b ->]. discriminate.
  - intros H. inversion H. now subst.
Qed.

Lemma get_schema_info_tool_lets_out host port arguments l e :
  res (get_schema_info_tool w host port arguments l) = Raise e ->
  is_mysql_error e = false.
Proof.
  unfold get_schema_info_tool, logger_info, logger_error. cbv zeta.
  rewrite run_bind_emit. cbn [res]. apply guarded_lets_out.
  - apply close_quietly_safe.
  - intros e'. apply never_raises_bind; [apply never_raises_emit | intros _].
    apply never_raises_ret.
Qed.

Lemma min_20_raises v e : min_20 v = Raise e -> class_of e = TypeError.
Proof. destruct v; cbn; intros H; inversion H; reflexivity. Qed.

Lemma get_table_sample_tool_lets_out host port arguments l e :
  res (get_table_sample_tool w host port arguments l) = Raise e ->
  is_mysql_error e = false.
Proof.
  unfold get_table_sample_tool, logger_info, logger_error. cbv zeta.
  rewrite run_bind_emit. cbn [res].
  destruct (min_20 (dict_get_default arguments (py "limit") (VInt 5))) as [limit|e0] eqn:Hl.
  - rewrite run_bind_lift_ret.
    destruct (negb (truthy (dict_get_default arguments (py "table_name") VNone)));
      [discriminate|].
    apply guarded_lets_out.
    + apply close_quietly_safe.
    + intros e'. apply never_raises_bind; [apply never_raises_emit | intros _].
      apply never_raises_ret.
  - rewrite run_bind_lift_raise. cbn [res]. intros H. inversion H; subst.
    apply min_20_raises in Hl. unfold is_mysql_error. now rewrite Hl.
Qed.

Lemma schema_lines_one_extends columns result :
  returns (fun r => exists rest, r = result ++ rest)
          (@schema_lines_one columns result).
Proof.
  revert result. induction columns as [|col rest IH]; intros result;
    cbn [schema_lines_one].
  - apply returns_ret. exists []. now rewrite app_nil_r.
  - repeat (apply returns_bind; intros ?).
    intros l r Hr. destruct (IH _ l r Hr) as [more ->].
    eexists. now rewrite <- app_assoc.
Qed.

Lemma schema_lines_all_extends columns last_table result :
  returns (fun r => exists rest, r = result ++ rest)
          (@schema_lines_all columns last_table result).
Proof.
  revert last_table result. induction columns as [|col rest IH];
    intros last_table result; cbn [schema_lines_all].
  - apply returns_ret. exists []. now rewrite app_nil_r.
  - repeat (apply returns_bind; intros ?). cbv zeta.
    intros l r Hr. destruct (IH _ _ l r Hr) as [more ->].
    match goal with
    | |- context [if ?b then _ else _] => destruct b
    end; eexists; rewrite <- ?app_assoc; reflexivity.
Qed.

Lemma get_schema_info_tool_answers host port arguments :
  returns (text_opens_with ["Schema error: "; "Table: "; "Database Schema (all tables):"])
          (get_schema_info_tool w host port arguments).
Proof.
  unfold get_schema_info_tool. unfold_logging. cbv zeta.
  apply returns_bind; intros _.
  apply returns_try_finally, returns_try_except.
  - apply returns_bind; intros _.
    destruct (truthy _).
    + apply returns_bind; intros _. apply returns_bind; intros columns.
      intros l r. rewrite run_bind.
      pose proof (schema_lines_one_extends columns
                    (py "Table: "
                     ++ str_value (dict_get_default arguments (py "table_name") VNone)
                     ++ nl ++ py "Columns:" ++ nl) l) as Hx.
      destruct (schema_lines_one _ _ l) as [[t|e] l1 t1]; [|discriminate].
      destruct (Hx t eq_refl) as [rest ->].
      cbn [res ret]. intros H. inversion H; subst r.
      eexists. split; reflexivity.
    + apply returns_bind; intros _. apply returns_bind; intros columns.
      intros l r. rewrite run_bind.
      pose proof (schema_lines_all_extends columns VNone
                    (py "Database Schema (all tables):" ++ nl) l) as Hx.
      destruct (schema_lines_all _ _ _ l) as [[t|e] l1 t1]; [|discriminate].
      destruct (Hx t eq_refl) as [rest ->].
      cbn [res ret]. intros H. inversion H; subst r.
      eexists. split; reflexivity.
  - intros e. apply returns_bind; intros _. apply returns_ret.
    eexists. split; reflexivity.
Qed.

Lemma get_table_sample_tool_answers host port arguments :
  returns (text_opens_with ["Table name is required"; "Table sample error: "; "Table: "])
          (get_table_sample_tool w host port arguments).
Proof.
  unfold get_table_sample_tool. unfold_logging. cbv zeta.
  apply returns_bind; intros _.
  apply returns_bind; intros limit.
  destruct (negb _); [apply returns_ret; eexists; split; reflexivity|].
  apply returns_try_finally, returns_try_except.
  - repeat (apply returns_bind; intros ?). apply returns_ret.
    eexists. split; reflexivity.
  - intros e. apply returns_bind; intros _. apply returns_ret.
    eexists. split; reflexivity.
Qed.

Lemma get_table_sample_tool_no_table host port arguments limit l :
  truthy (dict_get_default arguments (py "table_name") VNone) = false ->
  min_20 (dict_get_default arguments (py "limit") (VInt 5)) = Ret limit ->
  get_table_sample_tool w host port arguments l =
  Outcome (Ret (text_block (py "Table name is required"))) l
          [Log INFO (py "get_table_sample_tool: host=" ++ host ++ py ", port="
                     ++ str_of_Z port ++ py ", arguments=" ++ repr_dict arguments)].
Proof.
  intros Ht Hl. unfold get_table_sample_tool, logger_info. cbv zeta.
  rewrite run_bind_emit, Hl, run_bind_lift_ret, Ht. reflexivity.
Qed.

Lemma get_table_sample_tool_bad_limit host port arguments e l :
  min_20 (dict_get_default arguments (py "limit") (VInt 5)) = Raise e ->
  get_table_sample_tool w host port arguments l =
  Outcome (Raise e) l
          [Log INFO (py "get_table_sample_tool: host=" ++ host ++ py ", port="
                     ++ str_of_Z port ++ py ", arguments=" ++ repr_dict arguments)].
Proof.
  intros Hl. unfold get_table_sample_tool, logger_info. cbv zeta.
  rewrite run_bind_emit, Hl, run_bind_lift_raise. reflexivity.
Qed.

End SchemaAndSample.

(** X16.  [get_schema_info_tool] submits fixed statements only: with a
    table name that counts as true, the one-table query with the name
    as its single bound parameter; otherwise (no name, [None], the
    empty text) the all-tables query without parameters.  The table
    name never becomes part of the SQL text. *)
Theorem get_schema_info_statements (w : World) (host : str) (port : Z)
        (arguments : dict) :
  let table_name := dict_get_default arguments (py "table_name") VNone in
  emits (if truthy table_name
         then submits schema_query_one [table_name]
         else submits schema_query_all [])
        (get_schema_info_tool w host port arguments).
Proof. cbv zeta. apply get_schema_info_tool_submits. Qed.

(** X17.  No driver error leaves [get_schema_info_tool] or
    [get_table_sample_tool]: an exception either of them raises is not
    one of the driver's, those being turned into a text.  What they
    return is one text block that opens with "Schema error: ", "Table: "
    or "Database Schema (all tables):" for the first, with "Table name
    is required", "Table sample error: " or "Table: " for the second. *)
Theorem schema_and_sample_contain_driver_errors (w : World) (host : str) (port : Z)
        (arguments : dict) :
  (forall l e,
     res (get_schema_info_tool w host port arguments l) = Raise e ->
     is_mysql_error e = false) /\
  (forall l e,
     res (get_table_sample_tool w host port arguments l) = Raise e ->
     is_mysql_error e = false) /\
  returns (text_opens_with ["Schema error: "; "Table: "; "Database Schema (all tables):"])
          (get_schema_info_tool w host port arguments) /\
  returns (text_opens_with ["Table name is required"; "Table sample error: "; "Table: "])
          (get_table_sample_tool w host port arguments).
Proof.
  split; [intros l e; apply get_schema_info_tool_lets_out|].
  split; [intros l e; apply get_table_sample_tool_lets_out|].
  split; [apply get_schema_info_tool_answers | apply get_table_sample_tool_answers].
Qed.

Lemma schema_and_sample_contain_driver_errors_witness :
  is_mysql_error missing_configuration = false /\
  text_opens_with ["Schema error: "; "Table: "; "Database Schema (all tables):"]
    (text_block (py "Schema error: " ++ exn_str driver_error)).
Proof.
  destruct (schema_and_sample_contain_driver_errors no_credentials (py "localhost") 3306 [])
    as (H1 & _).
  destruct (schema_and_sample_contain_driver_errors unreachable (py "localhost") 3306 [])
    as (_ & _ & H3 & _).
  split.
  - apply (H1 new_handler_frame). reflexivity.
  - apply (H3 new_handler_frame). reflexivity.
Defined.

(** X18.  [get_table_sample_tool] works out the limit before it looks
    at the table name.  Without a table name that counts as true and
    with a limit it can compare with 20, it answers "Table name is
    required" after its entry line and does nothing else.  A limit it
    cannot compare with 20, a text or [None], makes it raise
    [TypeError] at that point, table name or not, and the call answers
    with the generic text without any operation on the database. *)
Theorem get_table_sample_requires_table_name (w : World) (arguments : dict) :
  (forall limit host port l,
     truthy (dict_get_default arguments (py "table_name") VNone) = false ->
     min_20 (dict_get_default arguments (py "limit") (VInt 5)) = Ret limit ->
     get_table_sample_tool w host port arguments l =
     Outcome (Ret (text_block (py "Table name is required"))) l
             [Log INFO (py "get_table_sample_tool: host=" ++ host ++ py ", port="
                        ++ str_of_Z port ++ py ", arguments=" ++ repr_dict arguments)]) /\
  (forall e,
     min_20 (dict_get_default arguments (py "limit") (VInt 5)) = Raise e ->
     class_of e = TypeError /\
     (forall host port l,
        get_table_sample_tool w host port arguments l =
        Outcome (Raise e) l
                [Log INFO (py "get_table_sample_tool: host=" ++ host ++ py ", port="
                           ++ str_of_Z port ++ py ", arguments=" ++ repr_dict arguments)]) /\
     res (run_call w (py "get_table_sample") arguments) = Ret generic_error /\
     count_events touches_database
       (events (run_call w (py "get_table_sample") arguments)) = 0%nat).
Proof.
  split.
  - intros limit host port l Ht Hl. now apply get_table_sample_tool_no_table with (limit := limit).
  - intros e He. split; [now apply min_20_raises in He|].
    split; [intros host port l; now apply get_table_sample_tool_bad_limit|]. split.
    + apply call_fails_generic. intros host port l r.
      destruct (call_tool_body_get_table_sample w arguments host port l) as (m1 & m2 & ->).
      cbn [res]. rewrite (get_table_sample_tool_bad_limit w host port arguments e _ He).
      discriminate.
    + apply call_away_from_database. intros host port l.
      destruct (call_tool_body_get_table_sample w arguments host port l) as (m1 & m2 & ->).
      rewrite (get_table_sample_tool_bad_limit w host port arguments e _ He). reflexivity.
Qed.

Lemma get_table_sample_requires_table_name_witness :
  res (get_table_sample_tool direct (py "localhost") 3306 [(py "table_name", VStr [])]
         new_handler_frame) = Ret (text_block (py "Table name is required")) /\
  res (run_call direct (py "get_table_sample") [(py "limit", VStr (py "3"))]) =
  Ret generic_error.
Proof.
  split.
  - rewrite (proj1 (get_table_sample_requires_table_name direct [(py "table_name", VStr [])])
               (VInt 5) (py "localhost") 3306%Z new_handler_frame eq_refl eq_refl).
    reflexivity.
  - exact (proj1 (proj2 (proj2
             (proj2 (get_table_sample_requires_table_name direct
                       [(py "limit", VStr (py "3"))])
                _ eq_refl)))).
Defined.

(* ================================================================== *)
(** * The tools announced and the tools dispatched *)
(* ================================================================== *)

Section KnownTools.
Variable w : World.

Lemma get_db_config_known : emits known_tool_event (get_db_config w).
Proof. unfold get_db_config. emits_walk. Qed.

Lemma connect_attempts_known cfg attempts :
  emits known_tool_event (connect_attempts w cfg attempts).
Proof.
  induction attempts as [|attempt rest IH]; cbn [connect_attempts].
  - apply emits_raise.
  - unfold_logging.
    apply emits_bind; [|intros [c|]; [apply emits_ret | exact IH]].
    emits_walk.
Qed.

Lemma open_connection_and_cursor_known host port :
  emits known_tool_event (open_connection_and_cursor w host port).
Proof.
  unfold open_connection_and_cursor, get_database_connection. unfold_logging. cbv zeta.
  apply emits_bind; [|intros c; emits_walk].
  apply emits_in_frame.
  apply emits_bind; [emits_step|intros _].
  apply emits_bind; [apply emits_in_frame, get_db_config_known | intros cfg].
  apply emits_bind; [emits_step|intros _]. apply connect_attempts_known.
Qed.

Lemma cleanups_known :
  emits known_tool_event (execute_sql_cleanup w) /\
  emits known_tool_event (close_quietly w).
Proof.
  unfold execute_sql_cleanup, close_quietly, close_cursor, close_connection.
  split; emits_walk.
Qed.

Lemma execute_sql_tool_known host port arguments :
  emits known_tool_event (execute_sql_tool w host port arguments).
Proof.
  unfold execute_sql_tool. unfold_logging.
  apply emits_bind; [emits_step|intros _].
  apply emits_bind; [emits_walk|intros query].
  destruct query as [|c query]; [apply emits_ret|].
  destruct (validate_sql_query (c :: query)) as [[] reason]; cbn [negb];
    [|apply emits_ret].
  apply emits_try_finally; [|apply cleanups_known].
  apply emits_try_except; [|intros e; emits_walk].
  apply emits_bind; [apply open_connection_and_cursor_known | intros _].
  emits_walk.
Qed.

Lemma get_schema_info_tool_known host port arguments :
  emits known_tool_event (get_schema_info_tool w host port arguments).
Proof.
  unfold get_schema_info_tool. unfold_logging. cbv zeta.
  apply emits_bind; [emits_step|intros _].
  apply emits_try_finally; [|apply cleanups_known].
  apply emits_try_except; [|intros e; emits_walk].
  apply emits_bind; [apply open_connection_and_cursor_known | intros _].
  destruct (truthy _).
  - repeat (apply emits_bind; [emits_step | intros ?]).
    apply emits_bind; [apply schema_lines_one_silent | intros; apply emits_ret].
  - repeat (apply emits_bind; [emits_step | intros ?]).
    apply emits_bind; [apply schema_lines_all_silent | intros; apply emits_ret].
Qed.

Lemma get_table_sample_tool_known host port arguments :
  emits known_tool_event (get_table_sample_tool w host port arguments).
Proof.
  unfold get_table_sample_tool. unfold_logging. cbv zeta.
  apply emits_bind; [emits_step|intros _].
  apply emits_bind; [emits_step|intros limit].
  destruct (negb _); [apply emits_ret|].
  apply emits_try_finally; [|apply cleanups_known].
  apply emits_try_except; [|intros e; emits_walk].
  apply emits_bind; [apply open_connection_and_cursor_known | intros _].
  emits_walk.
Qed.

Lemma known_tool_count t :
  forallb known_tool_event t = true -> count_events is_unknown_tool_log t = 0%nat.
Proof.
  apply count_events_silent. intros ev H. unfold known_tool_event in H.
  now destruct (is_unknown_tool_log ev).
Qed.

Lemma call_tool_body_known name arguments host port l :
  In name tool_names ->
  count_events is_unknown_tool_log
    (events (call_tool_body w name arguments host port l)) = 0%nat.
Proof.
  intros Hin. apply known_tool_count.
  change tool_names with [py "execute_sql"; py "get_schema_info"; py "get_table_sample";
                          py "get_reference_doc"] in Hin.
  cbn [In] in Hin.
  destruct Hin as [<- | [<- | [<- | [<- | []]]]].
  - destruct (call_tool_body_execute_sql w arguments host port l) as (m1 & m2 & ->).
    cbn [events forallb known_tool_event is_unknown_tool_log negb andb].
    apply execute_sql_tool_known.
  - destruct (call_tool_body_get_schema_info w arguments host port l) as (m1 & m2 & ->).
    cbn [events forallb known_tool_event is_unknown_tool_log negb andb].
    apply get_schema_info_tool_known.
  - destruct (call_tool_body_get_table_sample w arguments host port l) as (m1 & m2 & ->).
    cbn [events forallb known_tool_event is_unknown_tool_log negb andb].
    apply get_table_sample_tool_known.
  - unfold call_tool_body, logger_info, logger_error, perform_result.
    destruct (w_read_file w _) as [doc|e]; reflexivity.
Qed.

Lemma call_tool_body_unknown name arguments host port l :
  ~ In name tool_names ->
  call_tool_body w name arguments host port l =
  Outcome (Ret (text_block (py "Unknown tool: " ++ name))) l
          [Log INFO (py "call_tool: Tunnel established, host=" ++ host
                     ++ py ", port=" ++ str_of_Z port);
           unknown_tool_log name].
Proof.
  intros H. unfold call_tool_body.
  assert (N : forall t, In t tool_names -> str_eqb name t = false).
  { intros t Ht. destruct (str_eqb name t) eqn:E; [|reflexivity].
    apply str_eqb_eq in E. subst. contradiction. }
  rewrite !N by (vm_compute; tauto). reflexivity.
Qed.

End KnownTools.

(** X19.  The switch of [call_tool] knows exactly the tools that
    [list_tools] announces, which are four distinct names.  For an
    announced name it never logs the unknown-tool line; for any other
    name it logs that line after the tunnel line, does nothing else, and
    returns "Unknown tool: " followed by the name. *)
Theorem call_tool_dispatches_announced_tools (w : World) (name : str)
        (arguments : dict) (host : str) (port : Z) :
  tool_names = [py "execute_sql"; py "get_schema_info"; py "get_table_sample";
                py "get_reference_doc"] /\
  NoDup tool_names /\
  (In name tool_names ->
   count_events is_unknown_tool_log
     (events (call_tool_body w name arguments host port tt)) = 0%nat) /\
  (~ In name tool_names ->
   call_tool_body w name arguments host port tt =
   Outcome (Ret (text_block (py "Unknown tool: " ++ name))) tt
           [Log INFO (py "call_tool: Tunnel established, host=" ++ host
                      ++ py ", port=" ++ str_of_Z port);
            unknown_tool_log name]).
Proof.
  split; [reflexivity|]. split.
  - change tool_names with [py "execute_sql"; py "get_schema_info"; py "get_table_sample";
                            py "get_reference_doc"].
    repeat constructor; cbn [In]; intros H;
      repeat (destruct H as [H | H]; [discriminate H|]); exact H.
  - split; [apply call_tool_body_known | apply call_tool_body_unknown].
Qed.

Lemma call_tool_dispatches_announced_tools_witness :
  count_events is_unknown_tool_log
    (events (call_tool_body direct (py "get_table_sample") (sample_orders 3)
               (py "localhost") 3306 tt)) = 0%nat /\
  res (call_tool_body direct (py "drop_table") [] (py "localhost") 3306 tt) =
    Ret (text_block (py "Unknown tool: drop_table")).
Proof.
  destruct (call_tool_dispatches_announced_tools direct (py "get_table_sample")
              (sample_orders 3) (py "localhost") 3306) as (_ & _ & Hk & _).
  destruct (call_tool_dispatches_announced_tools direct (py "drop_table")
              [] (py "localhost") 3306) as (_ & _ & _ & Hu).
  split.
  - apply Hk. vm_compute. tauto.
  - rewrite Hu; [reflexivity|]. vm_compute. intuition discriminate.
Defined.

(* ================================================================== *)
(** * The reference document *)
(* ================================================================== *)

Section ReferenceDoc.
Variable w : World.

Lemma call_tool_body_get_reference_doc arguments host port l :
  exists m1 m2,
    call_tool_body w (py "get_reference_doc") arguments host port l =
    Outcome
      (Ret (text_block
              match w_read_file w (py "MCP_USECASES.md") with
              | Ret doc => doc
              | Raise _ => py "Reference documentation not available."
              end))
      l
      (Log INFO m1 :: Log INFO m2 :: OpenFile (py "MCP_USECASES.md") ::
       match w_read_file w (py "MCP_USECASES.md") with
       | Ret _ => []
       | Raise e => [Log ERROR (py "Failed to read MCP_USECASES.md: " ++ exn_str e)]
       end).
Proof.
  unfold call_tool_body, logger_info, logger_error, perform_result.
  do 2 eexists. destruct (w_read_file w _) as [doc|e]; reflexivity.
Qed.

End ReferenceDoc.

(** X20.  [get_reference_doc] reads the file MCP_USECASES.md, by that
    relative name, and returns its content, or "Reference documentation
    not available." when the read raises, after an error line; it
    ignores its arguments and never raises.  The call performs no
    operation on the database, and answers with that text or, when the
    tunnel manager raised, with the generic text. *)
Theorem get_reference_doc_reads_the_file (w : World) (arguments : dict) :
  let answer :=
    text_block
      match w_read_file w (py "MCP_USECASES.md") with
      | Ret doc => doc
      | Raise _ => py "Reference documentation not available."
      end in
  (forall host port l,
     res (call_tool_body w (py "get_reference_doc") arguments host port l) = Ret answer /\
     count_events is_open_file
       (events (call_tool_body w (py "get_reference_doc") arguments host port l)) = 1%nat /\
     In (OpenFile (py "MCP_USECASES.md"))
        (events (call_tool_body w (py "get_reference_doc") arguments host port l))) /\
  (res (run_call w (py "get_reference_doc") arguments) = Ret answer \/
   res (run_call w (py "get_reference_doc") arguments) = Ret generic_error) /\
  count_events touches_database
    (events (run_call w (py "get_reference_doc") arguments)) = 0%nat.
Proof.
  cbv zeta. split; [|split].
  - intros host port l.
    destruct (call_tool_body_get_reference_doc w arguments host port l) as (m1 & m2 & ->).
    cbn [res events]. split; [reflexivity|].
    split; [|right; right; now left].
    destruct (w_read_file w _); reflexivity.
  - rewrite call_tool_result.
    destruct (res (call_tool_with w (py "get_reference_doc") arguments tt)) as [r|e] eqn:E;
      [left | now right].
    f_equal.
    assert (Hr : returns (fun r => r = text_block
                             match w_read_file w (py "MCP_USECASES.md") with
                             | Ret doc => doc
                             | Raise _ => py "Reference documentation not available."
                             end)
                         (call_tool_with w (py "get_reference_doc") arguments)).
    { apply returns_in_frame, maybe_ssh_tunnel_returns. intros host port l a.
      destruct (call_tool_body_get_reference_doc w arguments host port l) as (m1 & m2 & ->).
      cbn [res]. intros H. now inversion H. }
    exact (Hr tt r E).
  - apply call_away_from_database. intros host port l.
    destruct (call_tool_body_get_reference_doc w arguments host port l) as (m1 & m2 & ->).
    cbn [events]. destruct (w_read_file w _); reflexivity.
Qed.

(* ================================================================== *)
(** * Where the connections go *)
(* ================================================================== *)

Section ConnectionTarget.
Variable w : World.

Lemma emits_bind_lift {L A B} (P : Event -> bool) (r : result A) (f : A -> M L B) :
  (forall a, r = Ret a -> emits P (f a)) -> emits P (bind (lift_result r) f).
Proof.
  intros H l. destruct r as [a|e].
  - rewrite run_bind_lift_ret. now apply H.
  - reflexivity.
Qed.

(** The body of the [with] block runs on what the manager yields, and
    on nothing else. *)
Lemma maybe_ssh_tunnel_yields {A} (P : Event -> bool) (body : str -> Z -> M unit A) :
  (forall ev, tunnel_event ev = true -> P ev = true) ->
  (forall port, yielded_port w = Ret port -> emits P (body (yielded_host w) port)) ->
  emits P (maybe_ssh_tunnel w body).
Proof.
  intros HP Hbody.
  assert (Lg : forall lvl msg, emits P (@emit TunnelLocals (Log lvl msg))).
  { intros. apply emits_emit. now apply HP. }
  assert (Rel : emits P (tunnel_release w)).
  { eapply emits_weaken; [exact HP | apply maybe_ssh_tunnel_release_emits]. }
  unfold maybe_ssh_tunnel. unfold_logging.
  apply emits_bind; [apply Lg | intros _].
  unfold yielded_host, yielded_port in Hbody.
  destruct (use_ssh w); cbn [negb].
  - apply emits_bind; [apply emits_lift_result | intros ssh_port].
    apply emits_bind; [apply emits_lift_result | intros remote_port].
    apply emits_bind_lift. intros local_port Hport.
    apply emits_bind; [apply Lg | intros _].
    apply emits_bind; [apply emits_lift_result | intros cmd].
    apply emits_bind; [apply Lg | intros _].
    apply emits_try_finally; [|exact Rel].
    apply emits_try_except;
      [|intros e; apply emits_bind; [apply Lg | intros _; apply emits_raise]].
    apply emits_bind; [apply emits_perform; now apply HP | intros _].
    apply emits_bind; [apply emits_set_locals | intros _].
    apply emits_bind; [apply emits_emit; now apply HP | intros _].
    apply emits_bind; [apply Lg | intros _].
    apply emits_bind; [|intros _; apply emits_in_frame, Hbody, Hport].
    eapply emits_weaken; [exact HP | apply log_tunnel_output_emits].
  - apply emits_bind; [apply Lg | intros _].
    apply emits_bind; [apply Lg | intros _].
    apply emits_bind_lift. intros port Hport.
    apply emits_in_frame, Hbody, Hport.
Qed.

Lemma factory_config_target host port :
  credentials_given w = true ->
  connects_to host port
    (Connect (filter (fun kv => negb (is_pool_key (fst kv)))
                (connection_config
                   (filter (fun kv => is_not_none (snd kv)) (env_config w)) host port)))
  = true.
Proof.
  unfold credentials_given, env_given, env_config, getenv_value.
  destruct (getenv w "MYSQL_USER") as [[|c1 u]|]; try discriminate;
    destruct (getenv w "MYSQL_PASSWORD") as [[|c2 p]|]; try discriminate;
    destruct (getenv w "MYSQL_DATABASE") as [[|c3 d]|]; try discriminate.
  intros _. cbn. now rewrite str_eqb_refl, Z.eqb_refl.
Qed.

Lemma get_database_connection_connects host port :
  emits (connects_to host port) (get_database_connection w host port).
Proof.
  intros l. destruct (credentials_given w) eqn:Hc.
  - destruct (get_database_connection_given w host port l Hc) as (m1 & m2 & m3 & _ & E).
    cbv zeta in E. rewrite E. cbn [forallb connects_to andb].
    match goal with
    | |- forallb _ (events (connect_attempts _ ?pc _ _)) = true =>
        pose proof (connect_attempts_config w pc (seq 0 max_retries) l) as Hall
    end.
    rewrite forallb_forall in *. intros ev Hev. specialize (Hall ev Hev).
    destruct ev; try reflexivity. cbn [connects_with] in Hall.
    apply same_dict_eq in Hall. subst config. now apply factory_config_target.
  - destruct (get_database_connection_missing w host port l Hc) as [_ Hlogs].
    rewrite forallb_forall in *. intros ev Hev. specialize (Hlogs ev Hev).
    now destruct ev.
Qed.

Lemma open_connection_and_cursor_connects host port :
  emits (connects_to host port) (open_connection_and_cursor w host port).
Proof.
  unfold open_connection_and_cursor.
  apply emits_bind; [apply emits_in_frame, get_database_connection_connects | intros c].
  emits_walk.
Qed.

Lemma cleanups_connect_nowhere host port :
  emits (connects_to host port) (execute_sql_cleanup w) /\
  emits (connects_to host port) (close_quietly w).
Proof.
  split; [apply execute_sql_cleanup_closes | apply close_quietly_closes]; now intros [].
Qed.

Lemma execute_sql_tool_connects host port arguments :
  emits (connects_to host port) (execute_sql_tool w host port arguments).
Proof.
  unfold execute_sql_tool. unfold_logging.
  apply emits_bind; [emits_step|intros _].
  apply emits_bind; [emits_walk|intros query].
  destruct query as [|c query]; [apply emits_ret|].
  destruct (validate_sql_query (c :: query)) as [[] reason]; cbn [negb];
    [|apply emits_ret].
  apply emits_try_finally; [|apply cleanups_connect_nowhere].
  apply emits_try_except; [|intros e; emits_walk].
  apply emits_bind; [apply open_connection_and_cursor_connects | intros _].
  emits_walk.
Qed.

Lemma get_schema_info_tool_connects host port arguments :
  emits (connects_to host port) (get_schema_info_tool w host port arguments).
Proof.
  unfold get_schema_info_tool. unfold_logging. cbv zeta.
  apply emits_bind; [emits_step|intros _].
  apply emits_try_finally; [|apply cleanups_connect_nowhere].
  apply emits_try_except; [|intros e; emits_walk].
  apply emits_bind; [apply open_connection_and_cursor_connects | intros _].
  destruct (truthy _).
  - repeat (apply emits_bind; [emits_step | intros ?]).
    apply emits_bind; [apply schema_lines_one_silent | intros; apply emits_ret].
  - repeat (apply emits_bind; [emits_step | intros ?]).
    apply emits_bind; [apply schema_lines_all_silent | intros; apply emits_ret].
Qed.

Lemma get_table_sample_tool_connects host port arguments :
  emits (connects_to host port) (get_table_sample_tool w host port arguments).
Proof.
  unfold get_table_sample_tool. unfold_logging. cbv zeta.
  apply emits_bind; [emits_step|intros _].
  apply emits_bind; [emits_step|intros limit].
  destruct (negb _); [apply emits_ret|].
  apply emits_try_finally; [|apply cleanups_connect_nowhere].
  apply emits_try_except; [|intros e; emits_walk].
  apply emits_bind; [apply open_connection_and_cursor_connects | intros _].
  emits_walk.
Qed.

Lemma call_tool_body_connects name arguments host port :
  emits (connects_to host port) (call_tool_body w name arguments host port).
Proof.
  unfold call_tool_body. unfold_logging.
  apply emits_bind; [emits_step|intros _].
  repeat match goal with
         | |- emits _ (if ?b then _ else _) => destruct b
         end;
    try (apply emits_bind; [emits_step|intros _]).
  - apply emits_in_frame, execute_sql_tool_connects.
  - apply emits_in_frame, get_schema_info_tool_connects.
  - apply emits_in_frame, get_table_sample_tool_connects.
  - emits_walk.
  - apply emits_ret.
Qed.

Lemma call_tool_connects name arguments :
  emits (connects_to_yielded w) (call_tool w name arguments).
Proof.
  assert (Tun : forall ev, tunnel_event ev = true -> connects_to_yielded w ev = true).
  { intros ev H. unfold connects_to_yielded.
    destruct (yielded_port w); now destruct ev. }
  unfold call_tool, call_tool_with. unfold_logging.
  apply emits_bind; [apply emits_emit; now apply Tun | intros _].
  apply emits_try_except.
  - apply emits_in_frame, maybe_ssh_tunnel_yields; [exact Tun|].
    intros port Hport. unfold connects_to_yielded. rewrite Hport.
    apply call_tool_body_connects.
  - intros e. apply emits_bind; [apply emits_emit; now apply Tun | intros _].
    apply emits_ret.
Qed.

End ConnectionTarget.

(** X21.  Every connect of a call targets what the tunnel manager
    yields: the loopback address 127.0.0.1 and MYSQL_LOCAL_PORT (3330 by
    default) when tunnelling is enabled, MYSQL_HOST and MYSQL_PORT
    (localhost and 3306 by default) otherwise.  With tunnelling enabled
    MYSQL_HOST and MYSQL_PORT are not used, and when the port is not a
    number no connect is made. *)
Theorem connections_go_to_the_yielded_target (w : World) (name : str)
        (arguments : dict) :
  emits (connects_to_yielded w) (call_tool w name arguments) /\
  (forall config port,
     yielded_port w = Ret port ->
     In (Connect config) (events (run_call w name arguments)) ->
     dict_get config (py "host") = Some (VStr (yielded_host w)) /\
     dict_get config (py "port") = Some (VInt port)) /\
  (forall e,
     yielded_port w = Raise e ->
     count_events is_connect (events (run_call w name arguments)) = 0%nat).
Proof.
  pose proof (call_tool_connects w name arguments) as H.
  split; [exact H|]. split.
  - intros config port Hport Hin. specialize (H tt). fold (run_call w name arguments) in H.
    rewrite forallb_forall in H. specialize (H _ Hin).
    unfold connects_to_yielded in H. rewrite Hport in H. cbn [connects_to] in H.
    destruct (dict_get config (py "host")) as [h|]; [|discriminate].
    destruct (dict_get config (py "port")) as [p|]; [|discriminate].
    apply andb_true_iff in H as [H1 H2].
    apply same_value_eq in H1, H2. now subst.
  - intros e He. apply count_events_silent with (S := connects_to_yielded w); [|apply H].
    intros ev Hev. unfold connects_to_yielded in Hev. rewrite He in Hev.
    now destruct (is_connect ev).
Qed.

Lemma connections_go_to_the_yielded_target_witness :
  let config :=
    [(py "user", VStr (py "app")); (py "password", VStr (py "hunter2"));
     (py "database", VStr (py "shop")); (py "charset", VStr (py "utf8mb4"));
     (py "collation", VStr (py "utf8mb4_unicode_ci")); (py "autocommit", VBool true);
     (py "sql_mode", VStr (py "TRADITIONAL")); (py "connect_timeout", VInt 10);
     (py "host", VStr (py "127.0.0.1")); (py "port", VInt 3330);
     (py "auth_plugin", VStr (py "mysql_native_password"))] in
  In (Connect config) (events (run_call tunnelled (py "execute_sql") select_one)) /\
  dict_get config (py "host") = Some (VStr (yielded_host tunnelled)) /\
  dict_get config (py "port") = Some (VInt 3330).
Proof.
  cbv zeta.
  assert (Hin : In (Connect
    [(py "user", VStr (py "app")); (py "password", VStr (py "hunter2"));
     (py "database", VStr (py "shop")); (py "charset", VStr (py "utf8mb4"));
     (py "collation", VStr (py "utf8mb4_unicode_ci")); (py "autocommit", VBool true);
     (py "sql_mode", VStr (py "TRADITIONAL")); (py "connect_timeout", VInt 10);
     (py "host", VStr (py "127.0.0.1")); (py "port", VInt 3330);
     (py "auth_plugin", VStr (py "mysql_native_password"))])
    (events (run_call tunnelled (py "execute_sql") select_one))).
  { vm_compute. tauto. }
  split; [exact Hin|].
  exact (proj1 (proj2 (connections_go_to_the_yielded_target tunnelled (py "execute_sql")
                         select_one)) _ 3330%Z eq_refl Hin).
Defined.

(* ================================================================== *)
(** * The two modes of the tunnel manager *)
(* ================================================================== *)

Section CallRun.
Variable w : World.

(** A call, from what its [with] block leaves. *)
Lemma call_tool_run name arguments :
  exists m1,
    run_call w name arguments =
    match res (call_tool_with w name arguments tt) with
    | Ret r =>
        Outcome (Ret r) tt (Log INFO m1 :: events (call_tool_with w name arguments tt))
    | Raise e =>
        Outcome (Ret generic_error) tt
                (Log INFO m1 :: events (call_tool_with w name arguments tt)
                 ++ [Log ERROR (py "Tool execution failed: " ++ exn_str e)])
    end.
Proof.
  unfold run_call, call_tool, logger_info, logger_error. eexists.
  rewrite run_bind_emit, run_try_except.
  destruct (call_tool_with w name arguments tt) as [[r|e] [] t1];
    cbn [res locals events any_exception]; [reflexivity|].
  rewrite run_bind_emit. reflexivity.
Qed.

Lemma call_tool_with_run name arguments :
  call_tool_with w name arguments tt =
  Outcome (res (maybe_ssh_tunnel w (call_tool_body w name arguments) new_tunnel_frame)) tt
          (events (maybe_ssh_tunnel w (call_tool_body w name arguments) new_tunnel_frame)).
Proof. unfold call_tool_with. apply run_in_frame. Qed.

(** A call whose tunnel manager raises before it yields, having only
    logged. *)
Lemma call_fails_before_yield name arguments e t :
  maybe_ssh_tunnel w (call_tool_body w name arguments) new_tunnel_frame =
    Outcome (Raise e) new_tunnel_frame t ->
  forallb is_log t = true ->
  res (run_call w name arguments) = Ret generic_error /\
  only_logs (events (run_call w name arguments)) /\
  In (Log ERROR (py "Tool execution failed: " ++ exn_str e))
     (events (run_call w name arguments)).
Proof.
  intros E Ht. destruct (call_tool_run name arguments) as [m1 ->].
  rewrite call_tool_with_run, E. cbn [res events].
  split; [reflexivity|]. split.
  - unfold only_logs. cbn [forallb is_log andb]. now apply forallb_is_log_app.
  - right. apply in_or_app. right. now left.
Qed.

End CallRun.

Section DirectMode.
Variable w : World.
Hypothesis direct_mode : use_ssh w = false.

Lemma maybe_ssh_tunnel_direct {A} (body : str -> Z -> M unit A) l :
  exists m1 m2 m3,
    maybe_ssh_tunnel w body l =
    match yielded_port w with
    | Ret port =>
        Outcome (res (body (yielded_host w) port tt)) l
                (Log INFO m1 :: Log INFO m2 :: Log INFO m3 ::
                 events (body (yielded_host w) port tt))
    | Raise e => Outcome (Raise e) l [Log INFO m1; Log INFO m2; Log INFO m3]
    end.
Proof.
  unfold maybe_ssh_tunnel, yielded_port, yielded_host, logger_info.
  rewrite direct_mode. cbn [negb]. do 3 eexists.
  rewrite !run_bind_emit.
  destruct (PyInt.int (getenv_default w "MYSQL_PORT" "3306")) as [port|e].
  - rewrite run_bind_lift_ret, run_in_frame. reflexivity.
  - rewrite run_bind_lift_raise. reflexivity.
Qed.

Lemma direct_call_no_process name arguments :
  forallb no_process_event (events (run_call w name arguments)) = true.
Proof.
  destruct (call_tool_run w name arguments) as [m0 ->].
  rewrite call_tool_with_run.
  destruct (maybe_ssh_tunnel_direct (call_tool_body w name arguments) new_tunnel_frame)
    as (m1 & m2 & m3 & ->).
  assert (Hb : forall host port,
             forallb no_process_event
               (events (call_tool_body w name arguments host port tt)) = true).
  { intros host port.
    apply (emits_weaken handler_event no_process_event); [now intros []|].
    apply call_tool_body_emits. }
  destruct (yielded_port w) as [port|e]; cbn [res events].
  - specialize (Hb (yielded_host w) port).
    destruct (res (call_tool_body w name arguments (yielded_host w) port tt));
      cbn [events forallb no_process_event andb app]; [exact Hb|].
    now rewrite forallb_app, Hb.
  - reflexivity.
Qed.

End DirectMode.

(** X22.  With tunnelling disabled the tunnel manager is transparent:
    it starts, polls and terminates no process, and the [with] block of
    [call_tool] leaves what the switch leaves when run on MYSQL_HOST and
    MYSQL_PORT.  When MYSQL_PORT is not a number, every call, whatever
    the tool, answers with the generic text, having only logged. *)
Theorem direct_mode_is_transparent (w : World) (name : str) (arguments : dict) :
  use_ssh w = false ->
  forallb no_process_event (events (run_call w name arguments)) = true /\
  (forall port,
     yielded_port w = Ret port ->
     res (call_tool_with w name arguments tt) =
     res (call_tool_body w name arguments
            (getenv_default w "MYSQL_HOST" "localhost") port tt)) /\
  (forall e,
     yielded_port w = Raise e ->
     res (run_call w name arguments) = Ret generic_error /\
     only_logs (events (run_call w name arguments))).
Proof.
  intros Hd. split; [now apply direct_call_no_process|].
  destruct (maybe_ssh_tunnel_direct w Hd (call_tool_body w name arguments) new_tunnel_frame)
    as (m1 & m2 & m3 & E).
  split.
  - intros port Hport. rewrite call_tool_with_run, E, Hport. cbn [res].
    unfold yielded_host. now rewrite Hd.
  - intros e He. rewrite He in E.
    destruct (call_fails_before_yield w name arguments e _ E eq_refl) as (H1 & H2 & _).
    now split.
Qed.

Lemma direct_mode_is_transparent_witness :
  res (run_call bad_port (py "get_reference_doc") []) = Ret generic_error /\
  res (call_tool_with direct (py "execute_sql") select_one tt) =
  res (call_tool_body direct (py "execute_sql") select_one (py "localhost") 3306 tt).
Proof.
  destruct (direct_mode_is_transparent bad_port (py "get_reference_doc") [] eq_refl)
    as (_ & _ & Hb).
  destruct (direct_mode_is_transparent direct (py "execute_sql") select_one eq_refl)
    as (_ & Hd & _).
  split.
  - eapply Hb. vm_compute. reflexivity.
  - exact (Hd 3306%Z eq_refl).
Defined.

Section TunnelMode.
Variable w : World.
Hypothesis tunnel_mode : use_ssh w = true.

Lemma maybe_ssh_tunnel_no_key {A} (body : str -> Z -> M unit A) l :
  getenv w "MYSQL_SSH_KEY_PATH" = None ->
  exists e t,
    maybe_ssh_tunnel w body l = Outcome (Raise e) l t /\
    forallb is_log t = true /\
    (forall ssh_port remote_port local_port,
       PyInt.int (getenv_default w "MYSQL_SSH_PORT" "22") = Ret ssh_port ->
       PyInt.int (getenv_default w "MYSQL_SSH_REMOTE_PORT" "3306") = Ret remote_port ->
       PyInt.int (getenv_default w "MYSQL_LOCAL_PORT" "3330") = Ret local_port ->
       e = Exn TypeError (py "sequence item 2: expected str instance, NoneType found")).
Proof.
  intros Hkey. unfold maybe_ssh_tunnel, logger_info.
  rewrite tunnel_mode, Hkey. cbn [negb]. rewrite run_bind_emit.
  destruct (PyInt.int (getenv_default w "MYSQL_SSH_PORT" "22")) as [p1|e1].
  2:{ rewrite run_bind_lift_raise. do 2 eexists. split; [reflexivity|].
      split; [reflexivity|]. intros; discriminate. }
  rewrite run_bind_lift_ret.
  destruct (PyInt.int (getenv_default w "MYSQL_SSH_REMOTE_PORT" "3306")) as [p2|e2].
  2:{ rewrite run_bind_lift_raise. do 2 eexists. split; [reflexivity|].
      split; [reflexivity|]. intros; discriminate. }
  rewrite run_bind_lift_ret.
  destruct (PyInt.int (getenv_default w "MYSQL_LOCAL_PORT" "3330")) as [p3|e3].
  2:{ rewrite run_bind_lift_raise. do 2 eexists. split; [reflexivity|].
      split; [reflexivity|]. intros; discriminate. }
  rewrite run_bind_lift_ret. cbv zeta. rewrite run_bind_emit.
  cbn [all_str]. rewrite run_bind_lift_raise.
  do 2 eexists. split; [reflexivity|]. split; reflexivity.
Qed.

Lemma tunnel_release_no_launch : emits no_launch_event (tunnel_release w).
Proof.
  unfold tunnel_release, read_ssh_proc. emits_walk.
Qed.

Lemma log_tunnel_output_no_launch : emits no_launch_event (log_tunnel_output w).
Proof.
  eapply emits_weaken; [|apply log_tunnel_output_output]. now intros [].
Qed.

Lemma no_launch_count t :
  forallb no_launch_event t = true -> count_events is_popen t = 0%nat.
Proof.
  apply count_events_silent. intros ev H. unfold no_launch_event in H.
  now destruct (is_popen ev).
Qed.

(** The guarded block of the manager and its release: one launch. *)
Lemma tunnel_block_launches_once {A} (rest : M TunnelLocals A) h cmd l :
  emits no_launch_event rest ->
  (forall e, emits no_launch_event (h e)) ->
  let block :=
    try_finally
      (try_except any_exception (perform (Popen cmd) (w_popen w cmd);; rest) h)
      (tunnel_release w) in
  count_events is_popen (events (block l)) = 1%nat /\
  In (Popen cmd) (events (block l)).
Proof.
  intros Hrest Hh. cbv zeta. rewrite run_try_finally, run_try_except.
  pose proof tunnel_release_no_launch as Hrel.
  destruct (w_popen w cmd) as [e|].
  - rewrite run_bind_perform_fail. cbn [any_exception res locals events].
    split; [|now left].
    rewrite !count_events_app, count_events_cons. cbn [is_popen count_events filter List.length].
    rewrite (no_launch_count _ (Hh e l)), (no_launch_count _ (Hrel _)). reflexivity.
  - rewrite run_bind_perform_ok.
    destruct (rest l) as [[a|e] l1 t1] eqn:E; cbn [any_exception res locals events].
    + split; [|now left]. rewrite count_events_app, count_events_cons.
      pose proof (Hrest l) as H1. rewrite E in H1. cbn [events] in H1.
      rewrite (no_launch_count _ H1), (no_launch_count _ (Hrel _)). reflexivity.
    + split; [|now left].
      rewrite !count_events_app, count_events_cons.
      pose proof (Hrest l) as H1. rewrite E in H1. cbn [events] in H1.
      rewrite (no_launch_count _ H1), (no_launch_count _ (Hh e l1)),
        (no_launch_count _ (Hrel _)). reflexivity.
Qed.

Lemma maybe_ssh_tunnel_launches_once {A} (body : str -> Z -> M unit A) l
      key ssh_port remote_port local_port :
  (forall host port, emits no_launch_event (body host port)) ->
  getenv w "MYSQL_SSH_KEY_PATH" = Some key ->
  PyInt.int (getenv_default w "MYSQL_SSH_PORT" "22") = Ret ssh_port ->
  PyInt.int (getenv_default w "MYSQL_SSH_REMOTE_PORT" "3306") = Ret remote_port ->
  PyInt.int (getenv_default w "MYSQL_LOCAL_PORT" "3330") = Ret local_port ->
  let cmd :=
    [py "ssh"; py "-i"; key; py "-N"; py "-L";
     str_of_Z local_port ++ py ":" ++ str_opt (getenv w "MYSQL_SSH_REMOTE_HOST")
       ++ py ":" ++ str_of_Z remote_port;
     str_opt (getenv w "MYSQL_SSH_USER") ++ py "@" ++ str_opt (getenv w "MYSQL_SSH_HOST");
     py "-p"; str_of_Z ssh_port] in
  count_events is_popen (events (maybe_ssh_tunnel w body l)) = 1%nat /\
  In (Popen cmd) (events (maybe_ssh_tunnel w body l)).
Proof.
  intros Hbody Hkey H1 H2 H3. cbv zeta.
  unfold maybe_ssh_tunnel, logger_info, logger_error.
  rewrite tunnel_mode, Hkey, H1, H2, H3. cbn [negb].
  rewrite run_bind_emit, !run_bind_lift_ret. cbv zeta.
  rewrite run_bind_emit. cbn [all_str]. rewrite run_bind_lift_ret, run_bind_emit.
  cbn [events].
  match goal with
  | |- context [try_finally (try_except _ (bind (perform (Popen ?cmd) _) (fun _ => ?rest)) ?h) _] =>
      destruct (@tunnel_block_launches_once A rest h cmd l) as [Hc Hin]
  end.
  - repeat (apply emits_bind; [|intros ?]);
      try (apply emits_in_frame, Hbody);
      try apply log_tunnel_output_no_launch; emits_step.
  - intros e. apply emits_bind; [apply emits_emit; reflexivity | intros _; apply emits_raise].
  - cbv zeta in Hc, Hin. split.
    + rewrite !count_events_cons. cbn [is_popen]. exact Hc.
    + right. right. right. exact Hin.
Qed.

End TunnelMode.

(** X23.  With tunnelling enabled and no MYSQL_SSH_KEY_PATH, no call
    gets as far as launching a forwarding process: building the command
    line fails, the call answers with the generic text and has only
    logged.  With the three port settings numeric, the failure logged
    is the [TypeError] of joining a command that holds [None]. *)
Theorem tunnel_without_key_never_launches (w : World) (name : str) (arguments : dict) :
  use_ssh w = true ->
  getenv w "MYSQL_SSH_KEY_PATH" = None ->
  res (run_call w name arguments) = Ret generic_error /\
  only_logs (events (run_call w name arguments)) /\
  (forall ssh_port remote_port local_port,
     PyInt.int (getenv_default w "MYSQL_SSH_PORT" "22") = Ret ssh_port ->
     PyInt.int (getenv_default w "MYSQL_SSH_REMOTE_PORT" "3306") = Ret remote_port ->
     PyInt.int (getenv_default w "MYSQL_LOCAL_PORT" "3330") = Ret local_port ->
     In (Log ERROR (py "Tool execution failed: sequence item 2: expected str instance, NoneType found"))
        (events (run_call w name arguments))).
Proof.
  intros Ht Hk.
  destruct (maybe_ssh_tunnel_no_key w Ht (call_tool_body w name arguments)
              new_tunnel_frame Hk) as (e & t & E & Hlog & He).
  destruct (call_fails_before_yield w name arguments e t E Hlog) as (H1 & H2 & H3).
  split; [exact H1|]. split; [exact H2|].
  intros p1 p2 p3 P1 P2 P3. rewrite (He p1 p2 p3 P1 P2 P3) in H3. exact H3.
Qed.

Lemma tunnel_without_key_never_launches_witness :
  res (run_call tunnel_without_key (py "execute_sql") select_one) = Ret generic_error /\
  In (Log ERROR (py "Tool execution failed: sequence item 2: expected str instance, NoneType found"))
     (events (run_call tunnel_without_key (py "execute_sql") select_one)).
Proof.
  destruct (tunnel_without_key_never_launches tunnel_without_key (py "execute_sql")
              select_one eq_refl eq_refl) as (H1 & _ & H3).
  split; [exact H1|]. exact (H3 22%Z 3306%Z 3330%Z eq_refl eq_refl eq_refl).
Defined.

(** X24.  With tunnelling enabled, a key path and numeric port
    settings, every call launches the forwarding process exactly once,
    whatever the tool: also for [get_reference_doc] and for a name that
    is no tool, which need no database.  The command is built from the
    environment as it is; a host, user or remote host that is not set
    appears in it as the text None. *)
Theorem tunnel_launched_once_for_any_tool (w : World) (name : str) (arguments : dict)
        (key : str) (ssh_port remote_port local_port : Z) :
  use_ssh w = true ->
  getenv w "MYSQL_SSH_KEY_PATH" = Some key ->
  PyInt.int (getenv_default w "MYSQL_SSH_PORT" "22") = Ret ssh_port ->
  PyInt.int (getenv_default w "MYSQL_SSH_REMOTE_PORT" "3306") = Ret remote_port ->
  PyInt.int (getenv_default w "MYSQL_LOCAL_PORT" "3330") = Ret local_port ->
  let cmd :=
    [py "ssh"; py "-i"; key; py "-N"; py "-L";
     str_of_Z local_port ++ py ":" ++ str_opt (getenv w "MYSQL_SSH_REMOTE_HOST")
       ++ py ":" ++ str_of_Z remote_port;
     str_opt (getenv w "MYSQL_SSH_USER") ++ py "@" ++ str_opt (getenv w "MYSQL_SSH_HOST");
     py "-p"; str_of_Z ssh_port] in
  count_events is_popen (events (run_call w name arguments)) = 1%nat /\
  In (Popen cmd) (events (run_call w name arguments)).
Proof.
  intros Ht Hk H1 H2 H3. cbv zeta.
  destruct (maybe_ssh_tunnel_launches_once w Ht (call_tool_body w name arguments)
              new_tunnel_frame key ssh_port remote_port local_port) as [Hc Hin]; auto.
  { intros host port.
    apply (emits_weaken handler_event no_launch_event); [now intros []|].
    apply call_tool_body_emits. }
  cbv zeta in Hc, Hin.
  destruct (call_tool_run w name arguments) as [m1 ->].
  rewrite call_tool_with_run. cbn [res events].
  destruct (res (maybe_ssh_tunnel w (call_tool_body w name arguments) new_tunnel_frame));
    cbn [events].
  - split; [rewrite count_events_cons; cbn [is_popen]; exact Hc | right; exact Hin].
  - split.
    + rewrite count_events_cons, count_events_app, Hc. reflexivity.
    + right. apply in_or_app. now left.
Qed.

Lemma tunnel_launched_once_for_any_tool_witness :
  count_events is_popen (events (run_call tunnelled (py "no_such_tool") [])) = 1%nat /\
  In (Popen [py "ssh"; py "-i"; py "/home/deploy/.ssh/id_rsa"; py "-N"; py "-L";
             py "3330:db.internal:3306"; py "deploy@bastion"; py "-p"; py "22"])
     (events (run_call tunnelled (py "no_such_tool") [])).
Proof.
  exact (tunnel_launched_once_for_any_tool tunnelled (py "no_such_tool") []
           (py "/home/deploy/.ssh/id_rsa") 22 3306 3330
           eq_refl eq_refl eq_refl eq_refl eq_refl).
Defined.

(* ================================================================== *)
(** * Start-up *)
(* ================================================================== *)

Section Startup.
Variable w : World.

Lemma main_missing :
  credentials_given w = false ->
  exists m0, forall serve,
    main w serve tt =
    Outcome (Raise missing_configuration) tt
      [Log INFO (py "Starting MySQL MCP server...");
       Log INFO m0;
       Log ERROR (py "Missing required database configuration. Please check environment variables:");
       Log ERROR (py "MYSQL_USER, MYSQL_PASSWORD, and MYSQL_DATABASE are required");
       Log ERROR (py "Server startup failed: Missing required database configuration")].
Proof.
  intros H. destruct (get_db_config_missing w tt H) as [msg E].
  exists msg. intros serve. unfold main, logger_info, logger_error.
  rewrite run_bind_emit, run_try_except, run_bind, run_in_frame, E.
  cbn [res locals events any_exception]. rewrite run_bind_emit. reflexivity.
Qed.

Lemma main_given :
  credentials_given w = true ->
  exists m0, forall serve,
    main w serve tt =
    Outcome (res (serve tt)) tt
      (Log INFO (py "Starting MySQL MCP server...") ::
       Log INFO m0 ::
       Log INFO (py "Database config: SSH tunnel/" ++ str_opt (getenv w "MYSQL_DATABASE")
                 ++ py " as " ++ str_opt (getenv w "MYSQL_USER")) ::
       events (serve tt) ++
       match res (serve tt) with
       | Ret _ => []
       | Raise e => [Log ERROR (py "Server startup failed: " ++ exn_str e)]
       end).
Proof.
  intros H. destruct (get_db_config_given w tt H) as [msg E].
  exists msg. intros serve. unfold main, logger_info, logger_error.
  rewrite run_bind_emit, run_try_except, run_bind, run_in_frame, E.
  cbn [res locals events]. clear E.
  revert H. unfold credentials_given, env_given, env_config, getenv_value, dict_subscript.
  destruct (getenv w "MYSQL_USER") as [[|c1 u]|]; try discriminate;
    destruct (getenv w "MYSQL_PASSWORD") as [[|c2 p]|]; try discriminate;
    destruct (getenv w "MYSQL_DATABASE") as [[|c3 d]|]; try discriminate.
  intros _.
  cbn [filter snd is_not_none].
  change (dict_get
            [(py "user", VStr (c1 :: u)); (py "password", VStr (c2 :: p));
             (py "database", VStr (c3 :: d));
             (py "charset", VStr (getenv_default w "MYSQL_CHARSET" "utf8mb4"));
             (py "collation", VStr (getenv_default w "MYSQL_COLLATION" "utf8mb4_unicode_ci"));
             (py "autocommit", VBool true);
             (py "sql_mode", VStr (getenv_default w "MYSQL_SQL_MODE" "TRADITIONAL"));
             (py "connect_timeout", VInt 10); (py "pool_size", VInt 5);
             (py "pool_reset_session", VBool true)] (py "host")) with (@None value).
  change (dict_get
            [(py "user", VStr (c1 :: u)); (py "password", VStr (c2 :: p));
             (py "database", VStr (c3 :: d));
             (py "charset", VStr (getenv_default w "MYSQL_CHARSET" "utf8mb4"));
             (py "collation", VStr (getenv_default w "MYSQL_COLLATION" "utf8mb4_unicode_ci"));
             (py "autocommit", VBool true);
             (py "sql_mode", VStr (getenv_default w "MYSQL_SQL_MODE" "TRADITIONAL"));
             (py "connect_timeout", VInt 10); (py "pool_size", VInt 5);
             (py "pool_reset_session", VBool true)] (py "database"))
    with (Some (VStr (c3 :: d))).
  change (dict_get
            [(py "user", VStr (c1 :: u)); (py "password", VStr (c2 :: p));
             (py "database", VStr (c3 :: d));
             (py "charset", VStr (getenv_default w "MYSQL_CHARSET" "utf8mb4"));
             (py "collation", VStr (getenv_default w "MYSQL_COLLATION" "utf8mb4_unicode_ci"));
             (py "autocommit", VBool true);
             (py "sql_mode", VStr (getenv_default w "MYSQL_SQL_MODE" "TRADITIONAL"));
             (py "connect_timeout", VInt 10); (py "pool_size", VInt 5);
             (py "pool_reset_session", VBool true)] (py "user"))
    with (Some (VStr (c1 :: u))).
  cbv iota. rewrite !run_bind_lift_ret, run_bind_emit.
  cbn [str_value str_opt res locals events].
  destruct (serve tt) as [[[]|e] [] t]; cbn [res locals events any_exception].
  - now rewrite app_nil_r.
  - rewrite run_bind_emit. reflexivity.
Qed.

End Startup.

(** X25.  Without the credentials [main] does not start serving: it
    raises the [ValueError] of [get_db_config] again after logging
    "Server startup failed: Missing required database configuration",
    and what it does is the same whatever serving would have done. *)
Theorem main_refuses_to_start_without_credentials (w : World) (serve : M unit unit) :
  credentials_given w = false ->
  res (main w serve tt) = Raise missing_configuration /\
  only_logs (events (main w serve tt)) /\
  In (Log ERROR (py "Server startup failed: Missing required database configuration"))
     (events (main w serve tt)) /\
  forall serve', main w serve' tt = main w serve tt.
Proof.
  intros H. destruct (main_missing w H) as [m0 E]. rewrite (E serve).
  split; [reflexivity|]. split; [reflexivity|]. split.
  - cbn [events]. do 4 right. now left.
  - intros serve'. now rewrite (E serve').
Qed.

Lemma main_refuses_to_start_without_credentials_witness :
  res (main no_credentials (emit (Sleep 1)) tt) = Raise missing_configuration /\
  main no_credentials (ret tt) tt = main no_credentials (emit (Sleep 1)) tt.
Proof.
  destruct (main_refuses_to_start_without_credentials no_credentials (emit (Sleep 1))
              eq_refl) as (H1 & _ & _ & H4).
  split; [exact H1 | exact (H4 (ret tt))].
Defined.

(** X26.  With the credentials, [main] logs its start-up line and
    then serves; what serving leaves, value or exception, is what
    [main] leaves, an exception being logged as "Server startup
    failed: ..." before it is raised again.  The start-up line shows
    "SSH tunnel" in the place of the host whatever the environment
    says, tunnelling disabled and MYSQL_HOST set included: the
    configuration of [get_db_config] never holds a host. *)
Theorem main_startup_line (w : World) :
  credentials_given w = true ->
  exists config_line,
    forall serve,
      res (main w serve tt) = res (serve tt) /\
      events (main w serve tt) =
        Log INFO (py "Starting MySQL MCP server...") ::
        Log INFO config_line ::
        Log INFO (py "Database config: SSH tunnel/" ++ str_opt (getenv w "MYSQL_DATABASE")
                  ++ py " as " ++ str_opt (getenv w "MYSQL_USER")) ::
        events (serve tt) ++
        match res (serve tt) with
        | Ret _ => []
        | Raise e => [Log ERROR (py "Server startup failed: " ++ exn_str e)]
        end.
Proof.
  intros H. destruct (main_given w H) as [m0 E]. exists m0. intros serve.
  rewrite (E serve). split; reflexivity.
Qed.

Lemma main_startup_line_witness :
  In (Log INFO (py "Database config: SSH tunnel/shop as app"))
     (events (main direct (ret tt) tt)) /\
  use_ssh direct = false.
Proof.
  destruct (main_startup_line direct eq_refl) as [line H].
  destruct (H (ret tt)) as [_ E]. split; [|reflexivity].
  rewrite E. right. right. now left.
Defined.

(* ================================================================== *)
(** * Where a failure to connect comes from *)
(* ================================================================== *)

Section FactoryFailure.
Variable w : World.

Lemma connect_attempts_raise pc attempts l e :
  res (connect_attempts w pc attempts l) = Raise e ->
  (exists attempt, In attempt attempts /\ w_connect w attempt pc = Some e) \/
  (forallb (fun attempt => (attempt <? max_retries - 1)%nat) attempts = true /\
   e = Exn RuntimeError (py "Failed to establish database connection after all retries")).
Proof.
  induction attempts as [|attempt rest IH].
  - cbn. intros H. inversion H. now right.
  - intros H. destruct (w_connect w attempt pc) as [e0|] eqn:E.
    + destruct (is_mysql_error e0) eqn:M.
      * destruct (attempt <? max_retries - 1)%nat eqn:Hlt.
        -- rewrite (proj1 (connect_attempt_retry w pc attempt rest l e0 E M Hlt)) in H.
           destruct (IH H) as [(a & Ha & Hw) | [Hall He]].
           ++ left. exists a. split; [now right | exact Hw].
           ++ right. split; [|exact He]. cbn [forallb]. now rewrite Hlt, Hall.
        -- rewrite (proj1 (connect_attempt_last w pc attempt rest l e0 E M Hlt)) in H.
           inversion H; subst. left. exists attempt. split; [now left | exact E].
      * rewrite (proj1 (connect_attempt_other w pc attempt rest l e0 E M)) in H.
        inversion H; subst. left. exists attempt. split; [now left | exact E].
    + rewrite (proj1 (connect_attempt_ok w pc attempt rest l E)) in H. discriminate.
Qed.

(** The first attempt of the loop always reaches the driver. *)
Lemma connect_attempts_first pc attempt rest l :
  In (Connect pc) (events (connect_attempts w pc (attempt :: rest) l)).
Proof.
  assert (H : exists t,
             attempts_and_sleeps (events (connect_attempts w pc (attempt :: rest) l)) =
             Connect pc :: t).
  { destruct (w_connect w attempt pc) as [e0|] eqn:E0.
    - destruct (is_mysql_error e0) eqn:M.
      + destruct (attempt <? max_retries - 1)%nat eqn:Hlt.
        * rewrite (proj2 (connect_attempt_retry w pc attempt rest l e0 E0 M Hlt)). eauto.
        * rewrite (proj2 (connect_attempt_last w pc attempt rest l e0 E0 M Hlt)). eauto.
      + rewrite (proj2 (connect_attempt_other w pc attempt rest l e0 E0 M)). eauto.
    - rewrite (proj2 (connect_attempt_ok w pc attempt rest l E0)). eauto. }
  destruct H as [t Ht].
  assert (Hin : In (Connect pc)
                   (attempts_and_sleeps
                      (events (connect_attempts w pc (attempt :: rest) l))))
    by (rewrite Ht; now left).
  unfold attempts_and_sleeps in Hin. now apply filter_In in Hin.
Qed.

End FactoryFailure.

(** X27.  An exception that leaves [get_database_connection] is the
    configuration error of [get_db_config], or the exception one of the
    three connect attempts raised.  The [RuntimeError] after the loop
    is never reached: the third attempt returns or raises. *)
Theorem connection_failure_comes_from_the_driver (w : World) (host : str) (port : Z)
        (e : exn) :
  res (get_database_connection w host port tt) = Raise e ->
  (credentials_given w = false /\ e = missing_configuration) \/
  (credentials_given w = true /\
   exists attempt config,
     (attempt < 3)%nat /\ w_connect w attempt config = Some e /\
     In (Connect config) (events (get_database_connection w host port tt))).
Proof.
  intros H. destruct (credentials_given w) eqn:Hc.
  - right. split; [reflexivity|].
    destruct (get_database_connection_given w host port tt Hc) as (m1 & m2 & m3 & R & E).
    cbv zeta in R, E. rewrite R in H. rewrite E.
    set (pc := filter _ _) in *.
    destruct (connect_attempts_raise w pc (seq 0 max_retries) tt e H)
      as [(attempt & Hin & Hw) | [Hall _]]; [|discriminate Hall].
    exists attempt, pc. split; [|split; [exact Hw|]].
    + cbn in Hin. lia.
    + do 3 right. apply (connect_attempts_first w pc 0%nat [1; 2]%nat tt).
  - left. split; [reflexivity|].
    destruct (get_database_connection_missing w host port tt Hc) as [R _].
    rewrite R in H. now inversion H.
Qed.

Lemma connection_failure_comes_from_the_driver_witness :
  exists attempt config,
    (attempt < 3)%nat /\ w_connect unreachable attempt config = Some driver_error.
Proof.
  destruct (connection_failure_comes_from_the_driver unreachable (py "localhost") 3306
              driver_error eq_refl) as [[H _] | (_ & attempt & config & H1 & H2 & _)].
  - discriminate H.
  - now exists attempt, config.
Defined.

(* ================================================================== *)
(** * Rows turned into dictionaries *)
(* ================================================================== *)

Section RowsAsDicts.

Lemma dict_get_set d k v k' :
  dict_get (dict_set d k v) k' = if str_eqb k k' then Some v else dict_get d k'.
Proof.
  induction d as [|[k0 v0] d IH]; cbn [dict_set dict_get].
  - reflexivity.
  - destruct (str_eqb k0 k) eqn:E0; cbn [dict_get].
    + apply str_eqb_eq in E0. subst k0. destruct (str_eqb k k'); reflexivity.
    + rewrite IH. destruct (str_eqb k0 k') eqn:E1; [|reflexivity].
      apply str_eqb_eq in E1. subst k0.
      destruct (str_eqb k k') eqn:E2; [|reflexivity].
      apply str_eqb_eq in E2. subst k'. rewrite str_eqb_refl in E0. discriminate.
Qed.

Lemma find_snoc {A} (f : A -> bool) l x :
  find f (l ++ [x]) =
  match find f l with
  | Some y => Some y
  | None => if f x then Some x else None
  end.
Proof.
  induction l as [|a l IH]; cbn [app find]; [reflexivity|].
  destruct (f a); [reflexivity | exact IH].
Qed.

Lemma dict_get_fold pairs d0 k :
  dict_get (fold_left (fun d kv => dict_set d (fst kv) (snd kv)) pairs d0) k =
  match find (fun kv => str_eqb (fst kv) k) (rev pairs) with
  | Some kv => Some (snd kv)
  | None => dict_get d0 k
  end.
Proof.
  revert d0. induction pairs as [|[k1 v1] pairs IH]; intros d0; [reflexivity|].
  cbn [fold_left rev fst snd]. rewrite IH, find_snoc. cbn [fst snd].
  destruct (find _ (rev pairs)); [reflexivity|].
  rewrite dict_get_set. now destruct (str_eqb k1 k).
Qed.

Lemma find_last_unique (pairs : list (str * value)) i name v :
  NoDup (map fst pairs) ->
  nth_error pairs i = Some (name, v) ->
  find (fun kv => str_eqb (fst kv) name) (rev pairs) = Some (name, v).
Proof.
  revert i. induction pairs as [|[k1 v1] pairs IH]; intros i Hnd Hi.
  - destruct i; discriminate.
  - cbn [rev]. rewrite find_snoc. inversion Hnd as [|x xs Hnotin Hnd']; subst.
    destruct i as [|i]; cbn [nth_error] in Hi.
    + inversion Hi; subst.
      rewrite find_all_false.
      * cbn [fst]. now rewrite str_eqb_refl.
      * intros [k2 v2] Hin. apply in_rev in Hin. cbn [fst].
        destruct (str_eqb k2 name) eqn:E; [|reflexivity].
        apply str_eqb_eq in E. subst k2. destruct Hnotin.
        cbn [map fst]. apply in_map_iff. now exists (name, v2).
    + now rewrite (IH i Hnd' Hi).
Qed.

End RowsAsDicts.

(** X28.  For a row that is a tuple, the dictionary [execute_sql_tool]
    prints pairs each column name with the cell at the same position,
    as far as both go; when a column name occurs more than once, the
    last cell under that name is the one kept.  With distinct column
    names every cell is found under its column.  A row that is a
    mapping is printed as it is. *)
Theorem row_as_dict_last_cell_wins (description : list str) (cells : list value)
        (name : str) :
  dict_get (row_as_dict description (RowTuple cells)) name =
    option_map snd
      (find (fun kv => str_eqb (fst kv) name) (rev (combine description cells))) /\
  (forall i v,
     NoDup description ->
     nth_error description i = Some name ->
     nth_error cells i = Some v ->
     dict_get (row_as_dict description (RowTuple cells)) name = Some v) /\
  (forall d, row_as_dict description (RowDict d) = d).
Proof.
  assert (G : dict_get (row_as_dict description (RowTuple cells)) name =
              option_map snd
                (find (fun kv => str_eqb (fst kv) name) (rev (combine description cells)))).
  { unfold row_as_dict, dict_of_pairs. rewrite dict_get_fold.
    now destruct (find _ _). }
  split; [exact G|]. split; [|reflexivity].
  intros i v Hnd Hname Hcell. rewrite G.
  rewrite (find_last_unique (combine description cells) i name v); [reflexivity| |].
  - clear - Hnd. revert cells. induction description as [|k ks IH]; intros [|c cs];
      cbn [combine map fst]; try constructor.
    + inversion Hnd; subst. intros Hin. apply in_map_iff in Hin as ([k' v'] & Hk & Hin).
      cbn [fst] in Hk. subst k'. apply in_combine_l in Hin. contradiction.
    + inversion Hnd; subst. now apply IH.
  - clear - Hname Hcell. revert description cells Hname Hcell.
    induction i as [|i IH]; intros [|k ks] [|c cs] Hname Hcell; try discriminate.
    + cbn in *. now inversion Hname; inversion Hcell; subst.
    + cbn [combine nth_error] in *. now apply IH.
Qed.

Lemma row_as_dict_last_cell_wins_witness :
  dict_get (row_as_dict [py "id"; py "item"] (RowTuple [VInt 1; VStr (py "tea")]))
           (py "item") = Some (VStr (py "tea")) /\
  dict_get (row_as_dict [py "x"; py "x"] (RowTuple [VInt 1; VInt 2])) (py "x") =
    Some (VInt 2).
Proof.
  split.
  - refine (proj1 (proj2 (row_as_dict_last_cell_wins [py "id"; py "item"]
                            [VInt 1; VStr (py "tea")] (py "item")))
                  1%nat (VStr (py "tea")) _ eq_refl eq_refl).
    repeat constructor; cbn [In]; intros H;
      repeat (destruct H as [H | H]; [discriminate H|]); exact H.
  - rewrite (proj1 (row_as_dict_last_cell_wins [py "x"; py "x"] [VInt 1; VInt 2] (py "x"))).
    reflexivity.
Defined.
